(** * open-asset-data: asset-level output allocation and trajectory projection

    A shallow embedding of the steel pipeline's calculation core:

    - [pipeline/apa_calculator.py]: emission factors ([get_plant_ef]), year
      parsing and technology classes, the start-year and reclassification
      blocks of the plant loader, lifecycle filter for historical years
      ([get_plants_for_year]), company matching ([get_company_plants]),
      output allocation ([calculate_company_emissions]), multi-source
      production reconciliation ([load_production_data]), country-level
      production ([load_country_production]), capacity-based gap filling
      ([estimate_production_from_capacity]), the batch driver
      ([run_apa_all]) and the bridge to the integration
      ([load_apa_source]);
    - [pipeline/kampmann_audit.py]: the closure inventory's close-year rule,
      the closure trajectory of the audit and its divergence classes;
    - [pipeline/gem_closure_tp.py]: the process of steel-making units,
      close-year inference, the unit activity test, the plant-level
      projection under the planned-transition and the no-closure policy,
      utilization calibration, APA anchoring and the two batches over the
      tracked companies;
    - [pipeline/integrate.py]: company name harmonization, the quality
      flags, the quality scores and the selection of default records.

    Conventions of the embedding.  A pandas DataFrame is a list of records and
    a Series aligned with it is carried next to the row it belongs to.  A
    Python or numpy float is a rational number, or NaN: [float] is
    [option Q], [None] standing for NaN; arithmetic propagates NaN, comparisons
    with NaN are false and [Series.sum] skips NaN, as pandas does.  In the
    allocator and the batch driver a division by a computed quantity is
    checked, so that a division by zero is an explicit [ZeroDivisionError]
    result; a division by a literal, and the divisions of the projection,
    which sit under positivity guards, are written with the division of [Q].
    Regular-expression search is a parameter of the development: no property
    below depends on which texts a pattern matches.  Overflow and underflow
    of doubles are outside the embedding: the sign and the monotonicity of
    the year-adjusted emission factor are stated for the years within 100000
    of the reference year, where the double power is a normal number. *)

From Stdlib Require Import QArith Qround Qpower Qabs ZArith List String Ascii.
From Stdlib Require Import Bool Lia Lqa.
From Stdlib Require Import Sorted.
Import ListNotations.

Local Open Scope string_scope.
Local Open Scope Z_scope.
Local Open Scope Q_scope.

(* ================================================================== *)
(** * Python and pandas primitives *)
(* ================================================================== *)

Module Py.

(** ** Floats with NaN *)

Definition float := option Q.

Definition nan : float := None.

Definition notna {A : Type} (x : option A) : bool :=
  match x with Some _ => true | None => false end.

Definition Qltb (a b : Q) : bool := negb (Qle_bool b a).

Definition flt (a b : float) : bool :=
  match a, b with Some x, Some y => Qltb x y | _, _ => false end.

Definition fle (a b : float) : bool :=
  match a, b with Some x, Some y => Qle_bool x y | _, _ => false end.

Definition fmul (a b : float) : float :=
  match a, b with Some x, Some y => Some (x * y) | _, _ => None end.

Definition fsub (a b : float) : float :=
  match a, b with Some x, Some y => Some (x - y) | _, _ => None end.

Definition fadd (a b : float) : float :=
  match a, b with Some x, Some y => Some (x + y) | _, _ => None end.

(** Division by a non-zero literal, as in [capacity_ttpa / 1000.0]. *)
Definition fdiv_lit (a : float) (k : Q) : float :=
  match a with Some x => Some (x / k) | None => None end.

(** [Series.sum()]: NaN entries are skipped, the empty sum is 0. *)
Definition series_sum (s : list float) : Q :=
  fold_right (fun x acc => match x with Some q => q + acc | None => acc end) 0 s.

(** Sum of a column of finite numbers. *)
Definition Qsum (s : list Q) : Q := fold_right Qplus 0 s.

(** Built-in [min] and [max] of two arguments: the first one wins a tie. *)
Definition py_min (a b : Q) : Q := if Qltb b a then b else a.
Definition py_max (a b : Q) : Q := if Qltb a b then b else a.

(** ** Rounding to [n] decimals, half to even *)

Definition rint (x : Q) : Z :=
  let f := Qfloor x in
  match Qcompare (x - inject_Z f) (1 # 2) with
  | Lt => f
  | Gt => (f + 1)%Z
  | Eq => if Z.even f then f else (f + 1)%Z
  end.

Definition round_nd (x : Q) (n : nat) : Q :=
  inject_Z (rint (x * inject_Z (10 ^ Z.of_nat n))) / inject_Z (10 ^ Z.of_nat n).

Definition fround (x : float) (n : nat) : float :=
  match x with Some q => Some (round_nd q n) | None => None end.

(** ** Results of code that may divide *)

Inductive pyres (A : Type) : Type :=
| Ret (a : A)
| ZeroDivisionError.

Arguments Ret {A} a.
Arguments ZeroDivisionError {A}.

Definition bind {A B : Type} (m : pyres A) (k : A -> pyres B) : pyres B :=
  match m with
  | Ret a => k a
  | ZeroDivisionError => ZeroDivisionError
  end.

Definition checked_div (a b : Q) : pyres Q :=
  if Qeq_bool b 0 then ZeroDivisionError else Ret (a / b).

(** [a / b] where [a] may be NaN and [b] is a finite number. *)
Definition checked_fdiv (a : float) (b : Q) : pyres float :=
  if Qeq_bool b 0 then ZeroDivisionError
  else Ret (match a with Some x => Some (x / b) | None => None end).

(** A loop that threads a state and may fail. *)
Fixpoint foldM {A S : Type} (f : S -> A -> pyres S) (l : list A) (s : S)
  : pyres S :=
  match l with
  | [] => Ret s
  | a :: l' => bind (f s a) (foldM f l')
  end.

(** A loop that appends to a list of results and may fail. *)
Fixpoint flat_mapM {A B : Type} (f : A -> pyres (list B)) (l : list A)
  : pyres (list B) :=
  match l with
  | [] => Ret []
  | a :: l' =>
      bind (f a) (fun bs => bind (flat_mapM f l') (fun rest => Ret (bs ++ rest)%list))
  end.

(** ** Strings *)

Definition ascii_lower (c : ascii) : ascii :=
  let n := N_of_ascii c in
  if (65 <=? n)%N && (n <=? 90)%N then ascii_of_N (n + 32) else c.

(** [str.lower()] *)
Fixpoint lower (s : string) : string :=
  match s with
  | EmptyString => EmptyString
  | String c s' => String (ascii_lower c) (lower s')
  end.

(** [sub in s] *)
Fixpoint contains (sub s : string) : bool :=
  if String.prefix sub s then true
  else match s with
       | EmptyString => false
       | String _ s' => contains sub s'
       end.

(** [x in (a, b, ...)] and [Series.isin]. *)
Definition isin (s : string) (l : list string) : bool :=
  existsb (String.eqb s) l.

(** [dict.get(key)] on a dictionary given by its items. *)
Fixpoint dict_get {V : Type} (d : list (string * V)) (k : string) : option V :=
  match d with
  | [] => None
  | (k', v) :: d' => if String.eqb k' k then Some v else dict_get d' k
  end.

(** [DataFrame.empty] *)
Definition empty {A : Type} (df : list A) : bool :=
  match df with [] => true | _ :: _ => false end.

(** [range(a, b + 1)] *)
Definition range_incl (a b : Z) : list Z :=
  map (fun i => (a + Z.of_nat i)%Z) (seq 0 (Z.to_nat (b + 1 - a))).

(** A stable insertion sort, for [list.sort] and [sort_values]: an element
    goes after the elements that are strictly smaller and before the others.
    pandas does not promise the order of rows with equal keys; no property
    below relies on that order. *)
Fixpoint insert_by {A : Type} (lt : A -> A -> bool) (x : A) (l : list A)
  : list A :=
  match l with
  | [] => [x]
  | y :: l' => if lt y x then y :: insert_by lt x l' else x :: l
  end.

Definition sort_by {A : Type} (lt : A -> A -> bool) (l : list A) : list A :=
  fold_right (insert_by lt) [] l.

(** [drop_duplicates(subset=..., keep="first")]: a row is kept when no earlier
    row has its key. *)
Fixpoint drop_duplicates_from {A K : Type} (eqb : K -> K -> bool)
  (key : A -> K) (seen : list K) (l : list A) : list A :=
  match l with
  | [] => []
  | x :: l' =>
      if existsb (eqb (key x)) seen then drop_duplicates_from eqb key seen l'
      else x :: drop_duplicates_from eqb key (key x :: seen) l'
  end.

Definition drop_duplicates {A K : Type} (eqb : K -> K -> bool)
  (key : A -> K) (l : list A) : list A :=
  drop_duplicates_from eqb key [] l.

(** [dict[key] = value]: an existing key keeps its place. *)
Fixpoint dict_set {V : Type} (d : list (string * V)) (k : string) (v : V)
  : list (string * V) :=
  match d with
  | [] => [(k, v)]
  | (k', v') :: d' =>
      if String.eqb k' k then (k', v) :: d' else (k', v') :: dict_set d' k v
  end.

(** [c.isspace()] on the ASCII range. *)
Definition is_space (c : ascii) : bool :=
  let n := N_of_ascii c in
  ((9 <=? n)%N && (n <=? 13)%N) || ((28 <=? n)%N && (n <=? 32)%N).

Fixpoint lstrip (s : string) : string :=
  match s with
  | EmptyString => EmptyString
  | String c s' => if is_space c then lstrip s' else s
  end.

Definition string_rev (s : string) : string :=
  string_of_list_ascii (rev (list_ascii_of_string s)).

(** [str.strip()] *)
Definition strip (s : string) : string :=
  string_rev (lstrip (string_rev (lstrip s))).

Definition is_digit (c : ascii) : bool :=
  let n := N_of_ascii c in (48 <=? n)%N && (n <=? 57)%N.

Definition digit_value (c : ascii) : Z := (Z.of_N (N_of_ascii c) - 48)%Z.

(** A match of [(19|20)\d{2}] at the start of [s], as the number it spells. *)
Definition year_at (s : string) : option Z :=
  match s with
  | String a (String b (String c (String d _))) =>
      if ((Ascii.eqb a "1" && Ascii.eqb b "9")
          || (Ascii.eqb a "2" && Ascii.eqb b "0"))
         && is_digit c && is_digit d
      then Some (1000 * digit_value a + 100 * digit_value b
                 + 10 * digit_value c + digit_value d)%Z
      else None
  | _ => None
  end.

(** [re.search(r"(19|20)\d{2}", s)]: the leftmost match, read as a number. *)
Fixpoint search_year (s : string) : option Z :=
  match year_at s with
  | Some y => Some y
  | None =>
      match s with
      | EmptyString => None
      | String _ s' => search_year s'
      end
  end.

End Py.

Import Py.

Notation "x <- m ;; k" := (bind m (fun x => k))
  (at level 61, m at next level, right associativity).

(* ================================================================== *)
(** * pipeline/apa_calculator.py *)
(* ================================================================== *)

Module Apa.

(** ** Emission factors *)

Definition EF_REFERENCE_YEAR : Z := 2020.
Definition EF_BF_BOF_ANNUAL_IMPROVEMENT : Q := 0.005.

(** [config.EF_BF_BOF] *)
Definition EF_BF_BOF : list (string * Q) :=
  [ ("Brazil", 2.19); ("China", 1.76); ("EU", 1.77); ("India", 3.72);
    ("Japan", 2.05); ("Russia", 2.79); ("Serbia", 2.06);
    ("South Africa", 3.57); ("South Korea", 2.00); ("Taiwan", 2.02);
    ("Turkey", 2.17); ("Ukraine", 2.30); ("United Kingdom", 2.05);
    ("United States", 1.94); ("Australia", 2.31); ("New Zealand", 3.10);
    ("Indonesia", 2.31); ("Kazakhstan", 2.31); ("Canada", 1.84);
    ("Global", 2.314) ].

Definition EF_EAF : list (string * Q) :=
  [ ("Belarus", 0.07); ("Brazil", 0.05); ("China", 0.03); ("EU", 0.04);
    ("India", 0.07); ("Japan", 0.04); ("Russia", 0.07); ("Serbia", 0.06);
    ("South Africa", 0.12); ("South Korea", 0.03); ("Switzerland", 0.08);
    ("Taiwan", 0.02); ("Thailand", 0.05); ("Turkey", 0.04);
    ("Ukraine", 0.04); ("United Kingdom", 0.04); ("United States", 0.04);
    ("Australia", 0.04); ("New Zealand", 0.04); ("Indonesia", 0.04);
    ("Kazakhstan", 0.07); ("Canada", 0.04); ("Global", 0.051) ].

Definition EF_DRI_COAL : Q := 3.10.
Definition EF_DRI_GAS : Q := 1.05.
Definition EF_H2_DRI : Q := 0.04.

Definition DRI_COAL_COUNTRIES : list string :=
  [ "India"; "China"; "South Africa"; "New Zealand" ].

Definition COUNTRY_TO_EF_REGION : list (string * string) :=
  [ ("Belarus", "Belarus"); ("Brazil", "Brazil"); ("China", "China");
    ("India", "India"); ("Japan", "Japan"); ("Russia", "Russia");
    ("Serbia", "Serbia"); ("South Africa", "South Africa");
    ("South Korea", "South Korea"); ("Switzerland", "Switzerland");
    ("Taiwan", "Taiwan"); ("Thailand", "Thailand"); ("Turkey", "Turkey");
    ("Turkiye", "Turkey"); ("Ukraine", "Ukraine");
    ("United Kingdom", "United Kingdom"); ("United States", "United States");
    ("Germany", "EU"); ("France", "EU"); ("Netherlands", "EU");
    ("Belgium", "EU"); ("Austria", "EU"); ("Spain", "EU"); ("Italy", "EU");
    ("Sweden", "EU"); ("Finland", "EU"); ("Poland", "EU");
    ("Czech Republic", "EU"); ("Czechia", "EU"); ("Luxembourg", "EU");
    ("Romania", "EU"); ("Slovakia", "EU"); ("Hungary", "EU");
    ("Croatia", "EU"); ("Greece", "EU"); ("Portugal", "EU");
    ("Bulgaria", "EU"); ("Slovenia", "EU"); ("Latvia", "EU");
    ("Estonia", "EU"); ("Lithuania", "EU"); ("Ireland", "EU");
    ("Cyprus", "EU"); ("Malta", "EU");
    ("Australia", "Australia"); ("New Zealand", "New Zealand");
    ("Indonesia", "Indonesia"); ("Kazakhstan", "Kazakhstan");
    ("Canada", "Canada");
    ("Mexico", "Brazil"); ("Vietnam", "China"); ("Malaysia", "China");
    ("Philippines", "India"); ("Bangladesh", "India"); ("Iran", "Turkey");
    ("Egypt", "Turkey"); ("Argentina", "Brazil"); ("Colombia", "Brazil");
    ("Peru", "Brazil"); ("Chile", "Brazil"); ("Norway", "EU");
    ("Saudi Arabia", "Turkey"); ("United Arab Emirates", "Turkey");
    ("Qatar", "Turkey"); ("Oman", "Turkey"); ("Bahrain", "Turkey");
    ("Kuwait", "Turkey"); ("Algeria", "Turkey"); ("Libya", "Turkey");
    ("Tunisia", "Turkey"); ("Morocco", "Turkey"); ("Pakistan", "India");
    ("Myanmar", "India"); ("Trinidad and Tobago", "Brazil");
    ("Venezuela", "Brazil"); ("Ecuador", "Brazil"); ("Bolivia", "Brazil");
    ("Uruguay", "Brazil"); ("Paraguay", "Brazil") ].

Definition get_ef_region (country : string) : string :=
  match dict_get COUNTRY_TO_EF_REGION country with
  | Some r => r
  | None => "Global"
  end.

Definition dict_get_default (d : list (string * Q)) (k : string) (dflt : Q) : Q :=
  match dict_get d k with Some v => v | None => dflt end.

(** The year adjustment is the power of the code taken exactly.  The double
    power [0.995 ** (year - 2020)] rounds it; it is 0.0 from the year 150674
    on and overflows below the year -139582, far outside the years of the
    pipeline. *)
Definition get_plant_ef (country process : string) (year : option Z) : Q :=
  let region := get_ef_region country in
  let process_lower := lower process in
  if contains "dri" process_lower && negb (contains "h2" process_lower) then
    if isin country DRI_COAL_COUNTRIES then EF_DRI_COAL else EF_DRI_GAS
  else if contains "eaf" process_lower || contains "electric" process_lower
          || contains "scrap" process_lower then
    dict_get_default EF_EAF region 0.051
  else if contains "h2" process_lower || contains "hydrogen" process_lower then
    EF_H2_DRI
  else
    let base_ef := dict_get_default EF_BF_BOF region 2.314 in
    match year with
    | Some y =>
        let years_from_ref := (y - EF_REFERENCE_YEAR)%Z in
        let adjustment :=
          Qpower (1 - EF_BF_BOF_ANNUAL_IMPROVEMENT) years_from_ref in
        base_ef * adjustment
    | None => base_ef
    end.

(** ** Company matching tables *)

Definition COMPANY_GEM_PATTERNS : list (string * string) :=
  [ ("ArcelorMittal", "ArcelorMittal");
    ("Tata Steel", "Tata Steel");
    ("POSCO Holdings", "Posco|POSCO");
    ("Nippon Steel", "Nippon Steel");
    ("JSW Steel", "JSW Steel|JSW Ispat");
    ("ThyssenKrupp", "[Tt]hyssenkrupp|ThyssenKrupp");
    ("SSAB", "SSAB");
    ("Severstal", "Severstal");
    ("Baoshan Iron & Steel", "Baoshan|Baowu");
    ("BlueScope Steel", "BlueScope");
    ("China Steel", "China Steel|Dragon Steel");
    ("Nucor", "Nucor");
    ("Gerdau", "Gerdau");
    ("JFE Holdings", "JFE");
    ("US Steel", "U\.?S\.?\s*Steel|United States Steel");
    ("Hyundai Steel", "Hyundai Steel");
    ("Cleveland-Cliffs", "Cleveland.Cliffs|Cliffs Natural|AK Steel");
    ("Kobe Steel", "Kobe Steel|KOBELCO");
    ("voestalpine", "voestalpine");
    ("SAIL", "Steel Authority|SAIL");
    ("Steel Dynamics", "Steel Dynamics|SDI\b");
    ("Salzgitter", "Salzgitter");
    ("Ternium", "Ternium");
    ("NLMK", "NLMK|Novolipetsk");
    ("Evraz", "Evraz");
    ("Liberty Steel", "Liberty Steel|GFG Alliance") ].

Definition COMPANY_PLANT_NAME_PATTERNS : list (string * string) :=
  [ ("US Steel", "U\.?S\.?\s*Steel") ].

Record OwnershipTransfer : Type := mkTransfer {
  acquirer : string;
  target : string;
  target_plant_pattern : string;
  year_acquired : Z
}.

Definition OWNERSHIP_TRANSFERS : list OwnershipTransfer :=
  [ mkTransfer "Nippon Steel" "US Steel" "U\.?S\.?\s*Steel" 2024 ].

(** ** Plants and the historical lifecycle filter *)

(** One row of the frame built by [load_all_gem_plants]: a capacity tranche of
    a plant in one lifecycle status. *)
Record Plant : Type := mkPlant {
  plant_id : string;
  plant_name : option string;
  country : string;
  parent : option string;
  status : string;
  capacity_ttpa : float;
  process : string;
  ef : Q;
  start_year : float
}.

Definition get_plants_for_year (all_plants : list Plant) (year : Z)
  : list Plant :=
  filter
    (fun p =>
       let status_lower := lower (status p) in
       let started := fle (start_year p) (Some (inject_Z year)) in
       let operating_mask :=
         isin status_lower ["operating"; "operating pre-retirement"] && started in
       let construction_mask :=
         String.eqb status_lower "construction" && started in
       let retired_mask :=
         isin status_lower ["retired"; "mothballed"] && started in
       operating_mask || construction_mask || retired_mask)
    all_plants.

Section Matching.

(** [re_search pattern text] stands for a case-insensitive regular-expression
    search, [re.search(pattern, text, re.IGNORECASE)]. *)
Variable re_search : string -> string -> bool.

(** [Series.str.contains(pattern, case=False, na=False)] on one cell. *)
Definition str_contains (pattern : string) (cell : option string) : bool :=
  match cell with
  | Some text => re_search pattern text
  | None => false
  end.

Definition exclude_transfer (company : string) (year : Z)
  (result : list Plant) (transfer : OwnershipTransfer) : list Plant :=
  if String.eqb (acquirer transfer) company && (year <? year_acquired transfer)%Z
  then
    let exclude_mask :=
      fun p => str_contains (target_plant_pattern transfer) (plant_name p) in
    let n_excluded := List.length (filter exclude_mask result) in
    if (0 <? n_excluded)%nat
    then filter (fun p => negb (exclude_mask p)) result
    else result
  else result.

Definition get_company_plants (plants_df : list Plant) (company : string)
  (year : option Z) : list Plant :=
  let pattern :=
    match dict_get COMPANY_GEM_PATTERNS company with
    | Some pat => pat
    | None => company
    end in
  let result := filter (fun p => str_contains pattern (parent p)) plants_df in
  let result :=
    match year with
    | Some y =>
        if negb (empty result)
        then fold_left (exclude_transfer company y) OWNERSHIP_TRANSFERS result
        else result
    | None => result
    end in
  if empty result then
    match dict_get COMPANY_PLANT_NAME_PATTERNS company with
    | Some name_pattern =>
        filter (fun p => str_contains name_pattern (plant_name p)) plants_df
    | None => result
    end
  else result.

(** ** Core APA calculation *)

(** A row of [breakdown] before production is allocated. *)
Record BreakdownRow : Type := mkBreakdownRow {
  b_plant_id : string;
  b_plant_name : option string;
  b_country : string;
  b_process : string;
  b_capacity_ttpa : float;
  b_ef : Q;
  b_capacity_mt : float
}.

(** A row of the returned [plant_breakdown]. *)
Record Breakdown : Type := mkBreakdown {
  row : BreakdownRow;
  allocated_production_mt : float;
  emissions_mt : float
}.

Record ApaResult : Type := mkApaResult {
  r_company : string;
  r_production_mt : float;
  r_total_capacity_mt : Q;
  r_utilization_rate : float;
  r_emissions_mt : Q;
  r_weighted_ef : Q;
  r_n_plants : nat;
  plant_breakdown : list Breakdown
}.

Definition make_breakdown (year : option Z) (p : Plant) : BreakdownRow :=
  let e :=
    match year with
    | Some _ => get_plant_ef (country p) (process p) year
    | None => ef p
    end in
  mkBreakdownRow (plant_id p) (plant_name p) (country p) (process p)
    (capacity_ttpa p) e (fdiv_lit (capacity_ttpa p) 1000).

(** The state of the country loop: every breakdown row with its entry of the
    [allocated] series and of [unmatched_mask], and [remaining_production]. *)
Definition AllocState : Type := (list (BreakdownRow * float * bool) * float)%type.

Definition masked_capacity (mask : BreakdownRow * float * bool -> bool)
  (alloc : list (BreakdownRow * float * bool)) : Q :=
  series_sum (map (fun e => b_capacity_mt (fst (fst e))) (filter mask alloc)).

Definition in_country (c : string) (e : BreakdownRow * float * bool) : bool :=
  String.eqb (b_country (fst (fst e))) c.

Definition is_unmatched (e : BreakdownRow * float * bool) : bool := snd e.

Definition allocate_country (st : AllocState) (item : string * Q)
  : pyres AllocState :=
  let '(alloc, remaining_production) := st in
  let '(c, prod_mt_country) := item in
  let country_cap := masked_capacity (in_country c) alloc in
  if Qltb 0 country_cap && existsb (in_country c) alloc then
    country_ur <- checked_div prod_mt_country country_cap ;;
    Ret (map (fun e =>
                if in_country c e
                then (fst (fst e),
                      fmul (b_capacity_mt (fst (fst e))) (Some country_ur),
                      false)
                else e) alloc,
         fsub remaining_production (Some prod_mt_country))
  else Ret st.

Definition allocate_residual (st : AllocState)
  : pyres (list (BreakdownRow * float * bool)) :=
  let '(alloc, remaining_production) := st in
  if flt (Some 0) remaining_production && existsb is_unmatched alloc then
    let unmatched_cap := masked_capacity is_unmatched alloc in
    if Qltb 0 unmatched_cap then
      residual_ur <- checked_fdiv remaining_production unmatched_cap ;;
      Ret (map (fun e =>
                  if is_unmatched e
                  then (fst (fst e),
                        fmul (b_capacity_mt (fst (fst e))) residual_ur,
                        snd e)
                  else e) alloc)
    else Ret alloc
  else Ret alloc.

(** The [allocated_production_mt] column, next to the row it belongs to. *)
Definition allocate (breakdown : list BreakdownRow) (production_mt ur : float)
  (country_production : option (list (string * Q)))
  : pyres (list (BreakdownRow * float)) :=
  match country_production with
  | Some (item :: items) =>
      let init := (map (fun b => (b, Some 0, true)) breakdown, production_mt) in
      st <- foldM allocate_country (item :: items) init ;;
      alloc <- allocate_residual st ;;
      Ret (map fst alloc)
  | _ =>
      Ret (map (fun b => (b, fmul (b_capacity_mt b) ur)) breakdown)
  end.

Definition calculate_company_emissions (plants_df : list Plant)
  (company : string) (production_mt : float) (year : option Z)
  (country_production : option (list (string * Q)))
  : pyres (option ApaResult) :=
  let company_plants := get_company_plants plants_df company year in
  if empty company_plants then Ret None else
  let total_capacity_mt :=
    series_sum (map capacity_ttpa company_plants) / 1000 in
  if Qle_bool total_capacity_mt 0 then Ret None else
  ur <- checked_fdiv production_mt total_capacity_mt ;;
  let breakdown := map (make_breakdown year) company_plants in
  allocated <- allocate breakdown production_mt ur country_production ;;
  let breakdown :=
    map (fun ba => mkBreakdown (fst ba) (snd ba)
                     (fmul (snd ba) (Some (b_ef (fst ba))))) allocated in
  let total_emissions := series_sum (map emissions_mt breakdown) in
  weighted_ef <-
    match production_mt with
    | Some p => if Qltb 0 p then checked_div total_emissions p else Ret 0
    | None => Ret 0
    end ;;
  Ret (Some (mkApaResult company production_mt
               (round_nd total_capacity_mt 3) (fround ur 4)
               (round_nd total_emissions 3) (round_nd weighted_ef 3)
               (List.length company_plants) breakdown)).

End Matching.

(** ** Production data: sources, exclusions and priorities *)

(** A row of a production frame: company, year, production_mt,
    production_source. *)
Record ProdRow : Type := mkProdRow {
  pr_company : string;
  pr_year : Z;
  pr_production_mt : float;
  pr_production_source : string
}.

(** What a source file yields once parsed: (company, year, value).  Reading
    and parsing the files is outside the embedding; each loader below labels
    the parsed records with its own source id, as the code does. *)
Definition Record3 : Type := (string * Z * float)%type.

Definition labelled (source : string) (r : Record3) : ProdRow :=
  mkProdRow (fst (fst r)) (snd (fst r)) (snd r) source.

Definition load_bau_production (records : list Record3) : list ProdRow :=
  map (labelled "bau_reported") records.

(** A row of steel_all_extracted.csv. *)
Record ExtractedRow : Type := mkExtractedRow {
  x_company : string;
  x_year : Z;
  x_metric : string;
  x_value : float
}.

(** Known bad extractions. *)
Definition bad : list (string * Z) :=
  [ ("JFE Holdings", 2015%Z); ("JFE Holdings", 2016%Z);
    ("JFE Holdings", 2017%Z); ("Nippon Steel", 2024%Z) ].

Definition is_bad (c : string) (y : Z) (r : ExtractedRow) : bool :=
  String.eqb (x_company r) c && (x_year r =? y)%Z.

Definition load_annual_report_production (df : list ExtractedRow)
  : list ProdRow :=
  let prod := filter (fun r => String.eqb (x_metric r) "production_mt") df in
  if empty prod then [] else
  let prod :=
    fold_left (fun pr cy => filter (fun r => negb (is_bad (fst cy) (snd cy) r)) pr)
      bad prod in
  map (fun r => mkProdRow (x_company r) (x_year r) (x_value r) "annual_report")
    prod.

(** The names of the curated file and their canonical names. *)
Definition name_map : list (string * string) :=
  [ ("ArcelorMittal", "ArcelorMittal"); ("Nippon Steel", "Nippon Steel");
    ("POSCO", "POSCO Holdings"); ("Tata Steel", "Tata Steel");
    ("JSW Steel", "JSW Steel"); ("JFE Holdings", "JFE Holdings");
    ("Nucor", "Nucor"); ("ThyssenKrupp", "ThyssenKrupp"); ("SSAB", "SSAB");
    ("Gerdau", "Gerdau"); ("BlueScope", "BlueScope Steel");
    ("Severstal", "Severstal"); ("China Steel", "China Steel");
    ("Cleveland-Cliffs", "Cleveland-Cliffs");
    ("Hyundai Steel", "Hyundai Steel"); ("voestalpine", "voestalpine");
    ("US Steel", "US Steel"); ("Kobe Steel", "Kobe Steel"); ("SAIL", "SAIL");
    ("Steel Dynamics", "Steel Dynamics"); ("Salzgitter", "Salzgitter");
    ("Ternium", "Ternium"); ("NLMK", "NLMK"); ("Evraz", "Evraz");
    ("Liberty Steel", "Liberty Steel") ].

(** [df["company"].map(name_map).fillna(df["company"])], for one name. *)
Definition canonical_name (company : string) : string :=
  match dict_get name_map company with
  | Some canonical => canonical
  | None => company
  end.

(** The rows of the curated file are renamed, then labelled. *)
Definition load_curated_production (records : list Record3) : list ProdRow :=
  map (fun r =>
         mkProdRow (canonical_name (fst (fst r))) (snd (fst r)) (snd r)
           "curated_reports")
    records.

Definition load_ald_production (records : list Record3) : list ProdRow :=
  map (labelled "kampmann_ald") records.

Definition load_gem_plant_production (records : list Record3) : list ProdRow :=
  map (labelled "gem_plant_level") records.

(** The five upstream sources of [load_production_data]. *)
Record Sources : Type := mkSources {
  bau_records : list Record3;
  extracted : list ExtractedRow;
  curated_records : list Record3;
  ald_records : list Record3;
  gem_records : list Record3
}.

(** A production row with its [_priority] column. *)
Definition Ranked : Type := (ProdRow * Z)%type.

Definition with_priority (k : Z) (df : list ProdRow) : list Ranked :=
  map (fun r => (r, k)) df.

Definition key_of (r : ProdRow) : string * Z := (pr_company r, pr_year r).

Definition key_eqb (a b : string * Z) : bool :=
  String.eqb (fst a) (fst b) && (snd a =? snd b)%Z.

(** [pd.concat([bau, ar, curated, ald, gem_prod])] with the priorities set. *)
Definition all_prod (src : Sources) : list Ranked :=
  (with_priority 0 (load_bau_production (bau_records src))
   ++ with_priority 1 (load_annual_report_production (extracted src))
   ++ with_priority 2 (load_curated_production (curated_records src))
   ++ with_priority 3 (load_ald_production (ald_records src))
   ++ with_priority 4 (load_gem_plant_production (gem_records src)))%list.

(** The rows kept for each (company, year), still with their priority. *)
Definition select_by_priority (l : list Ranked) : list Ranked :=
  drop_duplicates key_eqb (fun r => key_of (fst r))
    (sort_by (fun a b => (snd a <? snd b)%Z) l).

Definition load_production_data (src : Sources) : list ProdRow :=
  let all := all_prod src in
  if empty all then [] else map fst (select_by_priority all).

(** ** Gap filling from capacity, and the batch driver *)

Record ApaRow : Type := mkApaRow {
  a_company : string;
  a_year : Z;
  a_production_mt : float;
  a_emissions_mt : Q;
  a_weighted_ef : Q;
  a_utilization_rate : float;
  a_n_plants : nat;
  a_total_capacity_mt : Q;
  a_production_source : string
}.

Section Batch.

Variable re_search : string -> string -> bool.

(** [comp_plants["capacity_ttpa"].sum() / 1000.0] for the plants of [company]
    that are active in [yr]. *)
Definition company_capacity_mt (all_plants : list Plant) (company : string)
  (yr : Z) : Q :=
  let year_plants := get_plants_for_year all_plants yr in
  let comp_plants := get_company_plants re_search year_plants company (Some yr) in
  series_sum (map capacity_ttpa comp_plants) / 1000.

(** One turn of the loop that collects [ur_samples]. *)
Definition ur_sample (all_plants : list Plant) (company : string)
  (pr : ProdRow) : pyres (list (Z * Q)) :=
  let yr := pr_year pr in
  let cap_mt := company_capacity_mt all_plants company yr in
  if Qltb 0 cap_mt then
    ur <- checked_fdiv (pr_production_mt pr) cap_mt ;;
    match ur with
    | Some u => if Qle_bool 0.1 u && Qle_bool u 1.5 then Ret [(yr, u)] else Ret []
    | None => Ret []
    end
  else Ret [].

Definition ur_samples (all_plants : list Plant) (production : list ProdRow)
  (company : string) : pyres (list (Z * Q)) :=
  let comp_prod :=
    filter (fun r => String.eqb (pr_company r) company) production in
  flat_mapM (ur_sample all_plants company) comp_prod.

(** The three earliest samples, which are the ones averaged. *)
Definition earliest (samples : list (Z * Q)) : list (Z * Q) :=
  firstn 3 (sort_by (fun a b => (fst a <? fst b)%Z) samples).

Definition avg_ur (samples : list (Z * Q)) : pyres Q :=
  checked_div (Qsum (map snd (earliest samples)))
    (inject_Z (Z.of_nat (List.length (earliest samples)))).

Definition estimate_company (all_plants : list Plant)
  (production : list ProdRow) (fill_years : list Z) (company : string)
  : pyres (list ProdRow) :=
  let existing_keys := map key_of production in
  samples <- ur_samples all_plants production company ;;
  if empty samples then Ret [] else
  avg <- avg_ur samples ;;
  Ret (flat_map
         (fun yr =>
            if existsb (key_eqb (company, yr)) existing_keys then []
            else
              let cap_mt := company_capacity_mt all_plants company yr in
              if Qle_bool cap_mt 0 then []
              else [ mkProdRow company yr (Some (round_nd (cap_mt * avg) 3))
                       "capacity_estimate" ])
         fill_years).

Definition estimate_production_from_capacity (all_plants : list Plant)
  (production : list ProdRow) (fill_years : list Z) : pyres (list ProdRow) :=
  if empty all_plants || empty production then Ret [] else
  let companies :=
    drop_duplicates String.eqb (fun c : string => c) (map pr_company production) in
  flat_mapM (estimate_company all_plants production fill_years) companies.

(** [country_prod_map.get((company, year), None)] *)
Fixpoint country_prod_get (m : list ((string * Z) * list (string * Q)))
  (k : string * Z) : option (list (string * Q)) :=
  match m with
  | [] => None
  | (k', v) :: m' => if key_eqb k' k then Some v else country_prod_get m' k
  end.

(** One turn of the reporting loop of [run_apa_all]: the rows appended to
    [results] for one production row. *)
Definition report_row (all_plants : list Plant)
  (country_prod_map : list ((string * Z) * list (string * Q)))
  (r : ProdRow) : pyres (list ApaRow) :=
  let company := pr_company r in
  let year := pr_year r in
  let prod_mt := pr_production_mt r in
  let year_plants := get_plants_for_year all_plants year in
  let country_prod := country_prod_get country_prod_map (company, year) in
  result <- calculate_company_emissions re_search year_plants company prod_mt
              (Some year) country_prod ;;
  match result with
  | Some res =>
      if flt (Some 1.5) (r_utilization_rate res) then Ret []
      else Ret [ mkApaRow company year prod_mt (r_emissions_mt res)
                   (r_weighted_ef res) (r_utilization_rate res)
                   (r_n_plants res) (r_total_capacity_mt res)
                   (pr_production_source r) ]
  | None => Ret []
  end.

Definition apa_row_lt (a b : ApaRow) : bool :=
  match String.compare (a_company a) (a_company b) with
  | Lt => true
  | Eq => (a_year a <? a_year b)%Z
  | Gt => false
  end.

Definition run_apa_all (all_plants : list Plant) (src : Sources)
  (country_prod_map : list ((string * Z) * list (string * Q)))
  : pyres (list ApaRow) :=
  if empty all_plants then Ret [] else
  let production := load_production_data src in
  if empty production then Ret [] else
  estimated <-
    estimate_production_from_capacity all_plants production
      (range_incl 2014 2019) ;;
  let production :=
    if negb (empty estimated) then (production ++ estimated)%list
    else production in
  results <- flat_mapM (report_row all_plants country_prod_map) production ;;
  Ret (sort_by apa_row_lt results).

End Batch.

(** ** Parsing years and classifying plants *)

(** A cell handed to [_parse_year]: missing, a number, or anything else,
    given by the text [str(val)] the function searches. *)
Inductive YearCell : Type :=
| YNaN
| YNum (v : Q)
| YOther (text : string).

Definition _parse_year (val : YearCell) : float :=
  match val with
  | YNaN => nan
  | YNum v => if Qle_bool 1900 v && Qle_bool v 2100 then Some v else nan
  | YOther text =>
      match search_year (strip text) with
      | Some y => Some (inject_Z y)
      | None => nan
      end
  end.

(** The block of [load_all_gem_plants] that settles the start year of a
    plant-status entry: the capacity sheet's year for construction entries,
    the plant sheet's year otherwise and the capacity sheet's when that one is
    missing, then a default per status class. *)
Definition resolve_start_year (status : string)
  (start_year cap_start_year : float) : float :=
  let status_lower := lower status in
  let start_year :=
    if String.eqb status_lower "construction" && notna cap_start_year
    then cap_start_year
    else if negb (String.eqb status_lower "construction")
            && negb (notna start_year) && notna cap_start_year
    then cap_start_year
    else start_year in
  let start_year :=
    if isin status_lower ["operating"; "operating pre-retirement"]
       && negb (notna start_year)
    then Some 2000 else start_year in
  let start_year :=
    if isin status_lower ["retired"; "mothballed"] && negb (notna start_year)
    then Some 2000 else start_year in
  if String.eqb status_lower "construction" && negb (notna start_year)
  then Some 2025 else start_year.

(** The capacity columns and equipment text [_determine_process] reads. *)
Record CapacityRow : Type := mkCapacityRow {
  dri_capacity : float;
  bf_capacity : float;
  eaf_capacity : float;
  main_equipment : string
}.

Section Classification.

(** [re_match pattern text] stands for [re.search(pattern, text)]. *)
Variable re_match : string -> string -> bool.

Definition _determine_process (row : CapacityRow) : string :=
  let dri := dri_capacity row in
  let bf := bf_capacity row in
  let eaf := eaf_capacity row in
  let has_bf := notna bf && flt (Some 0) bf in
  let has_dri := notna dri && flt (Some 0) dri in
  let has_eaf := notna eaf && flt (Some 0) eaf in
  if has_bf && has_dri then (if fle dri bf then "BF-BOF" else "DRI")
  else if has_bf then "BF-BOF"
  else if has_dri then "DRI"
  else if has_eaf then "EAF"
  else
    let equip := lower (main_equipment row) in
    if re_match "bf|blast.?furnace|bof|basic.?oxygen" equip then "BF-BOF"
    else if re_match "dri|sponge|direct.?red" equip then "DRI"
    else if re_match "eaf|electric|scrap" equip then "EAF"
    else if re_match "h2|hydrogen" equip then "H2-DRI"
    else "BF-BOF".

End Classification.

(** ** Canonical company names and country-level production *)

Definition _bau_company_to_canonical (bau_name : string) : string :=
  let mapping :=
    [ ("ArcelorMittal", "ArcelorMittal");
      ("Baoshan", "Baoshan Iron & Steel");
      ("BlueScope", "BlueScope Steel");
      ("China Steel", "China Steel");
      ("POSCO", "POSCO Holdings");
      ("ThyssenKrupp", "ThyssenKrupp");
      ("Severstal", "Severstal");
      ("Nippon Steel", "Nippon Steel");
      ("SSAB", "SSAB");
      ("Tata Steel", "Tata Steel") ] in
  match dict_get mapping bau_name with
  | Some canonical => canonical
  | None => bau_name
  end.

(** A row of steel_country_production.csv. *)
Record CountryRow : Type := mkCountryRow {
  c_company : string;
  c_year : Z;
  c_country : string;
  c_production_kt : float
}.

Definition company_year_lt (a b : string * Z) : bool :=
  match String.compare (fst a) (fst b) with
  | Lt => true
  | Eq => (snd a <? snd b)%Z
  | Gt => false
  end.

(** The dictionary comprehension of one group: the rows with a positive
    production, in kt, keyed by country and converted to Mt. *)
Definition country_dict (grp : list CountryRow) : list (string * Q) :=
  fold_left
    (fun d r =>
       match c_production_kt r with
       | Some kt => if Qltb 0 kt then dict_set d (c_country r) (kt / 1000) else d
       | None => d
       end)
    grp [].

Definition load_country_production (df : list CountryRow)
  : list ((string * Z) * list (string * Q)) :=
  let keys :=
    sort_by company_year_lt
      (drop_duplicates key_eqb (fun k : string * Z => k)
         (map (fun r => (c_company r, c_year r)) df)) in
  map (fun k =>
         (k, country_dict
               (filter (fun r => key_eqb (c_company r, c_year r) k) df)))
    keys.

(** ** Finishing the plant frame *)

(** The statuses [load_all_gem_plants] keeps: real or historical capacity. *)
Definition active_statuses : list string :=
  [ "operating"; "retired"; "mothballed"; "operating pre-retirement";
    "construction" ].

Definition with_process (p : Plant) (new_process : string) : Plant :=
  mkPlant (plant_id p) (plant_name p) (country p) (parent p) (status p)
    (capacity_ttpa p) new_process (ef p) (start_year p).

(** The reclassification of integrated DRI-EAF plants: an EAF entry of a
    plant that also has a DRI entry becomes a DRI entry. *)
Definition reclassify_integrated (result : list Plant) : list Plant :=
  let dri_plant_ids :=
    map plant_id (filter (fun p => String.eqb (process p) "DRI") result) in
  let integrated_eaf_mask :=
    fun p => String.eqb (process p) "EAF" && isin (plant_id p) dri_plant_ids in
  if existsb integrated_eaf_mask result
  then map (fun p => if integrated_eaf_mask p then with_process p "DRI" else p)
         result
  else result.

(** The [ef] column: the factor of the entry's country and process, without
    a year. *)
Definition assign_ef (result : list Plant) : list Plant :=
  map (fun p =>
         mkPlant (plant_id p) (plant_name p) (country p) (parent p) (status p)
           (capacity_ttpa p) (process p)
           (get_plant_ef (country p) (process p) None) (start_year p))
    result.

End Apa.

(* ================================================================== *)
(** * pipeline/kampmann_audit.py *)
(* ================================================================== *)

Module Kampmann.

Definition KAMPMANN_TP_COMPANIES : list string :=
  [ "ArcelorMittal"; "Baoshan Iron & Steel"; "BlueScope Steel"; "China Steel";
    "Nippon Steel"; "POSCO Holdings"; "SSAB"; "Severstal"; "Tata Steel";
    "ThyssenKrupp" ].

Definition KAMPMANN_NO_TP : list string :=
  [ "Gerdau"; "JFE Holdings"; "JSW Steel"; "Nucor" ].

Definition ALL_COMPANIES : list string :=
  (KAMPMANN_TP_COMPANIES ++ KAMPMANN_NO_TP
   ++ [ "US Steel"; "Hyundai Steel"; "Cleveland-Cliffs"; "Kobe Steel";
        "voestalpine"; "SAIL"; "Steel Dynamics"; "Salzgitter";
        "Ternium"; "NLMK"; "Evraz"; "Liberty Steel" ])%list.

(** One row of the frame built by [load_gem_units]: a furnace. *)
Record Unit : Type := mkUnit {
  gem_plant_id : string;
  gem_unit_id : string;
  unit_name : string;
  plant_name : string;
  parent : option string;
  country : string;
  unit_status : string;
  start_year : float;
  pre_retirement_announced_year : float;
  retired_year : float;
  capacity_ttpa : float;
  unit_type : string;
  process_type : string
}.

Record InventoryRow : Type := mkInventoryRow {
  i_company : string;
  i_unit : Unit;
  i_unit_status : string;
  inferred_close_year : float;
  close_source : string
}.

(** The closure year and its provenance, as the loop body of
    [build_closure_inventory] infers them. *)
Definition infer_closure (u : Unit) : float * string :=
  let status := lower (unit_status u) in
  if isin status ["retired"; "mothballed"] then
    if notna (retired_year u) then (retired_year u, "gem_retired_date")
    else (Some 2024, "gem_status_inferred")
  else if contains "pre-retirement" status then
    if notna (retired_year u) then (retired_year u, "gem_planned_retirement")
    else if notna (pre_retirement_announced_year u)
    then (fadd (pre_retirement_announced_year u) (Some 5),
          "inferred_5yr_from_announcement")
    else (Some 2030, "default_2030")
  else (nan, "none").

Section Matching.

Variable re_search : string -> string -> bool.

Definition match_units_to_company (units_df : list Unit) (company : string)
  : list Unit :=
  let pattern :=
    match dict_get Apa.COMPANY_GEM_PATTERNS company with
    | Some pat => pat
    | None => company
    end in
  filter (fun u => Apa.str_contains re_search pattern (parent u)) units_df.

Definition build_closure_inventory (units_df : list Unit) : list InventoryRow :=
  flat_map
    (fun company =>
       map (fun u =>
              mkInventoryRow company u (lower (unit_status u))
                (fst (infer_closure u)) (snd (infer_closure u)))
         (match_units_to_company units_df company))
    ALL_COMPANIES.

(** ** The closure trajectory of the audit *)

Record TrajectoryRow : Type := mkTrajectoryRow {
  t_company : string;
  t_year : Z;
  gem_tp_production_mt : float;
  gem_tp_emissions_mt : float;
  active_capacity_ttpa : Q;
  n_active_units : nat
}.

(** [close_map]: unit id to inferred close year, for the company's rows of
    the inventory that have one. *)
Definition close_map (closure_inventory : list InventoryRow) (company : string)
  : list (string * Q) :=
  fold_left
    (fun m row =>
       match inferred_close_year row with
       | Some cy => dict_set m (gem_unit_id (i_unit row)) cy
       | None => m
       end)
    (filter (fun row => String.eqb (i_company row) company) closure_inventory)
    [].

(** The tests a unit passes to count as active in a year. *)
Definition trajectory_active (cm : list (string * Q)) (year : Z) (u : Unit)
  : bool :=
  let uid := gem_unit_id u in
  let status := lower (unit_status u) in
  let start := start_year u in
  if notna start && flt (Some (inject_Z year)) start then false
  else if isin status ["cancelled"; "announced"] then false
  else if match dict_get cm uid with
          | Some cy => Qle_bool cy (inject_Z year)
          | None => false
          end then false
  else if isin status ["retired"; "mothballed"] && negb (notna (dict_get cm uid))
  then false
  else true.

(** [utilization_rate if utilization_rate else 0.80]: [None] and 0.0 are
    falsy, NaN is not. *)
Definition trajectory_ur (utilization_rate : option float) : float :=
  match utilization_rate with
  | None => Some 0.80
  | Some None => nan
  | Some (Some q) => if Qeq_bool q 0 then Some 0.80 else Some q
  end.

Definition trajectory_row (company : string) (ur : float) (year : Z)
  (active_units : list Unit) : TrajectoryRow :=
  if empty active_units then
    mkTrajectoryRow company year (Some 0) (Some 0) 0 0
  else
    let total_capacity_ttpa := series_sum (map capacity_ttpa active_units) in
    let total_capacity_mt := total_capacity_ttpa / 1000 in
    let production_mt := fmul (Some total_capacity_mt) ur in
    let total_emissions :=
      fold_left
        (fun total au =>
           let cap_mt := fdiv_lit (capacity_ttpa au) 1000 in
           let plant_prod := fmul cap_mt ur in
           let ef := Apa.get_plant_ef (country au) (process_type au) (Some year) in
           fadd total (fmul plant_prod (Some ef)))
        active_units (Some 0) in
    mkTrajectoryRow company year (fround production_mt 3)
      (fround total_emissions 3) (round_nd total_capacity_ttpa 1)
      (List.length active_units).

Definition build_gem_closure_trajectory (units_df : list Unit)
  (closure_inventory : list InventoryRow) (company : string)
  (base_year end_year : Z) (utilization_rate : option float)
  : list TrajectoryRow :=
  let company_units := match_units_to_company units_df company in
  if empty company_units then [] else
  let cm := close_map closure_inventory company in
  let ur := trajectory_ur utilization_rate in
  map (fun year =>
         trajectory_row company ur year
           (filter (trajectory_active cm year) company_units))
    (range_incl base_year end_year).

(** ** Comparison with the reference trajectory, in [run_audit] *)

Definition fabs (x : float) : float :=
  match x with Some q => Some (Qabs q) | None => None end.

(** [x or 0]: zero is falsy, NaN is not. *)
Definition or_zero (x : float) : float :=
  match x with
  | Some q => if Qeq_bool q 0 then Some 0 else Some q
  | None => None
  end.

(** Series division; no row with a zero divisor is ever selected. *)
Definition fdiv (a b : float) : float :=
  match a, b with Some x, Some y => Some (x / y) | _, _ => None end.

Definition delta_mt (gem_tp_emissions_mt kampmann_tp_emissions_mt : float)
  : float :=
  fsub gem_tp_emissions_mt kampmann_tp_emissions_mt.

(** [np.where(kampmann.abs() > 0.001, delta_mt / kampmann * 100, nan)] *)
Definition delta_pct (gem_tp_emissions_mt kampmann_tp_emissions_mt : float)
  : float :=
  if flt (Some 0.001) (fabs kampmann_tp_emissions_mt)
  then fmul (fdiv (delta_mt gem_tp_emissions_mt kampmann_tp_emissions_mt)
               kampmann_tp_emissions_mt) (Some 100)
  else nan.

Definition classify_divergence (delta_pct : float) : string :=
  let pct := fabs (or_zero delta_pct) in
  if flt pct (Some 5) then "aligned"
  else if flt pct (Some 15) then "minor_divergence"
  else if flt pct (Some 30) then "moderate_divergence"
  else "major_divergence".

Definition infer_source
  (delta_pct gem_tp_emissions_mt kampmann_tp_emissions_mt : float) : string :=
  let pct := fabs (or_zero delta_pct) in
  if flt pct (Some 5) then "gem_closure_data"
  else if flt kampmann_tp_emissions_mt gem_tp_emissions_mt
  then "kampmann_uses_additional_closures"
  else "kampmann_uses_fewer_closures_or_different_efs".

End Matching.

End Kampmann.

(* ================================================================== *)
(** * pipeline/gem_closure_tp.py *)
(* ================================================================== *)

Module Tp.

Import Kampmann.

Definition _infer_close_year (unit_row : Unit) : float :=
  let status := lower (unit_status unit_row) in
  if isin status ["retired"; "mothballed"] then
    if notna (retired_year unit_row) then retired_year unit_row
    else Some 2023
  else if contains "pre-retirement" status then
    if notna (retired_year unit_row) then retired_year unit_row
    else if notna (pre_retirement_announced_year unit_row)
    then fadd (pre_retirement_announced_year unit_row) (Some 5)
    else Some 2030
  else nan.

Definition _unit_is_active (unit_row : Unit) (year : Z) (close_year : float)
  : bool :=
  let status := lower (unit_status unit_row) in
  if String.eqb status "cancelled" then false
  else
    let start := start_year unit_row in
    if notna start && flt (Some (inject_Z year)) start then false
    else if notna close_year && fle close_year (Some (inject_Z year)) then false
    else true.

Record DetailRow : Type := mkDetailRow {
  d_company : string;
  d_year : Z;
  d_country : string;
  d_process_type : string;
  d_unit_type : string;
  d_gem_unit_id : string;
  d_unit_name : string;
  d_plant_name : string;
  d_unit_status : string;
  d_capacity_ttpa : Q;
  d_production_mt : Q;
  d_emissions_mt : Q
}.

(** The rows appended for one unit and its pre-computed close year in one
    year of the horizon. *)
Definition unit_rows (company : string) (base_ur : Q) (year : Z)
  (uc : Unit * float) : list DetailRow :=
  let u := fst uc in
  if negb (_unit_is_active u year (snd uc)) then []
  else
    match capacity_ttpa u with
    | None => []
    | Some cap_ttpa =>
        if Qle_bool cap_ttpa 0 then []
        else
          let cap_mt := cap_ttpa / 1000 in
          let prod_mt := cap_mt * base_ur in
          let ef := Apa.get_plant_ef (country u) (process_type u) (Some year) in
          let em_mt := prod_mt * ef in
          [ mkDetailRow company year (country u) (process_type u) (unit_type u)
              (gem_unit_id u) (unit_name u) (plant_name u) (unit_status u)
              cap_ttpa (round_nd prod_mt 4) (round_nd em_mt 4) ]
    end.

(** A row of steel_apa_emissions.csv, the trusted historical series. *)
Record ApaEmissions : Type := mkApaEmissions {
  e_company : string;
  e_year : Z;
  e_emissions_mt : float;
  e_production_mt : float
}.

(** The APA row a company is calibrated on, with [actual_base_year]: the row
    of [base_year] if there is one, else the row of the latest year. *)
Definition calibration_row (apa_df : list ApaEmissions) (company : string)
  (base_year : Z) : option (ApaEmissions * Z) :=
  match filter (fun r => String.eqb (e_company r) company
                         && (e_year r =? base_year)%Z) apa_df with
  | r :: _ => Some (r, base_year)
  | [] =>
      let company_apa_all :=
        sort_by (fun a b => (e_year a <? e_year b)%Z)
          (filter (fun r => String.eqb (e_company r) company) apa_df) in
      match rev company_apa_all with
      | [] => None
      | r :: _ => Some (r, e_year r)
      end
  end.

(** [base_active["capacity_ttpa"].sum() / 1000.0] *)
Definition base_capacity_mt (company_units : list Unit) (actual_base_year : Z)
  : Q :=
  let status_active := ["operating"; "operating pre-retirement"] in
  let active_mask :=
    fun u =>
      isin (unit_status u) status_active
      && Qle_bool (match start_year u with Some y => y | None => 2000 end)
           (inject_Z actual_base_year) in
  series_sum (map capacity_ttpa (filter active_mask company_units)) / 1000.

(** The utilization rate held fixed over the horizon. *)
Definition calibrated_ur (base_capacity : Q) (apa_production : float) : Q :=
  match apa_production with
  | Some p =>
      if Qltb 0 base_capacity && Qltb 0 p
      then py_max 0.40 (py_min (p / base_capacity) 1.0)
      else 0.80
  | None => 0.80
  end.

(** Company-year aggregates of the unit-level detail, before anchoring. *)
Record RawAnnual : Type := mkRawAnnual {
  raw_company : string;
  raw_year : Z;
  emissions_raw : Q;
  production_raw : Q;
  raw_n_active_units : nat;
  raw_active_capacity_ttpa : Q
}.

(** A row of the company-year frame that is returned.  The planned-transition
    frame names its columns tp_..., the no-closure frame bau_.... *)
Record Annual : Type := mkAnnual {
  raw : RawAnnual;
  a_calibrated_ur : Q;
  emissions_mt : Q;
  production_mt : Q;
  apa_anchored : bool;
  scale_factor : Q
}.

(** [detail.groupby(["company", "year"]).agg(...)]: every detail row carries
    the same company, so the groups are the years, in ascending order. *)
Definition aggregate (company : string) (detail : list DetailRow)
  : list RawAnnual :=
  let years :=
    sort_by Z.ltb (drop_duplicates Z.eqb (fun y : Z => y) (map d_year detail)) in
  map (fun y =>
         let g := filter (fun d => (d_year d =? y)%Z) detail in
         mkRawAnnual company y (Qsum (map d_emissions_mt g))
           (Qsum (map d_production_mt g)) (List.length g)
           (Qsum (map d_capacity_ttpa g)))
    years.

(** [gem_base_em]: the raw emissions of the base year if positive, else NaN. *)
Definition gem_base_em (base_year : Z) (annual : list RawAnnual) : float :=
  match map emissions_raw
          (filter (fun r => (raw_year r =? base_year)%Z) annual) with
  | g :: _ => if Qltb 0 g then Some g else nan
  | [] => nan
  end.

(** The scale factor of the anchored branch, when that branch is taken. *)
Definition anchoring_scale (apa_emissions gem_base : float) : option Q :=
  match apa_emissions, gem_base with
  | Some a, Some g => if Qltb 0 a && Qltb 0 g then Some (a / g) else None
  | _, _ => None
  end.

(** APA anchoring, the closing block of [generate_company_tp] and of
    [generate_company_bau]. *)
Definition anchor (base_year : Z) (apa_emissions : float) (ur : Q)
  (annual : list RawAnnual) : list Annual :=
  match anchoring_scale apa_emissions (gem_base_em base_year annual) with
  | Some scale =>
      map (fun r =>
             mkAnnual r ur (round_nd (emissions_raw r * scale) 3)
               (round_nd (production_raw r * scale) 3) true
               (round_nd scale 4))
        annual
  | None =>
      map (fun r =>
             mkAnnual r ur (round_nd (emissions_raw r) 3)
               (round_nd (production_raw r) 3) false (round_nd 1.0 4))
        annual
  end.

Section Matching.

Variable re_search : string -> string -> bool.

Definition build_plant_level_tp (steel_units : list Unit) (company : string)
  (base_year end_year : Z) (base_ur : Q) (skip_closures : bool)
  : list DetailRow :=
  let company_units := match_units_to_company re_search steel_units company in
  if empty company_units then [] else
  let company_units := map (fun u => (u, _infer_close_year u)) company_units in
  let company_units :=
    if skip_closures then map (fun uc => (fst uc, nan)) company_units
    else company_units in
  flat_map
    (fun year => flat_map (unit_rows company base_ur year) company_units)
    (range_incl base_year end_year).

(** The common body of [generate_company_tp] and [generate_company_bau]: the
    second repeats the first with [skip_closures=True]. *)
Definition generate_company (skip_closures : bool) (steel_units : list Unit)
  (company : string) (apa_df : list ApaEmissions) (base_year end_year : Z)
  : list Annual * list DetailRow :=
  let company_units := match_units_to_company re_search steel_units company in
  if empty company_units then ([], []) else
  match calibration_row apa_df company base_year with
  | None => ([], [])
  | Some (company_apa, actual_base_year) =>
      let apa_production := e_production_mt company_apa in
      let ur :=
        calibrated_ur (base_capacity_mt company_units actual_base_year)
          apa_production in
      let detail :=
        build_plant_level_tp steel_units company base_year end_year ur
          skip_closures in
      if empty detail then ([], []) else
      let annual := aggregate company detail in
      (anchor base_year (e_emissions_mt company_apa) ur annual, detail)
  end.

Definition generate_company_tp := generate_company false.

Definition generate_company_bau := generate_company true.

End Matching.

(** ** Steel-making units and their process *)

Definition REDUCTANT_MAP : list (string * string) :=
  [ ("hydrogen", "DRI-H2");
    ("coal", "DRI-coal");
    ("methane", "DRI-gas");
    ("syngas (reformed methane)", "DRI-gas");
    ("waste gas recovery (coke oven gas)", "DRI-gas");
    ("unknown", "DRI-gas") ].

Definition H2_DRI_PLANT_PATTERNS : list string :=
  [ "HYBRIT"; "H2 Green Steel"; "Salzgitter Flachstahl.*DRI" ].

(** The process a DRI unit stands for, from the text of its reductant. *)
Definition reductant_process (reductant : string) : string :=
  match dict_get REDUCTANT_MAP (strip (lower reductant)) with
  | Some dri_process => dri_process
  | None => "DRI-gas"
  end.

(** One turn of the loop that builds [plant_dri_process]: a DRI unit, given
    with its reductant, updates the entry of its plant. *)
Definition note_dri_unit (plant_dri_process : list (string * string))
  (dri_row : Unit * string) : list (string * string) :=
  let plant := plant_name (fst dri_row) in
  if String.eqb plant "" || String.eqb plant "nan" then plant_dri_process else
  let dri_process := reductant_process (snd dri_row) in
  match dict_get plant_dri_process plant with
  | None => dict_set plant_dri_process plant dri_process
  | Some current =>
      if String.eqb dri_process "DRI-H2"
      then dict_set plant_dri_process plant "DRI-H2"
      else if String.eqb dri_process "DRI-coal"
              && negb (String.eqb current "DRI-H2")
      then dict_set plant_dri_process plant "DRI-coal"
      else plant_dri_process
  end.

Definition with_process_type (u : Unit) (p : string) : Unit :=
  mkUnit (gem_plant_id u) (gem_unit_id u) (unit_name u) (plant_name u)
    (parent u) (country u) (unit_status u) (start_year u)
    (pre_retirement_announced_year u) (retired_year u) (capacity_ttpa u)
    (unit_type u) p.

Definition assign_process (plant_dri_process : list (string * string))
  (row : Unit) : string :=
  let unit_type := lower (unit_type row) in
  if String.eqb unit_type "bof" then "BF-BOF"
  else if String.eqb unit_type "eaf" then
    match dict_get plant_dri_process (plant_name row) with
    | Some p => p
    | None => "Scrap-EAF"
    end
  else "BF-BOF".

Section Filtering.

Variable re_search : string -> string -> bool.

(** Some pattern of a known hydrogen project is found in the plant name. *)
Definition known_h2_project (plant_name : string) : bool :=
  existsb (fun pattern => re_search pattern plant_name) H2_DRI_PLANT_PATTERNS.

(** [plant_dri_process], from the DRI units given with their reductant. *)
Definition build_plant_dri_process (dri_units : list (Unit * string))
  : list (string * string) :=
  let plant_dri_process := fold_left note_dri_unit dri_units [] in
  let plant_dri_process :=
    map (fun kv => if known_h2_project (fst kv) then (fst kv, "DRI-H2") else kv)
      plant_dri_process in
  fold_left
    (fun m dri_row =>
       let plant := plant_name (fst dri_row) in
       if notna (dict_get m plant) then m
       else if known_h2_project plant then dict_set m plant "DRI-H2"
       else m)
    dri_units plant_dri_process.

(** The units are given with the text of their reductant column, which is
    read for DRI units only. *)
Definition filter_steel_making_units (units_df : list (Unit * string))
  : list Unit :=
  let steel_units :=
    filter (fun r => isin (unit_type (fst r)) ["bof"; "eaf"]) units_df in
  let dri_units :=
    filter (fun r => String.eqb (unit_type (fst r)) "dri") units_df in
  let plant_dri_process := build_plant_dri_process dri_units in
  map (fun r =>
         with_process_type (fst r) (assign_process plant_dri_process (fst r)))
    steel_units.

End Filtering.

(** ** The batches over all tracked companies *)

(** What a batch does: it returns, or one of its log lines raises. *)
Inductive outcome (A : Type) : Type :=
| Returns (a : A)
| RaisesValueError
| RaisesZeroDivisionError
| RaisesKeyError.

Arguments Returns {A} a.
Arguments RaisesValueError {A}.
Arguments RaisesZeroDivisionError {A}.
Arguments RaisesKeyError {A}.

Definition and_then {A B : Type} (m : outcome A) (k : A -> outcome B)
  : outcome B :=
  match m with
  | Returns a => k a
  | RaisesValueError => RaisesValueError
  | RaisesZeroDivisionError => RaisesZeroDivisionError
  | RaisesKeyError => RaisesKeyError
  end.

(** A row of the frame a batch returns: the rows of a company's projection,
    or constant rows when the company has no projection.  The columns a
    constant row lacks are missing in the concatenated frame. *)
Record BatchRow : Type := mkBatchRow {
  b_company : string;
  b_year : Z;
  b_emissions_raw : float;
  b_production_raw : float;
  b_n_active_units : nat;
  b_active_capacity_ttpa : Q;
  b_calibrated_ur : float;
  b_emissions_mt : float;
  b_production_mt : float;
  b_apa_anchored : option bool;
  b_scale_factor : float;
  b_source : string
}.

Definition projected_row (source : string) (a : Annual) : BatchRow :=
  mkBatchRow (raw_company (raw a)) (raw_year (raw a))
    (Some (emissions_raw (raw a))) (Some (production_raw (raw a)))
    (raw_n_active_units (raw a)) (raw_active_capacity_ttpa (raw a))
    (Some (a_calibrated_ur a)) (Some (emissions_mt a)) (Some (production_mt a))
    (Some (apa_anchored a)) (Some (scale_factor a)) source.

(** The fallback of a company without a projection: its latest trusted
    figures, held constant over the horizon. *)
Definition constant_fallback (company : string) (apa_df : list ApaEmissions)
  (base_year end_year : Z) : list BatchRow :=
  let company_apa :=
    sort_by (fun a b => (e_year a <? e_year b)%Z)
      (filter (fun r => String.eqb (e_company r) company) apa_df) in
  match rev company_apa with
  | [] => []
  | latest :: _ =>
      map (fun year =>
             mkBatchRow company year nan nan 0 0 nan
               (fround (e_emissions_mt latest) 3)
               (if notna (e_production_mt latest)
                then fround (e_production_mt latest) 3 else nan)
               None nan "apa_constant_fallback")
        (range_incl base_year end_year)
  end.

(** [float(f"{x:.1f}") == 0], for a figure rounded to three decimals, as the
    emissions of a company-year frame are.  The text is the one-decimal
    text of the double: the double that stands for 0.05 lies above 0.05 and
    is written 0.1, so the text is 0.0 (or -0.0) exactly when the figure is
    below 0.05 in absolute value. *)
Definition reads_as_zero (x : Q) : bool := Qltb (Qabs x) 0.05.

(** The summary line of the no-closure batch: it formats the change between
    the emissions of the base year and of the last year, and raises when one
    of the two is absent or when the base value reads as zero. *)
Definition bau_summary_line (annual : list Annual) (base_year end_year : Z)
  : outcome unit :=
  let base_em :=
    map emissions_mt
      (filter (fun a => (raw_year (raw a) =? base_year)%Z) annual) in
  let final_em :=
    map emissions_mt
      (filter (fun a => (raw_year (raw a) =? end_year)%Z) annual) in
  match base_em, final_em with
  | b :: _, f :: _ =>
      if reads_as_zero b then RaisesZeroDivisionError
      else Returns tt
  | _, _ => RaisesValueError
  end.

(** The closing lines of a batch: the frames are concatenated, and the last
    log line reads the company column, which an empty frame does not have. *)
Definition combine (all_annual : list BatchRow) (all_detail : list DetailRow)
  : outcome (list BatchRow * list DetailRow) :=
  if empty all_annual then RaisesKeyError else Returns (all_annual, all_detail).

Section Batches.

Variable re_search : string -> string -> bool.

Definition generate_all_tp (steel_units : list Unit)
  (apa_df : list ApaEmissions) (base_year end_year : Z)
  : outcome (list BatchRow * list DetailRow) :=
  let acc :=
    fold_left
      (fun acc company =>
         let '(annual, detail) :=
           generate_company_tp re_search steel_units company apa_df base_year
             end_year in
         if empty annual
         then (fst acc ++ constant_fallback company apa_df base_year end_year,
               snd acc)%list
         else (fst acc ++ map (projected_row "gem_plant_level") annual,
               snd acc ++ detail)%list)
      ALL_COMPANIES ([], []) in
  combine (fst acc) (snd acc).

Definition generate_all_bau (steel_units : list Unit)
  (apa_df : list ApaEmissions) (base_year end_year : Z)
  : outcome (list BatchRow * list DetailRow) :=
  and_then
    (fold_left
       (fun state company =>
          and_then state
            (fun acc =>
               let '(annual, detail) :=
                 generate_company_bau re_search steel_units company apa_df
                   base_year end_year in
               if empty annual
               then Returns
                      (fst acc
                       ++ constant_fallback company apa_df base_year end_year,
                       snd acc)%list
               else
                 and_then (bau_summary_line annual base_year end_year)
                   (fun _ =>
                      Returns
                        (fst acc
                         ++ map (projected_row "gem_plant_level_bau") annual,
                         snd acc ++ detail)%list)))
       ALL_COMPANIES (Returns ([], [])))
    (fun acc => combine (fst acc) (snd acc)).

End Batches.

End Tp.

(* ================================================================== *)
(** * pipeline/integrate.py *)
(* ================================================================== *)

Module Integrate.

(** A record of the combined multi-source frame, with the columns the quality
    filters read; the other columns are carried along unchanged. *)
Record SourceRecord : Type := mkSourceRecord {
  company : string;
  year : Z;
  metric : string;
  value : float;
  source : string
}.

(** A record with its [quality_flag] column. *)
Record Flagged : Type := mkFlagged {
  record : SourceRecord;
  quality_flag : string
}.

Record ExcludeRule : Type := mkRule {
  rule_company : string;
  rule_year : Z;
  rule_metric : string;
  rule_source : string
}.

(** Known bad extractions to exclude. *)
Definition EXCLUDE_RULES : list ExcludeRule :=
  [
    mkRule "JFE Holdings" 2015 "production_mt" "annual_report";
    mkRule "JFE Holdings" 2016 "production_mt" "annual_report";
    mkRule "JFE Holdings" 2017 "production_mt" "annual_report";
    mkRule "JFE Holdings" 2018 "production_mt" "annual_report";
    mkRule "JFE Holdings" 2019 "production_mt" "annual_report";
    mkRule "JFE Holdings" 2020 "production_mt" "annual_report";
    mkRule "JFE Holdings" 2021 "production_mt" "annual_report";
    mkRule "US Steel" 2014 "production_mt" "annual_report";
    mkRule "US Steel" 2015 "production_mt" "annual_report";
    mkRule "US Steel" 2016 "production_mt" "annual_report";
    mkRule "US Steel" 2017 "production_mt" "annual_report";
    mkRule "US Steel" 2018 "production_mt" "annual_report";
    mkRule "US Steel" 2019 "production_mt" "annual_report";
    mkRule "US Steel" 2020 "production_mt" "annual_report";
    mkRule "US Steel" 2021 "production_mt" "annual_report";
    mkRule "US Steel" 2022 "production_mt" "annual_report";
    mkRule "US Steel" 2023 "production_mt" "annual_report";
    mkRule "Salzgitter" 2014 "production_mt" "annual_report";
    mkRule "Salzgitter" 2015 "production_mt" "annual_report";
    mkRule "Salzgitter" 2016 "production_mt" "annual_report";
    mkRule "Salzgitter" 2017 "production_mt" "annual_report";
    mkRule "Salzgitter" 2018 "production_mt" "annual_report";
    mkRule "Salzgitter" 2019 "production_mt" "annual_report";
    mkRule "Salzgitter" 2020 "production_mt" "annual_report";
    mkRule "Salzgitter" 2021 "production_mt" "annual_report";
    mkRule "Salzgitter" 2022 "production_mt" "annual_report";
    mkRule "Salzgitter" 2023 "production_mt" "annual_report";
    mkRule "Salzgitter" 2024 "production_mt" "annual_report";
    mkRule "Ternium" 2017 "production_mt" "annual_report";
    mkRule "Ternium" 2018 "production_mt" "annual_report";
    mkRule "Ternium" 2019 "production_mt" "annual_report";
    mkRule "Ternium" 2020 "production_mt" "annual_report";
    mkRule "Ternium" 2021 "production_mt" "annual_report";
    mkRule "Steel Dynamics" 2021 "production_mt" "annual_report";
    mkRule "Steel Dynamics" 2018 "production_mt" "annual_report";
    mkRule "Steel Dynamics" 2019 "production_mt" "annual_report";
    mkRule "SAIL" 2019 "production_mt" "annual_report";
    mkRule "NLMK" 2021 "production_mt" "annual_report";
    mkRule "Hyundai Steel" 2017 "production_mt" "annual_report";
    mkRule "Hyundai Steel" 2022 "production_mt" "annual_report";
    mkRule "Hyundai Steel" 2024 "emissions_mt_co2" "annual_report";
    mkRule "Gerdau" 2019 "emissions_mt_co2" "annual_report";
    mkRule "Kobe Steel" 2019 "emissions_mt_co2" "annual_report";
    mkRule "Kobe Steel" 2024 "emissions_mt_co2" "annual_report";
    mkRule "Salzgitter" 2022 "emissions_mt_co2" "annual_report";
    mkRule "SSAB" 2021 "production_mt" "annual_report";
    mkRule "Nippon Steel" 2024 "production_mt" "annual_report";
    mkRule "BlueScope Steel" 2015 "production_mt" "annual_report";
    mkRule "BlueScope Steel" 2017 "emissions_mt_co2" "annual_report";
    mkRule "Tata Steel" 2016 "production_mt" "annual_report";
    mkRule "Tata Steel" 2019 "production_mt" "annual_report";
    mkRule "Tata Steel" 2023 "emissions_mt_co2" "annual_report";
    mkRule "Tata Steel" 2024 "emissions_mt_co2" "annual_report";
    mkRule "Tata Steel" 2025 "emissions_mt_co2" "annual_report";
    mkRule "China Steel" 2019 "production_mt" "annual_report";
    mkRule "China Steel" 2020 "production_mt" "annual_report";
    mkRule "China Steel" 2021 "production_mt" "annual_report";
    mkRule "China Steel" 2020 "emissions_mt_co2" "annual_report";
    mkRule "Steel Dynamics" 2015 "production_mt" "annual_report";
    mkRule "Gerdau" 2019 "production_mt" "annual_report";
    mkRule "Gerdau" 2021 "emissions_mt_co2" "annual_report";
    mkRule "Gerdau" 2023 "emissions_mt_co2" "annual_report";
    mkRule "NLMK" 2020 "emissions_mt_co2" "annual_report";
    mkRule "NLMK" 2021 "emissions_mt_co2" "annual_report" ].

(** The mask of one rule: every column of the rule equals the record's. *)
Definition rule_mask (rule : ExcludeRule) (f : Flagged) : bool :=
  String.eqb (company (record f)) (rule_company rule)
  && (year (record f) =? rule_year rule)%Z
  && String.eqb (metric (record f)) (rule_metric rule)
  && String.eqb (source (record f)) (rule_source rule).

Definition exclude (df : list Flagged) (rule : ExcludeRule) : list Flagged :=
  if existsb (rule_mask rule) df then
    map (fun f =>
           if rule_mask rule f
           then mkFlagged (record f) "excluded: known extraction error"
           else f) df
  else df.

(** [flags.where(flags != "", label)] on the rows of a mask. *)
Definition flag_suspicious (m : string) (bound : Q) (label : string)
  (f : Flagged) : Flagged :=
  if String.eqb (metric (record f)) m && flt (Some bound) (value (record f))
  then (if negb (String.eqb (quality_flag f) "") then f
        else mkFlagged (record f) label)
  else f.

Definition apply_quality_filters (df : list SourceRecord) : list Flagged :=
  let df := map (fun r => mkFlagged r "") df in
  let df := fold_left exclude EXCLUDE_RULES df in
  let df :=
    map (flag_suspicious "production_mt" 100 "suspicious: production > 100 Mt")
      df in
  map (flag_suspicious "emissions_mt_co2" 200 "suspicious: emissions > 200 Mt")
    df.

(** [run_integration], as far as records and flags go: the sources are
    concatenated and flagged, and every record is written to the long-format
    output with its flag.  The scoring steps in between add columns and
    touch neither the rows nor the flags. *)
Definition long_format (ar_df ct_df apa_df : list SourceRecord)
  : list Flagged :=
  apply_quality_filters (ar_df ++ ct_df ++ apa_df)%list.

(** ** Quality scores *)

(** The scores read the record and the text of its [confidence_raw]
    column. *)
Definition compute_reliability (row : SourceRecord) (confidence_raw : string)
  : Q :=
  let score := 0 in
  let score :=
    if String.eqb (source row) "annual_report" then score + 0.50
    else if String.eqb (source row) "climate_trace" then score + 0.35
    else if String.eqb (source row) "apa" then score + 0.35
    else score in
  let conf := lower confidence_raw in
  let score :=
    if String.eqb conf "high" then score + 0.30
    else if String.eqb conf "medium" then score + 0.20
    else if isin conf ["modeled"; "satellite_model"; "asset_level_model"]
    then score + 0.15
    else score + 0.05 in
  let current_year := 2025%Z in
  let age := (current_year - year row)%Z in
  let score :=
    if (age <=? 2)%Z then score + 0.10
    else if (age <=? 5)%Z then score + 0.05
    else score in
  round_nd (py_min score 1.0) 3.

Definition compute_comparability (row : SourceRecord) : Q :=
  if String.eqb (source row) "apa" then 0.95
  else if String.eqb (source row) "climate_trace" then 0.80
  else if String.eqb (source row) "annual_report" then 0.40
  else 0.30.

Definition compute_certainty (row : SourceRecord) (confidence_raw : string)
  : Q :=
  let reliability := compute_reliability row confidence_raw in
  let comparability := compute_comparability row in
  round_nd (0.4 * reliability + 0.6 * comparability) 3.

(** ** Default source selection *)

(** A row as [select_defaults] reads it: its index label, the record and
    its [reliability] column. *)
Record Scored : Type := mkScored {
  label : nat;
  scored : SourceRecord;
  reliability : Q
}.

Definition source_priority : list (string * Q) :=
  [("apa", 0); ("climate_trace", 1); ("annual_report", 2)].

(** [df["source"].map(source_priority).fillna(99)] *)
Definition _source_rank (source : string) : Q :=
  match dict_get source_priority source with
  | Some rank => rank
  | None => 99
  end.

(** The key of [groupby(["company", "year", "metric"])]. *)
Definition group_key (r : SourceRecord) : string * Z * string :=
  (company r, year r, metric r).

Definition group_eqb (a b : string * Z * string) : bool :=
  String.eqb (fst (fst a)) (fst (fst b))
  && (snd (fst a) =? snd (fst b))%Z
  && String.eqb (snd a) (snd b).

(** The order of [sort_values(["_source_rank", "reliability"],
    ascending=[True, False])]. *)
Definition sorts_before (a b : Scored) : bool :=
  Qltb (_source_rank (source (scored a))) (_source_rank (source (scored b)))
  || (Qeq_bool (_source_rank (source (scored a)))
        (_source_rank (source (scored b)))
      && Qltb (reliability b) (reliability a)).

(** The labels the loop over the groups marks: the first row of each sorted
    group.  Each group only sets a flag, so the order in which the groups
    are visited does not matter. *)
Definition best_labels (df : list Scored) : list nat :=
  flat_map
    (fun k =>
       let group :=
         filter (fun r => group_eqb (group_key (scored r)) k) df in
       let sorted_group := sort_by sorts_before group in
       match sorted_group with
       | [] => []
       | best :: _ => [label best]
       end)
    (map (fun r => group_key (scored r))
       (drop_duplicates group_eqb (fun r => group_key (scored r)) df)).

(** The frame with its [is_default] column. *)
Definition select_defaults (df : list Scored) : list (Scored * bool) :=
  map (fun r => (r, existsb (Nat.eqb (label r)) (best_labels df))) df.

(** [run_integration], step 5: the combined frame (indexed from 0) gets the
    [is_default] column of its records without a quality flag, merged back
    by index label; the other records are not defaults. *)
Definition mark_defaults (combined : list (Flagged * Q))
  : list (Flagged * Q * bool) :=
  let indexed := List.combine (seq 0 (List.length combined)) combined in
  let active :=
    filter (fun ir => String.eqb (quality_flag (fst (snd ir))) "") indexed in
  let active :=
    select_defaults
      (map (fun ir => mkScored (fst ir) (record (fst (snd ir))) (snd (snd ir)))
         active) in
  map (fun ir =>
         (snd ir,
          existsb (fun rb => Nat.eqb (label (fst rb)) (fst ir) && snd rb)
            active))
    indexed.

(** ** The bridge from the asset-based results *)

(** The two records [apa_calculator.load_apa_source] makes of a reported row,
    each with its [confidence_raw]: the production it echoes and the
    emissions it computed. *)
Definition apa_records (r : Apa.ApaRow) : list (SourceRecord * string) :=
  [ (mkSourceRecord (Apa.a_company r) (Apa.a_year r) "production_mt"
       (Apa.a_production_mt r) "apa",
     if String.eqb (Apa.a_production_source r) "capacity_estimate"
     then "modeled" else "reported");
    (mkSourceRecord (Apa.a_company r) (Apa.a_year r) "emissions_mt_co2"
       (Some (Apa.a_emissions_mt r)) "apa",
     "modeled") ].

Section Bridge.

Variable re_search : string -> string -> bool.

Definition load_apa_source (all_plants : list Apa.Plant) (src : Apa.Sources)
  (country_prod_map : list ((string * Z) * list (string * Q)))
  : pyres (list (SourceRecord * string)) :=
  apa <- Apa.run_apa_all re_search all_plants src country_prod_map ;;
  Ret (flat_map apa_records apa).

End Bridge.

(** ** Company name harmonization *)

(** Variant names (lowercase) and their canonical company names, in the
    order of the source. *)
Definition COMPANY_CANONICAL : list (string * string) :=
  [
    ("arcelormittal", "ArcelorMittal");
    ("arcelor mittal", "ArcelorMittal");
    ("arcelormittal atlantique et lorraine sas", "ArcelorMittal");
    ("arcelormittal brasil sa", "ArcelorMittal");
    ("arcelormittal bremen gmbh", "ArcelorMittal");
    ("arcelormittal dofasco gp", "ArcelorMittal");
    ("arcelormittal duisburg gmbh", "ArcelorMittal");
    ("arcelormittal eisenhüttenstadt gmbh", "ArcelorMittal");
    ("arcelormittal españa sa", "ArcelorMittal");
    ("arcelormittal hamburg gmbh", "ArcelorMittal");
    ("arcelormittal hunedoara sa", "ArcelorMittal");
    ("arcelormittal kryvyi rih pjsc", "ArcelorMittal");
    ("arcelormittal long products canada gp", "ArcelorMittal");
    ("arcelormittal méditerranée sas", "ArcelorMittal");
    ("arcelormittal méxico sa de cv", "ArcelorMittal");
    ("arcelormittal nippon steel india ltd", "ArcelorMittal");
    ("arcelormittal poland sa", "ArcelorMittal");
    ("arcelormittal sa", "ArcelorMittal");
    ("arcelormittal south africa ltd", "ArcelorMittal");
    ("arcelormittal tubarão comercial sa", "ArcelorMittal");
    ("arcelormittal zenica doo", "ArcelorMittal");
    ("arcelormittal olaberria-bergara sl", "ArcelorMittal");
    ("arcelormittal sestao sl", "ArcelorMittal");
    ("arcelormittal warszawa sp zoo", "ArcelorMittal");
    ("tata steel", "Tata Steel");
    ("tata steel (thailand) pcl", "Tata Steel");
    ("tata steel ijmuiden bv", "Tata Steel");
    ("tata steel long products ltd", "Tata Steel");
    ("tata steel ltd", "Tata Steel");
    ("tata steel uk ltd", "Tata Steel");
    ("jsw steel", "JSW Steel");
    ("jsw steel ltd", "JSW Steel");
    ("jsw ispat special products ltd", "JSW Steel");
    ("jsw steel usa ohio inc", "JSW Steel");
    ("nippon steel", "Nippon Steel");
    ("nippon steel corp", "Nippon Steel");
    ("posco", "POSCO Holdings");
    ("posco holdings", "POSCO Holdings");
    ("posco holdings inc", "POSCO Holdings");
    ("pt krakatau posco", "POSCO Holdings");
    ("posco (zhangjiagang) stainless steel co ltd", "POSCO Holdings");
    ("posco vietnam co ltd", "POSCO Holdings");
    ("ssab", "SSAB");
    ("ssab ab", "SSAB");
    ("ssab americas holding ab", "SSAB");
    ("thyssenkrupp", "ThyssenKrupp");
    ("thyssenkrupp steel europe ag", "ThyssenKrupp");
    ("nucor", "Nucor");
    ("nucor corp", "Nucor");
    ("nucor steel decatur llc", "Nucor");
    ("nucor steel kankakee inc", "Nucor");
    ("nucor steel memphis inc", "Nucor");
    ("nucor steel seattle inc", "Nucor");
    ("nucor steel tuscaloosa inc", "Nucor");
    ("nucor yamato steel co", "Nucor");
    ("jfe holdings", "JFE Holdings");
    ("jfe steel corp", "JFE Holdings");
    ("jfe bars & shapes corp", "JFE Holdings");
    ("gerdau", "Gerdau");
    ("gerdau acominas sa", "Gerdau");
    ("gerdau acos longos sa", "Gerdau");
    ("gerdau ameristeel corp", "Gerdau");
    ("gerdau corsa sapi de cv", "Gerdau");
    ("gerdau sa", "Gerdau");
    ("baoshan iron & steel", "Baoshan Iron & Steel");
    ("bluescope steel", "BlueScope Steel");
    ("china steel", "China Steel");
    ("severstal", "Severstal");
    ("pao severstal", "Severstal");
    ("us steel", "US Steel");
    ("united states steel", "US Steel");
    ("united states steel corp", "US Steel");
    ("hyundai steel", "Hyundai Steel");
    ("hyundai steel co", "Hyundai Steel");
    ("hyundai steel co ltd", "Hyundai Steel");
    ("cleveland-cliffs", "Cleveland-Cliffs");
    ("cleveland cliffs", "Cleveland-Cliffs");
    ("cleveland-cliffs inc", "Cleveland-Cliffs");
    ("ak steel", "Cleveland-Cliffs");
    ("kobe steel", "Kobe Steel");
    ("kobe steel ltd", "Kobe Steel");
    ("kobelco", "Kobe Steel");
    ("voestalpine", "voestalpine");
    ("voestalpine ag", "voestalpine");
    ("voestalpine stahl gmbh", "voestalpine");
    ("sail", "SAIL");
    ("steel authority of india", "SAIL");
    ("steel authority of india ltd", "SAIL");
    ("steel dynamics", "Steel Dynamics");
    ("steel dynamics inc", "Steel Dynamics");
    ("sdi", "Steel Dynamics");
    ("salzgitter", "Salzgitter");
    ("salzgitter ag", "Salzgitter");
    ("salzgitter flachstahl gmbh", "Salzgitter");
    ("ternium", "Ternium");
    ("ternium sa", "Ternium");
    ("techint", "Ternium");
    ("nlmk", "NLMK");
    ("novolipetsk", "NLMK");
    ("novolipetsk steel", "NLMK");
    ("nlmk pao", "NLMK");
    ("evraz", "Evraz");
    ("evraz plc", "Evraz");
    ("evraz group", "Evraz");
    ("liberty steel", "Liberty Steel");
    ("gfg alliance", "Liberty Steel");
    ("liberty steel group", "Liberty Steel") ].

(** [harmonize_company]: a missing name stays missing; the exact key wins,
    then the first entry whose key is a prefix of the name's key or has it
    as a prefix; an unmatched name is returned as it came. *)
Definition harmonize_company (name : option string) : option string :=
  match name with
  | None => None
  | Some name =>
      let key := lower (strip name) in
      match dict_get COMPANY_CANONICAL key with
      | Some canonical => Some canonical
      | None =>
          match find (fun entry =>
                        String.prefix (fst entry) key
                        || String.prefix key (fst entry))
                  COMPANY_CANONICAL with
          | Some (_, canonical) => Some canonical
          | None => Some name
          end
      end
  end.

End Integrate.

(* ================================================================== *)
(** * Vocabulary of the properties, and concrete fleets *)
(* ================================================================== *)

(** A scheduled addition: a row of a unit under construction or announced. *)
Definition is_addition (r : Tp.DetailRow) : bool :=
  isin (lower (Tp.d_unit_status r)) ["construction"; "announced"].

(** A retired furnace without a retirement date whose closure had been
    announced in 2015. *)
Definition retired_undated_unit : Kampmann.Unit :=
  Kampmann.mkUnit "P100000120438" "P100000120438-BOF1" "BOF 1"
    "Kashima steel plant" (Some "Nippon Steel") "Japan" "retired"
    (Some 1971) (Some 2015) nan (Some 3000) "bof" "BF-BOF".

(** A trajectory whose trusted base value equals its raw base value. *)
Definition scale_one_annual : list Tp.RawAnnual :=
  [ Tp.mkRawAnnual "SSAB" 2024 2.0 1.0 1 1250;
    Tp.mkRawAnnual "SSAB" 2025 1.2346 0.6173 1 1250 ].

(** What a row of an anchored trajectory holds, for a given scale. *)
Definition scaled_by (s : Q) (row : Tp.Annual) : Prop :=
  Tp.emissions_mt row = round_nd (Tp.emissions_raw (Tp.raw row) * s) 3
  /\ Tp.production_mt row = round_nd (Tp.production_raw (Tp.raw row) * s) 3.

(** What a row holds when the raw values are only rounded for reporting. *)
Definition raw_rounded (row : Tp.Annual) : Prop :=
  Tp.emissions_mt row = round_nd (Tp.emissions_raw (Tp.raw row)) 3
  /\ Tp.production_mt row = round_nd (Tp.production_raw (Tp.raw row)) 3.

(** The entries of the country loop's state. *)
Definition row_of (e : Apa.BreakdownRow * float * bool) : Apa.BreakdownRow :=
  fst (fst e).

Definition alloc_of (e : Apa.BreakdownRow * float * bool) : float :=
  snd (fst e).

(** The capacity of the rows of one region. *)
Definition region_capacity (breakdown : list Apa.BreakdownRow) (c : string) : Q :=
  series_sum
    (map Apa.b_capacity_mt
       (filter (fun b => String.eqb (Apa.b_country b) c) breakdown)).

(** The sub-targets that are applied: those of regions with capacity. *)
Definition applied_sub_targets (breakdown : list Apa.BreakdownRow)
  (items : list (string * Q)) : list (string * Q) :=
  filter (fun it => Qltb 0 (region_capacity breakdown (fst it))) items.

Definition has_sub_target (applied : list (string * Q))
  (b : Apa.BreakdownRow) : bool :=
  existsb (fun it => String.eqb (Apa.b_country b) (fst it)) applied.

(** The capacity of the rows whose region has no applied sub-target. *)
Definition unassigned_capacity (breakdown : list Apa.BreakdownRow)
  (applied : list (string * Q)) : Q :=
  series_sum
    (map Apa.b_capacity_mt
       (filter (fun b => negb (has_sub_target applied b)) breakdown)).

(** The items of [country_production]; [None] and the empty dictionary are
    both falsy. *)
Definition sub_targets (country_production : option (list (string * Q)))
  : list (string * Q) :=
  match country_production with Some items => items | None => [] end.

(** A search that reads its pattern as a literal, ignoring case.  It agrees
    with a regular-expression search on patterns without metacharacters, the
    only ones the concrete examples below rely on. *)
Definition literal_search (pattern text : string) : bool :=
  contains (lower pattern) (lower text).

(** A company whose only plant is in Japan. *)
Definition one_plant_fleet : list Apa.Plant :=
  [ Apa.mkPlant "P100000120438" (Some "Kashima steel plant") "Japan"
      (Some "Nippon Steel Corp") "operating" (Some 10000) "BF-BOF" 2.05
      (Some 1971) ].

Definition in_band (s : Z * Q) : Prop := 0.1 <= snd s /\ snd s <= 1.5.

Definition plausible (row : Apa.ApaRow) : Prop :=
  flt (Some 1.5) (Apa.a_utilization_rate row) = false.

(** An emissions figure above the integration step's bound of 200 Mt. *)
Definition high_emissions (r : Integrate.SourceRecord) : bool :=
  String.eqb (Integrate.metric r) "emissions_mt_co2"
  && flt (Some 200) (Integrate.value r).

(** One reported production figure of 20 Mt for a company whose only plant
    has a capacity of 10 Mt. *)
Definition overstated_sources : Apa.Sources :=
  Apa.mkSources [ ("Nippon Steel", 2020%Z, Some 20) ] [] [] [] [].

(** A company with a plant in Japan and a plant in India; only Japan has a
    sub-target. *)
Definition two_plant_fleet : list Apa.Plant :=
  [ Apa.mkPlant "P100000120438" (Some "Kashima steel plant") "Japan"
      (Some "Nippon Steel Corp") "operating" (Some 10000) "BF-BOF" 2.05
      (Some 1971);
    Apa.mkPlant "P100000120999" (Some "Hazira steel plant") "India"
      (Some "Nippon Steel Corp; ArcelorMittal") "operating" (Some 5000) "DRI"
      3.10 (Some 1990) ].

(** Extractions and curated figures of two companies: one extraction on the
    exclusion list, one that is not, and a curated figure under the name of
    the curated file. *)
Definition three_source_production : Apa.Sources :=
  Apa.mkSources []
    [ Apa.mkExtractedRow "JFE Holdings" 2015 "production_mt" (Some 100);
      Apa.mkExtractedRow "JFE Holdings" 2018 "production_mt" (Some 29.0);
      Apa.mkExtractedRow "JFE Holdings" 2018 "emissions_mt" (Some 58.9) ]
    [ ("JFE Holdings", 2015%Z, Some 29.8);
      ("JFE Holdings", 2018%Z, Some 29.2);
      ("POSCO", 2020%Z, Some 35.9) ] [] [].

Definition cancelled_unit : Kampmann.Unit :=
  Kampmann.mkUnit "P100000120672" "P100000120672-EAF2" "EAF 2"
    "Gary Works" (Some "Nippon Steel Corp") "United States" "cancelled"
    (Some 2027) nan nan (Some 1500) "eaf" "Scrap-EAF".

Definition cancelled_plant : Apa.Plant :=
  Apa.mkPlant "P100000120672" (Some "Gary Works") "United States"
    (Some "Nippon Steel Corp") "Cancelled" (Some 1500) "EAF" 0.04 (Some 2020).

Definition closing_unit : Kampmann.Unit :=
  Kampmann.mkUnit "P100000120438" "P100000120438-BOF2" "BOF 2"
    "Kashima steel plant" (Some "Nippon Steel Corp") "Japan"
    "operating pre-retirement" (Some 1975) (Some 2023) (Some 2030)
    (Some 2500) "bof" "BF-BOF".

Definition announced_unit : Kampmann.Unit :=
  Kampmann.mkUnit "P100000120672" "P100000120672-EAF3" "EAF 3"
    "Gary Works" (Some "Nippon Steel Corp") "United States" "announced"
    (Some 2028) nan nan (Some 1500) "eaf" "Scrap-EAF".

Definition announced_plant : Apa.Plant :=
  Apa.mkPlant "P100000120672" (Some "Gary Works") "United States"
    (Some "Nippon Steel Corp") "announced" (Some 1500) "EAF" 0.04 (Some 2020).

(** A process text that names a technology with a static emission factor:
    any of the keywords the lookup tests before its BF-BOF default. *)
Definition names_static_process (process : string) : bool :=
  let p := lower process in
  contains "dri" p || contains "eaf" p || contains "electric" p
  || contains "scrap" p || contains "h2" p || contains "hydrogen" p.

(** A year within 100000 years of the reference year of the emission
    factors: for such a year the double power [0.995 ** (year - 2020)] is a
    normal number, neither rounded to 0.0 nor out of range. *)
Definition ordinary_year (year : Z) : bool :=
  (-100000 <=? year - Apa.EF_REFERENCE_YEAR)%Z
  && (year - Apa.EF_REFERENCE_YEAR <=? 100000)%Z.

(** [s[n:]] *)
Fixpoint string_drop (n : nat) (s : string) : string :=
  match n, s with
  | O, _ => s
  | S n', String _ s' => string_drop n' s'
  | S _, EmptyString => EmptyString
  end.

(** The pattern [(19|20)\d{2}] matches [s] at position [i], where it spells
    [n], and at no earlier position. *)
Definition first_year_match (s : string) (i : nat) (n : Z) : bool :=
  match year_at (string_drop i s) with
  | Some m => (m =? n)%Z
  | None => false
  end
  && forallb (fun j => negb (notna (year_at (string_drop j s)))) (seq 0 i).

(** The classes [_determine_process] assigns. *)
Definition process_classes : list string := ["BF-BOF"; "DRI"; "EAF"; "H2-DRI"].

(** A capacity that is known and positive. *)
Definition positive_capacity (c : float) : bool := notna c && flt (Some 0) c.

(** The pattern a company's parent text is searched for. *)
Definition gem_pattern (company : string) : string :=
  match dict_get Apa.COMPANY_GEM_PATTERNS company with
  | Some pat => pat
  | None => company
  end.

(** The plant-name pattern of the plants U.S. Steel brought to Nippon Steel. *)
Definition us_steel_name_pattern : string := "U\.?S\.?\s*Steel".

(** The DRI and the EAF entry of an integrated plant in New Zealand. *)
Definition glenbrook_dri : Apa.Plant :=
  Apa.mkPlant "P100000120620" (Some "New Zealand Steel Glenbrook plant")
    "New Zealand" (Some "BlueScope Steel Ltd") "operating" (Some 650) "DRI"
    0 (Some 1969).

Definition glenbrook_eaf : Apa.Plant :=
  Apa.mkPlant "P100000120620" (Some "New Zealand Steel Glenbrook plant")
    "New Zealand" (Some "BlueScope Steel Ltd") "construction" (Some 300) "EAF"
    0 (Some 2026).

(** Country-level production rows of one company-year: two countries with a
    positive production and one without. *)
Definition tata_country_rows : list Apa.CountryRow :=
  [ Apa.mkCountryRow "Tata Steel" 2020 "India" (Some 18000);
    Apa.mkCountryRow "Tata Steel" 2020 "Netherlands" (Some 6500);
    Apa.mkCountryRow "Tata Steel" 2020 "United Kingdom" (Some 0) ].

(** Trusted figures of one company for 2022 and 2023, none for 2024. *)
Definition ssab_apa_rows : list Tp.ApaEmissions :=
  [ Tp.mkApaEmissions "SSAB" 2022 (Some 9.8) (Some 7.5);
    Tp.mkApaEmissions "SSAB" 2023 (Some 9.5) (Some 7.3);
    Tp.mkApaEmissions "Nucor" 2024 (Some 11.0) (Some 21.0) ].

(** A blast-oxygen furnace in Sweden that runs over the whole horizon. *)
Definition ssab_unit : Kampmann.Unit :=
  Kampmann.mkUnit "P100000120510" "P100000120510-BOF1" "BOF 1"
    "SSAB Lulea steel plant" (Some "SSAB AB") "Sweden" "operating"
    (Some 1975) nan nan (Some 2300) "bof" "BF-BOF".

(** The provenance labels of an inferred closure year. *)
Definition close_sources : list string :=
  [ "gem_retired_date"; "gem_status_inferred"; "gem_planned_retirement";
    "inferred_5yr_from_announcement"; "default_2030"; "none" ].

(** A record that a rule of the exclusion list names. *)
Definition matches_rule (r : Integrate.SourceRecord)
  (rule : Integrate.ExcludeRule) : bool :=
  String.eqb (Integrate.company r) (Integrate.rule_company rule)
  && (Integrate.year r =? Integrate.rule_year rule)%Z
  && String.eqb (Integrate.metric r) (Integrate.rule_metric rule)
  && String.eqb (Integrate.source r) (Integrate.rule_source rule).

(** The quality flag of a record, read off the record alone. *)
Definition expected_flag (r : Integrate.SourceRecord) : string :=
  if existsb (matches_rule r) Integrate.EXCLUDE_RULES
  then "excluded: known extraction error"
  else if String.eqb (Integrate.metric r) "production_mt"
          && flt (Some 100) (Integrate.value r)
  then "suspicious: production > 100 Mt"
  else if String.eqb (Integrate.metric r) "emissions_mt_co2"
          && flt (Some 200) (Integrate.value r)
  then "suspicious: emissions > 200 Mt"
  else "".

(** A record named by the exclusion list whose value is also above the
    production bound. *)
Definition jfe_record : Integrate.SourceRecord :=
  Integrate.mkSourceRecord "JFE Holdings" 2015 "production_mt" (Some 150)
    "annual_report".

(** What an estimated production row is: a row for a year to fill and a
    company-year without a production figure, worth the capacity of that year
    times a utilization rate within the sanity bounds. *)
Definition fills_gap (re_search : string -> string -> bool)
  (all_plants : list Apa.Plant) (production : list Apa.ProdRow)
  (fill_years : list Z) (r : Apa.ProdRow) : Prop :=
  Apa.pr_production_source r = "capacity_estimate"
  /\ In (Apa.pr_year r) fill_years
  /\ ~ In (Apa.key_of r) (map Apa.key_of production)
  /\ In (Apa.pr_company r) (map Apa.pr_company production)
  /\ exists avg,
      0.1 <= avg /\ avg <= 1.5
      /\ 0 < Apa.company_capacity_mt re_search all_plants (Apa.pr_company r)
               (Apa.pr_year r)
      /\ Apa.pr_production_mt r
         = Some (round_nd
                   (Apa.company_capacity_mt re_search all_plants
                      (Apa.pr_company r) (Apa.pr_year r) * avg) 3).

(** The company-year of a reported row. *)
Definition apa_key (r : Apa.ApaRow) : string * Z :=
  (Apa.a_company r, Apa.a_year r).

(** A reported row that stems from a production row: same company, year,
    production figure and source label. *)
Definition reports (p : Apa.ProdRow) (r : Apa.ApaRow) : Prop :=
  Apa.a_company r = Apa.pr_company p
  /\ Apa.a_year r = Apa.pr_year p
  /\ Apa.a_production_mt r = Apa.pr_production_mt p
  /\ Apa.a_production_source r = Apa.pr_production_source p.

(** One reported production figure of 8 Mt, for 2020. *)
Definition reported_2020 : list Apa.ProdRow :=
  [ Apa.mkProdRow "Nippon Steel" 2020 (Some 8) "bau_reported" ].

(** The emission factor the allocator applies to a plant: the factor of the
    year when a year is given, the stored one otherwise. *)
Definition plant_factor (year : option Z) (p : Apa.Plant) : Q :=
  Apa.b_ef (Apa.make_breakdown year p).

(** A year of the audit trajectory in which no unit is active. *)
Definition zero_row (r : Kampmann.TrajectoryRow) : Prop :=
  Kampmann.n_active_units r = 0%nat
  /\ Kampmann.gem_tp_production_mt r = Some 0
  /\ Kampmann.gem_tp_emissions_mt r = Some 0
  /\ Kampmann.active_capacity_ttpa r = 0.

(** The DRI units of a plant, with their reductant. *)
Definition dri_units_at (units_df : list (Kampmann.Unit * string))
  (plant : string) : list (Kampmann.Unit * string) :=
  filter (fun r => String.eqb (Kampmann.plant_name (fst r)) plant)
    (filter (fun r => String.eqb (Kampmann.unit_type (fst r)) "dri") units_df).

(** A plant name that is neither empty nor the text of a missing value. *)
Definition named (plant : string) : bool :=
  negb (String.eqb plant "" || String.eqb plant "nan").

(** The process of the electric furnaces of a plant, read off the plant's DRI
    units whatever their order: hydrogen before coal before gas. *)
Definition eaf_process (re_search : string -> string -> bool)
  (units_df : list (Kampmann.Unit * string)) (plant : string) : string :=
  let rows := dri_units_at units_df plant in
  let labels := map (fun r => Tp.reductant_process (snd r)) rows in
  if (named plant && isin "DRI-H2" labels)
     || (negb (empty rows) && Tp.known_h2_project re_search plant)
  then "DRI-H2"
  else if named plant && isin "DRI-coal" labels then "DRI-coal"
  else if named plant && negb (empty rows) then "DRI-gas"
  else "Scrap-EAF".

(** The process labels of the steel-making units. *)
Definition unit_processes : list string :=
  [ "BF-BOF"; "Scrap-EAF"; "DRI-gas"; "DRI-coal"; "DRI-H2" ].

(** The state of a plant's entry while its DRI units are read in turn. *)
Definition merge_label (current : option string) (dri_process : string)
  : option string :=
  match current with
  | None => Some dri_process
  | Some c =>
      if String.eqb dri_process "DRI-H2" then Some "DRI-H2"
      else if String.eqb dri_process "DRI-coal" && negb (String.eqb c "DRI-H2")
      then Some "DRI-coal"
      else Some c
  end.

(** The company-year frame of a company in the no-closure batch. *)
Definition bau_annual (re_search : string -> string -> bool)
  (steel_units : list Kampmann.Unit) (apa_df : list Tp.ApaEmissions)
  (base_year end_year : Z) (company : string) : list Tp.Annual :=
  fst (Tp.generate_company_bau re_search steel_units company apa_df base_year
         end_year).

(** A company the no-closure batch gets past: it has no projection, or its
    summary line can be formatted. *)
Definition summary_passes (re_search : string -> string -> bool)
  (steel_units : list Kampmann.Unit) (apa_df : list Tp.ApaEmissions)
  (base_year end_year : Z) (company : string) : bool :=
  let annual := bau_annual re_search steel_units apa_df base_year end_year
                  company in
  empty annual
  || match Tp.bau_summary_line annual base_year end_year with
     | Tp.Returns _ => true
     | _ => false
     end.

(** The rows and the detail a company contributes to the no-closure batch. *)
Definition bau_rows (re_search : string -> string -> bool)
  (steel_units : list Kampmann.Unit) (apa_df : list Tp.ApaEmissions)
  (base_year end_year : Z) (company : string) : list Tp.BatchRow :=
  let annual := bau_annual re_search steel_units apa_df base_year end_year
                  company in
  if empty annual
  then Tp.constant_fallback company apa_df base_year end_year
  else map (Tp.projected_row "gem_plant_level_bau") annual.

Definition bau_detail (re_search : string -> string -> bool)
  (steel_units : list Kampmann.Unit) (apa_df : list Tp.ApaEmissions)
  (base_year end_year : Z) (company : string) : list Tp.DetailRow :=
  if empty (bau_annual re_search steel_units apa_df base_year end_year company)
  then []
  else snd (Tp.generate_company_bau re_search steel_units company apa_df
              base_year end_year).

(** A single furnace under construction that starts two years after the
    base year. *)
Definition late_unit : Kampmann.Unit :=
  Kampmann.mkUnit "P100000120438" "P100000120438-EAF1" "EAF 1"
    "Kimitsu steel plant" (Some "ArcelorMittal SA") "Japan" "construction"
    (Some 2026) nan nan (Some 1200) "eaf" "Scrap-EAF".

Definition arcelor_apa_rows : list Tp.ApaEmissions :=
  [ Tp.mkApaEmissions "ArcelorMittal" 2024 (Some 110) (Some 58) ].

(** The vocabulary of the default selection: the group and the source rank
    of a flagged record, the defaults of a group in the output, and the
    rows the selection reads. *)
Definition group_of (f : Integrate.Flagged) : string * Z * string :=
  Integrate.group_key (Integrate.record f).

Definition rank_of (f : Integrate.Flagged) : Q :=
  Integrate._source_rank (Integrate.source (Integrate.record f)).

Definition defaults_of (k : string * Z * string)
  (out : list (Integrate.Flagged * Q * bool))
  : list (Integrate.Flagged * Q * bool) :=
  filter (fun o => snd o && Integrate.group_eqb (group_of (fst (fst o))) k)
    out.

Definition to_scored (ir : nat * (Integrate.Flagged * Q))
  : Integrate.Scored :=
  Integrate.mkScored (fst ir) (Integrate.record (fst (snd ir)))
    (snd (snd ir)).

Definition unflagged (ir : nat * (Integrate.Flagged * Q)) : bool :=
  String.eqb (Integrate.quality_flag (fst (snd ir))) "".

(** The first row of the sorted group of a row. *)
Definition is_best (df : list Integrate.Scored) (r : Integrate.Scored)
  : Prop :=
  exists t,
    sort_by Integrate.sorts_before
      (filter (fun x => Integrate.group_eqb
                          (Integrate.group_key (Integrate.scored x))
                          (Integrate.group_key (Integrate.scored r))) df)
    = r :: t.

(** Three records of one company, year and metric: the annual report is
    excluded by a rule, the two models are not flagged. *)
Definition jfe_sources : list (Integrate.Flagged * Q) :=
  [ (Integrate.mkFlagged jfe_record "excluded: known extraction error", 0.85);
    (Integrate.mkFlagged
       (Integrate.mkSourceRecord "JFE Holdings" 2015 "production_mt"
          (Some 27.1) "climate_trace") "", 0.55);
    (Integrate.mkFlagged
       (Integrate.mkSourceRecord "JFE Holdings" 2015 "production_mt"
          (Some 28) "apa") "", 0.50) ].

(** The company-year frame, the rows and the detail a company contributes to
    the planned-transition batch. *)
Definition tp_annual (re_search : string -> string -> bool)
  (steel_units : list Kampmann.Unit) (apa_df : list Tp.ApaEmissions)
  (base_year end_year : Z) (company : string) : list Tp.Annual :=
  fst (Tp.generate_company_tp re_search steel_units company apa_df base_year
         end_year).

Definition tp_rows (re_search : string -> string -> bool)
  (steel_units : list Kampmann.Unit) (apa_df : list Tp.ApaEmissions)
  (base_year end_year : Z) (company : string) : list Tp.BatchRow :=
  let annual := tp_annual re_search steel_units apa_df base_year end_year
                  company in
  if empty annual
  then Tp.constant_fallback company apa_df base_year end_year
  else map (Tp.projected_row "gem_plant_level") annual.

Definition tp_detail (re_search : string -> string -> bool)
  (steel_units : list Kampmann.Unit) (apa_df : list Tp.ApaEmissions)
  (base_year end_year : Z) (company : string) : list Tp.DetailRow :=
  if empty (tp_annual re_search steel_units apa_df base_year end_year company)
  then []
  else snd (Tp.generate_company_tp re_search steel_units company apa_df
              base_year end_year).

(** Two trusted rows of a company without furnaces in the inventory. *)
Definition nlmk_apa_rows : list Tp.ApaEmissions :=
  [ Tp.mkApaEmissions "NLMK" 2024 (Some 30.1234) (Some 17);
    Tp.mkApaEmissions "NLMK" 2025 (Some 28.4567) nan ].

(** A text of ASCII characters only, on which [str.lower] and [str.strip]
    are the ASCII ones. *)
Definition is_ascii (s : string) : bool :=
  forallb (fun c => (N_of_ascii c <? 128)%N) (list_ascii_of_string s).

(** The key of a name is related to a variant: one is a prefix of the
    other. *)
Definition prefix_related (key variant : string) : bool :=
  String.prefix variant key || String.prefix key variant.

(* ================================================================== *)
(** * Properties *)
(* ================================================================== *)

(** ** Arithmetic and list helpers *)

Lemma Qltb_lt (a b : Q) : Qltb a b = true <-> a < b.
Proof.
  unfold Qltb. rewrite negb_true_iff. split.
  - intros H. apply Qnot_le_lt. intros Hle.
    apply Qle_bool_iff in Hle. congruence.
  - intros H. destruct (Qle_bool b a) eqn:E; [|reflexivity].
    apply Qle_bool_iff in E. exfalso. exact (Qlt_not_le _ _ H E).
Qed.

Lemma Qltb_ge (a b : Q) : Qltb a b = false <-> b <= a.
Proof.
  unfold Qltb. rewrite negb_false_iff. apply Qle_bool_iff.
Qed.





Lemma Forall_flat_map {A B : Type} (P : B -> Prop) (f : A -> list B)
  (l : list A) :
  (forall a, In a l -> Forall P (f a)) -> Forall P (flat_map f l).
Proof.
  intros H. apply Forall_forall. intros b Hb.
  apply in_flat_map in Hb. destruct Hb as (a & Ha & Hb).
  specialize (H a Ha). rewrite Forall_forall in H. auto.
Qed.

Lemma insert_by_in_any {A : Type} (lt : A -> A -> bool) (x y : A)
  (l : list A) :
  In y (insert_by lt x l) <-> y = x \/ In y l.
Proof.
  induction l as [|z l IH]; cbn.
  - intuition.
  - destruct (lt z x); cbn; rewrite ?IH; intuition.
Qed.

Lemma sort_by_in_any {A : Type} (lt : A -> A -> bool) (y : A) (l : list A) :
  In y (sort_by lt l) <-> In y l.
Proof.
  induction l as [|x l IH]; cbn; [reflexivity|].
  rewrite insert_by_in_any, IH. intuition.
Qed.

(** ** The calibrated utilization rate *)



(** ** The lifecycle filter *)

Lemma isin_cases (s : string) (l : list string) :
  isin s l = true -> In s l.
Proof.
  unfold isin. intros H. apply existsb_exists in H.
  destruct H as (x & Hx & E). apply String.eqb_eq in E. subst. exact Hx.
Qed.

(** What a detail row says about the unit and the year it was written for. *)
Lemma unit_rows_spec (company : string) (base_ur : Q) (year : Z)
  (uc : Kampmann.Unit * float) (r : Tp.DetailRow) :
  In r (Tp.unit_rows company base_ur year uc) ->
  Tp._unit_is_active (fst uc) year (snd uc) = true
  /\ Tp.d_unit_status r = Kampmann.unit_status (fst uc)
  /\ Tp.d_year r = year.
Proof.
  unfold Tp.unit_rows. intros H.
  destruct (Tp._unit_is_active (fst uc) year (snd uc)); [|contradiction].
  destruct (Kampmann.capacity_ttpa (fst uc)) as [cap|]; [|contradiction].
  destruct (Qle_bool cap 0); [contradiction|].
  destruct H as [<-|[]]. auto.
Qed.

Lemma cancelled_inactive (u : Kampmann.Unit) (year : Z) (close_year : float) :
  lower (Kampmann.unit_status u) = "cancelled" ->
  Tp._unit_is_active u year close_year = false.
Proof.
  intros H. unfold Tp._unit_is_active. rewrite H. reflexivity.
Qed.

Lemma build_rows_active (re_search : string -> string -> bool)
  (steel_units : list Kampmann.Unit) (company : string)
  (base_year end_year : Z) (base_ur : Q) (skip_closures : bool)
  (r : Tp.DetailRow) :
  In r (Tp.build_plant_level_tp re_search steel_units company base_year
          end_year base_ur skip_closures) ->
  exists u c, Tp._unit_is_active u (Tp.d_year r) c = true
              /\ Tp.d_unit_status r = Kampmann.unit_status u.
Proof.
  unfold Tp.build_plant_level_tp. destruct (empty _); [contradiction|].
  intros H. apply in_flat_map in H. destruct H as (y & _ & H).
  apply in_flat_map in H. destruct H as (uc & _ & H).
  apply unit_rows_spec in H. destruct H as (Ha & Hs & Hy).
  exists (fst uc), (snd uc). subst y. auto.
Qed.

(** C4. A unit whose status reads "cancelled" is inactive in every year and
    for every close year, so under the planned-transition and the no-closure
    policy alike; no detail row of either projection belongs to a cancelled
    unit; and the historical year filter never keeps a cancelled plant. *)
Theorem cancelled_never_active :
  (forall (u : Kampmann.Unit),
      lower (Kampmann.unit_status u) = "cancelled" ->
      forall year close_year, Tp._unit_is_active u year close_year = false)
  /\ (forall re_search steel_units company base_year end_year base_ur
             skip_closures,
         Forall (fun r => lower (Tp.d_unit_status r) <> "cancelled")
           (Tp.build_plant_level_tp re_search steel_units company base_year
              end_year base_ur skip_closures))
  /\ (forall (p : Apa.Plant),
         lower (Apa.status p) = "cancelled" ->
         forall all_plants year,
           ~ In p (Apa.get_plants_for_year all_plants year)).
Proof.
  split; [|split].
  - intros u H year close_year. apply cancelled_inactive. exact H.
  - intros. apply Forall_forall. intros r Hr Hc.
    apply build_rows_active in Hr. destruct Hr as (u & c & Ha & Hs).
    rewrite Hs in Hc. rewrite (cancelled_inactive u _ c Hc) in Ha.
    discriminate.
  - intros p H all_plants year Hin.
    unfold Apa.get_plants_for_year in Hin. apply filter_In in Hin.
    destruct Hin as [_ Hm]. rewrite H in Hm. discriminate.
Qed.

(** C8. The historical year filter (the strict policy) never keeps a plant
    whose status reads "announced"; the projection's activity test (the
    relaxed policy) gives an announced unit no close year and counts it as
    active exactly when its start year is unknown or not after the year. *)
Theorem announced_only_under_relaxed_policy :
  (forall (p : Apa.Plant),
      lower (Apa.status p) = "announced" ->
      forall all_plants year,
        ~ In p (Apa.get_plants_for_year all_plants year))
  /\ (forall (u : Kampmann.Unit),
         lower (Kampmann.unit_status u) = "announced" ->
         Tp._infer_close_year u = nan
         /\ forall year,
             Tp._unit_is_active u year (Tp._infer_close_year u)
             = negb (flt (Some (inject_Z year)) (Kampmann.start_year u))).
Proof.
  split.
  - intros p H all_plants year Hin.
    unfold Apa.get_plants_for_year in Hin. apply filter_In in Hin.
    destruct Hin as [_ Hm]. rewrite H in Hm. discriminate.
  - intros u H.
    assert (Hc : Tp._infer_close_year u = nan).
    { unfold Tp._infer_close_year. rewrite H. reflexivity. }
    split; [exact Hc|]. intros year. rewrite Hc.
    unfold Tp._unit_is_active. rewrite H. cbn.
    destruct (Kampmann.start_year u) as [s|]; cbn; [|reflexivity].
    destruct (Qltb (inject_Z year) s); reflexivity.
Qed.

(** ** Planned transition against no closure *)

Lemma active_without_closure (u : Kampmann.Unit) (year : Z) (close_year : float) :
  Tp._unit_is_active u year close_year = true ->
  Tp._unit_is_active u year nan = true.
Proof.
  unfold Tp._unit_is_active.
  destruct (String.eqb _ "cancelled"); [discriminate|].
  destruct (notna (Kampmann.start_year u) && _); [discriminate|].
  reflexivity.
Qed.

Lemma unit_rows_without_closure (company : string) (base_ur : Q) (year : Z)
  (u : Kampmann.Unit) (close_year : float) (r : Tp.DetailRow) :
  In r (Tp.unit_rows company base_ur year (u, close_year)) ->
  In r (Tp.unit_rows company base_ur year (u, nan)).
Proof.
  unfold Tp.unit_rows. cbn [fst snd].
  destruct (Tp._unit_is_active u year close_year) eqn:E; [|contradiction].
  rewrite (active_without_closure _ _ _ E). trivial.
Qed.

Lemma build_tp_incl_bau (re_search : string -> string -> bool)
  (steel_units : list Kampmann.Unit) (company : string)
  (base_year end_year : Z) (base_ur : Q) :
  incl (Tp.build_plant_level_tp re_search steel_units company base_year
          end_year base_ur false)
       (Tp.build_plant_level_tp re_search steel_units company base_year
          end_year base_ur true).
Proof.
  unfold Tp.build_plant_level_tp. destruct (empty _); [apply incl_refl|].
  intros r H. apply in_flat_map in H. destruct H as (y & Hy & H).
  apply in_flat_map in H. destruct H as (uc & Huc & H).
  apply in_flat_map. exists y. split; [exact Hy|].
  apply in_flat_map. exists (fst uc, nan). split.
  - apply in_map_iff. exists uc. auto.
  - destruct uc as [u c]. eapply unit_rows_without_closure. exact H.
Qed.

Lemma filter_flat_map {A B : Type} (P : B -> bool) (f : A -> list B)
  (l : list A) :
  filter P (flat_map f l) = flat_map (fun a => filter P (f a)) l.
Proof.
  induction l as [|a l IH]; [reflexivity|].
  cbn. rewrite filter_app, IH. reflexivity.
Qed.

Lemma addition_no_close_year (u : Kampmann.Unit) :
  isin (lower (Kampmann.unit_status u)) ["construction"; "announced"] = true ->
  Tp._infer_close_year u = nan.
Proof.
  intros H. apply isin_cases in H. unfold Tp._infer_close_year.
  destruct H as [<-|[<-|[]]]; reflexivity.
Qed.

Lemma unit_rows_status (company : string) (base_ur : Q) (year : Z)
  (uc : Kampmann.Unit * float) :
  Forall (fun r => Tp.d_unit_status r = Kampmann.unit_status (fst uc))
    (Tp.unit_rows company base_ur year uc).
Proof.
  apply Forall_forall. intros r H. apply unit_rows_spec in H. tauto.
Qed.

Lemma filter_none {A : Type} (P : A -> bool) (l : list A) :
  Forall (fun a => P a = false) l -> filter P l = [].
Proof.
  induction 1 as [|a l Ha _ IH]; [reflexivity|].
  cbn. rewrite Ha. exact IH.
Qed.

Lemma additions_unit_rows (company : string) (base_ur : Q) (year : Z)
  (u : Kampmann.Unit) :
  filter is_addition
    (Tp.unit_rows company base_ur year (u, Tp._infer_close_year u))
  = filter is_addition (Tp.unit_rows company base_ur year (u, nan)).
Proof.
  destruct (isin (lower (Kampmann.unit_status u)) ["construction"; "announced"])
    eqn:E.
  - rewrite (addition_no_close_year u E). reflexivity.
  - rewrite !filter_none; [reflexivity| |].
    + eapply Forall_impl; [|apply unit_rows_status].
      intros r Hr. unfold is_addition. rewrite Hr. exact E.
    + eapply Forall_impl; [|apply unit_rows_status].
      intros r Hr. unfold is_addition. rewrite Hr. exact E.
Qed.

Lemma additions_identical (re_search : string -> string -> bool)
  (steel_units : list Kampmann.Unit) (company : string)
  (base_year end_year : Z) (base_ur : Q) :
  filter is_addition
    (Tp.build_plant_level_tp re_search steel_units company base_year
       end_year base_ur false)
  = filter is_addition
      (Tp.build_plant_level_tp re_search steel_units company base_year
         end_year base_ur true).
Proof.
  unfold Tp.build_plant_level_tp. destruct (empty _); [reflexivity|].
  rewrite !filter_flat_map. apply flat_map_ext. intros year.
  rewrite !filter_flat_map.
  induction (Kampmann.match_units_to_company re_search steel_units company)
    as [|u us IH]; [reflexivity|].
  cbn [map flat_map fst]. rewrite IH, additions_unit_rows. reflexivity.
Qed.

Lemma generate_detail (re_search : string -> string -> bool)
  (steel_units : list Kampmann.Unit) (company : string)
  (apa_df : list Tp.ApaEmissions) (base_year end_year : Z) :
  (forall skip,
      snd (Tp.generate_company re_search skip steel_units company apa_df
             base_year end_year) = [])
  \/ (exists ur,
         forall skip,
           snd (Tp.generate_company re_search skip steel_units company apa_df
                  base_year end_year)
           = Tp.build_plant_level_tp re_search steel_units company base_year
               end_year ur skip).
Proof.
  unfold Tp.generate_company.
  destruct (empty (Kampmann.match_units_to_company _ _ _));
    [left; reflexivity|].
  destruct (Tp.calibration_row _ _ _) as [[company_apa aby]|];
    [|left; reflexivity].
  right.
  exists (Tp.calibrated_ur
            (Tp.base_capacity_mt
               (Kampmann.match_units_to_company re_search steel_units company)
               aby)
            (Tp.e_production_mt company_apa)).
  intros skip.
  destruct (Tp.build_plant_level_tp _ _ _ _ _ _ skip); reflexivity.
Qed.

(** C5. A unit that is active in a year with its inferred close year is
    active in that year with closures suppressed; every detail row of the
    planned-transition projection is a row of the no-closure projection, for
    the projections at a given utilization rate and for the two generated
    trajectories of a company; and the rows of scheduled additions
    (construction or announced units) are the same under both policies. *)
Theorem planned_transition_within_no_closure :
  forall (re_search : string -> string -> bool)
         (steel_units : list Kampmann.Unit) (company : string)
         (apa_df : list Tp.ApaEmissions) (base_year end_year : Z),
    (forall u year,
        Tp._unit_is_active u year (Tp._infer_close_year u) = true ->
        Tp._unit_is_active u year nan = true)
    /\ (forall base_ur,
           incl (Tp.build_plant_level_tp re_search steel_units company
                   base_year end_year base_ur false)
                (Tp.build_plant_level_tp re_search steel_units company
                   base_year end_year base_ur true))
    /\ incl (snd (Tp.generate_company_tp re_search steel_units company apa_df
                    base_year end_year))
            (snd (Tp.generate_company_bau re_search steel_units company apa_df
                    base_year end_year))
    /\ (forall base_ur,
           filter is_addition
             (Tp.build_plant_level_tp re_search steel_units company
                base_year end_year base_ur false)
           = filter is_addition
               (Tp.build_plant_level_tp re_search steel_units company
                  base_year end_year base_ur true))
    /\ filter is_addition
         (snd (Tp.generate_company_tp re_search steel_units company apa_df
                 base_year end_year))
       = filter is_addition
           (snd (Tp.generate_company_bau re_search steel_units company apa_df
                   base_year end_year)).
Proof.
  intros. unfold Tp.generate_company_tp, Tp.generate_company_bau.
  split; [intros u year; apply active_without_closure|].
  split; [intros; apply build_tp_incl_bau|].
  destruct (generate_detail re_search steel_units company apa_df base_year
              end_year) as [G|(ur & G)]; rewrite !G.
  - split; [apply incl_refl|].
    split; [intros; apply additions_identical|reflexivity].
  - split; [apply build_tp_incl_bau|].
    split; [intros; apply additions_identical|apply additions_identical].
Qed.

(** ** Inferred close years *)

Lemma pre_retirement_not_retired (s : string) :
  contains "pre-retirement" s = true -> isin s ["retired"; "mothballed"] = false.
Proof.
  intros H. destruct (isin s ["retired"; "mothballed"]) eqn:E; [|reflexivity].
  apply isin_cases in E. destruct E as [<-|[<-|[]]]; discriminate.
Qed.

(** C7, as stated, fails: for a retired unit without a retirement date the
    announcement year is not used; the projection assumes 2023 and the closure
    inventory 2024, not 2015 + 5. *)
Lemma retired_close_year_counterexample :
  isin (lower (Kampmann.unit_status retired_undated_unit))
    ["retired"; "mothballed"] = true
  /\ Kampmann.retired_year retired_undated_unit = nan
  /\ Kampmann.pre_retirement_announced_year retired_undated_unit = Some 2015
  /\ Tp._infer_close_year retired_undated_unit = Some 2023
  /\ Kampmann.infer_closure retired_undated_unit
     = (Some 2024, "gem_status_inferred")
  /\ ~ 2023 == 2015 + 5
  /\ ~ 2024 == 2015 + 5.
Proof.
  repeat split; discriminate.
Qed.

(** C7, amended. Without a retirement date, a retired or mothballed unit
    closes in a fixed year whatever its announcement year is: 2023 for the
    projection, 2024 (tagged gem_status_inferred) for the closure inventory.
    The rule of five years after the announcement, with 2030 when there is no
    announcement year either, is the rule of the units whose status contains
    "pre-retirement". *)
Theorem close_year_without_retirement_date :
  forall (u : Kampmann.Unit),
    Kampmann.retired_year u = nan ->
    (isin (lower (Kampmann.unit_status u)) ["retired"; "mothballed"] = true ->
     Tp._infer_close_year u = Some 2023
     /\ Kampmann.infer_closure u = (Some 2024, "gem_status_inferred"))
    /\ (contains "pre-retirement" (lower (Kampmann.unit_status u)) = true ->
        Tp._infer_close_year u
        = match Kampmann.pre_retirement_announced_year u with
          | Some announced => Some (announced + 5)
          | None => Some 2030
          end
        /\ Kampmann.infer_closure u
           = match Kampmann.pre_retirement_announced_year u with
             | Some announced =>
                 (Some (announced + 5), "inferred_5yr_from_announcement")
             | None => (Some 2030, "default_2030")
             end).
Proof.
  intros u Hr. unfold Tp._infer_close_year, Kampmann.infer_closure.
  rewrite Hr. cbn [notna nan]. split.
  - intros ->. split; reflexivity.
  - intros Hp. rewrite (pre_retirement_not_retired _ Hp), Hp.
    destruct (Kampmann.pre_retirement_announced_year u); split; reflexivity.
Qed.

(** ** Anchoring *)

Lemma rint_comp (x y : Q) : x == y -> rint x = rint y.
Proof.
  intros H. unfold rint. rewrite (Qfloor_comp _ _ H).
  assert (E : Qcompare (x - inject_Z (Qfloor y)) (1 # 2)
              = Qcompare (y - inject_Z (Qfloor y)) (1 # 2)).
  { apply Qcompare_comp; [rewrite H|]; reflexivity. }
  rewrite E. reflexivity.
Qed.

Lemma round_nd_comp (x y : Q) (n : nat) : x == y -> round_nd x n = round_nd y n.
Proof.
  intros H. unfold round_nd.
  rewrite (rint_comp (x * inject_Z (10 ^ Z.of_nat n))
             (y * inject_Z (10 ^ Z.of_nat n))); [reflexivity|].
  rewrite H. reflexivity.
Qed.

Lemma gem_base_em_pos (base_year : Z) (annual : list Tp.RawAnnual) (g : Q) :
  Tp.gem_base_em base_year annual = Some g -> 0 < g.
Proof.
  unfold Tp.gem_base_em.
  destruct (map Tp.emissions_raw _) as [|g0 ?]; [discriminate|].
  destruct (Qltb 0 g0) eqn:E; [|discriminate].
  intros [= <-]. apply Qltb_lt. exact E.
Qed.

Lemma anchoring_scale_some (apa_emissions gem_base : float) (s : Q) :
  Tp.anchoring_scale apa_emissions gem_base = Some s <->
  exists a g, apa_emissions = Some a /\ gem_base = Some g
              /\ 0 < a /\ 0 < g /\ s = a / g.
Proof.
  unfold Tp.anchoring_scale. split.
  - destruct apa_emissions as [a|]; [|discriminate].
    destruct gem_base as [g|]; [|discriminate].
    destruct (Qltb 0 a) eqn:Ea; [|discriminate].
    destruct (Qltb 0 g) eqn:Eg; [|discriminate].
    cbn. intros [= <-]. exists a, g.
    apply Qltb_lt in Ea. apply Qltb_lt in Eg. auto.
  - intros (a & g & -> & -> & Ha & Hg & ->).
    apply Qltb_lt in Ha. apply Qltb_lt in Hg. rewrite Ha, Hg. reflexivity.
Qed.

(** C2, as stated, fails in its last part: with the trusted base value equal
    to the raw base value the trajectory is anchored with scale 1, and the
    value reported for 2025 is the raw value rounded to three decimals,
    1.235, not the raw value 1.2346. *)
Lemma anchored_differs_from_raw_counterexample :
  Tp.gem_base_em 2024 scale_one_annual = Some 2.0
  /\ exists row,
      In row (Tp.anchor 2024 (Some 2.0) 0.8 scale_one_annual)
      /\ Tp.apa_anchored row = true
      /\ Tp.emissions_raw (Tp.raw row) = 1.2346
      /\ Tp.emissions_mt row == 1.235
      /\ ~ Tp.emissions_mt row == Tp.emissions_raw (Tp.raw row).
Proof.
  split; [reflexivity|].
  eexists. split; [right; left; reflexivity|].
  repeat split; vm_compute; discriminate.
Qed.

Lemma anchor_anchored (base_year : Z) (apa_emissions : float) (ur s : Q)
  (annual : list Tp.RawAnnual) :
  Tp.anchoring_scale apa_emissions (Tp.gem_base_em base_year annual) = Some s ->
  Forall (fun row => scaled_by s row /\ Tp.apa_anchored row = true
                     /\ Tp.scale_factor row = round_nd s 4)
    (Tp.anchor base_year apa_emissions ur annual).
Proof.
  intros H. unfold Tp.anchor. rewrite H. apply Forall_forall.
  intros row Hrow. apply in_map_iff in Hrow. destruct Hrow as (r & <- & _).
  repeat split.
Qed.

Lemma anchor_unanchored (base_year : Z) (apa_emissions : float) (ur : Q)
  (annual : list Tp.RawAnnual) :
  Tp.anchoring_scale apa_emissions (Tp.gem_base_em base_year annual) = None ->
  Forall (fun row => raw_rounded row /\ Tp.apa_anchored row = false
                     /\ Tp.scale_factor row == 1)
    (Tp.anchor base_year apa_emissions ur annual).
Proof.
  intros H. unfold Tp.anchor. rewrite H. apply Forall_forall.
  intros row Hrow. apply in_map_iff in Hrow. destruct Hrow as (r & <- & _).
  repeat split.
Qed.

Lemma scaled_by_one (s : Q) (row : Tp.Annual) :
  s == 1 -> scaled_by s row -> raw_rounded row.
Proof.
  intros Hs [He Hp]. split.
  - rewrite He. apply round_nd_comp. rewrite Hs. ring.
  - rewrite Hp. apply round_nd_comp. rewrite Hs. ring.
Qed.

Lemma generate_company_anchors (re_search : string -> string -> bool)
  (skip : bool) (steel_units : list Kampmann.Unit) (company : string)
  (apa_df : list Tp.ApaEmissions) (base_year end_year : Z) :
  fst (Tp.generate_company re_search skip steel_units company apa_df
         base_year end_year) = []
  \/ exists company_apa ur detail,
       In company_apa apa_df
       /\ detail = snd (Tp.generate_company re_search skip steel_units company
                          apa_df base_year end_year)
       /\ fst (Tp.generate_company re_search skip steel_units company apa_df
                 base_year end_year)
          = Tp.anchor base_year (Tp.e_emissions_mt company_apa) ur
              (Tp.aggregate company detail).
Proof.
  unfold Tp.generate_company.
  destruct (empty (Kampmann.match_units_to_company _ _ _));
    [left; reflexivity|].
  destruct (Tp.calibration_row apa_df company base_year)
    as [[company_apa aby]|] eqn:Ec; [|left; reflexivity].
  destruct (Tp.build_plant_level_tp _ _ _ _ _ _ skip) as [|d detail] eqn:E;
    [left; reflexivity|].
  right. cbn [empty fst snd]. exists company_apa. eexists. eexists.
  split; [|split; reflexivity].
  unfold Tp.calibration_row in Ec.
  destruct (filter _ apa_df) as [|r0 rest] eqn:Ef.
  - destruct (rev _) as [|r1 rest'] eqn:Er; [discriminate|].
    injection Ec as <- _.
    assert (Hin : In r1 (rev (sort_by (fun a b => (Tp.e_year a <? Tp.e_year b)%Z)
                    (filter (fun r => String.eqb (Tp.e_company r) company)
                       apa_df)))).
    { rewrite Er. left. reflexivity. }
    apply in_rev in Hin. apply sort_by_in_any in Hin.
    apply filter_In in Hin. tauto.
  - injection Ec as <- _.
    assert (Hin : In r0 (filter
                    (fun r => String.eqb (Tp.e_company r) company
                              && (Tp.e_year r =? base_year)%Z) apa_df)).
    { rewrite Ef. left. reflexivity. }
    apply filter_In in Hin. tauto.
Qed.

(** C2, amended. The scale factor is the trusted base value divided by the
    raw base value exactly when both are present and positive; every year's
    output and emissions are then the raw values times that factor, rounded
    to three decimals, and the rows are flagged anchored.  Otherwise, and in
    particular without a trusted base value, the factor is 1, the rows are
    flagged unanchored and hold the raw values rounded to three decimals.
    When the trusted base value equals the raw base value, every year of the
    anchored trajectory holds the raw value rounded to three decimals, which
    is what the unanchored branch reports.  The company-year frame of either
    generator, when not empty, is this anchoring of its own yearly sums to the
    emissions of one of the company's trusted rows. *)
Theorem anchoring_rescales_every_year :
  forall (base_year : Z) (apa_emissions : float) (ur : Q)
         (annual : list Tp.RawAnnual),
    let gem_base := Tp.gem_base_em base_year annual in
    let anchored := Tp.anchor base_year apa_emissions ur annual in
    map Tp.raw anchored = annual
    /\ (forall s,
           Tp.anchoring_scale apa_emissions gem_base = Some s <->
           exists a g, apa_emissions = Some a /\ gem_base = Some g
                       /\ 0 < a /\ 0 < g /\ s = a / g)
    /\ (forall s,
           Tp.anchoring_scale apa_emissions gem_base = Some s ->
           Forall (fun row => scaled_by s row /\ Tp.apa_anchored row = true
                              /\ Tp.scale_factor row = round_nd s 4)
             anchored)
    /\ (Tp.anchoring_scale apa_emissions gem_base = None ->
        Forall (fun row => raw_rounded row /\ Tp.apa_anchored row = false
                           /\ Tp.scale_factor row == 1)
          anchored)
    /\ (apa_emissions = nan ->
        Tp.anchoring_scale apa_emissions gem_base = None)
    /\ (forall a g,
           apa_emissions = Some a -> gem_base = Some g -> a == g ->
           Forall (fun row => raw_rounded row /\ Tp.apa_anchored row = true)
             anchored)
    /\ (forall re_search skip_closures steel_units company apa_df end_year,
           let generated :=
             Tp.generate_company re_search skip_closures steel_units company
               apa_df base_year end_year in
           fst generated = []
           \/ exists company_apa rate detail,
               In company_apa apa_df /\ detail = snd generated
               /\ fst generated
                  = Tp.anchor base_year (Tp.e_emissions_mt company_apa) rate
                      (Tp.aggregate company detail)).
Proof.
  intros base_year apa_emissions ur annual gem_base anchored.
  subst gem_base anchored.
  split; [|split; [|split; [|split; [|split; [|split]]]]];
    [| | | | | |intros; apply generate_company_anchors].
  - unfold Tp.anchor. destruct (Tp.anchoring_scale _ _);
      rewrite map_map; cbn; apply map_id.
  - intros s. apply anchoring_scale_some.
  - intros s. apply anchor_anchored.
  - apply anchor_unanchored.
  - intros ->. reflexivity.
  - intros a g Ha Hg Hag.
    assert (Hpos : 0 < g) by (eapply gem_base_em_pos; exact Hg).
    assert (Hs : Tp.anchoring_scale apa_emissions
                   (Tp.gem_base_em base_year annual) = Some (a / g)).
    { apply anchoring_scale_some. exists a, g.
      repeat split; try assumption. rewrite Hag. exact Hpos. }
    eapply Forall_impl; [|apply (anchor_anchored _ _ _ _ _ Hs)].
    intros row (Hsc & Hflag & _). split; [|exact Hflag].
    apply (scaled_by_one (a / g)); [|exact Hsc].
    rewrite Hag. field. intros E. rewrite E in Hpos.
    exact (Qlt_irrefl _ Hpos).
Qed.

(** ** The allocator never divides by zero *)

Lemma Qeq_bool_pos (b : Q) : 0 < b -> Qeq_bool b 0 = false.
Proof.
  intros H. destruct (Qeq_bool b 0) eqn:E; [|reflexivity].
  apply Qeq_bool_iff in E. rewrite E in H. exfalso. exact (Qlt_irrefl _ H).
Qed.

Lemma checked_div_pos (a b : Q) : 0 < b -> checked_div a b = Ret (a / b).
Proof.
  intros H. unfold checked_div. rewrite (Qeq_bool_pos b H). reflexivity.
Qed.

Lemma checked_fdiv_pos (a : float) (b : Q) :
  0 < b ->
  checked_fdiv a b
  = Ret (match a with Some x => Some (x / b) | None => None end).
Proof.
  intros H. unfold checked_fdiv. rewrite (Qeq_bool_pos b H). reflexivity.
Qed.

Lemma allocate_country_ok (st : Apa.AllocState) (item : string * Q) :
  exists st', Apa.allocate_country st item = Ret st'.
Proof.
  destruct st as [alloc rem], item as [c p]. unfold Apa.allocate_country.
  destruct (Qltb 0 (Apa.masked_capacity (Apa.in_country c) alloc)) eqn:E;
    cbn [andb]; [|eexists; reflexivity].
  destruct (existsb _ alloc); [|eexists; reflexivity].
  apply Qltb_lt in E. rewrite (checked_div_pos _ _ E). cbn.
  eexists; reflexivity.
Qed.

Lemma country_loop_ok (items : list (string * Q)) (st : Apa.AllocState) :
  exists st', foldM Apa.allocate_country items st = Ret st'.
Proof.
  revert st. induction items as [|item items IH]; intros st; cbn.
  - eexists; reflexivity.
  - destruct (allocate_country_ok st item) as (st1 & ->). cbn. apply IH.
Qed.

Lemma allocate_residual_ok (st : Apa.AllocState) :
  exists alloc, Apa.allocate_residual st = Ret alloc.
Proof.
  destruct st as [alloc rem]. unfold Apa.allocate_residual.
  destruct (flt (Some 0) rem && existsb Apa.is_unmatched alloc);
    [|eexists; reflexivity].
  destruct (Qltb 0 (Apa.masked_capacity Apa.is_unmatched alloc)) eqn:E;
    [|eexists; reflexivity].
  apply Qltb_lt in E. rewrite (checked_fdiv_pos _ _ E). cbn.
  eexists; reflexivity.
Qed.

Lemma allocate_ok (breakdown : list Apa.BreakdownRow) (production_mt ur : float)
  (country_production : option (list (string * Q))) :
  exists allocated,
    Apa.allocate breakdown production_mt ur country_production = Ret allocated.
Proof.
  unfold Apa.allocate.
  destruct country_production as [[|item items]|]; try (eexists; reflexivity).
  destruct (country_loop_ok (item :: items)
              (map (fun b => (b, Some 0, true)) breakdown, production_mt))
    as (st & ->).
  cbn [bind]. destruct (allocate_residual_ok st) as (alloc & ->).
  cbn. eexists; reflexivity.
Qed.

Lemma calculate_no_division_error (re_search : string -> string -> bool)
  (plants_df : list Apa.Plant) (company : string) (production_mt : float)
  (year : option Z) (country_production : option (list (string * Q))) :
  Apa.calculate_company_emissions re_search plants_df company production_mt
    year country_production <> ZeroDivisionError.
Proof.
  unfold Apa.calculate_company_emissions.
  destruct (empty _); [discriminate|].
  destruct (Qle_bool _ 0) eqn:E; [discriminate|].
  assert (Hpos : 0 < series_sum
                       (map Apa.capacity_ttpa
                          (Apa.get_company_plants re_search plants_df company
                             year)) / 1000).
  { apply Qltb_lt. unfold Qltb. rewrite E. reflexivity. }
  rewrite (checked_fdiv_pos _ _ Hpos). cbn [bind].
  match goal with
  | |- bind (Apa.allocate ?b ?p ?u ?c) _ <> _ =>
      destruct (allocate_ok b p u c) as (allocated & ->)
  end.
  cbn [bind].
  destruct production_mt as [p|]; [|discriminate].
  destruct (Qltb 0 p) eqn:Ep; [|discriminate].
  apply Qltb_lt in Ep. rewrite (checked_div_pos _ _ Ep). discriminate.
Qed.

(** C6. When no plant is matched, or the matched plants' total capacity is
    zero or negative, the allocator returns the explicit no-data result
    [None] (neither a zero output nor zero emissions); and on no input at all
    does it end in a division error. *)
Theorem no_capacity_is_no_data :
  forall (re_search : string -> string -> bool) (plants_df : list Apa.Plant)
         (company : string) (production_mt : float) (year : option Z)
         (country_production : option (list (string * Q))),
    let company_plants :=
      Apa.get_company_plants re_search plants_df company year in
    (company_plants = []
     \/ series_sum (map Apa.capacity_ttpa company_plants) / 1000 <= 0 ->
     Apa.calculate_company_emissions re_search plants_df company production_mt
       year country_production = Ret None)
    /\ Apa.calculate_company_emissions re_search plants_df company
         production_mt year country_production <> ZeroDivisionError.
Proof.
  intros. split; [|apply calculate_no_division_error].
  subst company_plants. unfold Apa.calculate_company_emissions.
  intros [H|H].
  - rewrite H. reflexivity.
  - destruct (empty _); [reflexivity|].
    apply Qle_bool_iff in H. rewrite H. reflexivity.
Qed.

(** ** Allocated output against the target *)

Lemma masked_capacity_region (c : string)
  (alloc : list (Apa.BreakdownRow * float * bool)) :
  Apa.masked_capacity (Apa.in_country c) alloc
  = region_capacity (map row_of alloc) c.
Proof.
  unfold Apa.masked_capacity, region_capacity.
  induction alloc as [|e alloc IH]; [reflexivity|].
  cbn [filter map]. unfold Apa.in_country at 1. unfold row_of at 1.
  destruct (String.eqb _ c); cbn [map series_sum fold_right].
  - unfold series_sum in IH. rewrite IH. reflexivity.
  - exact IH.
Qed.

Lemma masked_capacity_pos_any (m : Apa.BreakdownRow * float * bool -> bool)
  (alloc : list (Apa.BreakdownRow * float * bool)) :
  Qltb 0 (Apa.masked_capacity m alloc) = true -> existsb m alloc = true.
Proof.
  intros H. destruct (existsb m alloc) eqn:E; [reflexivity|].
  exfalso. assert (F : filter m alloc = []).
  { apply filter_none. apply Forall_forall. intros e He.
    destruct (m e) eqn:Em; [|reflexivity].
    assert (existsb m alloc = true) by (apply existsb_exists; eauto).
    congruence. }
  unfold Apa.masked_capacity in H. rewrite F in H. discriminate.
Qed.

Lemma series_sum_cons (x : float) (l : list float) :
  series_sum (x :: l)
  = match x with Some q => q + series_sum l | None => series_sum l end.
Proof. reflexivity. Qed.

(** Overwriting the entries selected by a mask, all of which were 0, with
    capacity times a rate adds rate times the selected capacity. *)
Lemma series_sum_overwrite (m : Apa.BreakdownRow * float * bool -> bool)
  (u : Q) (f : Apa.BreakdownRow * float * bool -> Apa.BreakdownRow * float * bool)
  (alloc : list (Apa.BreakdownRow * float * bool)) :
  (forall e, alloc_of (f e)
             = if m e then fmul (Apa.b_capacity_mt (row_of e)) (Some u)
               else alloc_of e) ->
  (forall e, In e alloc -> m e = true -> alloc_of e = Some 0) ->
  series_sum (map alloc_of (map f alloc))
  == series_sum (map alloc_of alloc) + u * Apa.masked_capacity m alloc.
Proof.
  intros Hf. unfold Apa.masked_capacity.
  induction alloc as [|e alloc IH]; intros Hz.
  - cbn. ring.
  - assert (IH' := IH (fun e' He' => Hz e' (or_intror He'))). clear IH.
    cbn [map filter]. rewrite !series_sum_cons, Hf.
    destruct (m e) eqn:Em.
    + rewrite (Hz e (or_introl eq_refl) Em). cbn [map].
      rewrite series_sum_cons. fold (row_of e).
      destruct (Apa.b_capacity_mt (row_of e)) as [k|]; cbn [fmul].
      * rewrite IH'. ring.
      * rewrite IH'. ring.
    + destruct (alloc_of e) as [q|].
      * rewrite IH'. ring.
      * exact IH'.
Qed.

Lemma map_filter_aligned {A B : Type} (f : A -> B) (g : A -> bool)
  (l' l : list (A * bool)) :
  map (fun e => f (fst e)) l' = map (fun e => f (fst e)) l ->
  map snd l' = map (fun e => g (fst e) && snd e) l ->
  map (fun e => f (fst e)) (filter snd l')
  = map (fun e => f (fst e)) (filter (fun e => g (fst e) && snd e) l).
Proof.
  revert l. induction l' as [|e' l' IH]; intros [|e l]; try discriminate.
  - reflexivity.
  - cbn [map filter]. intros [= Hf Hfs] [= Hs Hss].
    rewrite <- Hs. destruct (snd e'); cbn [map]; rewrite (IH l Hfs Hss).
    + rewrite Hf. reflexivity.
    + reflexivity.
Qed.

Lemma applied_cons (breakdown : list Apa.BreakdownRow) (c : string) (p : Q)
  (items : list (string * Q)) :
  applied_sub_targets breakdown ((c, p) :: items)
  = if Qltb 0 (region_capacity breakdown c)
    then (c, p) :: applied_sub_targets breakdown items
    else applied_sub_targets breakdown items.
Proof. reflexivity. Qed.

(** The country loop, from any state whose matched rows belong to countries
    that are not among the remaining items and whose unmatched rows still
    hold the initial 0. *)
Lemma country_loop_spec (items : list (string * Q)) :
  forall (alloc : list (Apa.BreakdownRow * float * bool)) (rem : Q),
    NoDup (map fst items) ->
    (forall e, In e alloc -> snd e = false ->
               ~ In (Apa.b_country (row_of e)) (map fst items)) ->
    (forall e, In e alloc -> snd e = true -> alloc_of e = Some 0) ->
    exists alloc' rem',
      foldM Apa.allocate_country items (alloc, Some rem)
      = Ret (alloc', Some rem')
      /\ rem' == rem
                 - Qsum (map snd (applied_sub_targets (map row_of alloc) items))
      /\ series_sum (map alloc_of alloc')
         == series_sum (map alloc_of alloc)
            + Qsum (map snd (applied_sub_targets (map row_of alloc) items))
      /\ map row_of alloc' = map row_of alloc
      /\ (forall e, In e alloc' -> snd e = true -> alloc_of e = Some 0)
      /\ map snd alloc'
         = map (fun e =>
                  negb (has_sub_target
                          (applied_sub_targets (map row_of alloc) items)
                          (row_of e))
                  && snd e) alloc.
Proof.
  induction items as [|[c p] items IH]; intros alloc rem Hnd Hm Hz.
  - exists alloc, rem. cbn. repeat split; try ring; try assumption.
  - inversion Hnd as [|? ? Hc Hnd']. subst.
    cbn [foldM]. unfold Apa.allocate_country at 1.
    rewrite applied_cons, masked_capacity_region.
    destruct (Qltb 0 (region_capacity (map row_of alloc) c)) eqn:Ecap.
    + assert (Hany : existsb (Apa.in_country c) alloc = true).
      { apply masked_capacity_pos_any. rewrite masked_capacity_region.
        exact Ecap. }
      rewrite Hany. cbn [andb]. apply Qltb_lt in Ecap.
      rewrite (checked_div_pos _ _ Ecap). cbn [bind fsub].
      set (upd := fun e : Apa.BreakdownRow * float * bool =>
                    if Apa.in_country c e
                    then (fst (fst e),
                          fmul (Apa.b_capacity_mt (fst (fst e)))
                            (Some (p / region_capacity (map row_of alloc) c)),
                          false)
                    else e).
      assert (Hrows : map row_of (map upd alloc) = map row_of alloc).
      { rewrite map_map. apply map_ext. intros e. unfold upd.
        destruct (Apa.in_country c e); reflexivity. }
      assert (Hin : forall e, In e alloc -> Apa.in_country c e = true ->
                              alloc_of e = Some 0).
      { intros e He Hce. apply Hz; [exact He|].
        destruct (snd e) eqn:Es; [reflexivity|]. exfalso.
        apply (Hm e He Es). left. unfold Apa.in_country in Hce.
        apply String.eqb_eq in Hce. symmetry. exact Hce. }
      destruct (IH (map upd alloc) (rem - p) Hnd') as
        (alloc' & rem' & Hrun & Hrem & Hsum & Hrow' & Hz' & Hmask).
      * intros e1 He1 Hs1. apply in_map_iff in He1.
        destruct He1 as (e & <- & He). unfold upd in *.
        destruct (Apa.in_country c e) eqn:Ece.
        -- unfold row_of. cbn [fst]. unfold Apa.in_country in Ece.
           apply String.eqb_eq in Ece. unfold row_of in Hc.
           fold (row_of e). unfold row_of. rewrite Ece. exact Hc.
        -- intros Hi. apply (Hm e He Hs1). right. exact Hi.
      * intros e1 He1 Hs1. apply in_map_iff in He1.
        destruct He1 as (e & <- & He). unfold upd in *.
        destruct (Apa.in_country c e) eqn:Ece; [discriminate|].
        apply Hz; assumption.
      * rewrite Hrows in *. exists alloc', rem'.
        split; [exact Hrun|]. cbn [map snd Qsum fold_right].
        fold (Qsum (map snd (applied_sub_targets (map row_of alloc) items))).
        split; [rewrite Hrem; ring|].
        split.
        { rewrite Hsum.
          rewrite (series_sum_overwrite (Apa.in_country c)
                     (p / region_capacity (map row_of alloc) c) upd alloc).
          - rewrite masked_capacity_region. field.
            intros E. rewrite E in Ecap. exact (Qlt_irrefl _ Ecap).
          - intros e. unfold upd. destruct (Apa.in_country c e); reflexivity.
          - exact Hin. }
        split; [rewrite Hrow'; reflexivity|].
        split; [exact Hz'|].
        rewrite Hmask, map_map. apply map_ext_in. intros e He.
        unfold upd. unfold has_sub_target. cbn [existsb fst].
        destruct (Apa.in_country c e) eqn:Ece.
        -- unfold row_of at 3. unfold Apa.in_country in Ece.
           unfold row_of. rewrite Ece. cbn. rewrite andb_false_r. reflexivity.
        -- unfold Apa.in_country in Ece. unfold row_of. rewrite Ece.
           reflexivity.
    + cbn [andb bind].
      destruct (IH alloc rem Hnd') as
        (alloc' & rem' & Hrun & Hrem & Hsum & Hrow' & Hz' & Hmask).
      * intros e He Hs Hi. apply (Hm e He Hs). right. exact Hi.
      * exact Hz.
      * exists alloc', rem'. repeat split; assumption.
Qed.

Lemma Qltb_comp (a b a' b' : Q) : a == a' -> b == b' -> Qltb a b = Qltb a' b'.
Proof.
  intros Ha Hb. unfold Qltb. rewrite (Qleb_comp b b' Hb a a' Ha). reflexivity.
Qed.

Lemma residual_spec (alloc : list (Apa.BreakdownRow * float * bool)) (rem : Q) :
  (forall e, In e alloc -> snd e = true -> alloc_of e = Some 0) ->
  exists final,
    Apa.allocate_residual (alloc, Some rem) = Ret final
    /\ map row_of final = map row_of alloc
    /\ series_sum (map alloc_of final)
       == series_sum (map alloc_of alloc)
          + (if Qltb 0 rem
                && Qltb 0 (Apa.masked_capacity Apa.is_unmatched alloc)
             then rem else 0).
Proof.
  intros Hz. unfold Apa.allocate_residual. cbn [flt].
  destruct (Qltb 0 rem) eqn:Er; cbn [andb];
    [|exists alloc; split; [reflexivity|split; [reflexivity|ring]]].
  destruct (Qltb 0 (Apa.masked_capacity Apa.is_unmatched alloc)) eqn:Ec.
  - rewrite (masked_capacity_pos_any _ _ Ec).
    pose proof (proj1 (Qltb_lt _ _) Ec) as Hpos.
    rewrite (checked_fdiv_pos _ _ Hpos). cbn [bind].
    eexists. split; [reflexivity|]. split.
    + rewrite map_map. apply map_ext. intros e.
      destruct (Apa.is_unmatched e); reflexivity.
    + rewrite (series_sum_overwrite Apa.is_unmatched
                 (rem / Apa.masked_capacity Apa.is_unmatched alloc)).
      * field. intros E. rewrite E in Hpos. exact (Qlt_irrefl _ Hpos).
      * intros e. destruct (Apa.is_unmatched e); reflexivity.
      * exact Hz.
  - destruct (existsb Apa.is_unmatched alloc);
      exists alloc; (split; [reflexivity|split; [reflexivity|ring]]).
Qed.

Lemma unmatched_capacity_unassigned (breakdown : list Apa.BreakdownRow)
  (applied : list (string * Q))
  (alloc' : list (Apa.BreakdownRow * float * bool)) :
  let init := map (fun b => (b, Some 0, true)) breakdown in
  map row_of alloc' = map row_of init ->
  map snd alloc'
  = map (fun e => negb (has_sub_target applied (row_of e)) && snd e) init ->
  Apa.masked_capacity Apa.is_unmatched alloc'
  = unassigned_capacity breakdown applied.
Proof.
  intros init Hrow Hmask. unfold Apa.masked_capacity, unassigned_capacity.
  f_equal. change (filter Apa.is_unmatched alloc') with (filter snd alloc').
  rewrite (map_filter_aligned
             (fun x : Apa.BreakdownRow * float => Apa.b_capacity_mt (fst x))
             (fun x => negb (has_sub_target applied (fst x))) alloc' init).
  - subst init. clear. induction breakdown as [|b l IH]; [reflexivity|].
    cbn [map filter fst snd]. rewrite andb_true_r.
    destruct (negb (has_sub_target applied b)); cbn [map fst]; rewrite IH;
      reflexivity.
  - change (map (fun e => Apa.b_capacity_mt (row_of e)) alloc'
            = map (fun e => Apa.b_capacity_mt (row_of e)) init).
    rewrite <- !(map_map row_of Apa.b_capacity_mt). rewrite Hrow. reflexivity.
  - exact Hmask.
Qed.

Lemma allocate_country_mode (breakdown : list Apa.BreakdownRow) (P : Q)
  (ur : float) (item : string * Q) (items : list (string * Q)) :
  NoDup (map fst (item :: items)) ->
  let applied := applied_sub_targets breakdown (item :: items) in
  let assigned := Qsum (map snd applied) in
  exists allocated,
    Apa.allocate breakdown (Some P) ur (Some (item :: items)) = Ret allocated
    /\ map fst allocated = breakdown
    /\ series_sum (map snd allocated)
       == assigned
          + (if Qltb 0 (P - assigned)
                && Qltb 0 (unassigned_capacity breakdown applied)
             then P - assigned else 0).
Proof.
  intros Hnd applied assigned. unfold Apa.allocate. cbv zeta.
  set (init := map (fun b => (b, Some 0, true)) breakdown).
  assert (Hinit_rows : map row_of init = breakdown).
  { subst init. rewrite map_map. cbn. apply map_id. }
  assert (Hinit_sum : series_sum (map alloc_of init) == 0).
  { subst init. rewrite map_map. clear.
    induction breakdown as [|b l IH]; [reflexivity|].
    cbn [map]. rewrite series_sum_cons. cbn [alloc_of fst snd].
    rewrite IH. ring. }
  destruct (country_loop_spec (item :: items) init P Hnd) as
    (alloc' & rem' & Hrun & Hrem & Hsum & Hrow & Hz & Hmask).
  { intros e He Hs. subst init. apply in_map_iff in He.
    destruct He as (b & <- & _). discriminate. }
  { intros e He _. subst init. apply in_map_iff in He.
    destruct He as (b & <- & _). reflexivity. }
  destruct (residual_spec alloc' rem' Hz) as (final & Hres & Hfrow & Hfin).
  exists (map fst final).
  split.
  { pose proof (f_equal (fun m => bind m (fun st =>
                  bind (Apa.allocate_residual st)
                    (fun alloc => Ret (map fst alloc)))) Hrun) as Hb.
    cbn [bind] in Hb. rewrite Hres in Hb. exact Hb. }
  rewrite Hinit_rows in Hrem. rewrite Hinit_rows in Hsum.
  rewrite Hinit_rows in Hmask.
  fold applied in Hrem, Hsum, Hmask.
  fold assigned in Hrem, Hsum.
  rewrite (unmatched_capacity_unassigned breakdown applied alloc') in Hfin;
    [|exact Hrow|exact Hmask].
  split.
  - rewrite map_map. change (map row_of final = breakdown).
    rewrite Hfrow, Hrow. exact Hinit_rows.
  - replace (map snd (map fst final)) with (map alloc_of final)
      by (rewrite map_map; reflexivity).
    rewrite Hfin, Hsum, Hinit_sum.
    rewrite (Qltb_comp 0 rem' 0 (P - assigned) (Qeq_refl 0) Hrem).
    destruct (Qltb 0 (P - assigned) && _).
    + rewrite Hrem. ring.
    + ring.
Qed.

Lemma series_sum_scaled (u : Q) (breakdown : list Apa.BreakdownRow) :
  series_sum
    (map snd (map (fun b => (b, fmul (Apa.b_capacity_mt b) (Some u))) breakdown))
  == u * series_sum (map Apa.b_capacity_mt breakdown).
Proof.
  induction breakdown as [|b l IH]; [cbn; ring|].
  cbn [map snd]. rewrite !series_sum_cons.
  destruct (Apa.b_capacity_mt b) as [k|]; cbn [fmul]; rewrite IH; ring.
Qed.

Lemma capacity_mt_sum (year : option Z) (plants : list Apa.Plant) :
  series_sum (map Apa.b_capacity_mt (map (Apa.make_breakdown year) plants))
  == series_sum (map Apa.capacity_ttpa plants) / 1000.
Proof.
  induction plants as [|p l IH]; [reflexivity|].
  cbn [map]. rewrite !series_sum_cons. cbn [Apa.make_breakdown Apa.b_capacity_mt].
  destruct (Apa.capacity_ttpa p) as [k|]; cbn [fdiv_lit].
  - rewrite IH. field.
  - exact IH.
Qed.

(** C1, as stated, fails in the region mode: the only region has a sub-target
    of 6 Mt, no unit is left without a sub-target to take the residual 4 Mt,
    and the allocated outputs add up to 6, not to the target 10. *)
Lemma region_allocation_counterexample :
  exists res,
    Apa.calculate_company_emissions literal_search one_plant_fleet
      "Nippon Steel" (Some 10) (Some 2020%Z) (Some [("Japan", 6)])
    = Ret (Some res)
    /\ Apa.r_total_capacity_mt res == 10
    /\ series_sum (map Apa.allocated_production_mt (Apa.plant_breakdown res))
       == 6
    /\ ~ series_sum (map Apa.allocated_production_mt (Apa.plant_breakdown res))
         == 10.
Proof.
  eexists. split; [vm_compute; reflexivity|].
  repeat split; vm_compute; discriminate.
Qed.

Lemma calculate_some (re_search : string -> string -> bool)
  (plants_df : list Apa.Plant) (company : string) (target : Q)
  (year : option Z) (country_production : option (list (string * Q)))
  (allocated : list (Apa.BreakdownRow * float)) :
  let company_plants :=
    Apa.get_company_plants re_search plants_df company year in
  let total := series_sum (map Apa.capacity_ttpa company_plants) / 1000 in
  0 < total ->
  Apa.allocate (map (Apa.make_breakdown year) company_plants) (Some target)
    (Some (target / total)) country_production = Ret allocated ->
  exists res,
    Apa.calculate_company_emissions re_search plants_df company (Some target)
      year country_production = Ret (Some res)
    /\ map Apa.row (Apa.plant_breakdown res) = map fst allocated
    /\ map Apa.allocated_production_mt (Apa.plant_breakdown res)
       = map snd allocated.
Proof.
  intros company_plants total Hpos Hall.
  unfold Apa.calculate_company_emissions.
  fold company_plants. fold total.
  destruct (empty company_plants) eqn:Ee.
  { exfalso. destruct company_plants; [|discriminate].
    subst total. cbn in Hpos. discriminate. }
  destruct (Qle_bool total 0) eqn:El.
  { exfalso. apply Qle_bool_iff in El. exact (Qlt_not_le _ _ Hpos El). }
  rewrite (checked_fdiv_pos _ _ Hpos). cbn [bind]. rewrite Hall. cbn [bind].
  destruct (Qltb 0 target) eqn:Et.
  - apply Qltb_lt in Et. rewrite (checked_div_pos _ _ Et). cbn [bind].
    eexists. split; [reflexivity|]. cbn [Apa.plant_breakdown].
    rewrite !map_map. split; reflexivity.
  - cbn [bind]. eexists. split; [reflexivity|]. cbn [Apa.plant_breakdown].
    rewrite !map_map. split; reflexivity.
Qed.

(** C1, amended. With positive total capacity the allocator returns a
    result.  In the uniform mode the allocated outputs add up to the target.
    In the region mode they add up to the sub-targets of the regions that
    have capacity, plus the residual when it is positive and some unit
    without a sub-target has capacity; so they add up to the target when the
    residual is spread, or when it is zero. *)
Theorem allocated_output_sums_to_target :
  forall (re_search : string -> string -> bool) (plants_df : list Apa.Plant)
         (company : string) (target : Q) (year : option Z)
         (country_production : option (list (string * Q))),
    let company_plants :=
      Apa.get_company_plants re_search plants_df company year in
    let breakdown := map (Apa.make_breakdown year) company_plants in
    let applied := applied_sub_targets breakdown (sub_targets country_production) in
    let assigned := Qsum (map snd applied) in
    let residual := target - assigned in
    0 < series_sum (map Apa.capacity_ttpa company_plants) / 1000 ->
    NoDup (map fst (sub_targets country_production)) ->
    exists res,
      Apa.calculate_company_emissions re_search plants_df company (Some target)
        year country_production = Ret (Some res)
      /\ map Apa.row (Apa.plant_breakdown res) = breakdown
      /\ (sub_targets country_production = [] ->
          series_sum (map Apa.allocated_production_mt (Apa.plant_breakdown res))
          == target)
      /\ (sub_targets country_production <> [] ->
          series_sum (map Apa.allocated_production_mt (Apa.plant_breakdown res))
          == assigned
             + (if Qltb 0 residual
                   && Qltb 0 (unassigned_capacity breakdown applied)
                then residual else 0))
      /\ (sub_targets country_production <> [] ->
          (0 < residual /\ 0 < unassigned_capacity breakdown applied)
          \/ residual == 0 ->
          series_sum (map Apa.allocated_production_mt (Apa.plant_breakdown res))
          == target).
Proof.
  intros re_search plants_df company target year country_production
    company_plants breakdown applied assigned residual Hpos Hnd.
  set (total := series_sum (map Apa.capacity_ttpa company_plants) / 1000) in *.
  assert (Htot : ~ total == 0).
  { intros E. rewrite E in Hpos. exact (Qlt_irrefl _ Hpos). }
  assert (Huniform :
    forall cp, sub_targets cp = [] ->
      Apa.allocate breakdown (Some target) (Some (target / total)) cp
      = Ret (map (fun b => (b, fmul (Apa.b_capacity_mt b)
                                 (Some (target / total)))) breakdown)).
  { intros [[|? ?]|] H; try reflexivity. discriminate. }
  destruct (sub_targets country_production) as [|item items] eqn:Est.
  - destruct (calculate_some re_search plants_df company target year
                country_production _ Hpos (Huniform _ Est))
      as (res & Hres & Hrows & Halloc).
    exists res. split; [exact Hres|].
    split; [rewrite Hrows, map_map; apply map_id|].
    split; [|split; intros H; exfalso; apply H; reflexivity].
    intros _. rewrite Halloc, series_sum_scaled.
    unfold breakdown. rewrite capacity_mt_sum. fold total. field. exact Htot.
  - assert (Ecp : country_production = Some (item :: items)).
    { destruct country_production; [cbn in Est; subst; reflexivity|discriminate]. }
    destruct (allocate_country_mode breakdown target (Some (target / total))
                item items Hnd) as (allocated & Hall & Hrows' & Hsum).
    rewrite <- Ecp in Hall.
    destruct (calculate_some re_search plants_df company target year
                country_production _ Hpos Hall)
      as (res & Hres & Hrows & Halloc).
    exists res. split; [exact Hres|].
    split; [rewrite Hrows; exact Hrows'|].
    split; [discriminate|].
    fold applied in Hsum. fold assigned in Hsum. fold residual in Hsum.
    split; [intros _; rewrite Halloc; exact Hsum|].
    intros _ H. rewrite Halloc, Hsum. destruct H as [[Hr Hu]|Hr].
    + apply Qltb_lt in Hr. apply Qltb_lt in Hu. rewrite Hr, Hu. cbn [andb].
      unfold residual. ring.
    + rewrite (Qltb_comp 0 residual 0 0 (Qeq_refl 0) Hr). cbn [andb].
      unfold residual in Hr.
      transitivity (assigned + (target - assigned)); [|ring].
      rewrite Hr. reflexivity.
Qed.

(** ** Reconciliation of production sources *)

Section Deduplicate.

Context {A K : Type} (eqb : K -> K -> bool) (key : A -> K).
Hypothesis eqb_spec : forall a b, eqb a b = true <-> a = b.

Lemma seen_spec (k : K) (seen : list K) :
  existsb (eqb k) seen = true <-> In k seen.
Proof.
  rewrite existsb_exists. split.
  - intros (k' & Hk' & E). apply eqb_spec in E. subst. exact Hk'.
  - intros H. exists k. split; [exact H|]. apply eqb_spec. reflexivity.
Qed.

Lemma drop_duplicates_from_in (x : A) (l : list A) :
  forall seen,
    In x (drop_duplicates_from eqb key seen l) ->
    In x l /\ ~ In (key x) seen.
Proof.
  induction l as [|a l IH]; intros seen; cbn; [contradiction|].
  destruct (existsb (eqb (key a)) seen) eqn:E.
  - intros H. apply IH in H. tauto.
  - intros [<-|H].
    + split; [auto|]. intros Hs. apply seen_spec in Hs. congruence.
    + apply IH in H. cbn in H. tauto.
Qed.

Lemma drop_duplicates_from_covers (y : A) (l : list A) :
  forall seen,
    In y l -> ~ In (key y) seen ->
    exists x, In x (drop_duplicates_from eqb key seen l) /\ key x = key y.
Proof.
  induction l as [|a l IH]; intros seen; cbn; [contradiction|].
  destruct (existsb (eqb (key a)) seen) eqn:E.
  - intros [<-|Hy] Hn.
    + apply seen_spec in E. contradiction.
    + apply IH; assumption.
  - intros [<-|Hy] Hn.
    + exists a. cbn. auto.
    + destruct (eqb (key a) (key y)) eqn:Ek.
      * apply eqb_spec in Ek. exists a. cbn. auto.
      * destruct (IH (key a :: seen) Hy) as (x & Hx & Hk).
        { intros [H|H]; [|contradiction].
          apply eqb_spec in H. congruence. }
        exists x. cbn. auto.
Qed.

Lemma drop_duplicates_from_nodup (l : list A) :
  forall seen, NoDup (map key (drop_duplicates_from eqb key seen l)).
Proof.
  induction l as [|a l IH]; intros seen; cbn; [constructor|].
  destruct (existsb (eqb (key a)) seen); [apply IH|].
  cbn. constructor; [|apply IH].
  intros H. apply in_map_iff in H. destruct H as (x & Hk & Hx).
  apply drop_duplicates_from_in in Hx. cbn in Hx. rewrite Hk in Hx. tauto.
Qed.

End Deduplicate.

Section SortThenDeduplicate.

Context {A : Type} (rank : A -> Z).

Let rank_lt (a b : A) : bool := (rank a <? rank b)%Z.

Lemma insert_by_in (x y : A) (l : list A) :
  In y (insert_by rank_lt x l) <-> y = x \/ In y l.
Proof. apply insert_by_in_any. Qed.

Lemma sort_by_in (y : A) (l : list A) : In y (sort_by rank_lt l) <-> In y l.
Proof. apply sort_by_in_any. Qed.

Lemma insert_by_sorted (x : A) (l : list A) :
  StronglySorted (fun a b => (rank a <= rank b)%Z) l ->
  StronglySorted (fun a b => (rank a <= rank b)%Z) (insert_by rank_lt x l).
Proof.
  induction 1 as [|z l Hs IH Hz]; cbn.
  - constructor; constructor.
  - unfold rank_lt at 1. destruct (rank z <? rank x)%Z eqn:E.
    + constructor; [exact IH|]. apply Forall_forall. intros y Hy.
      apply insert_by_in in Hy. destruct Hy as [->|Hy].
      * apply Z.ltb_lt in E. lia.
      * rewrite Forall_forall in Hz. auto.
    + apply Z.ltb_ge in E. constructor; [constructor; assumption|].
      constructor; [exact E|]. eapply Forall_impl; [|exact Hz].
      intros y Hy. cbn in Hy. lia.
Qed.

Lemma sort_by_sorted (l : list A) :
  StronglySorted (fun a b => (rank a <= rank b)%Z) (sort_by rank_lt l).
Proof.
  induction l as [|x l IH]; cbn; [constructor|].
  apply insert_by_sorted. exact IH.
Qed.

Context {K : Type} (eqb : K -> K -> bool) (key : A -> K).
Hypothesis eqb_spec : forall a b, eqb a b = true <-> a = b.

Lemma drop_duplicates_from_first (x : A) (l : list A) :
  forall seen,
    StronglySorted (fun a b => (rank a <= rank b)%Z) l ->
    In x (drop_duplicates_from eqb key seen l) ->
    forall y, In y l -> key y = key x -> (rank x <= rank y)%Z.
Proof.
  induction l as [|a l IH]; intros seen Hs; cbn; [contradiction|].
  inversion Hs as [|? ? Hs' Ha]; subst. rewrite Forall_forall in Ha.
  destruct (existsb (eqb (key a)) seen) eqn:E.
  - intros H y [<-|Hy] Hk.
    + apply (seen_spec eqb eqb_spec) in E.
      apply (drop_duplicates_from_in eqb key eqb_spec) in H.
      rewrite Hk in E. tauto.
    + eapply IH; eassumption.
  - intros [<-|H] y [<-|Hy] Hk.
    + lia.
    + auto.
    + apply (drop_duplicates_from_in eqb key eqb_spec) in H. cbn in H.
      rewrite Hk in H. tauto.
    + eapply IH; eassumption.
Qed.

End SortThenDeduplicate.

Lemma key_eqb_spec (a b : string * Z) : Apa.key_eqb a b = true <-> a = b.
Proof.
  destruct a as [c y], b as [c' y']. unfold Apa.key_eqb. cbn.
  rewrite andb_true_iff, String.eqb_eq, Z.eqb_eq. split.
  - intros [-> ->]. reflexivity.
  - intros [= -> ->]. auto.
Qed.

Lemma filters_in {A B : Type} (f : B -> A -> bool) (x : A) (l : list B) :
  forall init,
    In x (fold_left (fun pr b => filter (f b) pr) l init)
    <-> In x init /\ forall b, In b l -> f b x = true.
Proof.
  induction l as [|b l IH]; intros init; cbn.
  - intuition.
  - rewrite IH, filter_In. split.
    + intros [[Hi Hb] Hl]. split; [exact Hi|].
      intros b' [<-|Hb']; auto.
    + intros [Hi Hl]. auto.
Qed.

(** Every annual-report row comes from an extracted production row that
    matches no entry of the exclusion list. *)
Lemma annual_report_rows (df : list Apa.ExtractedRow) (r : Apa.ProdRow) :
  In r (Apa.load_annual_report_production df) ->
  exists x,
    In x df /\ Apa.x_metric x = "production_mt"
    /\ r = Apa.mkProdRow (Apa.x_company x) (Apa.x_year x) (Apa.x_value x)
             "annual_report"
    /\ ~ In (Apa.x_company x, Apa.x_year x) Apa.bad.
Proof.
  unfold Apa.load_annual_report_production.
  destruct (empty _); [contradiction|].
  intros H. apply in_map_iff in H. destruct H as (x & <- & Hx).
  apply filters_in in Hx. destruct Hx as [Hx Hb].
  apply filter_In in Hx. destruct Hx as [Hx Hm].
  apply String.eqb_eq in Hm. exists x. repeat split; try assumption.
  intros Hbad. specialize (Hb _ Hbad). cbn in Hb.
  unfold Apa.is_bad in Hb. rewrite String.eqb_refl, Z.eqb_refl in Hb.
  discriminate.
Qed.

Lemma annual_report_rows_iff (df : list Apa.ExtractedRow) (r : Apa.ProdRow) :
  In r (Apa.load_annual_report_production df)
  <-> exists x,
      In x df /\ Apa.x_metric x = "production_mt"
      /\ ~ In (Apa.x_company x, Apa.x_year x) Apa.bad
      /\ r = Apa.mkProdRow (Apa.x_company x) (Apa.x_year x) (Apa.x_value x)
               "annual_report".
Proof.
  split.
  - intros H. apply annual_report_rows in H.
    destruct H as (x & H1 & H2 & H3 & H4). exists x. auto.
  - intros (x & Hx & Hm & Hb & ->). unfold Apa.load_annual_report_production.
    assert (Hprod : In x (filter (fun r => String.eqb (Apa.x_metric r)
                                              "production_mt") df)).
    { apply filter_In. split; [exact Hx|]. apply String.eqb_eq. exact Hm. }
    destruct (filter (fun r => String.eqb (Apa.x_metric r) "production_mt") df)
      as [|x0 prod] eqn:E; [destruct Hprod|].
    cbn [empty].
    apply (in_map (fun r => Apa.mkProdRow (Apa.x_company r) (Apa.x_year r)
                              (Apa.x_value r) "annual_report")).
    apply filters_in. split; [exact Hprod|].
    intros [c y] Hcy. cbn [fst snd]. unfold Apa.is_bad.
    destruct (String.eqb (Apa.x_company x) c) eqn:Ec; [|reflexivity].
    destruct (Apa.x_year x =? y)%Z eqn:Ey; [|reflexivity].
    apply String.eqb_eq in Ec. apply Z.eqb_eq in Ey. subst c y.
    contradiction.
Qed.

Lemma labelled_source (source : string) (records : list Apa.Record3)
  (r : Apa.ProdRow) :
  In r (map (Apa.labelled source) records) -> Apa.pr_production_source r = source.
Proof.
  intros H. apply in_map_iff in H. destruct H as (x & <- & _). reflexivity.
Qed.

Lemma curated_source (records : list Apa.Record3) (r : Apa.ProdRow) :
  In r (Apa.load_curated_production records) ->
  Apa.pr_production_source r = "curated_reports".
Proof.
  intros H. apply in_map_iff in H. destruct H as (x & <- & _). reflexivity.
Qed.

Lemma with_priority_in (k k' : Z) (df : list Apa.ProdRow) (r : Apa.ProdRow) :
  In (r, k') (Apa.with_priority k df) -> In r df /\ k' = k.
Proof.
  unfold Apa.with_priority. intros H. apply in_map_iff in H.
  destruct H as (x & [= -> ->] & Hx). auto.
Qed.

Lemma with_priority_iff (k k' : Z) (df : list Apa.ProdRow) (r : Apa.ProdRow) :
  In (r, k') (Apa.with_priority k df) <-> k' = k /\ In r df.
Proof.
  split.
  - intros H. apply with_priority_in in H. tauto.
  - intros [-> H]. unfold Apa.with_priority.
    apply (in_map (fun r => (r, k))). exact H.
Qed.

(** A candidate labelled annual_report is a row of the annual-report frame. *)
Lemma annual_report_candidate (src : Apa.Sources) (r : Apa.ProdRow) (k : Z) :
  In (r, k) (Apa.all_prod src) ->
  Apa.pr_production_source r = "annual_report" ->
  In r (Apa.load_annual_report_production (Apa.extracted src)).
Proof.
  unfold Apa.all_prod. rewrite !in_app_iff.
  intros [H|[H|[H|[H|H]]]] Hs; apply with_priority_in in H; destruct H as [H _];
    try exact H;
    (apply labelled_source in H || apply curated_source in H);
    rewrite Hs in H; discriminate.
Qed.

(** The candidates, source by source: the records of the five sources with
    their rank, the annual-report extractions less the exclusion list. *)
Lemma candidates_spec (src : Apa.Sources) (o : Apa.ProdRow) (k : Z) :
  In (o, k) (Apa.all_prod src)
  <-> (k = 0%Z
       /\ exists rec,
           In rec (Apa.bau_records src)
           /\ o = Apa.mkProdRow (fst (fst rec)) (snd (fst rec)) (snd rec)
                    "bau_reported")
      \/ (k = 1%Z
          /\ exists x,
              In x (Apa.extracted src)
              /\ Apa.x_metric x = "production_mt"
              /\ ~ In (Apa.x_company x, Apa.x_year x) Apa.bad
              /\ o = Apa.mkProdRow (Apa.x_company x) (Apa.x_year x)
                       (Apa.x_value x) "annual_report")
      \/ (k = 2%Z
          /\ exists rec,
              In rec (Apa.curated_records src)
              /\ o = Apa.mkProdRow (Apa.canonical_name (fst (fst rec)))
                       (snd (fst rec)) (snd rec) "curated_reports")
      \/ (k = 3%Z
          /\ exists rec,
              In rec (Apa.ald_records src)
              /\ o = Apa.mkProdRow (fst (fst rec)) (snd (fst rec)) (snd rec)
                       "kampmann_ald")
      \/ (k = 4%Z
          /\ exists rec,
              In rec (Apa.gem_records src)
              /\ o = Apa.mkProdRow (fst (fst rec)) (snd (fst rec)) (snd rec)
                       "gem_plant_level").
Proof.
  assert (Hlab : forall source records,
             In o (map (Apa.labelled source) records)
             <-> exists rec,
                 In rec records
                 /\ o = Apa.mkProdRow (fst (fst rec)) (snd (fst rec)) (snd rec)
                          source).
  { intros source records. rewrite in_map_iff. unfold Apa.labelled.
    split; intros (rec & H1 & H2); exists rec; split; auto. }
  assert (Hcur : In o (Apa.load_curated_production (Apa.curated_records src))
                 <-> exists rec,
                     In rec (Apa.curated_records src)
                     /\ o = Apa.mkProdRow (Apa.canonical_name (fst (fst rec)))
                              (snd (fst rec)) (snd rec) "curated_reports").
  { unfold Apa.load_curated_production. rewrite in_map_iff.
    split; intros (rec & H1 & H2); exists rec; split; auto. }
  unfold Apa.all_prod. rewrite !in_app_iff, !with_priority_iff.
  unfold Apa.load_bau_production, Apa.load_ald_production,
    Apa.load_gem_plant_production.
  rewrite !Hlab, Hcur, annual_report_rows_iff. reflexivity.
Qed.

Lemma selected_spec (l : list Apa.Ranked) :
  (forall x, In x (Apa.select_by_priority l) ->
             In x l
             /\ forall y, In y l ->
                          Apa.key_of (fst y) = Apa.key_of (fst x) ->
                          (snd x <= snd y)%Z)
  /\ (forall y, In y l ->
                exists x, In x (Apa.select_by_priority l)
                          /\ Apa.key_of (fst x) = Apa.key_of (fst y))
  /\ NoDup (map (fun x => Apa.key_of (fst x)) (Apa.select_by_priority l)).
Proof.
  unfold Apa.select_by_priority, drop_duplicates.
  split; [|split].
  - intros x Hx. split.
    + apply (drop_duplicates_from_in Apa.key_eqb _ key_eqb_spec) in Hx.
      apply (sort_by_in (@snd Apa.ProdRow Z)). tauto.
    + intros y Hy Hk.
      eapply (drop_duplicates_from_first (@snd Apa.ProdRow Z) Apa.key_eqb _
                key_eqb_spec x _ []).
      * apply sort_by_sorted.
      * exact Hx.
      * apply (sort_by_in (@snd Apa.ProdRow Z)). exact Hy.
      * exact Hk.
  - intros y Hy.
    apply (drop_duplicates_from_covers Apa.key_eqb
             (fun r : Apa.Ranked => Apa.key_of (fst r)) key_eqb_spec y).
    + apply (sort_by_in (@snd Apa.ProdRow Z)). exact Hy.
    + intros [].
  - apply (drop_duplicates_from_nodup Apa.key_eqb
             (fun r : Apa.Ranked => Apa.key_of (fst r)) key_eqb_spec).
Qed.

Lemma load_production_data_rows (src : Apa.Sources) :
  Apa.load_production_data src
  = map fst (Apa.select_by_priority (Apa.all_prod src)).
Proof.
  unfold Apa.load_production_data. destruct (Apa.all_prod src); reflexivity.
Qed.

(** C3. The candidates of the reconciliation are the observations of the
    five sources with their rank (0 audited workbook, 1 annual-report
    extraction, 2 curated file under its canonical name, 3 aggregated
    backup, 4 plant-level), less the annual-report extractions whose
    (company, year) is on the exclusion list: every other observation is a
    candidate.  Every reconciled row is a candidate, and its rank is the
    lowest among the candidates of its (company, year); every (company,
    year) that has a candidate has exactly one reconciled row.  So a
    production extraction that is not excluded is reconciled to itself or to
    another observation of rank 0 or 1, and an excluded extraction is never
    selected, whatever its rank.  The exclusion list holds JFE Holdings for
    2015 to 2017 and Nippon Steel for 2024. *)
Theorem reconciliation_prefers_best_rank :
  forall (src : Apa.Sources),
    let candidates := Apa.all_prod src in
    let result := Apa.load_production_data src in
    (forall r, In r result ->
               exists k, In (r, k) candidates
                         /\ forall o k', In (o, k') candidates ->
                                         Apa.key_of o = Apa.key_of r ->
                                         (k <= k')%Z)
    /\ (forall o k, In (o, k) candidates ->
                    exists r, In r result /\ Apa.key_of r = Apa.key_of o)
    /\ NoDup (map Apa.key_of result)
    /\ (forall o k, In (o, k) candidates ->
                    Apa.pr_production_source o = "annual_report" ->
                    ~ In (Apa.key_of o) Apa.bad)
    /\ (forall r, In r result ->
                  Apa.pr_production_source r = "annual_report" ->
                  ~ In (Apa.key_of r) Apa.bad)
    /\ (forall o k,
           In (o, k) candidates
           <-> (k = 0%Z
                /\ exists rec,
                    In rec (Apa.bau_records src)
                    /\ o = Apa.mkProdRow (fst (fst rec)) (snd (fst rec))
                             (snd rec) "bau_reported")
               \/ (k = 1%Z
                   /\ exists x,
                       In x (Apa.extracted src)
                       /\ Apa.x_metric x = "production_mt"
                       /\ ~ In (Apa.x_company x, Apa.x_year x) Apa.bad
                       /\ o = Apa.mkProdRow (Apa.x_company x) (Apa.x_year x)
                                (Apa.x_value x) "annual_report")
               \/ (k = 2%Z
                   /\ exists rec,
                       In rec (Apa.curated_records src)
                       /\ o = Apa.mkProdRow
                                (Apa.canonical_name (fst (fst rec)))
                                (snd (fst rec)) (snd rec) "curated_reports")
               \/ (k = 3%Z
                   /\ exists rec,
                       In rec (Apa.ald_records src)
                       /\ o = Apa.mkProdRow (fst (fst rec)) (snd (fst rec))
                                (snd rec) "kampmann_ald")
               \/ (k = 4%Z
                   /\ exists rec,
                       In rec (Apa.gem_records src)
                       /\ o = Apa.mkProdRow (fst (fst rec)) (snd (fst rec))
                                (snd rec) "gem_plant_level"))
    /\ (forall x,
           In x (Apa.extracted src) ->
           Apa.x_metric x = "production_mt" ->
           ~ In (Apa.x_company x, Apa.x_year x) Apa.bad ->
           exists r k,
             In r result /\ In (r, k) candidates
             /\ Apa.key_of r = (Apa.x_company x, Apa.x_year x)
             /\ (k <= 1)%Z
             /\ (Apa.pr_production_source r = "bau_reported"
                 \/ Apa.pr_production_source r = "annual_report"))
    /\ (forall x r,
           In x (Apa.extracted src) ->
           In (Apa.x_company x, Apa.x_year x) Apa.bad ->
           In r result ->
           Apa.key_of r = (Apa.x_company x, Apa.x_year x) ->
           Apa.pr_production_source r <> "annual_report")
    /\ (forall company year,
           In (company, year) Apa.bad
           <-> (company = "JFE Holdings"
                /\ (year = 2015 \/ year = 2016 \/ year = 2017)%Z)
               \/ (company = "Nippon Steel" /\ year = 2024%Z)).
Proof.
  intros src candidates result. subst candidates result.
  rewrite load_production_data_rows.
  destruct (selected_spec (Apa.all_prod src)) as (Hsel & Hcov & Hnd).
  assert (Hexcl : forall o k, In (o, k) (Apa.all_prod src) ->
                    Apa.pr_production_source o = "annual_report" ->
                    ~ In (Apa.key_of o) Apa.bad).
  { intros o k Ho Hs. apply (annual_report_candidate src o k Ho) in Hs.
    apply annual_report_rows in Hs.
    destruct Hs as (x & _ & _ & -> & Hb). exact Hb. }
  assert (Hres : forall r, In r (map fst (Apa.select_by_priority
                                            (Apa.all_prod src))) ->
                   exists k, In (r, k) (Apa.all_prod src)
                             /\ forall o k', In (o, k') (Apa.all_prod src) ->
                                             Apa.key_of o = Apa.key_of r ->
                                             (k <= k')%Z).
  { intros r Hr. apply in_map_iff in Hr. destruct Hr as ([r' k] & <- & Hx).
    exists k. destruct (Hsel _ Hx) as [Hin Hmin]. split; [exact Hin|].
    intros o k' Ho Hk. exact (Hmin (o, k') Ho Hk). }
  assert (Hkey : forall o k, In (o, k) (Apa.all_prod src) ->
                   exists r, In r (map fst (Apa.select_by_priority
                                              (Apa.all_prod src)))
                             /\ Apa.key_of r = Apa.key_of o).
  { intros o k Ho. destruct (Hcov _ Ho) as ([r k'] & Hx & Hk).
    exists r. split; [|exact Hk].
    apply in_map_iff. exists (r, k'). auto. }
  assert (Hsel_excl : forall r, In r (map fst (Apa.select_by_priority
                                                 (Apa.all_prod src))) ->
                        Apa.pr_production_source r = "annual_report" ->
                        ~ In (Apa.key_of r) Apa.bad).
  { intros r Hr Hs. destruct (Hres r Hr) as (k & Hin & _).
    exact (Hexcl _ _ Hin Hs). }
  split; [exact Hres|]. split; [exact Hkey|].
  split; [rewrite map_map; exact Hnd|].
  split; [exact Hexcl|]. split; [exact Hsel_excl|].
  split; [intros o k; apply candidates_spec|]. split; [|split].
  - intros x Hx Hm Hb.
    set (o := Apa.mkProdRow (Apa.x_company x) (Apa.x_year x) (Apa.x_value x)
                "annual_report").
    assert (Ho : In (o, 1%Z) (Apa.all_prod src)).
    { apply candidates_spec. right. left. split; [reflexivity|].
      exists x. auto. }
    destruct (Hkey o 1%Z Ho) as (r & Hr & Hk).
    destruct (Hres r Hr) as (k & Hin & Hmin).
    exists r, k. split; [exact Hr|]. split; [exact Hin|].
    split; [exact Hk|].
    assert (Hle : (k <= 1)%Z) by (apply (Hmin o 1%Z Ho); symmetry; exact Hk).
    split; [exact Hle|].
    apply candidates_spec in Hin.
    destruct Hin as [(_ & rec & _ & ->)|[(_ & x' & _ & _ & _ & ->)
                    |[(E & _)|[(E & _)|(E & _)]]]];
      [left; reflexivity|right; reflexivity|lia|lia|lia].
  - intros x r Hx Hb Hr Hk Hs. apply (Hsel_excl r Hr Hs).
    rewrite Hk. exact Hb.
  - intros company year. unfold Apa.bad. cbn [In]. split.
    + intros [H|[H|[H|[H|[]]]]]; injection H as <- <-; auto.
    + intros [[-> [-> | [-> | ->]]] | [-> ->]]; auto 6.
Qed.

(** ** Implausible utilization rates *)

Lemma flat_mapM_ok {A B : Type} (P : B -> Prop) (f : A -> pyres (list B))
  (l : list A) :
  (forall a, In a l -> exists bs, f a = Ret bs /\ Forall P bs) ->
  exists bs, flat_mapM f l = Ret bs /\ Forall P bs.
Proof.
  induction l as [|a l IH]; intros H; cbn.
  - exists []. split; [reflexivity|constructor].
  - destruct (H a (or_introl eq_refl)) as (bs & -> & Hbs).
    destruct IH as (rest & -> & Hrest).
    { intros a' Ha'. apply H. right. exact Ha'. }
    cbn. exists (bs ++ rest)%list. split; [reflexivity|].
    apply Forall_app. auto.
Qed.

Lemma ur_sample_in_band (re_search : string -> string -> bool)
  (all_plants : list Apa.Plant) (company : string) (pr : Apa.ProdRow) :
  exists samples,
    Apa.ur_sample re_search all_plants company pr = Ret samples
    /\ Forall in_band samples.
Proof.
  unfold Apa.ur_sample.
  destruct (Qltb 0 _) eqn:E; [|exists []; split; [reflexivity|constructor]].
  apply Qltb_lt in E. rewrite (checked_fdiv_pos _ _ E). cbn [bind].
  destruct (Apa.pr_production_mt pr) as [p|];
    [|exists []; split; [reflexivity|constructor]].
  destruct (Qle_bool 0.1 _) eqn:Elo; cbn [andb];
    [|exists []; split; [reflexivity|constructor]].
  destruct (Qle_bool _ 1.5) eqn:Ehi;
    [|exists []; split; [reflexivity|constructor]].
  eexists. split; [reflexivity|]. constructor; [|constructor].
  split; apply Qle_bool_iff; assumption.
Qed.

Lemma ur_samples_in_band (re_search : string -> string -> bool)
  (all_plants : list Apa.Plant) (production : list Apa.ProdRow)
  (company : string) :
  exists samples,
    Apa.ur_samples re_search all_plants production company = Ret samples
    /\ Forall in_band samples.
Proof.
  unfold Apa.ur_samples. apply flat_mapM_ok.
  intros pr _. apply ur_sample_in_band.
Qed.

Lemma firstn_incl {A : Type} (n : nat) (l : list A) : incl (firstn n l) l.
Proof.
  intros x Hx. rewrite <- (firstn_skipn n l). apply in_or_app. left. exact Hx.
Qed.

Lemma earliest_incl (samples : list (Z * Q)) :
  incl (Apa.earliest samples) samples.
Proof.
  unfold Apa.earliest. intros x Hx. apply firstn_incl in Hx.
  apply sort_by_in_any in Hx. exact Hx.
Qed.

Lemma insert_by_cons {A : Type} (lt : A -> A -> bool) (x : A) (l : list A) :
  exists y l', insert_by lt x l = y :: l'.
Proof.
  destruct l as [|z l]; cbn; [eauto|]. destruct (lt z x); eauto.
Qed.

Lemma avg_ur_ok (samples : list (Z * Q)) :
  samples <> [] -> exists avg, Apa.avg_ur samples = Ret avg.
Proof.
  intros Hne. unfold Apa.avg_ur.
  assert (H : exists y l', Apa.earliest samples = y :: l').
  { unfold Apa.earliest. destruct samples as [|s samples]; [contradiction|].
    cbn [sort_by fold_right].
    destruct (insert_by_cons (fun a b => (fst a <? fst b)%Z) s
                (fold_right (insert_by (fun a b => (fst a <? fst b)%Z)) []
                   samples)) as (y & l' & E).
    unfold sort_by in *. rewrite E. cbn. eauto. }
  destruct H as (y & l' & ->). cbn [List.length].
  rewrite checked_div_pos; [eauto|].
  unfold Qlt. cbn. lia.
Qed.

Lemma estimate_company_ok (re_search : string -> string -> bool)
  (all_plants : list Apa.Plant) (production : list Apa.ProdRow)
  (fill_years : list Z) (company : string) :
  exists rows,
    Apa.estimate_company re_search all_plants production fill_years company
    = Ret rows /\ Forall (fun _ => True) rows.
Proof.
  unfold Apa.estimate_company.
  destruct (ur_samples_in_band re_search all_plants production company)
    as (samples & -> & _).
  cbn [bind]. destruct samples as [|s samples].
  - exists []. split; [reflexivity|constructor].
  - cbn [empty]. destruct (avg_ur_ok (s :: samples)) as (avg & ->);
      [discriminate|].
    cbn [bind]. eexists. split; [reflexivity|].
    apply Forall_forall. trivial.
Qed.

Lemma estimate_ok (re_search : string -> string -> bool)
  (all_plants : list Apa.Plant) (production : list Apa.ProdRow)
  (fill_years : list Z) :
  exists rows,
    Apa.estimate_production_from_capacity re_search all_plants production
      fill_years = Ret rows.
Proof.
  unfold Apa.estimate_production_from_capacity.
  destruct (empty all_plants || empty production); [eauto|].
  match goal with
  | |- exists rows, flat_mapM ?f ?l = _ =>
      destruct (flat_mapM_ok (fun _ => True) f l) as (rows & H & _)
  end.
  - intros company _. apply estimate_company_ok.
  - eauto.
Qed.

Lemma report_row_plausible (re_search : string -> string -> bool)
  (all_plants : list Apa.Plant)
  (country_prod_map : list ((string * Z) * list (string * Q)))
  (r : Apa.ProdRow) :
  exists rows,
    Apa.report_row re_search all_plants country_prod_map r = Ret rows
    /\ Forall plausible rows.
Proof.
  unfold Apa.report_row.
  destruct (Apa.calculate_company_emissions _ _ _ _ _ _) as [[res|]|] eqn:E.
  - cbn [bind]. destruct (flt (Some 1.5) (Apa.r_utilization_rate res)) eqn:Eu.
    + exists []. split; [reflexivity|constructor].
    + eexists. split; [reflexivity|]. constructor; [exact Eu|constructor].
  - exists []. split; [reflexivity|constructor].
  - exfalso. exact (calculate_no_division_error _ _ _ _ _ _ E).
Qed.

Lemma run_apa_all_plausible (re_search : string -> string -> bool)
  (all_plants : list Apa.Plant) (src : Apa.Sources)
  (country_prod_map : list ((string * Z) * list (string * Q))) :
  exists results,
    Apa.run_apa_all re_search all_plants src country_prod_map = Ret results
    /\ Forall plausible results.
Proof.
  unfold Apa.run_apa_all.
  destruct (empty all_plants); [exists []; split; [reflexivity|constructor]|].
  destruct (empty (Apa.load_production_data src));
    [exists []; split; [reflexivity|constructor]|].
  destruct (estimate_ok re_search all_plants (Apa.load_production_data src)
              (range_incl 2014 2019)) as (estimated & ->).
  cbn [bind].
  match goal with
  | |- exists results, bind (flat_mapM ?f ?l) _ = _ /\ _ =>
      destruct (flat_mapM_ok plausible f l) as (rows & -> & Hrows)
  end.
  - intros r _. apply report_row_plausible.
  - cbn [bind]. eexists. split; [reflexivity|].
    apply Forall_forall. intros row Hrow. apply sort_by_in_any in Hrow.
    rewrite Forall_forall in Hrows. auto.
Qed.

Lemma exclude_records (df : list Integrate.Flagged)
  (rule : Integrate.ExcludeRule) :
  map Integrate.record (Integrate.exclude df rule) = map Integrate.record df.
Proof.
  unfold Integrate.exclude. destruct (existsb _ df); [|reflexivity].
  rewrite map_map. apply map_ext. intros f.
  destruct (Integrate.rule_mask rule f); reflexivity.
Qed.

Lemma exclude_all_records (rules : list Integrate.ExcludeRule) :
  forall df,
    map Integrate.record (fold_left Integrate.exclude rules df)
    = map Integrate.record df.
Proof.
  induction rules as [|rule rules IH]; intros df; cbn; [reflexivity|].
  rewrite IH. apply exclude_records.
Qed.

Lemma flag_suspicious_record (m : string) (bound : Q) (label : string)
  (f : Integrate.Flagged) :
  Integrate.record (Integrate.flag_suspicious m bound label f)
  = Integrate.record f.
Proof.
  unfold Integrate.flag_suspicious.
  destruct (String.eqb _ m && _); [|reflexivity].
  destruct (negb _); reflexivity.
Qed.

Lemma quality_filters_keep_records (df : list Integrate.SourceRecord) :
  map Integrate.record (Integrate.apply_quality_filters df) = df.
Proof.
  unfold Integrate.apply_quality_filters.
  rewrite map_map.
  rewrite (map_ext _ Integrate.record
             (fun f => flag_suspicious_record _ _ _ _)).
  rewrite map_map.
  rewrite (map_ext _ Integrate.record
             (fun f => flag_suspicious_record _ _ _ _)).
  rewrite exclude_all_records, map_map. apply map_id.
Qed.

Lemma high_emissions_flagged (df : list Integrate.SourceRecord) :
  Forall (fun f => high_emissions (Integrate.record f) = true ->
                   Integrate.quality_flag f <> "")
    (Integrate.apply_quality_filters df).
Proof.
  unfold Integrate.apply_quality_filters. apply Forall_forall.
  intros f' Hf'. apply in_map_iff in Hf'. destruct Hf' as (f & <- & _).
  rewrite flag_suspicious_record. unfold high_emissions.
  unfold Integrate.flag_suspicious. intros ->.
  destruct (String.eqb (Integrate.quality_flag f) "") eqn:E; cbn.
  - discriminate.
  - intros H. rewrite H in E. discriminate.
Qed.

(** C9, as stated, fails in its second part: the company-year has a
    production row and the allocator returns a result for it, with a
    utilization rate of 2.0; that is above 1.5, and the batch reports no row
    for it: the record is dropped, not flagged. *)
Lemma implausible_record_dropped_counterexample :
  Apa.load_production_data overstated_sources
  = [ Apa.mkProdRow "Nippon Steel" 2020 (Some 20) "bau_reported" ]
  /\ (exists res u,
         Apa.calculate_company_emissions literal_search
           (Apa.get_plants_for_year one_plant_fleet 2020) "Nippon Steel"
           (Some 20) (Some 2020%Z) None = Ret (Some res)
         /\ Apa.r_utilization_rate res = Some u /\ u == 2)
  /\ Apa.run_apa_all literal_search one_plant_fleet overstated_sources []
     = Ret [].
Proof.
  split; [reflexivity|]. split; [|vm_compute; reflexivity].
  eexists. eexists. split; [vm_compute; reflexivity|].
  split; [reflexivity|]. vm_compute. reflexivity.
Qed.

(** C9, amended. Every utilization sample that enters the calibration
    average lies in the band [0.1, 1.5]: samples outside it are left out.  At
    final reporting the APA batch always returns, and every row it reports
    has a utilization rate that is not above 1.5: a company-year whose rate
    exceeds 1.5 is skipped, one whose rate does not is reported with the
    allocator's figures.  In the integration step no record is dropped, and
    an emissions figure above 200 Mt leaves it with a non-empty quality
    flag. *)
Theorem implausible_figures_left_out_or_flagged :
  forall (re_search : string -> string -> bool) (all_plants : list Apa.Plant)
         (production : list Apa.ProdRow) (company : string)
         (src : Apa.Sources)
         (country_prod_map : list ((string * Z) * list (string * Q)))
         (ar_df ct_df apa_df : list Integrate.SourceRecord),
    (exists samples,
        Apa.ur_samples re_search all_plants production company = Ret samples
        /\ Forall in_band samples
        /\ Forall in_band (Apa.earliest samples))
    /\ (exists results,
           Apa.run_apa_all re_search all_plants src country_prod_map
           = Ret results
           /\ Forall plausible results)
    /\ (forall r res,
           Apa.calculate_company_emissions re_search
             (Apa.get_plants_for_year all_plants (Apa.pr_year r))
             (Apa.pr_company r) (Apa.pr_production_mt r)
             (Some (Apa.pr_year r))
             (Apa.country_prod_get country_prod_map
                (Apa.pr_company r, Apa.pr_year r))
           = Ret (Some res) ->
           Apa.report_row re_search all_plants country_prod_map r
           = Ret (if flt (Some 1.5) (Apa.r_utilization_rate res) then []
                  else [ Apa.mkApaRow (Apa.pr_company r) (Apa.pr_year r)
                           (Apa.pr_production_mt r) (Apa.r_emissions_mt res)
                           (Apa.r_weighted_ef res)
                           (Apa.r_utilization_rate res) (Apa.r_n_plants res)
                           (Apa.r_total_capacity_mt res)
                           (Apa.pr_production_source r) ]))
    /\ map Integrate.record (Integrate.long_format ar_df ct_df apa_df)
       = (ar_df ++ ct_df ++ apa_df)%list
    /\ Forall (fun f => high_emissions (Integrate.record f) = true ->
                        Integrate.quality_flag f <> "")
         (Integrate.long_format ar_df ct_df apa_df).
Proof.
  intros. split; [|split; [|split; [|split]]].
  - destruct (ur_samples_in_band re_search all_plants production company)
      as (samples & Hs & Hb).
    exists samples. split; [exact Hs|]. split; [exact Hb|].
    apply Forall_forall. intros s Hin. apply earliest_incl in Hin.
    rewrite Forall_forall in Hb. auto.
  - apply run_apa_all_plausible.
  - intros r res H. unfold Apa.report_row. rewrite H. cbn [bind].
    destruct (flt (Some 1.5) (Apa.r_utilization_rate res)); reflexivity.
  - apply quality_filters_keep_records.
  - apply high_emissions_flagged.
Qed.

(** ** The properties at concrete fleets *)

Lemma allocated_output_sums_to_target_witness :
  exists res,
    Apa.calculate_company_emissions literal_search two_plant_fleet
      "Nippon Steel" (Some 9) (Some 2020%Z) (Some [("Japan", 5)])
    = Ret (Some res)
    /\ series_sum (map Apa.allocated_production_mt (Apa.plant_breakdown res))
       == 9.
Proof.
  pose proof (allocated_output_sums_to_target literal_search two_plant_fleet
                "Nippon Steel" 9 (Some 2020%Z) (Some [("Japan", 5)])) as H.
  cbv zeta in H. destruct H as (res & Hres & _ & _ & _ & Hsum).
  - vm_compute. reflexivity.
  - cbn. constructor; [intros []|constructor].
  - exists res. split; [exact Hres|]. apply Hsum; [discriminate|].
    left. split; vm_compute; reflexivity.
Defined.

Lemma anchoring_rescales_every_year_witness :
  Forall (fun row => raw_rounded row /\ Tp.apa_anchored row = true)
    (Tp.anchor 2024 (Some 2.0) 0.8 scale_one_annual).
Proof.
  pose proof (anchoring_rescales_every_year 2024 (Some 2.0) 0.8
                scale_one_annual) as H.
  cbv zeta in H. destruct H as (_ & _ & _ & _ & _ & H & _).
  apply (H 2.0 2.0); reflexivity.
Defined.

Lemma reconciliation_prefers_best_rank_witness :
  Apa.load_production_data three_source_production
  = [ Apa.mkProdRow "JFE Holdings" 2018 (Some 29.0) "annual_report";
      Apa.mkProdRow "JFE Holdings" 2015 (Some 29.8) "curated_reports";
      Apa.mkProdRow "POSCO Holdings" 2020 (Some 35.9) "curated_reports" ]
  /\ (exists r k,
         In r (Apa.load_production_data three_source_production)
         /\ In (r, k) (Apa.all_prod three_source_production)
         /\ Apa.key_of r = ("JFE Holdings", 2018%Z)
         /\ (k <= 1)%Z
         /\ (Apa.pr_production_source r = "bau_reported"
             \/ Apa.pr_production_source r = "annual_report"))
  /\ Apa.pr_production_source
       (Apa.mkProdRow "JFE Holdings" 2015 (Some 29.8) "curated_reports")
     <> "annual_report".
Proof.
  pose proof (reconciliation_prefers_best_rank three_source_production) as H.
  cbv zeta in H. destruct H as (_ & _ & _ & _ & _ & _ & Hin & Hout & _).
  split; [reflexivity|]. split.
  - apply (Hin (Apa.mkExtractedRow "JFE Holdings" 2018 "production_mt"
                  (Some 29.0))).
    + right. left. reflexivity.
    + reflexivity.
    + cbn. intuition discriminate.
  - apply (Hout (Apa.mkExtractedRow "JFE Holdings" 2015 "production_mt"
                   (Some 100))).
    + left. reflexivity.
    + left. reflexivity.
    + right. left. reflexivity.
    + reflexivity.
Defined.

Lemma cancelled_never_active_witness :
  Tp._unit_is_active cancelled_unit 2030 nan = false
  /\ ~ In cancelled_plant (Apa.get_plants_for_year [cancelled_plant] 2024).
Proof.
  destruct cancelled_never_active as (Hu & _ & Hp). split.
  - apply Hu. reflexivity.
  - apply Hp. reflexivity.
Defined.

Lemma planned_transition_within_no_closure_witness :
  Tp._unit_is_active closing_unit 2026 nan = true.
Proof.
  destruct (planned_transition_within_no_closure literal_search [closing_unit]
              "Nippon Steel" [] 2024 2050) as (H & _).
  apply H. reflexivity.
Defined.

Lemma no_capacity_is_no_data_witness :
  Apa.calculate_company_emissions literal_search two_plant_fleet "SSAB"
    (Some 8) (Some 2020%Z) None = Ret None.
Proof.
  pose proof (no_capacity_is_no_data literal_search two_plant_fleet "SSAB"
                (Some 8) (Some 2020%Z) None) as H.
  cbv zeta in H. destruct H as (H & _).
  apply H. left. reflexivity.
Defined.

Lemma close_year_without_retirement_date_witness :
  (Tp._infer_close_year retired_undated_unit = Some 2023
   /\ Kampmann.infer_closure retired_undated_unit
      = (Some 2024, "gem_status_inferred"))
  /\ Tp._infer_close_year
       (Kampmann.mkUnit "P100000120438" "P100000120438-BOF3" "BOF 3"
          "Kashima steel plant" (Some "Nippon Steel Corp") "Japan"
          "operating pre-retirement" (Some 1975) (Some 2023) nan
          (Some 2500) "bof" "BF-BOF")
     = Some (2023 + 5).
Proof.
  split.
  - destruct (close_year_without_retirement_date retired_undated_unit
                eq_refl) as (H & _).
    apply H. reflexivity.
  - destruct (close_year_without_retirement_date
                (Kampmann.mkUnit "P100000120438" "P100000120438-BOF3" "BOF 3"
                   "Kashima steel plant" (Some "Nippon Steel Corp") "Japan"
                   "operating pre-retirement" (Some 1975) (Some 2023) nan
                   (Some 2500) "bof" "BF-BOF")
                eq_refl) as (_ & H).
    destruct (H eq_refl) as (Hc & _). exact Hc.
Defined.

Lemma announced_only_under_relaxed_policy_witness :
  ~ In announced_plant (Apa.get_plants_for_year [announced_plant] 2024)
  /\ Tp._unit_is_active announced_unit 2030
       (Tp._infer_close_year announced_unit) = true.
Proof.
  destruct announced_only_under_relaxed_policy as (Hp & Hu). split.
  - apply Hp. reflexivity.
  - destruct (Hu announced_unit eq_refl) as (_ & H). rewrite H. reflexivity.
Defined.

Lemma implausible_figures_left_out_or_flagged_witness :
  Apa.report_row literal_search one_plant_fleet []
    (Apa.mkProdRow "Nippon Steel" 2020 (Some 20) "bau_reported")
  = Ret [].
Proof.
  destruct (implausible_figures_left_out_or_flagged literal_search one_plant_fleet
              [] "Nippon Steel" overstated_sources [] [] [] [])
    as (_ & _ & H & _).
  eapply eq_trans; [apply H; vm_compute; reflexivity|].
  vm_compute. reflexivity.
Defined.


(* ================================================================== *)
(** * Further properties of the pipeline *)
(* ================================================================== *)

(** ** Emission factors *)

Lemma dict_get_default_pos (d : list (string * Q)) (k : string) (dflt : Q) :
  Forall (fun kv => 0 < snd kv) d -> 0 < dflt ->
  0 < Apa.dict_get_default d k dflt.
Proof.
  intros Hd Hdflt. unfold Apa.dict_get_default.
  induction Hd as [|[k' v] d Hv _ IH]; cbn; [exact Hdflt|].
  destruct (String.eqb k' k); [exact Hv|exact IH].
Qed.

Lemma dict_get_default_le (d : list (string * Q)) (k : string) (dflt hi : Q) :
  Forall (fun kv => snd kv <= hi) d -> dflt <= hi ->
  Apa.dict_get_default d k dflt <= hi.
Proof.
  intros Hd Hdflt. unfold Apa.dict_get_default.
  induction Hd as [|[k' v] d Hv _ IH]; cbn; [exact Hdflt|].
  destruct (String.eqb k' k); [exact Hv|exact IH].
Qed.

Lemma EF_BF_BOF_pos : Forall (fun kv => 0 < snd kv) Apa.EF_BF_BOF.
Proof. repeat constructor. Qed.

Lemma EF_EAF_pos : Forall (fun kv => 0 < snd kv) Apa.EF_EAF.
Proof. repeat constructor. Qed.

Lemma EF_EAF_le : Forall (fun kv => snd kv <= 0.12) Apa.EF_EAF.
Proof. repeat constructor; discriminate. Qed.

Lemma improvement_base_pos : 0 < 1 - Apa.EF_BF_BOF_ANNUAL_IMPROVEMENT.
Proof. reflexivity. Qed.

(** With a base below 1, a later year gives a smaller power. *)
Lemma Qpower_decreasing (q : Q) (n m : Z) :
  0 < q -> q < 1 -> (n < m)%Z -> q ^ m < q ^ n.
Proof.
  intros Hpos Hlt Hnm.
  assert (Hinv : 1 < / q).
  { apply Qlt_shift_inv_l; [exact Hpos|]. rewrite Qmult_1_l. exact Hlt. }
  assert (E : forall k, q ^ k == (/ q) ^ (- k)).
  { intros k. rewrite Qpower_opp, Qinv_power, Qinv_involutive. reflexivity. }
  rewrite (E m), (E n). apply Qpower_lt_compat_l; [lia|exact Hinv].
Qed.

(** X1. The emission factor the lookup returns is positive: without a
    year, for a process text that names a static process whatever the year,
    and, for the year-adjusted default, for every year within 100000 years
    of the reference year. *)
Theorem emission_factor_positive :
  forall (country process : string),
    0 < Apa.get_plant_ef country process None
    /\ (names_static_process process = true ->
        forall year, 0 < Apa.get_plant_ef country process year)
    /\ (forall y,
           ordinary_year y = true ->
           0 < Apa.get_plant_ef country process (Some y)).
Proof.
  intros country process.
  assert (H : forall year, 0 < Apa.get_plant_ef country process year).
  { intros year. unfold Apa.get_plant_ef.
    destruct (contains "dri" _ && negb _).
    { destruct (isin country Apa.DRI_COAL_COUNTRIES); reflexivity. }
    destruct (contains "eaf" _ || contains "electric" _ || contains "scrap" _).
    { apply dict_get_default_pos; [exact EF_EAF_pos|reflexivity]. }
    destruct (contains "h2" _ || contains "hydrogen" _); [reflexivity|].
    assert (Hbase : 0 < Apa.dict_get_default Apa.EF_BF_BOF
                          (Apa.get_ef_region country) 2.314).
    { apply dict_get_default_pos; [exact EF_BF_BOF_pos|reflexivity]. }
    destruct year as [y|]; [|exact Hbase].
    apply Qmult_lt_0_compat; [exact Hbase|].
    apply Qpower_0_lt. exact improvement_base_pos. }
  split; [apply H|]. split; [intros _; exact H|]. intros y _. apply H.
Qed.

Lemma static_process_branches (process : string) :
  names_static_process process = false ->
  contains "dri" (lower process) = false
  /\ contains "eaf" (lower process) = false
  /\ contains "electric" (lower process) = false
  /\ contains "scrap" (lower process) = false
  /\ contains "h2" (lower process) = false
  /\ contains "hydrogen" (lower process) = false.
Proof.
  unfold names_static_process. intros H.
  repeat (apply orb_false_iff in H; destruct H as [H ?]). auto 10.
Qed.

(** X2. Only the BF-BOF default of the lookup depends on the year: a process
    text that names DRI, EAF, electric, scrap, H2 or hydrogen has the same
    factor for every year and without a year; any other text has a factor
    that strictly decreases from one year to a later one, for years within
    100000 years of the reference year, and that equals the factor without
    a year at the reference year 2020. *)
Theorem emission_factor_year_dependence :
  forall (country process : string),
    (names_static_process process = true ->
     forall year year',
       Apa.get_plant_ef country process year
       = Apa.get_plant_ef country process year')
    /\ (names_static_process process = false ->
        (forall y y',
            ordinary_year y = true -> ordinary_year y' = true ->
            (y < y')%Z ->
            Apa.get_plant_ef country process (Some y')
            < Apa.get_plant_ef country process (Some y))
        /\ Apa.get_plant_ef country process (Some 2020%Z)
           == Apa.get_plant_ef country process None).
Proof.
  intros country process. split.
  - unfold names_static_process, Apa.get_plant_ef. intros H year year'.
    destruct (contains "dri" (lower process)); cbn [orb andb] in *.
    + destruct (contains "h2" (lower process)); cbn [negb orb andb].
      * destruct (contains "eaf" _ || contains "electric" _ || contains "scrap" _);
          reflexivity.
      * reflexivity.
    + destruct (contains "eaf" _ || contains "electric" _ || contains "scrap" _)
        eqn:E; [reflexivity|].
      cbn [orb] in H. rewrite H. reflexivity.
  - intros H. apply static_process_branches in H.
    destruct H as (H1 & H2 & H3 & H4 & H5 & H6).
    unfold Apa.get_plant_ef. rewrite H1, H2, H3, H4, H5, H6. cbn [andb orb].
    assert (Hbase : 0 < Apa.dict_get_default Apa.EF_BF_BOF
                          (Apa.get_ef_region country) 2.314).
    { apply dict_get_default_pos; [exact EF_BF_BOF_pos|reflexivity]. }
    split.
    + intros y y' _ _ Hy. apply Qmult_lt_l; [exact Hbase|].
      apply Qpower_decreasing; [reflexivity|reflexivity|].
      unfold Apa.EF_REFERENCE_YEAR. lia.
    + cbn. ring.
Qed.

(** ** Technology classes *)

(** X3. The technology class of a plant is one of BF-BOF, DRI, EAF and
    H2-DRI.  When both the BF and the DRI capacity are known and positive the
    larger one decides, BF-BOF winning a tie; and whenever some capacity is
    known and positive the equipment text plays no part. *)
Theorem determine_process_by_capacity :
  forall (re_match : string -> string -> bool) (row : Apa.CapacityRow),
    In (Apa._determine_process re_match row) process_classes
    /\ (positive_capacity (Apa.bf_capacity row) = true ->
        positive_capacity (Apa.dri_capacity row) = true ->
        Apa._determine_process re_match row
        = if fle (Apa.dri_capacity row) (Apa.bf_capacity row)
          then "BF-BOF" else "DRI")
    /\ (positive_capacity (Apa.bf_capacity row)
        || positive_capacity (Apa.dri_capacity row)
        || positive_capacity (Apa.eaf_capacity row) = true ->
        forall (re_match' : string -> string -> bool) (equipment : string),
          Apa._determine_process re_match row
          = Apa._determine_process re_match'
              (Apa.mkCapacityRow (Apa.dri_capacity row) (Apa.bf_capacity row)
                 (Apa.eaf_capacity row) equipment)).
Proof.
  intros re_match row. unfold Apa._determine_process, positive_capacity,
    process_classes.
  cbn [Apa.dri_capacity Apa.bf_capacity Apa.eaf_capacity Apa.main_equipment].
  split; [|split].
  - destruct (notna (Apa.bf_capacity row) && _);
      destruct (notna (Apa.dri_capacity row) && _); cbn [andb].
    + destruct (fle _ _); cbn; auto.
    + cbn; auto.
    + cbn; auto.
    + destruct (notna (Apa.eaf_capacity row) && _); [cbn; auto|].
      repeat match goal with
             | |- context [if re_match ?a ?b then _ else _] =>
                 destruct (re_match a b)
             end; cbn; auto 6.
  - intros -> ->. reflexivity.
  - intros H re_match' equipment.
    destruct (notna (Apa.bf_capacity row) && _);
      destruct (notna (Apa.dri_capacity row) && _); cbn [andb orb] in *;
      try reflexivity.
    rewrite H. reflexivity.
Qed.

(** ** Resolving a company's plants *)

Lemma name_patterns_other (company : string) :
  company <> "US Steel" ->
  dict_get Apa.COMPANY_PLANT_NAME_PATTERNS company = None.
Proof.
  intros H. unfold Apa.COMPANY_PLANT_NAME_PATTERNS. cbn [dict_get].
  destruct (String.eqb "US Steel" company) eqn:E; [|reflexivity].
  apply String.eqb_eq in E. congruence.
Qed.

Lemma transfers_other (re_search : string -> string -> bool)
  (company : string) (y : Z) (result : list Apa.Plant) :
  company <> "Nippon Steel" ->
  fold_left (Apa.exclude_transfer re_search company y) Apa.OWNERSHIP_TRANSFERS
    result = result.
Proof.
  intros H. unfold Apa.OWNERSHIP_TRANSFERS. cbn [fold_left].
  unfold Apa.exclude_transfer. cbn [Apa.acquirer].
  destruct (String.eqb "Nippon Steel" company) eqn:E; [|reflexivity].
  apply String.eqb_eq in E. congruence.
Qed.

Lemma filter_filter {A : Type} (f g : A -> bool) (l : list A) :
  filter g (filter f l) = filter (fun x => f x && g x) l.
Proof.
  induction l as [|x l IH]; [reflexivity|].
  cbn. destruct (f x); cbn; [destruct (g x)|]; rewrite IH; reflexivity.
Qed.

Lemma filter_all {A : Type} (f : A -> bool) (l : list A) :
  List.length (filter f l) = 0%nat -> filter (fun x => negb (f x)) l = l.
Proof.
  induction l as [|x l IH]; [reflexivity|].
  cbn. destruct (f x); cbn; [discriminate|]. intros H. rewrite IH; auto.
Qed.

(** X4. Before the acquisition year 2024, the plants resolved for Nippon
    Steel are the plants whose parent matches its pattern and whose name does
    not match the U.S. Steel name pattern; from 2024 on, and when no year is
    given, they are all the plants whose parent matches. *)
Theorem nippon_steel_excludes_us_steel_before_2024 :
  forall (re_search : string -> string -> bool) (plants_df : list Apa.Plant),
    (forall y, (y < 2024)%Z ->
       Apa.get_company_plants re_search plants_df "Nippon Steel" (Some y)
       = filter (fun p =>
                   Apa.str_contains re_search "Nippon Steel" (Apa.parent p)
                   && negb (Apa.str_contains re_search us_steel_name_pattern
                              (Apa.plant_name p)))
           plants_df)
    /\ (forall y, (2024 <= y)%Z ->
          Apa.get_company_plants re_search plants_df "Nippon Steel" (Some y)
          = filter (fun p =>
                      Apa.str_contains re_search "Nippon Steel" (Apa.parent p))
              plants_df)
    /\ Apa.get_company_plants re_search plants_df "Nippon Steel" None
       = filter (fun p =>
                   Apa.str_contains re_search "Nippon Steel" (Apa.parent p))
           plants_df.
Proof.
  intros re_search plants_df.
  assert (Hfb : forall result : list Apa.Plant,
             (if empty result
              then match dict_get Apa.COMPANY_PLANT_NAME_PATTERNS "Nippon Steel"
                   with
                   | Some name_pattern =>
                       filter (fun p => Apa.str_contains re_search name_pattern
                                          (Apa.plant_name p)) plants_df
                   | None => result
                   end
              else result) = result).
  { intros result. cbn. destruct (empty result); reflexivity. }
  split; [|split].
  - intros y Hy. unfold Apa.get_company_plants.
    change (match dict_get Apa.COMPANY_GEM_PATTERNS "Nippon Steel" with
            | Some pat => pat | None => "Nippon Steel" end)
      with "Nippon Steel".
    cbv zeta. rewrite Hfb.
    set (matched := filter _ plants_df).
    rewrite <- filter_filter. fold matched.
    destruct matched as [|p0 rest] eqn:Em; [reflexivity|].
    cbn [empty negb Apa.OWNERSHIP_TRANSFERS fold_left].
    unfold Apa.exclude_transfer.
    cbn [Apa.acquirer Apa.year_acquired Apa.target_plant_pattern].
    change (String.eqb "Nippon Steel" "Nippon Steel") with true.
    apply Z.ltb_lt in Hy. rewrite Hy. cbn [andb].
    unfold us_steel_name_pattern.
    destruct (0 <? _)%nat eqn:En; [reflexivity|].
    apply Nat.ltb_ge in En. symmetry. apply filter_all. lia.
  - intros y Hy. unfold Apa.get_company_plants.
    change (match dict_get Apa.COMPANY_GEM_PATTERNS "Nippon Steel" with
            | Some pat => pat | None => "Nippon Steel" end)
      with "Nippon Steel".
    cbv zeta. rewrite Hfb.
    destruct (filter _ plants_df) as [|p0 rest]; [reflexivity|].
    cbn [empty negb Apa.OWNERSHIP_TRANSFERS fold_left].
    unfold Apa.exclude_transfer. cbn [Apa.acquirer Apa.year_acquired].
    apply Z.ltb_ge in Hy. rewrite Hy, andb_false_r. reflexivity.
  - unfold Apa.get_company_plants.
    change (match dict_get Apa.COMPANY_GEM_PATTERNS "Nippon Steel" with
            | Some pat => pat | None => "Nippon Steel" end)
      with "Nippon Steel".
    cbv zeta. rewrite Hfb. reflexivity.
Qed.

Lemma exclude_transfer_incl (re_search : string -> string -> bool)
  (company : string) (y : Z) (transfers : list Apa.OwnershipTransfer) :
  forall result,
    incl (fold_left (Apa.exclude_transfer re_search company y) transfers result)
      result.
Proof.
  induction transfers as [|t transfers IH]; intros result; cbn [fold_left].
  - apply incl_refl.
  - eapply incl_tran; [apply IH|]. unfold Apa.exclude_transfer.
    destruct (String.eqb _ company && _); [|apply incl_refl].
    destruct (0 <? _)%nat; [|apply incl_refl].
    intros p Hp. apply filter_In in Hp. tauto.
Qed.

(** X5. The plants resolved for a company are always among the plants given.
    For a company other than Nippon Steel and U.S. Steel they are exactly the
    plants whose parent matches the company's pattern (the company name when
    it has none).  For U.S. Steel they are the plants whose parent matches,
    and, when there is none, the plants whose name matches its name
    pattern. *)
Theorem company_plants_resolution :
  forall (re_search : string -> string -> bool) (plants_df : list Apa.Plant)
         (company : string) (year : option Z),
    let by_parent :=
      filter (fun p => Apa.str_contains re_search (gem_pattern company)
                         (Apa.parent p)) plants_df in
    incl (Apa.get_company_plants re_search plants_df company year) plants_df
    /\ (company <> "Nippon Steel" -> company <> "US Steel" ->
        Apa.get_company_plants re_search plants_df company year = by_parent)
    /\ (company = "US Steel" ->
        Apa.get_company_plants re_search plants_df company year
        = if empty by_parent
          then filter (fun p => Apa.str_contains re_search us_steel_name_pattern
                                  (Apa.plant_name p)) plants_df
          else by_parent).
Proof.
  intros re_search plants_df company year by_parent.
  unfold Apa.get_company_plants. fold (gem_pattern company). cbv zeta.
  fold by_parent.
  split; [|split].
  - set (result := match year with
                   | Some y => if negb (empty by_parent)
                               then fold_left _ Apa.OWNERSHIP_TRANSFERS by_parent
                               else by_parent
                   | None => by_parent
                   end).
    assert (Hr : incl result by_parent).
    { subst result. destruct year as [y|]; [|apply incl_refl].
      destruct (negb _); [apply exclude_transfer_incl|apply incl_refl]. }
    assert (Hp : incl by_parent plants_df).
    { intros p Hp. apply filter_In in Hp. tauto. }
    destruct (empty result).
    + destruct (dict_get _ company).
      * intros p Hin. apply filter_In in Hin. tauto.
      * eapply incl_tran; eassumption.
    + eapply incl_tran; eassumption.
  - intros Hn Hu. rewrite (name_patterns_other company Hu).
    assert (E : match year with
                | Some y => if negb (empty by_parent)
                            then fold_left
                                   (Apa.exclude_transfer re_search company y)
                                   Apa.OWNERSHIP_TRANSFERS by_parent
                            else by_parent
                | None => by_parent
                end = by_parent).
    { destruct year as [y|]; [|reflexivity].
      rewrite (transfers_other re_search company y by_parent Hn).
      destruct (negb _); reflexivity. }
    rewrite E. destruct (empty by_parent); reflexivity.
  - intros ->.
    assert (E : match year with
                | Some y => if negb (empty by_parent)
                            then fold_left
                                   (Apa.exclude_transfer re_search "US Steel" y)
                                   Apa.OWNERSHIP_TRANSFERS by_parent
                            else by_parent
                | None => by_parent
                end = by_parent).
    { destruct year as [y|]; [|reflexivity].
      rewrite (transfers_other re_search "US Steel" y by_parent);
        [|discriminate].
      destruct (negb _); reflexivity. }
    rewrite E. reflexivity.
Qed.

(** ** Instances *)

Lemma emission_factor_year_dependence_witness :
  (names_static_process "Scrap-EAF" = true
   /\ Apa.get_plant_ef "Japan" "Scrap-EAF" (Some 2030%Z)
      = Apa.get_plant_ef "Japan" "Scrap-EAF" None)
  /\ (names_static_process "BF-BOF" = false
      /\ Apa.get_plant_ef "Japan" "BF-BOF" (Some 2030%Z)
         < Apa.get_plant_ef "Japan" "BF-BOF" (Some 2020%Z)).
Proof.
  split; (split; [reflexivity|]).
  - apply (proj1 (emission_factor_year_dependence "Japan" "Scrap-EAF")).
    reflexivity.
  - apply (proj1 (proj2 (emission_factor_year_dependence "Japan" "BF-BOF")
                    eq_refl)); [reflexivity|reflexivity|lia].
Defined.

Lemma emission_factor_positive_witness :
  ordinary_year 2030 = true
  /\ names_static_process "Scrap-EAF" = true
  /\ 0 < Apa.get_plant_ef "Japan" "BF-BOF" (Some 2030%Z)
  /\ 0 < Apa.get_plant_ef "Japan" "Scrap-EAF" (Some 2030%Z).
Proof.
  split; [reflexivity|]. split; [reflexivity|]. split.
  - apply (proj2 (proj2 (emission_factor_positive "Japan" "BF-BOF"))).
    reflexivity.
  - apply (proj1 (proj2 (emission_factor_positive "Japan" "Scrap-EAF"))).
    reflexivity.
Defined.

Lemma determine_process_by_capacity_witness :
  positive_capacity (Some 3000) = true
  /\ positive_capacity (Some 500) = true
  /\ Apa._determine_process literal_search
       (Apa.mkCapacityRow (Some 500) (Some 3000) nan "electric arc furnace")
     = "BF-BOF".
Proof.
  split; [reflexivity|]. split; [reflexivity|].
  apply (proj1 (proj2 (determine_process_by_capacity literal_search
                         (Apa.mkCapacityRow (Some 500) (Some 3000) nan
                            "electric arc furnace"))));
    reflexivity.
Defined.

Lemma nippon_steel_excludes_us_steel_before_2024_witness :
  (2020 < 2024)%Z
  /\ Apa.get_company_plants literal_search two_plant_fleet "Nippon Steel"
       (Some 2020%Z)
     = two_plant_fleet.
Proof.
  split; [lia|].
  rewrite (proj1 (nippon_steel_excludes_us_steel_before_2024 literal_search
                    two_plant_fleet) 2020%Z); [reflexivity | lia].
Defined.

Lemma company_plants_resolution_witness :
  "SSAB" <> "Nippon Steel" /\ "SSAB" <> "US Steel"
  /\ Apa.get_company_plants literal_search two_plant_fleet "SSAB" None = [].
Proof.
  split; [discriminate|]. split; [discriminate|].
  rewrite (proj1 (proj2 (company_plants_resolution literal_search
                           two_plant_fleet "SSAB" None)));
    [reflexivity | discriminate | discriminate].
Defined.

(** ** Parsing years *)

Lemma is_digit_value (c : ascii) :
  is_digit c = true -> (0 <= digit_value c <= 9)%Z.
Proof.
  unfold is_digit, digit_value. intros H.
  apply andb_true_iff in H. destruct H as [H1 H2].
  apply N.leb_le in H1. apply N.leb_le in H2. lia.
Qed.

Lemma Some_eq {A : Type} (a b : A) : Some a = Some b -> a = b.
Proof. congruence. Qed.

Lemma year_at_range (s : string) (y : Z) :
  year_at s = Some y -> (1900 <= y <= 2099)%Z.
Proof.
  destruct s as [|a [|b [|c [|d s]]]]; cbn [year_at]; try discriminate.
  destruct (((Ascii.eqb a "1" && Ascii.eqb b "9")
             || (Ascii.eqb a "2" && Ascii.eqb b "0"))
            && is_digit c && is_digit d) eqn:E; [|discriminate].
  intros H. apply Some_eq in H. subst y.
  apply andb_true_iff in E. destruct E as [E Hd].
  apply andb_true_iff in E. destruct E as [E Hc].
  apply is_digit_value in Hc. apply is_digit_value in Hd.
  apply orb_true_iff in E.
  destruct E as [E|E]; apply andb_true_iff in E; destruct E as [Ea Eb];
    apply Ascii.eqb_eq in Ea; apply Ascii.eqb_eq in Eb; subst a b;
    change (digit_value "1") with 1%Z; change (digit_value "9") with 9%Z;
    change (digit_value "2") with 2%Z; change (digit_value "0") with 0%Z; lia.
Qed.

Lemma search_year_range (s : string) (y : Z) :
  search_year s = Some y -> (1900 <= y <= 2099)%Z.
Proof.
  induction s as [|c s IH]; cbn [search_year].
  - destruct (year_at "") eqn:E; [|discriminate].
    intros [= <-]. exact (year_at_range _ _ E).
  - destruct (year_at (String c s)) eqn:E.
    + intros [= <-]. exact (year_at_range _ _ E).
    + exact IH.
Qed.

Lemma year_at_spec (s : string) (n : Z) :
  year_at s = Some n
  <-> exists a b c d rest,
      s = String a (String b (String c (String d rest)))
      /\ ((a = "1"%char /\ b = "9"%char) \/ (a = "2"%char /\ b = "0"%char))
      /\ is_digit c = true /\ is_digit d = true
      /\ n = (1000 * digit_value a + 100 * digit_value b
              + 10 * digit_value c + digit_value d)%Z.
Proof.
  split.
  - destruct s as [|a [|b [|c [|d rest]]]]; cbn [year_at]; try discriminate.
    destruct (((Ascii.eqb a "1" && Ascii.eqb b "9")
               || (Ascii.eqb a "2" && Ascii.eqb b "0"))
              && is_digit c && is_digit d) eqn:E; [|discriminate].
    intros H. apply Some_eq in H.
    apply andb_true_iff in E. destruct E as [E Hd].
    apply andb_true_iff in E. destruct E as [E Hc].
    exists a, b, c, d, rest. split; [reflexivity|].
    split; [|split; [exact Hc|split; [exact Hd|symmetry; exact H]]].
    apply orb_true_iff in E.
    destruct E as [E|E]; apply andb_true_iff in E; destruct E as [Ea Eb];
      apply Ascii.eqb_eq in Ea; apply Ascii.eqb_eq in Eb; auto.
  - intros (a & b & c & d & rest & -> & Hab & Hc & Hd & ->).
    cbn [year_at]. rewrite Hc, Hd.
    destruct Hab as [[-> ->]|[-> ->]]; reflexivity.
Qed.

Lemma first_year_match_spec (s : string) (i : nat) (n : Z) :
  first_year_match s i n = true
  <-> year_at (string_drop i s) = Some n
      /\ forall j, (j < i)%nat -> year_at (string_drop j s) = None.
Proof.
  unfold first_year_match. rewrite andb_true_iff, forallb_forall. split.
  - intros [H1 H2]. split.
    + destruct (year_at (string_drop i s)) as [m|]; [|discriminate].
      apply Z.eqb_eq in H1. congruence.
    + intros j Hj. specialize (H2 j). rewrite in_seq in H2.
      destruct (year_at (string_drop j s)); [|reflexivity].
      assert (H : negb (notna (Some z)) = true) by (apply H2; lia).
      discriminate.
  - intros [H1 H2]. split.
    + rewrite H1. apply Z.eqb_refl.
    + intros j Hj. apply in_seq in Hj. rewrite H2 by lia. reflexivity.
Qed.

Lemma search_year_spec (s : string) :
  match search_year s with
  | Some n => exists i, first_year_match s i n = true
  | None => forall i, year_at (string_drop i s) = None
  end.
Proof.
  induction s as [|c s IH].
  - cbn [search_year]. change (year_at "") with (@None Z).
    intros [|i]; reflexivity.
  - cbn [search_year]. destruct (year_at (String c s)) as [y|] eqn:E.
    + exists O. apply first_year_match_spec. split; [exact E|]. lia.
    + destruct (search_year s) as [n|].
      * destruct IH as [i Hi]. exists (S i).
        apply first_year_match_spec in Hi. destruct Hi as [H1 H2].
        apply first_year_match_spec. split; [exact H1|].
        intros [|j] Hj; [exact E|]. apply H2. lia.
      * intros [|i]; [exact E|]. apply IH.
Qed.

Lemma first_match_found (s : string) (i : nat) (n : Z) :
  first_year_match s i n = true -> search_year s = Some n.
Proof.
  intros H. apply first_year_match_spec in H. destruct H as [H1 H2].
  pose proof (search_year_spec s) as Hs.
  destruct (search_year s) as [m|].
  - destruct Hs as [i' Hi']. apply first_year_match_spec in Hi'.
    destruct Hi' as [H1' H2'].
    destruct (Nat.lt_trichotomy i i') as [Hlt|[->|Hlt]].
    + rewrite (H2' i Hlt) in H1. discriminate.
    + congruence.
    + rewrite (H2 i' Hlt) in H1'. discriminate.
  - rewrite Hs in H1. discriminate.
Qed.

(** X6. [_parse_year] on each kind of cell.  A missing cell gives NaN.  A
    number is returned unchanged when it lies between 1900 and 2100 and
    gives NaN otherwise.  Any other cell is searched as text (in ASCII),
    stripped: the
    result is the number spelled by the first match of 19 or 20 followed by
    two digits, a whole number between 1900 and 2099, and NaN when no
    position of the text matches.  So a year that is returned lies between
    1900 and 2100. *)
Theorem parse_year_reads_first_match :
  Apa._parse_year Apa.YNaN = nan
  /\ (forall v, 1900 <= v -> v <= 2100 -> Apa._parse_year (Apa.YNum v) = Some v)
  /\ (forall v, v < 1900 \/ 2100 < v -> Apa._parse_year (Apa.YNum v) = nan)
  /\ (forall text i n,
         is_ascii text = true ->
         first_year_match (strip text) i n = true ->
         Apa._parse_year (Apa.YOther text) = Some (inject_Z n)
         /\ (1900 <= n <= 2099)%Z)
  /\ (forall text,
         is_ascii text = true ->
         (forall i, year_at (string_drop i (strip text)) = None) ->
         Apa._parse_year (Apa.YOther text) = nan)
  /\ (forall text y,
         is_ascii text = true ->
         Apa._parse_year (Apa.YOther text) = Some y ->
         exists i n,
           first_year_match (strip text) i n = true /\ y = inject_Z n)
  /\ (forall val y,
         Apa._parse_year val = Some y -> 1900 <= y /\ y <= 2100)
  /\ (forall s n,
         year_at s = Some n
         <-> exists a b c d rest,
             s = String a (String b (String c (String d rest)))
             /\ ((a = "1"%char /\ b = "9"%char)
                 \/ (a = "2"%char /\ b = "0"%char))
             /\ is_digit c = true /\ is_digit d = true
             /\ n = (1000 * digit_value a + 100 * digit_value b
                     + 10 * digit_value c + digit_value d)%Z).
Proof.
  split; [reflexivity|]. split; [|split; [|split; [|split; [|split; [|split]]]]].
  - intros v H1 H2. cbn [Apa._parse_year].
    apply Qle_bool_iff in H1. apply Qle_bool_iff in H2. rewrite H1, H2.
    reflexivity.
  - intros v H. cbn [Apa._parse_year].
    destruct (Qle_bool 1900 v) eqn:E1; [|reflexivity].
    destruct (Qle_bool v 2100) eqn:E2; [|reflexivity].
    apply Qle_bool_iff in E1. apply Qle_bool_iff in E2. exfalso.
    destruct H as [H|H]; [exact (Qlt_not_le _ _ H E1)|exact (Qlt_not_le _ _ H E2)].
  - intros text i n _ H. cbn [Apa._parse_year].
    apply first_match_found in H. rewrite H. split; [reflexivity|].
    exact (search_year_range _ _ H).
  - intros text _ H. cbn [Apa._parse_year].
    pose proof (search_year_spec (strip text)) as Hs.
    destruct (search_year (strip text)) as [n|]; [|reflexivity].
    destruct Hs as [i Hi]. apply first_year_match_spec in Hi.
    rewrite (H i) in Hi. destruct Hi as [Hi _]. discriminate.
  - intros text y _. cbn [Apa._parse_year].
    pose proof (search_year_spec (strip text)) as Hs.
    destruct (search_year (strip text)) as [n|]; [|discriminate].
    intros H. apply Some_eq in H. destruct Hs as [i Hi].
    exists i, n. split; [exact Hi|symmetry; exact H].
  - intros val y. destruct val as [|v|text]; cbn [Apa._parse_year].
    + discriminate.
    + destruct (Qle_bool 1900 v && Qle_bool v 2100) eqn:E; [|discriminate].
      intros H. apply Some_eq in H. subst y.
      apply andb_true_iff in E. destruct E as [E1 E2].
      apply Qle_bool_iff in E1. apply Qle_bool_iff in E2. auto.
    + destruct (search_year (strip text)) as [n|] eqn:E; [|discriminate].
      intros H. apply Some_eq in H. subst y. apply search_year_range in E.
      split.
      * change 1900 with (inject_Z 1900). rewrite <- Zle_Qle. lia.
      * change 2100 with (inject_Z 2100). rewrite <- Zle_Qle. lia.
  - exact year_at_spec.
Qed.

Lemma parse_year_reads_first_match_witness :
  first_year_match (strip " rebuilt 2027, closed 2031 ") 8 2027 = true
  /\ Apa._parse_year (Apa.YOther " rebuilt 2027, closed 2031 ") = Some 2027
  /\ Apa._parse_year (Apa.YNum 2100) = Some 2100
  /\ Apa._parse_year (Apa.YNum 2101) = nan.
Proof.
  destruct parse_year_reads_first_match
    as (_ & Hnum & Hout & Htext & _).
  split; [reflexivity|]. split; [|split].
  - exact (proj1 (Htext " rebuilt 2027, closed 2031 " 8%nat 2027%Z eq_refl
                    eq_refl)).
  - apply Hnum; discriminate.
  - apply Hout. right. reflexivity.
Defined.

(** ** Start years and the lifecycle filter *)

Lemma active_status_cases (s : string) :
  isin s Apa.active_statuses = true ->
  s = "operating" \/ s = "retired" \/ s = "mothballed"
  \/ s = "operating pre-retirement" \/ s = "construction".
Proof.
  intros H. apply isin_cases in H. cbn in H.
  destruct H as [H|[H|[H|[H|[H|[]]]]]]; auto 6.
Qed.

(** X7. An entry whose status is one the loader keeps always ends up with a
    start year.  For a construction entry it is the capacity sheet's year,
    then the plant sheet's, then 2025; for any other kept status it is the
    plant sheet's year, then the capacity sheet's, then 2000. *)
Theorem start_year_resolution :
  forall (status : string) (start_year cap_start_year : float),
    isin (lower status) Apa.active_statuses = true ->
    notna (Apa.resolve_start_year status start_year cap_start_year) = true
    /\ Apa.resolve_start_year status start_year cap_start_year
       = if String.eqb (lower status) "construction"
         then match cap_start_year, start_year with
              | Some c, _ => Some c
              | None, Some s => Some s
              | None, None => Some 2025
              end
         else match start_year, cap_start_year with
              | Some s, _ => Some s
              | None, Some c => Some c
              | None, None => Some 2000
              end.
Proof.
  intros status start_year cap_start_year H.
  apply active_status_cases in H. unfold Apa.resolve_start_year.
  destruct H as [H|[H|[H|[H|H]]]]; rewrite H;
    destruct start_year, cap_start_year; split; reflexivity.
Qed.

Lemma start_year_resolution_witness :
  isin (lower "Construction") Apa.active_statuses = true
  /\ Apa.resolve_start_year "Construction" (Some 1969) (Some 2026) = Some 2026.
Proof.
  split; [reflexivity|].
  exact (proj2 (start_year_resolution "Construction" (Some 1969) (Some 2026)
                  eq_refl)).
Defined.

Lemma fle_year_mono (s : float) (y y' : Z) :
  (y <= y')%Z -> fle s (Some (inject_Z y)) = true ->
  fle s (Some (inject_Z y')) = true.
Proof.
  intros Hy. destruct s as [q|]; cbn [fle]; [|discriminate].
  intros H. apply Qle_bool_iff in H. apply Qle_bool_iff.
  eapply Qle_trans; [exact H|]. rewrite <- Zle_Qle. exact Hy.
Qed.

(** X8. On a frame whose entries all have a status the loader keeps, the
    lifecycle filter is the start-year test alone: an entry is kept for a
    year exactly when its start year is known and not after that year, a
    retired or mothballed entry like an operating one.  On any frame, an
    entry kept for a year is kept for every later year. *)
Theorem lifecycle_filter_is_start_year_test :
  forall (all_plants : list Apa.Plant) (year : Z),
    (Forall (fun p => isin (lower (Apa.status p)) Apa.active_statuses = true)
       all_plants ->
     Apa.get_plants_for_year all_plants year
     = filter (fun p => fle (Apa.start_year p) (Some (inject_Z year)))
         all_plants)
    /\ (forall year', (year <= year')%Z ->
          incl (Apa.get_plants_for_year all_plants year)
               (Apa.get_plants_for_year all_plants year')).
Proof.
  intros all_plants year. split.
  - intros H. unfold Apa.get_plants_for_year. apply filter_ext_in.
    intros p Hp. rewrite Forall_forall in H. specialize (H p Hp).
    apply active_status_cases in H. cbv zeta.
    destruct H as [H|[H|[H|[H|H]]]]; rewrite H;
      destruct (fle (Apa.start_year p) (Some (inject_Z year))); reflexivity.
  - intros year' Hy p Hp. unfold Apa.get_plants_for_year in *.
    apply filter_In in Hp. destruct Hp as [Hin Hp]. apply filter_In.
    split; [exact Hin|]. cbv zeta in *.
    destruct (fle (Apa.start_year p) (Some (inject_Z year))) eqn:E.
    + rewrite (fle_year_mono _ _ _ Hy E). exact Hp.
    + rewrite !andb_false_r in Hp. discriminate.
Qed.

Lemma lifecycle_filter_is_start_year_test_witness :
  Forall (fun p => isin (lower (Apa.status p)) Apa.active_statuses = true)
    two_plant_fleet
  /\ Apa.get_plants_for_year two_plant_fleet 1980
     = [ Apa.mkPlant "P100000120438" (Some "Kashima steel plant") "Japan"
           (Some "Nippon Steel Corp") "operating" (Some 10000) "BF-BOF" 2.05
           (Some 1971) ].
Proof.
  assert (H : Forall (fun p => isin (lower (Apa.status p)) Apa.active_statuses
                               = true) two_plant_fleet).
  { repeat constructor. }
  split; [exact H|].
  rewrite (proj1 (lifecycle_filter_is_start_year_test two_plant_fleet 1980) H).
  reflexivity.
Defined.

(** ** Integrated DRI-EAF plants *)

Lemma isin_in (s : string) (l : list string) : In s l -> isin s l = true.
Proof.
  intros H. unfold isin. apply existsb_exists. exists s.
  split; [exact H|apply String.eqb_refl].
Qed.

Lemma Forall2_map_in {A B : Type} (R : A -> B -> Prop) (g : A -> B)
  (l : list A) :
  (forall x, In x l -> R x (g x)) -> Forall2 R l (map g l).
Proof.
  induction l as [|x l IH]; intros H; cbn [map]; constructor.
  - apply H. left. reflexivity.
  - apply IH. intros y Hy. apply H. right. exact Hy.
Qed.

Lemma reclassify_integrated_map (result : list Apa.Plant) :
  Apa.reclassify_integrated result
  = map (fun p =>
           if String.eqb (Apa.process p) "EAF"
              && isin (Apa.plant_id p)
                   (map Apa.plant_id
                      (filter (fun p => String.eqb (Apa.process p) "DRI")
                         result))
           then Apa.with_process p "DRI" else p) result.
Proof.
  unfold Apa.reclassify_integrated. cbv zeta.
  set (mask := fun p : Apa.Plant => String.eqb (Apa.process p) "EAF" && _).
  destruct (existsb mask result) eqn:E; [reflexivity|].
  rewrite <- (map_id result) at 1. apply map_ext_in. intros p Hp.
  assert (Em : mask p = false).
  { destruct (mask p) eqn:Em; [|reflexivity].
    assert (existsb mask result = true) by (apply existsb_exists; eauto).
    congruence. }
  unfold mask in Em. rewrite Em. reflexivity.
Qed.

(** X9. Once integrated DRI-EAF plants are reclassified and the factors
    assigned, no plant has both a DRI and an EAF entry; the entries are those
    given, in the same order, with the same process except for EAF entries of
    a plant that had a DRI entry, which became DRI; and every DRI entry,
    reclassified or not, carries the DRI factor of its country. *)
Theorem integrated_eaf_counts_as_dri :
  forall (result : list Apa.Plant),
    let final := Apa.assign_ef (Apa.reclassify_integrated result) in
    (forall p q, In p final -> In q final ->
                 Apa.plant_id p = Apa.plant_id q ->
                 Apa.process p = "DRI" -> Apa.process q <> "EAF")
    /\ Forall2 (fun old new =>
                  Apa.plant_id new = Apa.plant_id old
                  /\ (Apa.process new = Apa.process old
                      \/ (Apa.process old = "EAF" /\ Apa.process new = "DRI"
                          /\ exists d, In d result
                                       /\ Apa.plant_id d = Apa.plant_id old
                                       /\ Apa.process d = "DRI")))
         result final
    /\ Forall (fun p => Apa.process p = "DRI" ->
                        Apa.ef p = if isin (Apa.country p) Apa.DRI_COAL_COUNTRIES
                                   then Apa.EF_DRI_COAL else Apa.EF_DRI_GAS)
         final.
Proof.
  intros result final. subst final. rewrite reclassify_integrated_map.
  unfold Apa.assign_ef. rewrite map_map.
  set (ids := map Apa.plant_id
                (filter (fun p => String.eqb (Apa.process p) "DRI") result)).
  assert (Hids : forall p, In p result -> Apa.process p = "DRI" ->
                           isin (Apa.plant_id p) ids = true).
  { intros p Hp Hd. apply isin_in. apply in_map. apply filter_In.
    split; [exact Hp|]. rewrite Hd. reflexivity. }
  split; [|split].
  - intros p q Hp Hq Hid Hdri Heaf.
    apply in_map_iff in Hp. destruct Hp as (p0 & <- & Hp0).
    apply in_map_iff in Hq. destruct Hq as (q0 & <- & Hq0).
    assert (Hp1 : isin (Apa.plant_id p0) ids = true).
    { destruct (String.eqb (Apa.process p0) "EAF"
                && isin (Apa.plant_id p0) ids) eqn:E.
      - apply andb_true_iff in E. tauto.
      - cbn in Hdri. auto. }
    assert (Hq1 : isin (Apa.plant_id q0) ids = false).
    { destruct (String.eqb (Apa.process q0) "EAF"
                && isin (Apa.plant_id q0) ids) eqn:E.
      - cbn in Heaf. discriminate.
      - cbn in Heaf. rewrite Heaf in E. exact E. }
    assert (Hpq : Apa.plant_id p0 = Apa.plant_id q0).
    { destruct (String.eqb (Apa.process p0) "EAF"
                && isin (Apa.plant_id p0) ids);
        destruct (String.eqb (Apa.process q0) "EAF"
                  && isin (Apa.plant_id q0) ids); exact Hid. }
    congruence.
  - apply Forall2_map_in. intros x Hx.
    destruct (String.eqb (Apa.process x) "EAF"
              && isin (Apa.plant_id x) ids) eqn:E; cbn.
    + split; [reflexivity|]. right.
      apply andb_true_iff in E. destruct E as [E1 E2].
      apply String.eqb_eq in E1. split; [exact E1|]. split; [reflexivity|].
      apply isin_cases in E2. apply in_map_iff in E2.
      destruct E2 as (d & Hd & Hin). apply filter_In in Hin.
      destruct Hin as [Hin Hproc]. apply String.eqb_eq in Hproc.
      exists d. auto.
    + auto.
  - apply Forall_forall. intros p Hp Hdri.
    apply in_map_iff in Hp. destruct Hp as (p0 & <- & _).
    cbn [Apa.ef Apa.process Apa.country] in *.
    rewrite Hdri. reflexivity.
Qed.

Lemma integrated_eaf_counts_as_dri_witness :
  let final :=
    Apa.assign_ef (Apa.reclassify_integrated [glenbrook_dri; glenbrook_eaf]) in
  exists p q,
    In p final /\ In q final /\ Apa.plant_id p = Apa.plant_id q
    /\ Apa.process p = "DRI" /\ Apa.status q = "construction"
    /\ Apa.process q <> "EAF".
Proof.
  cbv zeta.
  exists (Apa.mkPlant "P100000120620" (Some "New Zealand Steel Glenbrook plant")
            "New Zealand" (Some "BlueScope Steel Ltd") "operating" (Some 650)
            "DRI" 3.10 (Some 1969)).
  exists (Apa.mkPlant "P100000120620" (Some "New Zealand Steel Glenbrook plant")
            "New Zealand" (Some "BlueScope Steel Ltd") "construction"
            (Some 300) "DRI" 3.10 (Some 2026)).
  assert (Hp : In (Apa.mkPlant "P100000120620"
                     (Some "New Zealand Steel Glenbrook plant") "New Zealand"
                     (Some "BlueScope Steel Ltd") "operating" (Some 650) "DRI"
                     3.10 (Some 1969))
                  (Apa.assign_ef
                     (Apa.reclassify_integrated [glenbrook_dri; glenbrook_eaf]))).
  { left. reflexivity. }
  assert (Hq : In (Apa.mkPlant "P100000120620"
                     (Some "New Zealand Steel Glenbrook plant") "New Zealand"
                     (Some "BlueScope Steel Ltd") "construction" (Some 300)
                     "DRI" 3.10 (Some 2026))
                  (Apa.assign_ef
                     (Apa.reclassify_integrated [glenbrook_dri; glenbrook_eaf]))).
  { right. left. reflexivity. }
  split; [exact Hp|]. split; [exact Hq|].
  split; [reflexivity|]. split; [reflexivity|]. split; [reflexivity|].
  exact (proj1 (integrated_eaf_counts_as_dri [glenbrook_dri; glenbrook_eaf])
           _ _ Hp Hq eq_refl eq_refl).
Defined.

(** ** Country-level production *)

Lemma dict_set_in {V : Type} (d : list (string * V)) (k : string) (v : V)
  (c : string) (w : V) :
  In (c, w) (dict_set d k v) -> (c = k /\ w = v) \/ In (c, w) d.
Proof.
  induction d as [|[k' v'] d IH]; cbn [dict_set].
  - intros [H|[]]. left. split; congruence.
  - destruct (String.eqb k' k) eqn:E.
    + apply String.eqb_eq in E. subst k'. intros [H|H].
      * left. split; congruence.
      * right. right. exact H.
    + intros [H|H].
      * right. left. exact H.
      * destruct (IH H) as [H'|H']; [left; exact H'|right; right; exact H'].
Qed.

Lemma dict_set_keys {V : Type} (d : list (string * V)) (k : string) (v : V)
  (c : string) :
  In c (map fst (dict_set d k v)) -> c = k \/ In c (map fst d).
Proof.
  intros H. apply in_map_iff in H. destruct H as ([c' w] & <- & H).
  apply dict_set_in in H. destruct H as [[-> _]|H]; [left; reflexivity|].
  right. apply in_map_iff. exists (c', w). auto.
Qed.

Lemma dict_set_nodup {V : Type} (d : list (string * V)) (k : string) (v : V) :
  NoDup (map fst d) -> NoDup (map fst (dict_set d k v)).
Proof.
  induction d as [|[k' v'] d IH]; cbn [dict_set map fst]; intros H.
  - constructor; [intros []|constructor].
  - inversion H as [|? ? Hnot Hd]; subst.
    destruct (String.eqb k' k) eqn:E; cbn [map fst].
    + constructor; assumption.
    + constructor; [|exact (IH Hd)].
      intros Hin. apply dict_set_keys in Hin. destruct Hin as [->|Hin].
      * rewrite String.eqb_refl in E. discriminate.
      * exact (Hnot Hin).
Qed.

Lemma country_dict_spec (grp : list Apa.CountryRow) :
  NoDup (map fst (Apa.country_dict grp))
  /\ forall c v, In (c, v) (Apa.country_dict grp) ->
       exists r kt, In r grp /\ Apa.c_country r = c
                    /\ Apa.c_production_kt r = Some kt /\ 0 < kt
                    /\ v = kt / 1000.
Proof.
  unfold Apa.country_dict.
  assert (H : forall (acc : list (string * Q)),
             NoDup (map fst acc) ->
             (forall c v, In (c, v) acc ->
                exists r kt, In r grp /\ Apa.c_country r = c
                             /\ Apa.c_production_kt r = Some kt /\ 0 < kt
                             /\ v = kt / 1000) ->
             forall rows, incl rows grp ->
             NoDup (map fst
                      (fold_left
                         (fun d r =>
                            match Apa.c_production_kt r with
                            | Some kt =>
                                if Qltb 0 kt
                                then dict_set d (Apa.c_country r) (kt / 1000)
                                else d
                            | None => d
                            end) rows acc))
             /\ forall c v,
                 In (c, v)
                   (fold_left
                      (fun d r =>
                         match Apa.c_production_kt r with
                         | Some kt =>
                             if Qltb 0 kt
                             then dict_set d (Apa.c_country r) (kt / 1000)
                             else d
                         | None => d
                         end) rows acc) ->
                 exists r kt, In r grp /\ Apa.c_country r = c
                              /\ Apa.c_production_kt r = Some kt /\ 0 < kt
                              /\ v = kt / 1000).
  { intros acc Hnd Hacc rows. revert acc Hnd Hacc.
    induction rows as [|r rows IH]; intros acc Hnd Hacc Hincl; cbn [fold_left].
    - split; assumption.
    - assert (Hr : In r grp) by (apply Hincl; left; reflexivity).
      assert (Hrows : incl rows grp).
      { intros x Hx. apply Hincl. right. exact Hx. }
      destruct (Apa.c_production_kt r) as [kt|] eqn:Ekt;
        [|apply IH; assumption].
      destruct (Qltb 0 kt) eqn:Epos; [|apply IH; assumption].
      apply IH; [apply dict_set_nodup; exact Hnd| |exact Hrows].
      intros c v Hin. apply dict_set_in in Hin.
      destruct Hin as [[-> ->]|Hin]; [|apply Hacc; exact Hin].
      exists r, kt. apply Qltb_lt in Epos. auto. }
  apply H; [constructor| intros c v []|apply incl_refl].
Qed.

Lemma insert_by_nodup {A : Type} (lt : A -> A -> bool) (x : A) (l : list A) :
  ~ In x l -> NoDup l -> NoDup (insert_by lt x l).
Proof.
  induction l as [|y l IH]; cbn [insert_by]; intros Hx Hl.
  - constructor; [intros []|constructor].
  - destruct (lt y x).
    + inversion Hl as [|? ? Hy Hl']; subst. constructor.
      * intros Hin. apply insert_by_in_any in Hin.
        destruct Hin as [->|Hin]; [apply Hx; left; reflexivity|exact (Hy Hin)].
      * apply IH; [|exact Hl']. intros Hin. apply Hx. right. exact Hin.
    + constructor; assumption.
Qed.

Lemma sort_by_nodup {A : Type} (lt : A -> A -> bool) (l : list A) :
  NoDup l -> NoDup (sort_by lt l).
Proof.
  induction l as [|x l IH]; intros H; cbn; [constructor|].
  inversion H as [|? ? Hx Hl]; subst.
  apply insert_by_nodup; [|exact (IH Hl)].
  intros Hin. apply sort_by_in_any in Hin. exact (Hx Hin).
Qed.

Lemma country_prod_get_map (f : string * Z -> list (string * Q))
  (keys : list (string * Z)) (k : string * Z) :
  Apa.country_prod_get (map (fun k => (k, f k)) keys) k
  = if existsb (Apa.key_eqb k) keys then Some (f k) else None.
Proof.
  induction keys as [|k' keys IH]; cbn [map Apa.country_prod_get existsb];
    [reflexivity|].
  destruct (Apa.key_eqb k' k) eqn:E.
  - apply key_eqb_spec in E. subst k'.
    assert (E : Apa.key_eqb k k = true) by (apply key_eqb_spec; reflexivity).
    rewrite E. reflexivity.
  - assert (E' : Apa.key_eqb k k' = false).
    { destruct (Apa.key_eqb k k') eqn:E'; [|reflexivity].
      apply key_eqb_spec in E'. subst k'.
      assert (Apa.key_eqb k k = true) by (apply key_eqb_spec; reflexivity).
      congruence. }
    rewrite E'. exact IH.
Qed.

Lemma country_keys_spec (df : list Apa.CountryRow) (k : string * Z) :
  In k (sort_by Apa.company_year_lt
          (drop_duplicates Apa.key_eqb (fun k : string * Z => k)
             (map (fun r => (Apa.c_company r, Apa.c_year r)) df)))
  <-> exists r, In r df /\ (Apa.c_company r, Apa.c_year r) = k.
Proof.
  rewrite sort_by_in_any. unfold drop_duplicates. split.
  - intros H.
    apply (drop_duplicates_from_in Apa.key_eqb (fun k : string * Z => k)
             key_eqb_spec) in H.
    destruct H as [H _]. apply in_map_iff in H.
    destruct H as (r & Hr & Hin). exists r. auto.
  - intros (r & Hin & Hr).
    assert (Hk : In k (map (fun r => (Apa.c_company r, Apa.c_year r)) df)).
    { apply in_map_iff. exists r. auto. }
    destruct (drop_duplicates_from_covers Apa.key_eqb (fun k : string * Z => k)
                key_eqb_spec k _ [] Hk (fun H => H)) as (x & Hx & Hxk).
    cbv beta in Hxk. subst x. exact Hx.
Qed.

(** X10. The map of country-level production has one entry for every
    company-year of the file and no other, and a lookup finds it.  Every
    entry lists distinct countries with positive productions in Mt, each one
    taken from a row of that company-year whose production in kt is positive;
    rows with a non-positive or missing production leave no trace. *)
Theorem country_production_map_well_formed :
  forall (df : list Apa.CountryRow),
    let result := Apa.load_country_production df in
    NoDup (map fst result)
    /\ (forall k,
          (exists r, In r df /\ (Apa.c_company r, Apa.c_year r) = k)
          <-> exists d, Apa.country_prod_get result k = Some d)
    /\ (forall k d,
          Apa.country_prod_get result k = Some d ->
          In (k, d) result
          /\ NoDup (map fst d)
          /\ forall c v, In (c, v) d ->
               0 < v
               /\ exists r kt,
                    In r df /\ (Apa.c_company r, Apa.c_year r) = k
                    /\ Apa.c_country r = c
                    /\ Apa.c_production_kt r = Some kt /\ 0 < kt
                    /\ v = kt / 1000).
Proof.
  intros df result. subst result. unfold Apa.load_country_production.
  cbv zeta.
  set (keys := sort_by Apa.company_year_lt _).
  set (f := fun k : string * Z =>
              Apa.country_dict
                (filter (fun r => Apa.key_eqb (Apa.c_company r, Apa.c_year r) k)
                   df)).
  change (map (fun k => (k, Apa.country_dict _)) keys)
    with (map (fun k => (k, f k)) keys).
  assert (Hex : forall k, existsb (Apa.key_eqb k) keys = true
                          <-> exists r, In r df
                                /\ (Apa.c_company r, Apa.c_year r) = k).
  { intros k. rewrite <- (country_keys_spec df k). fold keys.
    exact (seen_spec Apa.key_eqb key_eqb_spec k keys). }
  split; [|split].
  - rewrite map_map. cbn [fst]. rewrite map_id. subst keys.
    apply sort_by_nodup. unfold drop_duplicates.
    rewrite <- (map_id (drop_duplicates_from _ _ _ _)).
    exact (drop_duplicates_from_nodup Apa.key_eqb (fun k : string * Z => k)
             key_eqb_spec _ []).
  - intros k. rewrite country_prod_get_map. rewrite <- Hex.
    destruct (existsb (Apa.key_eqb k) keys); split.
    + intros _. eexists. reflexivity.
    + reflexivity.
    + discriminate.
    + intros [d Hd]. discriminate.
  - intros k d. rewrite country_prod_get_map.
    destruct (existsb (Apa.key_eqb k) keys) eqn:E; [|discriminate].
    intros H. apply Some_eq in H. subst d.
    split; [|split].
    + apply in_map_iff. exists k. split; [reflexivity|].
      apply (seen_spec Apa.key_eqb key_eqb_spec k keys). exact E.
    + apply country_dict_spec.
    + intros c v Hin. subst f. cbv beta in Hin.
      apply (proj2 (country_dict_spec _)) in Hin.
      destruct Hin as (r & kt & Hr & Hc & Hkt & Hpos & Hv).
      apply filter_In in Hr. destruct Hr as [Hr Hk].
      apply key_eqb_spec in Hk.
      split.
      * rewrite Hv. apply Qlt_shift_div_l; [reflexivity|].
        rewrite Qmult_0_l. exact Hpos.
      * exists r, kt. auto 7.
Qed.

Lemma country_production_map_well_formed_witness :
  exists d,
    Apa.country_prod_get (Apa.load_country_production tata_country_rows)
      ("Tata Steel", 2020%Z) = Some d
    /\ map fst d = ["India"; "Netherlands"]
    /\ NoDup (map fst d).
Proof.
  exists [("India", 18000 / 1000); ("Netherlands", 6500 / 1000)].
  split; [reflexivity|]. split; [reflexivity|].
  exact (proj1 (proj2 (proj2 (proj2 (country_production_map_well_formed
                                       tata_country_rows))
                         ("Tata Steel", 2020%Z) _ eq_refl))).
Defined.

(** ** The activity window of a unit *)

Lemma inject_Z_le (a b : Z) : (a <= b)%Z -> inject_Z a <= inject_Z b.
Proof. intros H. rewrite <- Zle_Qle. exact H. Qed.

Lemma unit_is_active_true (u : Kampmann.Unit) (year : Z) (close_year : float) :
  Tp._unit_is_active u year close_year = true <->
  String.eqb (lower (Kampmann.unit_status u)) "cancelled" = false
  /\ (forall s, Kampmann.start_year u = Some s -> s <= inject_Z year)
  /\ (forall c, close_year = Some c -> inject_Z year < c).
Proof.
  unfold Tp._unit_is_active.
  destruct (String.eqb (lower (Kampmann.unit_status u)) "cancelled").
  { split; [discriminate|]. intros (H & _). discriminate. }
  destruct (Kampmann.start_year u) as [s|]; cbn [notna flt andb].
  - destruct (Qltb (inject_Z year) s) eqn:Es.
    + split; [discriminate|]. intros (_ & H & _).
      apply Qltb_lt in Es. specialize (H s eq_refl).
      exfalso. exact (Qlt_not_le _ _ Es H).
    + apply Qltb_ge in Es.
      destruct close_year as [c|]; cbn [notna fle andb].
      * destruct (Qle_bool c (inject_Z year)) eqn:Ec.
        -- split; [discriminate|]. intros (_ & _ & H).
           apply Qle_bool_iff in Ec. specialize (H c eq_refl).
           exfalso. exact (Qlt_not_le _ _ H Ec).
        -- split; [|reflexivity]. intros _. split; [reflexivity|].
           split.
           ++ intros s' [= <-]. exact Es.
           ++ intros c' [= <-]. apply Qnot_le_lt. intros Hle.
              apply Qle_bool_iff in Hle. congruence.
      * split; [|reflexivity]. intros _. split; [reflexivity|].
        split; [|discriminate]. intros s' [= <-]. exact Es.
  - destruct close_year as [c|]; cbn [notna fle andb].
    + destruct (Qle_bool c (inject_Z year)) eqn:Ec.
      * split; [discriminate|]. intros (_ & _ & H).
        apply Qle_bool_iff in Ec. specialize (H c eq_refl).
        exfalso. exact (Qlt_not_le _ _ H Ec).
      * split; [|reflexivity]. intros _. split; [reflexivity|].
        split; [discriminate|].
        intros c' [= <-]. apply Qnot_le_lt. intros Hle.
        apply Qle_bool_iff in Hle. congruence.
    + split; [|reflexivity]. intros _. split; [reflexivity|].
      split; discriminate.
Qed.

(** X11. The years in which a unit is active, for a given close year, form
    an interval: a unit active in two years is active in every year between
    them.  It is never active before its start year nor from its close year
    on; and when closures are skipped, a unit that is active in a year is
    active in every later year. *)
Theorem unit_activity_is_an_interval :
  forall (u : Kampmann.Unit) (close_year : float),
    (forall y1 y2 y3,
        (y1 <= y2 <= y3)%Z ->
        Tp._unit_is_active u y1 close_year = true ->
        Tp._unit_is_active u y3 close_year = true ->
        Tp._unit_is_active u y2 close_year = true)
    /\ (forall y s, Kampmann.start_year u = Some s -> inject_Z y < s ->
                    Tp._unit_is_active u y close_year = false)
    /\ (forall y c, close_year = Some c -> c <= inject_Z y ->
                    Tp._unit_is_active u y close_year = false)
    /\ (forall y y', (y <= y')%Z ->
                     Tp._unit_is_active u y nan = true ->
                     Tp._unit_is_active u y' nan = true).
Proof.
  intros u close_year. split; [|split; [|split]].
  - intros y1 y2 y3 [H12 H23] H1 H3.
    apply unit_is_active_true in H1. apply unit_is_active_true in H3.
    apply unit_is_active_true.
    destruct H1 as (Hc & Hs & _). destruct H3 as (_ & _ & Hcl).
    split; [exact Hc|]. split.
    + intros s Es. eapply Qle_trans; [exact (Hs s Es)|].
      apply inject_Z_le. exact H12.
    + intros c Ec. eapply Qle_lt_trans; [|exact (Hcl c Ec)].
      apply inject_Z_le. exact H23.
  - intros y s Es Hlt.
    destruct (Tp._unit_is_active u y close_year) eqn:E; [|reflexivity].
    apply unit_is_active_true in E. destruct E as (_ & Hs & _).
    exfalso. exact (Qlt_not_le _ _ Hlt (Hs s Es)).
  - intros y c Ec Hle.
    destruct (Tp._unit_is_active u y close_year) eqn:E; [|reflexivity].
    apply unit_is_active_true in E. destruct E as (_ & _ & Hcl).
    exfalso. exact (Qlt_not_le _ _ (Hcl c Ec) Hle).
  - intros y y' Hy H. apply unit_is_active_true in H.
    apply unit_is_active_true. destruct H as (Hc & Hs & _).
    split; [exact Hc|]. split; [|discriminate].
    intros s Es. eapply Qle_trans; [exact (Hs s Es)|].
    apply inject_Z_le. exact Hy.
Qed.

Lemma unit_activity_is_an_interval_witness :
  (2024 <= 2027 <= 2029)%Z
  /\ Tp._unit_is_active closing_unit 2024 (Tp._infer_close_year closing_unit)
     = true
  /\ Tp._unit_is_active closing_unit 2029 (Tp._infer_close_year closing_unit)
     = true
  /\ Tp._unit_is_active closing_unit 2027 (Tp._infer_close_year closing_unit)
     = true
  /\ Tp._unit_is_active closing_unit 2030 (Tp._infer_close_year closing_unit)
     = false.
Proof.
  assert (H : (2024 <= 2027 <= 2029)%Z) by lia.
  split; [exact H|]. split; [reflexivity|]. split; [reflexivity|].
  split.
  - exact (proj1 (unit_activity_is_an_interval closing_unit
                    (Tp._infer_close_year closing_unit))
             2024%Z 2027%Z 2029%Z H eq_refl eq_refl).
  - apply (proj1 (proj2 (proj2 (unit_activity_is_an_interval closing_unit
                                  (Tp._infer_close_year closing_unit))))
             2030%Z 2030); [reflexivity|].
    apply Qle_refl.
Defined.

(** ** The unit-level detail of a projection *)

Lemma range_incl_in (a b y : Z) :
  In y (range_incl a b) <-> (a <= y <= b)%Z.
Proof.
  unfold range_incl. rewrite in_map_iff. split.
  - intros (i & <- & Hi). apply in_seq in Hi. lia.
  - intros H. exists (Z.to_nat (y - a)). split; [lia|].
    apply in_seq. lia.
Qed.

Lemma nodup_map_injective {A B : Type} (f : A -> B) (l : list A) :
  (forall x y, In x l -> In y l -> f x = f y -> x = y) ->
  NoDup l -> NoDup (map f l).
Proof.
  induction l as [|x l IH]; intros Hinj Hl; cbn [map]; [constructor|].
  inversion Hl as [|? ? Hx Hl']; subst. constructor.
  - intros Hin. apply in_map_iff in Hin. destruct Hin as (y & Hy & Hin).
    assert (y = x).
    { apply Hinj; [right; exact Hin|left; reflexivity|exact Hy]. }
    subst y. exact (Hx Hin).
  - apply IH; [|exact Hl']. intros a b Ha Hb. apply Hinj; right; assumption.
Qed.

Lemma range_incl_nodup (a b : Z) : NoDup (range_incl a b).
Proof.
  unfold range_incl. apply nodup_map_injective.
  - intros i j _ _ H. lia.
  - apply seq_NoDup.
Qed.

Lemma range_incl_empty (a b : Z) : (b < a)%Z -> range_incl a b = [].
Proof.
  intros H. unfold range_incl.
  replace (Z.to_nat (b + 1 - a)) with 0%nat by lia. reflexivity.
Qed.

(** X12. Every row of the unit-level detail belongs to the company, to a
    year of the horizon and to a matched furnace with a known, positive
    capacity; its production is that capacity in Mt times the utilization
    rate, and its emissions that production times the emission factor of the
    furnace's country and process in that year, both rounded to 4 decimals.
    A horizon that ends before it starts gives no rows. *)
Theorem detail_rows_within_horizon :
  forall (re_search : string -> string -> bool)
         (steel_units : list Kampmann.Unit) (company : string)
         (base_year end_year : Z) (base_ur : Q) (skip_closures : bool),
    let detail :=
      Tp.build_plant_level_tp re_search steel_units company base_year end_year
        base_ur skip_closures in
    Forall (fun r =>
              Tp.d_company r = company
              /\ (base_year <= Tp.d_year r <= end_year)%Z
              /\ 0 < Tp.d_capacity_ttpa r
              /\ Tp.d_production_mt r
                 = round_nd (Tp.d_capacity_ttpa r / 1000 * base_ur) 4
              /\ Tp.d_emissions_mt r
                 = round_nd (Tp.d_capacity_ttpa r / 1000 * base_ur
                             * Apa.get_plant_ef (Tp.d_country r)
                                 (Tp.d_process_type r) (Some (Tp.d_year r))) 4
              /\ exists u,
                  In u steel_units
                  /\ Apa.str_contains re_search (gem_pattern company)
                       (Kampmann.parent u) = true
                  /\ Kampmann.gem_unit_id u = Tp.d_gem_unit_id r
                  /\ Kampmann.capacity_ttpa u = Some (Tp.d_capacity_ttpa r))
      detail
    /\ ((end_year < base_year)%Z -> detail = []).
Proof.
  intros re_search steel_units company base_year end_year base_ur skip_closures
    detail.
  subst detail. unfold Tp.build_plant_level_tp. cbv zeta.
  destruct (empty (Kampmann.match_units_to_company re_search steel_units
                     company)) eqn:Eempty.
  { split; [constructor|reflexivity]. }
  split.
  - apply Forall_flat_map. intros year Hyear. apply range_incl_in in Hyear.
    apply Forall_flat_map. intros uc Huc.
    assert (Hu : In (fst uc)
                   (Kampmann.match_units_to_company re_search steel_units
                      company)).
    { destruct skip_closures.
      - apply in_map_iff in Huc. destruct Huc as (uc' & <- & Huc').
        apply in_map_iff in Huc'. destruct Huc' as (u & <- & Hu). exact Hu.
      - apply in_map_iff in Huc. destruct Huc as (u & <- & Hu). exact Hu. }
    unfold Kampmann.match_units_to_company in Hu. apply filter_In in Hu.
    destruct Hu as [Hin Hmatch].
    unfold Tp.unit_rows.
    destruct (negb (Tp._unit_is_active (fst uc) year (snd uc)));
      [constructor|].
    destruct (Kampmann.capacity_ttpa (fst uc)) as [cap|] eqn:Ecap;
      [|constructor].
    destruct (Qle_bool cap 0) eqn:Epos; [constructor|].
    constructor; [|constructor]. cbn.
    split; [reflexivity|]. split; [exact Hyear|]. split.
    { apply Qnot_le_lt. intros Hle. apply Qle_bool_iff in Hle. congruence. }
    split; [reflexivity|]. split; [reflexivity|].
    exists (fst uc). auto.
  - intros H. rewrite (range_incl_empty _ _ H). reflexivity.
Qed.

Lemma detail_rows_within_horizon_witness :
  (2024 < 2030)%Z
  /\ Tp.build_plant_level_tp literal_search [closing_unit] "Nippon Steel"
       2030 2024 0.8 false = [].
Proof.
  split; [lia|].
  apply (proj2 (detail_rows_within_horizon literal_search [closing_unit]
                  "Nippon Steel" 2030 2024 0.8 false)).
  lia.
Defined.

(** ** Company-year aggregates *)

Lemma Qsum_map_ext {A : Type} (g1 g2 : A -> Q) (l : list A) :
  (forall y, In y l -> g1 y == g2 y) ->
  Qsum (map g1 l) == Qsum (map g2 l).
Proof.
  induction l as [|y l IH]; intros H; cbn [map Qsum fold_right];
    [reflexivity|].
  fold (Qsum (map g1 l)). fold (Qsum (map g2 l)).
  rewrite (H y (or_introl eq_refl)), IH; [reflexivity|].
  intros z Hz. apply H. right. exact Hz.
Qed.

Lemma Qsum_zero {A : Type} (l : list A) : Qsum (map (fun _ => 0) l) == 0.
Proof.
  induction l as [|y l IH]; cbn [map Qsum fold_right]; [reflexivity|].
  fold (Qsum (map (fun _ : A => 0) l)). rewrite IH. reflexivity.
Qed.

Lemma Qsum_one_key (ys : list Z) (k : Z) (a : Q) (g : Z -> Q) :
  NoDup ys -> In k ys ->
  Qsum (map (fun y => if (k =? y)%Z then a + g y else g y) ys)
  == a + Qsum (map g ys).
Proof.
  induction ys as [|y ys IH]; intros Hnd Hin; [destruct Hin|].
  inversion Hnd as [|? ? Hy Hnd']; subst.
  cbn [map Qsum fold_right].
  fold (Qsum (map (fun y => if (k =? y)%Z then a + g y else g y) ys)).
  fold (Qsum (map g ys)).
  destruct (k =? y)%Z eqn:E.
  - apply Z.eqb_eq in E. subst y.
    rewrite (Qsum_map_ext _ g ys); [ring|].
    intros z Hz. destruct (k =? z)%Z eqn:E; [|reflexivity].
    apply Z.eqb_eq in E. subst z. contradiction.
  - destruct Hin as [->|Hin]; [rewrite Z.eqb_refl in E; discriminate|].
    rewrite (IH Hnd' Hin). ring.
Qed.

Lemma grouped_sum {A : Type} (year : A -> Z) (f : A -> Q) (ys : list Z)
  (l : list A) :
  NoDup ys -> (forall d, In d l -> In (year d) ys) ->
  Qsum (map (fun y => Qsum (map f (filter (fun d => (year d =? y)%Z) l))) ys)
  == Qsum (map f l).
Proof.
  intros Hnd. induction l as [|d l IH]; intros Hin.
  - cbn [filter map]. apply Qsum_zero.
  - cbn [map Qsum fold_right]. fold (Qsum (map f l)).
    rewrite <- IH by (intros x Hx; apply Hin; right; exact Hx).
    rewrite <- (Qsum_one_key ys (year d) (f d)
                  (fun y => Qsum (map f (filter (fun d => (year d =? y)%Z) l)))
                  Hnd (Hin d (or_introl eq_refl))).
    apply Qsum_map_ext. intros y _. cbn [filter].
    destruct (year d =? y)%Z; reflexivity.
Qed.

Lemma count_one_key (ys : list Z) (k : Z) (g : Z -> nat) :
  NoDup ys -> In k ys ->
  fold_right Nat.add 0%nat
    (map (fun y => if (k =? y)%Z then S (g y) else g y) ys)
  = S (fold_right Nat.add 0%nat (map g ys)).
Proof.
  induction ys as [|y ys IH]; intros Hnd Hin; [destruct Hin|].
  inversion Hnd as [|? ? Hy Hnd']; subst.
  cbn [map fold_right].
  destruct (k =? y)%Z eqn:E.
  - apply Z.eqb_eq in E. subst y. cbn [Nat.add]. f_equal. f_equal.
    f_equal. apply map_ext_in. intros z Hz.
    destruct (k =? z)%Z eqn:E; [|reflexivity].
    apply Z.eqb_eq in E. subst z. contradiction.
  - destruct Hin as [->|Hin]; [rewrite Z.eqb_refl in E; discriminate|].
    rewrite (IH Hnd' Hin). lia.
Qed.

Lemma grouped_count {A : Type} (year : A -> Z) (ys : list Z) (l : list A) :
  NoDup ys -> (forall d, In d l -> In (year d) ys) ->
  fold_right Nat.add 0%nat
    (map (fun y => List.length (filter (fun d => (year d =? y)%Z) l)) ys)
  = List.length l.
Proof.
  intros Hnd. induction l as [|d l IH]; intros Hin.
  - cbn [filter List.length]. induction ys as [|y ys IHy]; [reflexivity|].
    cbn [map fold_right]. inversion Hnd; subst. rewrite IHy; auto.
    intros d [].
  - cbn [List.length].
    rewrite <- IH by (intros x Hx; apply Hin; right; exact Hx).
    rewrite <- (count_one_key ys (year d)
                  (fun y => List.length (filter (fun d => (year d =? y)%Z) l))
                  Hnd (Hin d (or_introl eq_refl))).
    f_equal. apply map_ext. intros y. cbn [filter].
    destruct (year d =? y)%Z; reflexivity.
Qed.

Lemma Zeqb_spec (a b : Z) : (a =? b)%Z = true <-> a = b.
Proof. apply Z.eqb_eq. Qed.

Lemma detail_years_spec (detail : list Tp.DetailRow) :
  let years :=
    sort_by Z.ltb
      (drop_duplicates Z.eqb (fun y : Z => y) (map Tp.d_year detail)) in
  NoDup years
  /\ (forall y, In y years <-> In y (map Tp.d_year detail))
  /\ StronglySorted Z.le years.
Proof.
  cbv zeta. split; [|split].
  - apply sort_by_nodup. unfold drop_duplicates.
    rewrite <- (map_id (drop_duplicates_from _ _ _ _)).
    exact (drop_duplicates_from_nodup Z.eqb (fun y : Z => y) Zeqb_spec _ []).
  - intros y. rewrite sort_by_in_any. unfold drop_duplicates. split.
    + intros H.
      apply (drop_duplicates_from_in Z.eqb (fun y : Z => y) Zeqb_spec) in H.
      tauto.
    + intros H.
      destruct (drop_duplicates_from_covers Z.eqb (fun y : Z => y) Zeqb_spec
                  y _ [] H (fun H => H)) as (x & Hx & Hxy).
      cbv beta in Hxy. subst x. exact Hx.
  - exact (sort_by_sorted (fun y : Z => y) _).
Qed.

Lemma strictly_sorted (l : list Z) :
  StronglySorted Z.le l -> NoDup l -> StronglySorted Z.lt l.
Proof.
  induction l as [|x l IH]; intros Hs Hn; [constructor|].
  inversion Hs as [|? ? Hs' Hall]; subst.
  inversion Hn as [|? ? Hx Hn']; subst.
  constructor; [exact (IH Hs' Hn')|].
  rewrite Forall_forall in *. intros y Hy.
  specialize (Hall y Hy).
  assert (x <> y) by (intros ->; exact (Hx Hy)). lia.
Qed.

Lemma aggregate_years (company : string) (detail : list Tp.DetailRow) :
  map Tp.raw_year (Tp.aggregate company detail)
  = sort_by Z.ltb
      (drop_duplicates Z.eqb (fun y : Z => y) (map Tp.d_year detail)).
Proof.
  unfold Tp.aggregate. cbv zeta. rewrite map_map. cbn [Tp.raw_year].
  apply map_id.
Qed.

Lemma anchor_raw (base_year : Z) (apa_emissions : float) (ur : Q)
  (annual : list Tp.RawAnnual) :
  map Tp.raw (Tp.anchor base_year apa_emissions ur annual) = annual.
Proof.
  unfold Tp.anchor. destruct (Tp.anchoring_scale _ _);
    rewrite map_map; cbn [Tp.raw]; apply map_id.
Qed.

Lemma generate_company_raw (re_search : string -> string -> bool)
  (skip : bool) (steel_units : list Kampmann.Unit) (company : string)
  (apa_df : list Tp.ApaEmissions) (base_year end_year : Z) :
  map Tp.raw
    (fst (Tp.generate_company re_search skip steel_units company apa_df
            base_year end_year))
  = Tp.aggregate company
      (snd (Tp.generate_company re_search skip steel_units company apa_df
              base_year end_year)).
Proof.
  unfold Tp.generate_company. cbv zeta.
  destruct (empty (Kampmann.match_units_to_company _ _ _)); [reflexivity|].
  destruct (Tp.calibration_row apa_df company base_year) as [[r y]|];
    [|reflexivity].
  destruct (empty (Tp.build_plant_level_tp _ _ _ _ _ _ _)); [reflexivity|].
  cbn [fst snd]. apply anchor_raw.
Qed.

(** X13. In the output of a projection, the company-year frame has exactly
    one row for every year that occurs in the unit-level detail, in strictly
    ascending order of the year, each counting at least one unit; and its raw
    emissions, raw productions, capacities and unit counts add up to those of
    the detail: aggregation neither loses nor duplicates a detail row. *)
Theorem annual_frame_partitions_detail :
  forall (re_search : string -> string -> bool) (skip_closures : bool)
         (steel_units : list Kampmann.Unit) (company : string)
         (apa_df : list Tp.ApaEmissions) (base_year end_year : Z),
    let generated :=
      Tp.generate_company re_search skip_closures steel_units company apa_df
        base_year end_year in
    let annual := map Tp.raw (fst generated) in
    let detail := snd generated in
    StronglySorted Z.lt (map Tp.raw_year annual)
    /\ (forall y, In y (map Tp.raw_year annual) <-> In y (map Tp.d_year detail))
    /\ Forall (fun r => (0 < Tp.raw_n_active_units r)%nat) annual
    /\ Qsum (map Tp.emissions_raw annual) == Qsum (map Tp.d_emissions_mt detail)
    /\ Qsum (map Tp.production_raw annual)
       == Qsum (map Tp.d_production_mt detail)
    /\ Qsum (map Tp.raw_active_capacity_ttpa annual)
       == Qsum (map Tp.d_capacity_ttpa detail)
    /\ fold_right Nat.add 0%nat (map Tp.raw_n_active_units annual)
       = List.length detail.
Proof.
  intros re_search skip_closures steel_units company apa_df base_year end_year
    generated annual detail.
  subst annual detail generated. rewrite generate_company_raw.
  set (detail := snd _).
  destruct (detail_years_spec detail) as (Hnd & Hin & Hsorted).
  cbv zeta in Hnd, Hin, Hsorted.
  assert (Hcover : forall d, In d detail ->
            In (Tp.d_year d)
              (sort_by Z.ltb
                 (drop_duplicates Z.eqb (fun y : Z => y)
                    (map Tp.d_year detail)))).
  { intros d Hd. apply Hin. apply in_map. exact Hd. }
  split; [|split; [|split; [|split; [|split; [|split]]]]].
  - rewrite aggregate_years. apply strictly_sorted; assumption.
  - intros y. rewrite aggregate_years. apply Hin.
  - unfold Tp.aggregate. cbv zeta. apply Forall_forall. intros r Hr.
    apply in_map_iff in Hr. destruct Hr as (y & <- & Hy).
    cbn [Tp.raw_n_active_units]. apply Hin in Hy.
    apply in_map_iff in Hy. destruct Hy as (d & Hd & Hdin).
    assert (Hf : In d (filter (fun d => (Tp.d_year d =? y)%Z) detail)).
    { apply filter_In. split; [exact Hdin|]. apply Z.eqb_eq. exact Hd. }
    destruct (filter _ detail); [destruct Hf|cbn; lia].
  - unfold Tp.aggregate. cbv zeta. rewrite map_map. cbn [Tp.emissions_raw].
    apply grouped_sum; assumption.
  - unfold Tp.aggregate. cbv zeta. rewrite map_map. cbn [Tp.production_raw].
    apply grouped_sum; assumption.
  - unfold Tp.aggregate. cbv zeta. rewrite map_map.
    cbn [Tp.raw_active_capacity_ttpa]. apply grouped_sum; assumption.
  - unfold Tp.aggregate. cbv zeta. rewrite map_map.
    cbn [Tp.raw_n_active_units]. apply grouped_count; assumption.
Qed.

(** ** The calibration row and the anchored base year *)

Lemma sorted_last {A : Type} (R : A -> A -> Prop) (l : list A) (r : A) :
  StronglySorted R (l ++ [r])%list -> Forall (fun x => R x r) l.
Proof.
  induction l as [|x l IH]; intros H; [constructor|].
  cbn in H. inversion H as [|? ? Hs Hall]; subst. constructor.
  - rewrite Forall_forall in Hall. apply Hall. apply in_or_app.
    right. left. reflexivity.
  - exact (IH Hs).
Qed.

Lemma calibration_row_spec (apa_df : list Tp.ApaEmissions) (company : string)
  (base_year : Z) :
  match Tp.calibration_row apa_df company base_year with
  | Some (r, y) =>
      In r apa_df /\ Tp.e_company r = company /\ Tp.e_year r = y
      /\ (y = base_year
          \/ ((forall r', In r' apa_df -> Tp.e_company r' = company ->
                          Tp.e_year r' <> base_year)
              /\ forall r', In r' apa_df -> Tp.e_company r' = company ->
                            (Tp.e_year r' <= y)%Z))
  | None => forall r, In r apa_df -> Tp.e_company r <> company
  end.
Proof.
  unfold Tp.calibration_row.
  destruct (filter (fun r => String.eqb (Tp.e_company r) company
                             && (Tp.e_year r =? base_year)%Z) apa_df)
    as [|r0 rest] eqn:Ebase.
  - assert (Hno : forall r', In r' apa_df -> Tp.e_company r' = company ->
                             Tp.e_year r' <> base_year).
    { intros r' Hin Hc Hy.
      assert (H : In r' (filter (fun r => String.eqb (Tp.e_company r) company
                                          && (Tp.e_year r =? base_year)%Z)
                           apa_df)).
      { apply filter_In. split; [exact Hin|].
        rewrite Hc, Hy, String.eqb_refl, Z.eqb_refl. reflexivity. }
      rewrite Ebase in H. destruct H. }
    set (sorted := sort_by (fun a b => (Tp.e_year a <? Tp.e_year b)%Z)
                     (filter (fun r => String.eqb (Tp.e_company r) company)
                        apa_df)).
    assert (Hmem : forall r, In r sorted
                             <-> In r apa_df /\ Tp.e_company r = company).
    { intros r. subst sorted. rewrite sort_by_in_any, filter_In.
      rewrite String.eqb_eq. reflexivity. }
    assert (Hsorted : StronglySorted
                        (fun a b => (Tp.e_year a <= Tp.e_year b)%Z) sorted).
    { exact (sort_by_sorted Tp.e_year _). }
    destruct (rev sorted) as [|r t] eqn:Erev.
    + intros r Hin Hc.
      assert (Hs : In r sorted) by (apply Hmem; auto).
      apply in_rev in Hs. rewrite Erev in Hs. destruct Hs.
    + assert (Hl : sorted = (rev t ++ [r])%list).
      { rewrite <- (rev_involutive sorted), Erev. reflexivity. }
      assert (Hr : In r sorted).
      { rewrite Hl. apply in_or_app. right. left. reflexivity. }
      apply Hmem in Hr. destruct Hr as [Hin Hc].
      split; [exact Hin|]. split; [exact Hc|]. split; [reflexivity|].
      right. split; [exact Hno|].
      intros r' Hin' Hc'.
      assert (Hs : In r' sorted) by (apply Hmem; auto).
      rewrite Hl in Hsorted, Hs. apply sorted_last in Hsorted.
      apply in_app_or in Hs. destruct Hs as [Hs|[<-|[]]]; [|lia].
      rewrite Forall_forall in Hsorted. exact (Hsorted r' Hs).
  - assert (H : In r0 (filter (fun r => String.eqb (Tp.e_company r) company
                                        && (Tp.e_year r =? base_year)%Z)
                         apa_df)).
    { rewrite Ebase. left. reflexivity. }
    apply filter_In in H. destruct H as [Hin H].
    apply andb_true_iff in H. destruct H as [Hc Hy].
    apply String.eqb_eq in Hc. apply Z.eqb_eq in Hy. auto.
Qed.

(** X14. The trusted row a company is calibrated on is one of the company's
    rows: the row of the base year when the company has one, and otherwise a
    row of the latest year the company has data for.  There is none exactly
    when the company has no row at all. *)
Theorem calibration_prefers_base_year :
  forall (apa_df : list Tp.ApaEmissions) (company : string) (base_year : Z),
    (forall r y,
        Tp.calibration_row apa_df company base_year = Some (r, y) ->
        In r apa_df /\ Tp.e_company r = company /\ Tp.e_year r = y
        /\ (y = base_year
            \/ ((forall r', In r' apa_df -> Tp.e_company r' = company ->
                            Tp.e_year r' <> base_year)
                /\ forall r', In r' apa_df -> Tp.e_company r' = company ->
                              (Tp.e_year r' <= y)%Z)))
    /\ (forall r, In r apa_df -> Tp.e_company r = company ->
                  Tp.e_year r = base_year ->
                  exists r', Tp.calibration_row apa_df company base_year
                             = Some (r', base_year))
    /\ (Tp.calibration_row apa_df company base_year = None
        <-> forall r, In r apa_df -> Tp.e_company r <> company).
Proof.
  intros apa_df company base_year.
  pose proof (calibration_row_spec apa_df company base_year) as H.
  split; [|split].
  - intros r y E. rewrite E in H. exact H.
  - intros r Hin Hc Hy.
    destruct (Tp.calibration_row apa_df company base_year) as [[r' y]|].
    + destruct H as (_ & _ & _ & [->|[Hno _]]).
      * exists r'. reflexivity.
      * exfalso. exact (Hno r Hin Hc Hy).
    + exfalso. exact (H r Hin Hc).
  - destruct (Tp.calibration_row apa_df company base_year) as [[r' y]|].
    + split; [discriminate|]. intros Hnone.
      destruct H as (Hin & Hc & _). exfalso. exact (Hnone r' Hin Hc).
    + split; [intros _; exact H|reflexivity].
Qed.

Lemma calibration_prefers_base_year_witness :
  Tp.calibration_row ssab_apa_rows "SSAB" 2024
  = Some (Tp.mkApaEmissions "SSAB" 2023 (Some 9.5) (Some 7.3), 2023%Z)
  /\ In (Tp.mkApaEmissions "SSAB" 2023 (Some 9.5) (Some 7.3)) ssab_apa_rows.
Proof.
  split; [reflexivity|].
  exact (proj1 (proj1 (calibration_prefers_base_year ssab_apa_rows "SSAB" 2024)
                  _ _ eq_refl)).
Defined.

Lemma filter_unique {A : Type} (key : A -> Z) (l : list A) (r : A) :
  NoDup (map key l) -> In r l ->
  filter (fun x => (key x =? key r)%Z) l = [r].
Proof.
  induction l as [|x l IH]; intros Hnd Hin; [destruct Hin|].
  cbn [map] in Hnd. inversion Hnd as [|? ? Hx Hnd']; subst.
  cbn [filter]. destruct Hin as [->|Hin].
  - rewrite Z.eqb_refl. f_equal. apply filter_none.
    apply Forall_forall. intros y Hy.
    destruct (key y =? key r)%Z eqn:E; [|reflexivity].
    apply Z.eqb_eq in E. exfalso. apply Hx. rewrite <- E.
    apply in_map. exact Hy.
  - destruct (key x =? key r)%Z eqn:E.
    + apply Z.eqb_eq in E. exfalso. apply Hx. rewrite E.
      apply in_map. exact Hin.
    + exact (IH Hnd' Hin).
Qed.

Lemma aggregate_nodup (company : string) (detail : list Tp.DetailRow) :
  NoDup (map Tp.raw_year (Tp.aggregate company detail)).
Proof.
  rewrite aggregate_years. exact (proj1 (detail_years_spec detail)).
Qed.

Lemma anchored_base_value (company : string) (detail : list Tp.DetailRow)
  (base_year : Z) (apa_emissions : float) (ur : Q) (row : Tp.Annual) :
  In row (Tp.anchor base_year apa_emissions ur (Tp.aggregate company detail)) ->
  Tp.apa_anchored row = true ->
  Tp.raw_year (Tp.raw row) = base_year ->
  exists a, apa_emissions = Some a /\ 0 < a
            /\ Tp.emissions_mt row = round_nd a 3.
Proof.
  intros Hin Hflag Hyear. unfold Tp.anchor in Hin.
  destruct (Tp.anchoring_scale apa_emissions
              (Tp.gem_base_em base_year (Tp.aggregate company detail)))
    as [s|] eqn:Es.
  - apply anchoring_scale_some in Es.
    destruct Es as (a & g & Ha & Hg & Hapos & Hgpos & Hs).
    apply in_map_iff in Hin. destruct Hin as (r & <- & Hr).
    cbn [Tp.raw Tp.emissions_mt] in *.
    exists a. split; [exact Ha|]. split; [exact Hapos|].
    unfold Tp.gem_base_em in Hg. rewrite <- Hyear in Hg.
    rewrite (filter_unique Tp.raw_year _ r (aggregate_nodup company detail) Hr)
      in Hg.
    cbn [map] in Hg.
    destruct (Qltb 0 (Tp.emissions_raw r)); [|discriminate].
    apply Some_eq in Hg. subst g s.
    apply round_nd_comp. field.
    intros H0. rewrite H0 in Hgpos. exact (Qlt_irrefl 0 Hgpos).
  - apply in_map_iff in Hin. destruct Hin as (r & <- & _).
    cbn in Hflag. discriminate.
Qed.

Lemma generate_company_calibrated (re_search : string -> string -> bool)
  (skip : bool) (steel_units : list Kampmann.Unit) (company : string)
  (apa_df : list Tp.ApaEmissions) (base_year end_year : Z) (row : Tp.Annual) :
  In row (fst (Tp.generate_company re_search skip steel_units company apa_df
                 base_year end_year)) ->
  exists company_apa y ur,
    Tp.calibration_row apa_df company base_year = Some (company_apa, y)
    /\ In row (Tp.anchor base_year (Tp.e_emissions_mt company_apa) ur
                 (Tp.aggregate company
                    (snd (Tp.generate_company re_search skip steel_units
                            company apa_df base_year end_year)))).
Proof.
  unfold Tp.generate_company. cbv zeta.
  destruct (empty (Kampmann.match_units_to_company _ _ _)); [intros []|].
  destruct (Tp.calibration_row apa_df company base_year) as [[r y]|];
    [|intros []].
  destruct (empty (Tp.build_plant_level_tp _ _ _ _ _ _ _)); [intros []|].
  cbn [fst snd]. intros H. eauto.
Qed.

(** X15. In an anchored projection, the row of the base year reports the
    trusted emissions of the calibration row, rounded to 3 decimals: the
    anchored trajectory starts at the trusted figure, which is positive and
    belongs to one of the company's trusted rows. *)
Theorem anchored_base_year_reports_trusted_value :
  forall (re_search : string -> string -> bool) (skip_closures : bool)
         (steel_units : list Kampmann.Unit) (company : string)
         (apa_df : list Tp.ApaEmissions) (base_year end_year : Z)
         (row : Tp.Annual),
    In row (fst (Tp.generate_company re_search skip_closures steel_units
                   company apa_df base_year end_year)) ->
    Tp.apa_anchored row = true ->
    Tp.raw_year (Tp.raw row) = base_year ->
    exists company_apa y a,
      Tp.calibration_row apa_df company base_year = Some (company_apa, y)
      /\ In company_apa apa_df /\ Tp.e_company company_apa = company
      /\ Tp.e_emissions_mt company_apa = Some a /\ 0 < a
      /\ Tp.emissions_mt row = round_nd a 3.
Proof.
  intros re_search skip_closures steel_units company apa_df base_year end_year
    row Hin Hflag Hyear.
  apply generate_company_calibrated in Hin.
  destruct Hin as (company_apa & y & ur & Hcal & Hin).
  destruct (anchored_base_value _ _ _ _ _ _ Hin Hflag Hyear)
    as (a & Ha & Hpos & Hem).
  pose proof (calibration_row_spec apa_df company base_year) as Hspec.
  rewrite Hcal in Hspec. destruct Hspec as (Hmem & Hc & _).
  exists company_apa, y, a. auto 7.
Qed.

Lemma anchored_base_year_reports_trusted_value_witness :
  exists row,
    In row (fst (Tp.generate_company literal_search false [ssab_unit] "SSAB"
                   ssab_apa_rows 2024 2026))
    /\ Tp.apa_anchored row = true
    /\ Tp.raw_year (Tp.raw row) = 2024%Z
    /\ Tp.emissions_mt row = round_nd 9.5 3.
Proof.
  assert (H : exists row,
             In row (fst (Tp.generate_company literal_search false [ssab_unit]
                            "SSAB" ssab_apa_rows 2024 2026))
             /\ Tp.apa_anchored row = true
             /\ Tp.raw_year (Tp.raw row) = 2024%Z).
  { vm_compute. eexists. split; [left; reflexivity|]. split; reflexivity. }
  destruct H as (row & Hin & Hflag & Hyear).
  exists row. split; [exact Hin|]. split; [exact Hflag|].
  split; [exact Hyear|].
  destruct (anchored_base_year_reports_trusted_value literal_search false
              [ssab_unit] "SSAB" ssab_apa_rows 2024 2026 row Hin Hflag Hyear)
    as (company_apa & y & a & Hcal & _ & _ & Ha & _ & Hem).
  change (Tp.calibration_row ssab_apa_rows "SSAB" 2024)
    with (Some (Tp.mkApaEmissions "SSAB" 2023 (Some 9.5) (Some 7.3), 2023%Z))
    in Hcal.
  apply Some_eq in Hcal.
  assert (Hc : company_apa = Tp.mkApaEmissions "SSAB" 2023 (Some 9.5) (Some 7.3))
    by congruence.
  rewrite Hc in Ha. cbn in Ha. apply Some_eq in Ha. rewrite Ha. exact Hem.
Defined.

(** ** The closure inventory and the projector *)

(** X16. The closure inventory and the trajectory projector infer the same
    close year for every furnace, except for a retired or mothballed furnace
    without a retirement date, which the inventory closes in 2024 (label
    gem_status_inferred) and the projector in 2023.  The inventory's close
    year is missing exactly when its label is none, and the label is always
    one of six. *)
Theorem closure_inventory_agrees_with_projector :
  forall (u : Kampmann.Unit),
    In (snd (Kampmann.infer_closure u)) close_sources
    /\ (snd (Kampmann.infer_closure u) = "none"
        <-> fst (Kampmann.infer_closure u) = nan)
    /\ (snd (Kampmann.infer_closure u) <> "gem_status_inferred" ->
        fst (Kampmann.infer_closure u) = Tp._infer_close_year u)
    /\ (snd (Kampmann.infer_closure u) = "gem_status_inferred" ->
        fst (Kampmann.infer_closure u) = Some 2024
        /\ Tp._infer_close_year u = Some 2023).
Proof.
  intros u. unfold Kampmann.infer_closure, Tp._infer_close_year, close_sources.
  destruct (isin (lower (Kampmann.unit_status u)) ["retired"; "mothballed"]).
  - destruct (Kampmann.retired_year u) as [r|]; cbn [notna fst snd].
    + split; [cbn; auto|]. split; [split; discriminate|].
      split; [reflexivity|discriminate].
    + split; [cbn; auto|]. split; [split; discriminate|].
      split; [intros H; exfalso; apply H; reflexivity|auto].
  - destruct (contains "pre-retirement" (lower (Kampmann.unit_status u))).
    + destruct (Kampmann.retired_year u) as [r|]; cbn [notna fst snd].
      * split; [cbn; auto|]. split; [split; discriminate|].
        split; [reflexivity|discriminate].
      * destruct (Kampmann.pre_retirement_announced_year u) as [a|];
          cbn [notna fst snd fadd].
        -- split; [cbn; auto 6|]. split; [split; discriminate|].
           split; [reflexivity|discriminate].
        -- split; [cbn; auto 6|]. split; [split; discriminate|].
           split; [reflexivity|discriminate].
    + cbn [fst snd]. split; [cbn; auto 7|]. split; [split; reflexivity|].
      split; [reflexivity|discriminate].
Qed.

Lemma closure_inventory_agrees_with_projector_witness :
  snd (Kampmann.infer_closure closing_unit) <> "gem_status_inferred"
  /\ fst (Kampmann.infer_closure closing_unit)
     = Tp._infer_close_year closing_unit
  /\ fst (Kampmann.infer_closure retired_undated_unit) = Some 2024
  /\ Tp._infer_close_year retired_undated_unit = Some 2023.
Proof.
  assert (H : snd (Kampmann.infer_closure closing_unit)
              <> "gem_status_inferred") by discriminate.
  split; [exact H|]. split.
  - exact (proj1 (proj2 (proj2 (closure_inventory_agrees_with_projector
                                  closing_unit))) H).
  - exact (proj2 (proj2 (proj2 (closure_inventory_agrees_with_projector
                                  retired_undated_unit))) eq_refl).
Defined.

(** ** Quality flags *)

Lemma exclude_map (df : list Integrate.Flagged) (rule : Integrate.ExcludeRule) :
  Integrate.exclude df rule
  = map (fun f => if Integrate.rule_mask rule f
                  then Integrate.mkFlagged (Integrate.record f)
                         "excluded: known extraction error"
                  else f) df.
Proof.
  unfold Integrate.exclude.
  destruct (existsb (Integrate.rule_mask rule) df) eqn:E; [reflexivity|].
  rewrite <- (map_id df) at 1. apply map_ext_in. intros f Hf.
  destruct (Integrate.rule_mask rule f) eqn:Em; [|reflexivity].
  assert (existsb (Integrate.rule_mask rule) df = true)
    by (apply existsb_exists; eauto).
  congruence.
Qed.

Lemma exclude_all_map (rules : list Integrate.ExcludeRule) :
  forall df,
    fold_left Integrate.exclude rules df
    = map (fun f =>
             fold_left
               (fun f rule =>
                  if Integrate.rule_mask rule f
                  then Integrate.mkFlagged (Integrate.record f)
                         "excluded: known extraction error"
                  else f) rules f) df.
Proof.
  induction rules as [|rule rules IH]; intros df; cbn [fold_left].
  - symmetry. apply map_id.
  - rewrite IH, exclude_map, map_map. reflexivity.
Qed.

Lemma exclude_all_row (rules : list Integrate.ExcludeRule)
  (r : Integrate.SourceRecord) :
  forall flag,
    fold_left
      (fun f rule =>
         if Integrate.rule_mask rule f
         then Integrate.mkFlagged (Integrate.record f)
                "excluded: known extraction error"
         else f) rules (Integrate.mkFlagged r flag)
    = Integrate.mkFlagged r
        (if existsb (matches_rule r) rules
         then "excluded: known extraction error" else flag).
Proof.
  induction rules as [|rule rules IH]; intros flag; cbn [fold_left existsb];
    [reflexivity|].
  change (Integrate.rule_mask rule (Integrate.mkFlagged r flag))
    with (matches_rule r rule).
  destruct (matches_rule r rule); cbn [orb Integrate.record].
  - rewrite IH. destruct (existsb (matches_rule r) rules); reflexivity.
  - apply IH.
Qed.

Lemma exclusion_rules_sources :
  Forall (fun rule => Integrate.rule_source rule = "annual_report")
    Integrate.EXCLUDE_RULES.
Proof. repeat constructor. Qed.

(** X17. The quality flag of a record depends on that record alone, not on
    the rest of the frame nor on the order of the rules: it is the exclusion
    label when a rule of the exclusion list names the record, otherwise the
    label of a production above 100 Mt or of emissions above 200 Mt, and
    empty otherwise.  An excluded record is never relabelled as suspicious,
    and only records of the annual-report source are ever excluded. *)
Theorem quality_flag_of_a_record :
  forall (df : list Integrate.SourceRecord),
    Integrate.apply_quality_filters df
    = map (fun r => Integrate.mkFlagged r (expected_flag r)) df
    /\ Forall (fun f =>
                 Integrate.quality_flag f = "excluded: known extraction error" ->
                 Integrate.source (Integrate.record f) = "annual_report")
         (Integrate.apply_quality_filters df).
Proof.
  intros df.
  assert (H : Integrate.apply_quality_filters df
              = map (fun r => Integrate.mkFlagged r (expected_flag r)) df).
  { unfold Integrate.apply_quality_filters.
    rewrite exclude_all_map, !map_map. apply map_ext. intros r.
    rewrite exclude_all_row. unfold expected_flag, Integrate.flag_suspicious.
    cbn [Integrate.record Integrate.quality_flag].
    destruct (existsb (matches_rule r) Integrate.EXCLUDE_RULES).
    - destruct (String.eqb (Integrate.metric r) "production_mt"
                && flt (Some 100) (Integrate.value r));
        cbn [negb String.eqb Integrate.record Integrate.quality_flag];
        destruct (String.eqb (Integrate.metric r) "emissions_mt_co2"
                  && flt (Some 200) (Integrate.value r)); reflexivity.
    - destruct (String.eqb (Integrate.metric r) "production_mt"
                && flt (Some 100) (Integrate.value r));
        cbn [negb String.eqb Integrate.record Integrate.quality_flag];
        destruct (String.eqb (Integrate.metric r) "emissions_mt_co2"
                  && flt (Some 200) (Integrate.value r)); reflexivity. }
  split; [exact H|].
  rewrite H. apply Forall_forall. intros f Hf.
  apply in_map_iff in Hf. destruct Hf as (r & <- & _).
  cbn [Integrate.quality_flag Integrate.record]. unfold expected_flag.
  destruct (existsb (matches_rule r) Integrate.EXCLUDE_RULES) eqn:E.
  - intros _. apply existsb_exists in E. destruct E as (rule & Hrule & Hm).
    pose proof exclusion_rules_sources as Hs. rewrite Forall_forall in Hs.
    specialize (Hs rule Hrule). unfold matches_rule in Hm.
    apply andb_true_iff in Hm. destruct Hm as [_ Hm].
    apply String.eqb_eq in Hm. congruence.
  - destruct (String.eqb (Integrate.metric r) "production_mt"
              && flt (Some 100) (Integrate.value r)); [discriminate|].
    destruct (String.eqb (Integrate.metric r) "emissions_mt_co2"
              && flt (Some 200) (Integrate.value r)); discriminate.
Qed.

Lemma quality_flag_of_a_record_witness :
  Integrate.apply_quality_filters [jfe_record]
  = [ Integrate.mkFlagged jfe_record "excluded: known extraction error" ]
  /\ Integrate.source jfe_record = "annual_report".
Proof.
  pose proof (quality_flag_of_a_record [jfe_record]) as [Hflags Hsources].
  split; [exact Hflags|].
  rewrite Hflags in Hsources.
  exact (Forall_inv Hsources eq_refl).
Defined.

(** ** Production estimated from capacity *)

Lemma mean_in_band (lo hi : Q) (l : list Q) :
  Forall (fun x => lo <= x /\ x <= hi) l -> l <> [] ->
  lo <= Qsum l / inject_Z (Z.of_nat (List.length l))
  /\ Qsum l / inject_Z (Z.of_nat (List.length l)) <= hi.
Proof.
  intros Hall Hne.
  assert (Hsum : lo * inject_Z (Z.of_nat (List.length l)) <= Qsum l
                 /\ Qsum l <= hi * inject_Z (Z.of_nat (List.length l))).
  { clear Hne. induction Hall as [|x l [Hlo Hhi] _ [IHlo IHhi]].
    - cbn. split; rewrite Qmult_0_r; apply Qle_refl.
    - cbn [List.length Qsum fold_right]. fold (Qsum l).
      rewrite Nat2Z.inj_succ, <- Z.add_1_r, inject_Z_plus.
      split.
      + setoid_replace (lo * (inject_Z (Z.of_nat (List.length l)) + inject_Z 1))
          with (lo + lo * inject_Z (Z.of_nat (List.length l))) by ring.
        apply Qplus_le_compat; assumption.
      + setoid_replace (hi * (inject_Z (Z.of_nat (List.length l)) + inject_Z 1))
          with (hi + hi * inject_Z (Z.of_nat (List.length l))) by ring.
        apply Qplus_le_compat; assumption. }
  assert (Hpos : 0 < inject_Z (Z.of_nat (List.length l))).
  { destruct l as [|x l]; [contradiction|].
    change 0 with (inject_Z 0). rewrite <- Zlt_Qlt. cbn [List.length]. lia. }
  destruct Hsum as [Hlo Hhi]. split.
  - apply Qle_shift_div_l; assumption.
  - apply Qle_shift_div_r; assumption.
Qed.

Lemma checked_div_ret (a b r : Q) :
  checked_div a b = Ret r -> r = a / b.
Proof.
  unfold checked_div. destruct (Qeq_bool b 0); [discriminate|].
  intros H. inversion H. reflexivity.
Qed.

Lemma avg_ur_in_band (samples : list (Z * Q)) (avg : Q) :
  samples <> [] -> Forall in_band samples ->
  Apa.avg_ur samples = Ret avg -> 0.1 <= avg /\ avg <= 1.5.
Proof.
  intros Hne Hband Havg. unfold Apa.avg_ur in Havg.
  apply checked_div_ret in Havg. subst avg.
  rewrite <- (length_map snd (Apa.earliest samples)).
  apply mean_in_band.
  - apply Forall_forall. intros x Hx. apply in_map_iff in Hx.
    destruct Hx as (s & <- & Hs). apply earliest_incl in Hs.
    rewrite Forall_forall in Hband. exact (Hband s Hs).
  - destruct (avg_ur_ok samples Hne) as (avg & Havg).
    unfold Apa.avg_ur in Havg. intros Hnil.
    apply map_eq_nil in Hnil. rewrite Hnil in Havg. cbn in Havg.
    discriminate.
Qed.

Lemma nodup_app {A : Type} (l l' : list A) :
  NoDup l -> NoDup l' -> (forall x, In x l -> ~ In x l') -> NoDup (l ++ l').
Proof.
  induction l as [|x l IH]; intros Hl Hl' Hd; cbn; [exact Hl'|].
  inversion Hl as [|? ? Hx Hl0]; subst. constructor.
  - intros Hin. apply in_app_or in Hin. destruct Hin as [Hin|Hin].
    + exact (Hx Hin).
    + exact (Hd x (or_introl eq_refl) Hin).
  - apply IH; [exact Hl0|exact Hl'|].
    intros y Hy. apply Hd. right. exact Hy.
Qed.

Lemma flat_mapM_nodup {A B K T : Type} (key : B -> K) (tag : B -> T)
  (tagA : A -> T) (f : A -> pyres (list B)) (l : list A) :
  (forall b b', key b = key b' -> tag b = tag b') ->
  (forall a bs, In a l -> f a = Ret bs ->
                Forall (fun b => tag b = tagA a) bs /\ NoDup (map key bs)) ->
  NoDup (map tagA l) ->
  forall bs, flat_mapM f l = Ret bs ->
             NoDup (map key bs) /\ Forall (fun b => In (tag b) (map tagA l)) bs.
Proof.
  intros Hkey. induction l as [|a l IH]; intros Hf Hl bs Hbs.
  - cbn in Hbs. inversion Hbs. split; constructor.
  - cbn [flat_mapM] in Hbs.
    destruct (f a) as [bs_a|] eqn:Ea; [|discriminate]. cbn [bind] in Hbs.
    destruct (flat_mapM f l) as [rest|] eqn:Erest; [|discriminate].
    cbn [bind] in Hbs. inversion Hbs; subst bs. clear Hbs.
    cbn [map] in Hl. inversion Hl as [|? ? Ha Hl']; subst.
    destruct (Hf a bs_a (or_introl eq_refl) Ea) as [Htag Hnd].
    destruct (IH (fun a' bs' Hin => Hf a' bs' (or_intror Hin)) Hl' rest
                eq_refl) as [Hrest Hin].
    split.
    + rewrite map_app. apply nodup_app; [exact Hnd|exact Hrest|].
      intros k Hk Hk'. apply in_map_iff in Hk. destruct Hk as (b & <- & Hb).
      apply in_map_iff in Hk'. destruct Hk' as (b' & Hkk & Hb').
      rewrite Forall_forall in Htag, Hin.
      apply Ha. rewrite <- (Htag b Hb), <- (Hkey _ _ Hkk). exact (Hin b' Hb').
    + apply Forall_app. split.
      * apply Forall_forall. intros b Hb. rewrite Forall_forall in Htag.
        left. symmetry. exact (Htag b Hb).
      * apply Forall_forall. intros b Hb. rewrite Forall_forall in Hin.
        right. exact (Hin b Hb).
Qed.

Lemma estimate_company_rows (re_search : string -> string -> bool)
  (all_plants : list Apa.Plant) (production : list Apa.ProdRow)
  (fill_years : list Z) (company : string) (rows : list Apa.ProdRow) :
  Apa.estimate_company re_search all_plants production fill_years company
  = Ret rows ->
  Forall (fun r =>
            Apa.pr_company r = company
            /\ Apa.pr_production_source r = "capacity_estimate"
            /\ In (Apa.pr_year r) fill_years
            /\ ~ In (Apa.key_of r) (map Apa.key_of production)
            /\ exists avg,
                0.1 <= avg /\ avg <= 1.5
                /\ 0 < Apa.company_capacity_mt re_search all_plants
                         (Apa.pr_company r) (Apa.pr_year r)
                /\ Apa.pr_production_mt r
                   = Some (round_nd
                             (Apa.company_capacity_mt re_search all_plants
                                (Apa.pr_company r) (Apa.pr_year r) * avg) 3))
    rows
  /\ (NoDup fill_years -> NoDup (map Apa.key_of rows)).
Proof.
  unfold Apa.estimate_company.
  destruct (ur_samples_in_band re_search all_plants production company)
    as (samples & -> & Hband).
  cbn [bind]. destruct samples as [|s samples].
  { cbn [empty]. intros H. inversion H. split; constructor. }
  cbn [empty].
  destruct (avg_ur_ok (s :: samples)) as (avg & Havg); [discriminate|].
  rewrite Havg. cbn [bind].
  apply avg_ur_in_band in Havg; [|discriminate|exact Hband].
  intros H. inversion H as [Hrows]. clear H Hrows. split.
  - apply Forall_flat_map. intros yr Hyr.
    destruct (existsb (Apa.key_eqb (company, yr)) (map Apa.key_of production))
      eqn:Ekey; [constructor|].
    destruct (Qle_bool (Apa.company_capacity_mt re_search all_plants company yr)
                0) eqn:Ecap; [constructor|].
    constructor; [|constructor]. cbn.
    split; [reflexivity|]. split; [reflexivity|]. split; [exact Hyr|].
    split.
    + intros Hin.
      assert (existsb (Apa.key_eqb (company, yr)) (map Apa.key_of production)
              = true).
      { apply (seen_spec Apa.key_eqb key_eqb_spec). exact Hin. }
      congruence.
    + exists avg. split; [tauto|]. split; [tauto|].
      split; [|reflexivity].
      apply Qnot_le_lt. intros Hle. apply Qle_bool_iff in Hle. congruence.
  - intros Hnd. induction fill_years as [|yr fill_years IH];
      [constructor|].
    inversion Hnd as [|? ? Hyr Hnd']; subst. cbn [flat_map].
    assert (Hrest : forall k,
               In k (map Apa.key_of
                       (flat_map
                          (fun yr0 =>
                             if existsb (Apa.key_eqb (company, yr0))
                                  (map Apa.key_of production)
                             then []
                             else
                               if Qle_bool
                                    (Apa.company_capacity_mt re_search
                                       all_plants company yr0) 0
                               then []
                               else [Apa.mkProdRow company yr0
                                       (Some
                                          (round_nd
                                             (Apa.company_capacity_mt re_search
                                                all_plants company yr0 * avg)
                                             3)) "capacity_estimate"])
                          fill_years)) ->
               In (snd k) fill_years).
    { intros k Hk. apply in_map_iff in Hk. destruct Hk as (r & <- & Hr).
      apply in_flat_map in Hr. destruct Hr as (y & Hy & Hr).
      destruct (existsb _ _); [destruct Hr|].
      destruct (Qle_bool _ 0); [destruct Hr|].
      destruct Hr as [<-|[]]. exact Hy. }
    destruct (existsb (Apa.key_eqb (company, yr)) (map Apa.key_of production));
      [exact (IH Hnd')|].
    destruct (Qle_bool (Apa.company_capacity_mt re_search all_plants company yr)
                0); [exact (IH Hnd')|].
    cbn [app map]. constructor; [|exact (IH Hnd')].
    intros Hin. apply Hrest in Hin. exact (Hyr Hin).
Qed.

Lemma estimate_spec (re_search : string -> string -> bool)
  (all_plants : list Apa.Plant) (production : list Apa.ProdRow)
  (fill_years : list Z) :
    exists rows,
      Apa.estimate_production_from_capacity re_search all_plants production
        fill_years = Ret rows
      /\ Forall (fills_gap re_search all_plants production fill_years) rows
      /\ (NoDup fill_years -> NoDup (map Apa.key_of rows)).
Proof.
  destruct (estimate_ok re_search all_plants production fill_years)
    as (rows & Hrows).
  exists rows. split; [exact Hrows|].
  unfold Apa.estimate_production_from_capacity in Hrows.
  destruct (empty all_plants || empty production).
  { inversion Hrows. split; constructor. }
  set (companies := drop_duplicates String.eqb (fun c : string => c)
                      (map Apa.pr_company production)) in *.
  assert (Hcompanies : forall c, In c companies ->
                                 In c (map Apa.pr_company production)).
  { intros c Hc. subst companies. unfold drop_duplicates in Hc.
    apply (drop_duplicates_from_in String.eqb (fun c : string => c)
             String.eqb_eq) in Hc. tauto. }
  assert (Hdistinct : NoDup companies).
  { subst companies. unfold drop_duplicates.
    rewrite <- (map_id (drop_duplicates_from _ _ _ _)).
    exact (drop_duplicates_from_nodup String.eqb (fun c : string => c)
             String.eqb_eq _ []). }
  split.
  - destruct (flat_mapM_ok
                (fills_gap re_search all_plants production fill_years)
                (Apa.estimate_company re_search all_plants production
                   fill_years) companies) as (rows' & Hrows' & Hall).
    { intros c Hc.
      destruct (estimate_company_ok re_search all_plants production fill_years
                  c) as (rows_c & Hc_rows & _).
      exists rows_c. split; [exact Hc_rows|].
      apply estimate_company_rows in Hc_rows. destruct Hc_rows as [Hall _].
      apply Forall_forall. intros r Hr. rewrite Forall_forall in Hall.
      destruct (Hall r Hr) as (Hcomp & Hsrc & Hyear & Hkey & Havg).
      unfold fills_gap. split; [exact Hsrc|]. split; [exact Hyear|].
      split; [exact Hkey|]. split; [|exact Havg].
      rewrite Hcomp. apply Hcompanies. exact Hc. }
    rewrite Hrows in Hrows'. inversion Hrows'. exact Hall.
  - intros Hnd.
    apply (flat_mapM_nodup Apa.key_of Apa.pr_company (fun c : string => c)
             (Apa.estimate_company re_search all_plants production fill_years)
             companies); [| |rewrite map_id; exact Hdistinct|exact Hrows].
    + intros b b' Hk. unfold Apa.key_of in Hk. congruence.
    + intros c rows_c _ Hc. apply estimate_company_rows in Hc.
      destruct Hc as [Hall Hkeys]. split; [|exact (Hkeys Hnd)].
      apply Forall_forall. intros r Hr. rewrite Forall_forall in Hall.
      exact (proj1 (Hall r Hr)).
Qed.

(** X18. Estimating production from capacity always returns, and only fills
    gaps: every estimated row is labelled capacity_estimate, belongs to a
    year to fill and to a company of the production frame, and to a
    company-year for which the frame has no figure; its value is that year's
    capacity of the company times a utilization rate between 0.1 and 1.5,
    rounded to 3 decimals.  When the years to fill are distinct, so are the
    company-years of the estimated rows. *)
Theorem capacity_estimates_fill_only_gaps :
  forall (re_search : string -> string -> bool) (all_plants : list Apa.Plant)
         (production : list Apa.ProdRow) (fill_years : list Z),
    exists rows,
      Apa.estimate_production_from_capacity re_search all_plants production
        fill_years = Ret rows
      /\ Forall (fills_gap re_search all_plants production fill_years) rows
      /\ (NoDup fill_years -> NoDup (map Apa.key_of rows)).
Proof. exact estimate_spec. Qed.

Lemma capacity_estimates_fill_only_gaps_witness :
  NoDup (range_incl 2018 2019)
  /\ exists rows,
      Apa.estimate_production_from_capacity literal_search one_plant_fleet
        reported_2020 (range_incl 2018 2019) = Ret rows
      /\ NoDup (map Apa.key_of rows).
Proof.
  assert (H : NoDup (range_incl 2018 2019)).
  { repeat constructor; cbn; intuition discriminate. }
  split; [exact H|].
  destruct (capacity_estimates_fill_only_gaps literal_search one_plant_fleet
              reported_2020 (range_incl 2018 2019)) as (rows & Hrows & _ & Hnd).
  exists rows. split; [exact Hrows|exact (Hnd H)].
Defined.

(** ** The batch of reported rows *)

Lemma insert_by_nodup_map {A K : Type} (key : A -> K) (lt : A -> A -> bool)
  (x : A) (l : list A) :
  ~ In (key x) (map key l) -> NoDup (map key l) ->
  NoDup (map key (insert_by lt x l)).
Proof.
  induction l as [|y l IH]; cbn [insert_by map]; intros Hx Hl.
  - constructor; [intros []|constructor].
  - destruct (lt y x); cbn [map].
    + inversion Hl as [|? ? Hy Hl']; subst. constructor.
      * intros Hin. apply in_map_iff in Hin. destruct Hin as (z & Hz & Hin).
        apply insert_by_in_any in Hin. destruct Hin as [->|Hin].
        -- apply Hx. left. symmetry. exact Hz.
        -- apply Hy. rewrite <- Hz. apply in_map. exact Hin.
      * apply IH; [|exact Hl']. intros Hin. apply Hx. right. exact Hin.
    + constructor; assumption.
Qed.

Lemma sort_by_nodup_map {A K : Type} (key : A -> K) (lt : A -> A -> bool)
  (l : list A) :
  NoDup (map key l) -> NoDup (map key (sort_by lt l)).
Proof.
  induction l as [|x l IH]; intros H; cbn; [constructor|].
  cbn [map] in H. inversion H as [|? ? Hx Hl]; subst.
  apply insert_by_nodup_map; [|exact (IH Hl)].
  intros Hin. apply in_map_iff in Hin. destruct Hin as (z & Hz & Hin).
  apply sort_by_in_any in Hin. apply Hx. rewrite <- Hz. apply in_map. exact Hin.
Qed.

Lemma report_row_shape (re_search : string -> string -> bool)
  (all_plants : list Apa.Plant)
  (country_prod_map : list ((string * Z) * list (string * Q)))
  (p : Apa.ProdRow) :
  Apa.report_row re_search all_plants country_prod_map p = Ret []
  \/ exists r, Apa.report_row re_search all_plants country_prod_map p = Ret [r]
               /\ reports p r.
Proof.
  unfold Apa.report_row.
  destruct (Apa.calculate_company_emissions _ _ _ _ _ _) as [[res|]|] eqn:E.
  - cbn [bind]. destruct (flt (Some 1.5) (Apa.r_utilization_rate res)).
    + left. reflexivity.
    + right. eexists. split; [reflexivity|]. repeat split.
  - left. reflexivity.
  - exfalso. exact (calculate_no_division_error _ _ _ _ _ _ E).
Qed.

Lemma production_keys_nodup (src : Apa.Sources) :
  NoDup (map Apa.key_of (Apa.load_production_data src)).
Proof.
  rewrite load_production_data_rows, map_map.
  exact (proj2 (proj2 (selected_spec (Apa.all_prod src)))).
Qed.

Lemma run_apa_all_spec (re_search : string -> string -> bool)
  (all_plants : list Apa.Plant) (src : Apa.Sources)
  (country_prod_map : list ((string * Z) * list (string * Q))) :
  exists results,
    Apa.run_apa_all re_search all_plants src country_prod_map = Ret results
    /\ NoDup (map apa_key results)
    /\ Forall (fun r =>
                 exists p,
                   reports p r
                   /\ (In p (Apa.load_production_data src)
                       \/ fills_gap re_search all_plants
                            (Apa.load_production_data src)
                            (range_incl 2014 2019) p))
         results.
Proof.
  unfold Apa.run_apa_all.
  destruct (empty all_plants);
    [exists []; split; [reflexivity|split; constructor]|].
  destruct (empty (Apa.load_production_data src));
    [exists []; split; [reflexivity|split; constructor]|].
  destruct (estimate_spec re_search all_plants (Apa.load_production_data src)
              (range_incl 2014 2019)) as (estimated & Hest & Hgap & Hnd).
  rewrite Hest. cbn [bind].
  specialize (Hnd (range_incl_nodup 2014 2019)).
  set (production := Apa.load_production_data src) in *.
  assert (Hall : (if negb (empty estimated)
                  then (production ++ estimated)%list else production)
                 = (production ++ estimated)%list).
  { destruct estimated; cbn [empty negb]; [rewrite app_nil_r|]; reflexivity. }
  rewrite Hall. clear Hall.
  assert (Hkeys : NoDup (map Apa.key_of (production ++ estimated)%list)).
  { rewrite map_app. apply nodup_app; [apply production_keys_nodup|exact Hnd|].
    intros k Hk Hk'. apply in_map_iff in Hk'. destruct Hk' as (e & <- & He).
    rewrite Forall_forall in Hgap. destruct (Hgap e He) as (_ & _ & Hno & _).
    exact (Hno Hk). }
  destruct (flat_mapM_ok
              (fun r =>
                 exists p,
                   reports p r
                   /\ (In p production
                       \/ fills_gap re_search all_plants production
                            (range_incl 2014 2019) p))
              (Apa.report_row re_search all_plants country_prod_map)
              (production ++ estimated)%list) as (rows & Hrows & Hprov).
  { intros p Hp.
    assert (Hp' : In p production
                  \/ fills_gap re_search all_plants production
                       (range_incl 2014 2019) p).
    { apply in_app_or in Hp. destruct Hp as [Hp|Hp]; [left; exact Hp|].
      right. rewrite Forall_forall in Hgap. exact (Hgap p Hp). }
    destruct (report_row_shape re_search all_plants country_prod_map p)
      as [H|(r & H & Hr)]; rewrite H.
    - exists []. split; [reflexivity|constructor].
    - exists [r]. split; [reflexivity|]. constructor; [|constructor].
      exists p. auto. }
  rewrite Hrows. cbn [bind]. eexists. split; [reflexivity|]. split.
  - apply sort_by_nodup_map.
    apply (flat_mapM_nodup apa_key apa_key Apa.key_of
             (Apa.report_row re_search all_plants country_prod_map)
             (production ++ estimated)%list); [auto| |exact Hkeys|exact Hrows].
    intros p bs _ Hbs.
    destruct (report_row_shape re_search all_plants country_prod_map p)
      as [H|(r & H & Hr)]; rewrite H in Hbs; inversion Hbs; subst bs.
    + split; constructor.
    + split.
      * constructor; [|constructor]. destruct Hr as (Hc & Hy & _).
        unfold apa_key, Apa.key_of. congruence.
      * cbn [map]. constructor; [intros []|constructor].
  - apply Forall_forall. intros r Hr. apply sort_by_in_any in Hr.
    rewrite Forall_forall in Hprov. exact (Hprov r Hr).
Qed.

(** X19. The batch always returns, with at most one row per company and
    year.  Every reported row stems from one production row, whose company,
    year, production figure and source label it carries: a row of the
    reconciled production data or, for a company-year that data does not
    cover, a capacity estimate for one of the years 2014 to 2019. *)
Theorem batch_reports_each_company_year_once :
  forall (re_search : string -> string -> bool) (all_plants : list Apa.Plant)
         (src : Apa.Sources)
         (country_prod_map : list ((string * Z) * list (string * Q))),
    exists results,
      Apa.run_apa_all re_search all_plants src country_prod_map = Ret results
      /\ NoDup (map apa_key results)
      /\ Forall (fun r =>
                   exists p,
                     reports p r
                     /\ (In p (Apa.load_production_data src)
                         \/ fills_gap re_search all_plants
                              (Apa.load_production_data src)
                              (range_incl 2014 2019) p))
           results.
Proof. exact run_apa_all_spec. Qed.

(** ** Emissions of the uniform allocation *)

Lemma uniform_emissions_bounds (year : option Z) (ur lo hi : Q)
  (plants : list Apa.Plant) :
  0 <= ur ->
  Forall (fun p => (forall c, Apa.capacity_ttpa p = Some c -> 0 <= c)
                   /\ lo <= plant_factor year p /\ plant_factor year p <= hi)
    plants ->
  lo * (ur * (series_sum (map Apa.capacity_ttpa plants) / 1000))
  <= series_sum
       (map (fun p =>
               fmul (fmul (fdiv_lit (Apa.capacity_ttpa p) 1000) (Some ur))
                 (Some (plant_factor year p))) plants)
  /\ series_sum
       (map (fun p =>
               fmul (fmul (fdiv_lit (Apa.capacity_ttpa p) 1000) (Some ur))
                 (Some (plant_factor year p))) plants)
     <= hi * (ur * (series_sum (map Apa.capacity_ttpa plants) / 1000)).
Proof.
  intros Hur Hall. induction Hall as [|p plants (Hcap & Hlo & Hhi) _ [IHlo IHhi]].
  - cbn. split.
    + setoid_replace (lo * (ur * (0 / 1000))) with 0 by field. apply Qle_refl.
    + setoid_replace (hi * (ur * (0 / 1000))) with 0 by field. apply Qle_refl.
  - cbn [map]. rewrite !series_sum_cons.
    destruct (Apa.capacity_ttpa p) as [c|] eqn:Ec; cbn [fdiv_lit fmul];
      [|split; assumption].
    assert (Hw : 0 <= c / 1000 * ur).
    { apply Qmult_le_0_compat; [|exact Hur].
      apply Qle_shift_div_l; [reflexivity|]. rewrite Qmult_0_l.
      exact (Hcap c eq_refl). }
    split.
    + setoid_replace
        (lo * (ur * ((c + series_sum (map Apa.capacity_ttpa plants)) / 1000)))
        with (lo * (c / 1000 * ur)
              + lo * (ur * (series_sum (map Apa.capacity_ttpa plants) / 1000)))
        by field.
      apply Qplus_le_compat; [|exact IHlo].
      setoid_replace (c / 1000 * ur * plant_factor year p)
        with (plant_factor year p * (c / 1000 * ur)) by ring.
      apply Qmult_le_compat_r; assumption.
    + setoid_replace
        (hi * (ur * ((c + series_sum (map Apa.capacity_ttpa plants)) / 1000)))
        with (hi * (c / 1000 * ur)
              + hi * (ur * (series_sum (map Apa.capacity_ttpa plants) / 1000)))
        by field.
      apply Qplus_le_compat; [|exact IHhi].
      setoid_replace (c / 1000 * ur * plant_factor year p)
        with (plant_factor year p * (c / 1000 * ur)) by ring.
      apply Qmult_le_compat_r; assumption.
Qed.

(** X20. In the uniform mode, with a positive production target, positive
    total capacity and no negative capacity, the allocator returns a result
    whose total emissions lie between the target times the smallest and the
    target times the largest emission factor applied to its plants; the
    reported emissions and weighted factor are those totals rounded to 3
    decimals. *)
Theorem emissions_within_factor_range :
  forall (re_search : string -> string -> bool) (plants_df : list Apa.Plant)
         (company : string) (target : Q) (year : option Z)
         (country_production : option (list (string * Q))) (lo hi : Q),
    let company_plants :=
      Apa.get_company_plants re_search plants_df company year in
    sub_targets country_production = [] ->
    0 < target ->
    0 < series_sum (map Apa.capacity_ttpa company_plants) / 1000 ->
    Forall (fun p => (forall c, Apa.capacity_ttpa p = Some c -> 0 <= c)
                     /\ lo <= plant_factor year p /\ plant_factor year p <= hi)
      company_plants ->
    exists res total_emissions,
      Apa.calculate_company_emissions re_search plants_df company (Some target)
        year country_production = Ret (Some res)
      /\ Apa.r_emissions_mt res = round_nd total_emissions 3
      /\ Apa.r_weighted_ef res = round_nd (total_emissions / target) 3
      /\ lo * target <= total_emissions
      /\ total_emissions <= hi * target.
Proof.
  intros re_search plants_df company target year country_production lo hi
    company_plants Hmode Htarget Hcap Hall.
  unfold Apa.calculate_company_emissions. fold company_plants.
  destruct (empty company_plants) eqn:Ee.
  { exfalso. destruct company_plants; [|discriminate].
    cbn in Hcap. discriminate. }
  destruct (Qle_bool (series_sum (map Apa.capacity_ttpa company_plants) / 1000)
              0) eqn:El.
  { exfalso. apply Qle_bool_iff in El. exact (Qlt_not_le _ _ Hcap El). }
  rewrite (checked_fdiv_pos _ _ Hcap). cbn [bind].
  assert (Halloc :
            Apa.allocate (map (Apa.make_breakdown year) company_plants)
              (Some target)
              (Some (target
                     / (series_sum (map Apa.capacity_ttpa company_plants)
                        / 1000)))
              country_production
            = Ret (map (fun b =>
                          (b, fmul (Apa.b_capacity_mt b)
                                (Some (target
                                       / (series_sum
                                            (map Apa.capacity_ttpa company_plants)
                                          / 1000)))))
                     (map (Apa.make_breakdown year) company_plants))).
  { unfold Apa.allocate. destruct country_production as [[|item items]|];
      [reflexivity|discriminate|reflexivity]. }
  rewrite Halloc. cbn [bind].
  apply Qltb_lt in Htarget. rewrite Htarget.
  apply Qltb_lt in Htarget.
  rewrite (checked_div_pos _ _ Htarget). cbn [bind].
  eexists. eexists. split; [reflexivity|].
  cbn [Apa.r_emissions_mt Apa.r_weighted_ef].
  split; [reflexivity|]. split; [reflexivity|].
  rewrite !map_map. cbn [Apa.emissions_mt fst snd].
  set (ur := target / (series_sum (map Apa.capacity_ttpa company_plants) / 1000)).
  assert (Hur : 0 <= ur).
  { subst ur. apply Qle_shift_div_l; [exact Hcap|]. rewrite Qmult_0_l.
    apply Qlt_le_weak. exact Htarget. }
  assert (Htot : ur * (series_sum (map Apa.capacity_ttpa company_plants) / 1000)
                 == target).
  { subst ur. field. intros H0.
    assert (Hz : series_sum (map Apa.capacity_ttpa company_plants) / 1000 == 0).
    { rewrite H0. reflexivity. }
    rewrite Hz in Hcap. exact (Qlt_irrefl 0 Hcap). }
  destruct (uniform_emissions_bounds year ur lo hi company_plants Hur Hall)
    as [Hlo Hhi].
  rewrite Htot in Hlo, Hhi. split; [exact Hlo|exact Hhi].
Qed.

Lemma emissions_within_factor_range_witness :
  exists res total_emissions,
    Apa.calculate_company_emissions literal_search one_plant_fleet
      "Nippon Steel" (Some 8) (Some 2020%Z) None = Ret (Some res)
    /\ Apa.r_emissions_mt res = round_nd total_emissions 3
    /\ 2.05 * 8 <= total_emissions /\ total_emissions <= 2.05 * 8.
Proof.
  assert (Hall :
            Forall (fun p => (forall c, Apa.capacity_ttpa p = Some c -> 0 <= c)
                             /\ 2.05 <= plant_factor (Some 2020%Z) p
                             /\ plant_factor (Some 2020%Z) p <= 2.05)
              (Apa.get_company_plants literal_search one_plant_fleet
                 "Nippon Steel" (Some 2020%Z))).
  { constructor; [|constructor]. split.
    - intros c H. apply Some_eq in H. subst c. vm_compute. discriminate.
    - split; vm_compute; discriminate. }
  destruct (emissions_within_factor_range literal_search one_plant_fleet
              "Nippon Steel" 8 (Some 2020%Z) None 2.05 2.05 eq_refl eq_refl
              eq_refl Hall)
    as (res & total_emissions & Hres & Hem & _ & Hlo & Hhi).
  exists res, total_emissions. auto.
Defined.

(** ** Regional sub-targets *)

Lemma filter_map_comm {A B : Type} (p : B -> bool) (f : A -> B) (l : list A) :
  filter p (map f l) = map f (filter (fun a => p (f a)) l).
Proof.
  induction l as [|a l IH]; [reflexivity|].
  cbn [map filter]. destruct (p (f a)); cbn [map]; rewrite IH; reflexivity.
Qed.

Lemma aligned_filter {A A' B C : Type} (f : A -> B) (f' : A' -> B)
  (g : A -> C) (g' : A' -> C) (p : B -> bool) :
  forall (l : list A) (l' : list A'),
    map f l = map f' l' -> map g l = map g' l' ->
    map g (filter (fun a => p (f a)) l) = map g' (filter (fun a => p (f' a)) l').
Proof.
  induction l as [|a l IH]; intros [|a' l']; try discriminate;
    [reflexivity|].
  cbn [map filter]. intros [= Hf Hfs] [= Hg Hgs].
  rewrite Hf. destruct (p (f' a')); cbn [map]; rewrite (IH l' Hfs Hgs);
    [rewrite Hg|]; reflexivity.
Qed.

Lemma other_region_untouched (c c0 : string) (u : Q)
  (alloc : list (Apa.BreakdownRow * float * bool)) :
  c0 <> c ->
  filter (Apa.in_country c)
    (map (fun e => if Apa.in_country c0 e
                   then (fst (fst e),
                         fmul (Apa.b_capacity_mt (fst (fst e))) (Some u), false)
                   else e) alloc)
  = filter (Apa.in_country c) alloc.
Proof.
  intros Hc0. induction alloc as [|e alloc IH]; [reflexivity|].
  cbn [map filter]. destruct (Apa.in_country c0 e) eqn:E0.
  - change (Apa.in_country c
              (fst (fst e), fmul (Apa.b_capacity_mt (fst (fst e))) (Some u),
               false))
      with (Apa.in_country c e).
    destruct (Apa.in_country c e) eqn:E; [|exact IH].
    unfold Apa.in_country in E0, E.
    apply String.eqb_eq in E0. apply String.eqb_eq in E.
    exfalso. apply Hc0. congruence.
  - destruct (Apa.in_country c e); rewrite IH; reflexivity.
Qed.

(** A region's rows are left alone by the items of the other regions. *)
Lemma country_loop_untouched (c : string) (items : list (string * Q)) :
  forall (alloc alloc' : list (Apa.BreakdownRow * float * bool))
         (rem rem' : float),
    ~ In c (map fst items) ->
    foldM Apa.allocate_country items (alloc, rem) = Ret (alloc', rem') ->
    filter (Apa.in_country c) alloc' = filter (Apa.in_country c) alloc.
Proof.
  induction items as [|[c0 v0] items IH]; intros alloc alloc' rem rem' Hc Hrun.
  - cbn in Hrun. inversion Hrun. reflexivity.
  - cbn [foldM] in Hrun. unfold Apa.allocate_country at 1 in Hrun.
    assert (Hc0 : c0 <> c) by (intros ->; apply Hc; left; reflexivity).
    assert (Hrest : ~ In c (map fst items))
      by (intros H; apply Hc; right; exact H).
    destruct (Qltb 0 (Apa.masked_capacity (Apa.in_country c0) alloc)
              && existsb (Apa.in_country c0) alloc).
    + destruct (checked_div v0 (Apa.masked_capacity (Apa.in_country c0) alloc))
        as [ur|]; [|discriminate].
      cbn [bind] in Hrun. rewrite (IH _ _ _ _ Hrest Hrun).
      apply other_region_untouched. exact Hc0.
    + cbn [bind] in Hrun. exact (IH _ _ _ _ Hrest Hrun).
Qed.

Lemma region_sum_scaled (c : string) (u : Q)
  (alloc : list (Apa.BreakdownRow * float * bool)) :
  series_sum
    (map alloc_of
       (filter (Apa.in_country c)
          (map (fun e => if Apa.in_country c e
                         then (fst (fst e),
                               fmul (Apa.b_capacity_mt (fst (fst e))) (Some u),
                               false)
                         else e) alloc)))
  == u * Apa.masked_capacity (Apa.in_country c) alloc
  /\ Forall (fun e => snd e = false)
       (filter (Apa.in_country c)
          (map (fun e => if Apa.in_country c e
                         then (fst (fst e),
                               fmul (Apa.b_capacity_mt (fst (fst e))) (Some u),
                               false)
                         else e) alloc)).
Proof.
  unfold Apa.masked_capacity.
  induction alloc as [|e alloc [IHs IHf]].
  - cbn. split; [ring|constructor].
  - cbn [map filter].
    destruct (Apa.in_country c e) eqn:E.
    + assert (E' : Apa.in_country c
                     (fst (fst e),
                      fmul (Apa.b_capacity_mt (fst (fst e))) (Some u), false)
                   = true) by exact E.
      rewrite E'. cbn [map filter]. rewrite !series_sum_cons.
      cbn [alloc_of fst snd]. split.
      * destruct (Apa.b_capacity_mt (fst (fst e))) as [k|]; cbn [fmul].
        -- rewrite IHs. ring.
        -- exact IHs.
      * constructor; [reflexivity|exact IHf].
    + rewrite E. split; assumption.
Qed.

Lemma country_loop_regions (items : list (string * Q)) :
  forall (alloc alloc' : list (Apa.BreakdownRow * float * bool))
         (rem rem' : float),
    NoDup (map fst items) ->
    foldM Apa.allocate_country items (alloc, rem) = Ret (alloc', rem') ->
    forall c v,
      In (c, v) (applied_sub_targets (map row_of alloc) items) ->
      series_sum (map alloc_of (filter (Apa.in_country c) alloc')) == v
      /\ Forall (fun e => snd e = false) (filter (Apa.in_country c) alloc').
Proof.
  induction items as [|[c0 v0] items IH];
    intros alloc alloc' rem rem' Hnd Hrun c v Hin.
  - destruct Hin.
  - inversion Hnd as [|? ? Hc0 Hnd']; subst.
    cbn [foldM] in Hrun. unfold Apa.allocate_country at 1 in Hrun.
    rewrite applied_cons in Hin. rewrite masked_capacity_region in Hrun.
    destruct (Qltb 0 (region_capacity (map row_of alloc) c0)) eqn:Ecap.
    + assert (Hany : existsb (Apa.in_country c0) alloc = true).
      { apply masked_capacity_pos_any. rewrite masked_capacity_region.
        exact Ecap. }
      rewrite Hany in Hrun. cbn [andb] in Hrun. apply Qltb_lt in Ecap.
      rewrite (checked_div_pos _ _ Ecap) in Hrun. cbn [bind] in Hrun.
      assert (Hrows :
                map row_of
                  (map (fun e =>
                          if Apa.in_country c0 e
                          then (fst (fst e),
                                fmul (Apa.b_capacity_mt (fst (fst e)))
                                  (Some (v0 / region_capacity (map row_of alloc)
                                                c0)),
                                false)
                          else e) alloc)
                = map row_of alloc).
      { rewrite map_map. apply map_ext. intros e.
        destruct (Apa.in_country c0 e); reflexivity. }
      destruct Hin as [Hin|Hin].
      * inversion Hin; subst c v. clear Hin.
        rewrite (country_loop_untouched c0 items _ _ _ _ Hc0 Hrun).
        destruct (region_sum_scaled c0
                    (v0 / region_capacity (map row_of alloc) c0) alloc)
          as [Hs Hf].
        split; [|exact Hf].
        rewrite Hs, masked_capacity_region. field.
        intros E. rewrite E in Ecap. exact (Qlt_irrefl _ Ecap).
      * apply (IH _ _ _ _ Hnd' Hrun). rewrite Hrows. exact Hin.
    + cbn [andb bind] in Hrun. exact (IH _ _ _ _ Hnd' Hrun c v Hin).
Qed.

Lemma residual_keeps_matched (c : string)
  (alloc final : list (Apa.BreakdownRow * float * bool)) (rem : float) :
  Apa.allocate_residual (alloc, rem) = Ret final ->
  Forall (fun e => snd e = false) (filter (Apa.in_country c) alloc) ->
  filter (Apa.in_country c) final = filter (Apa.in_country c) alloc.
Proof.
  unfold Apa.allocate_residual.
  destruct (flt (Some 0) rem && existsb Apa.is_unmatched alloc);
    [|intros H; inversion H; reflexivity].
  destruct (Qltb 0 (Apa.masked_capacity Apa.is_unmatched alloc));
    [|intros H; inversion H; reflexivity].
  destruct (checked_fdiv rem (Apa.masked_capacity Apa.is_unmatched alloc))
    as [r|]; [|discriminate].
  cbn [bind]. intros H. inversion H as [Hfinal]. clear H Hfinal.
  intros Hall.
  induction alloc as [|e alloc IH]; [reflexivity|].
  cbn [map filter] in *.
  assert (Hsame : Apa.in_country c
                    (if Apa.is_unmatched e
                     then (fst (fst e),
                           fmul (Apa.b_capacity_mt (fst (fst e))) r, snd e)
                     else e)
                  = Apa.in_country c e).
  { destruct (Apa.is_unmatched e); reflexivity. }
  rewrite Hsame. destruct (Apa.in_country c e) eqn:E.
  - inversion Hall as [|? ? Hf Hrest]; subst.
    unfold Apa.is_unmatched at 1. rewrite Hf. f_equal. exact (IH Hrest).
  - exact (IH Hall).
Qed.

Lemma allocate_regions (breakdown : list Apa.BreakdownRow) (P : Q) (ur : float)
  (item : string * Q) (items : list (string * Q))
  (allocated : list (Apa.BreakdownRow * float)) :
  NoDup (map fst (item :: items)) ->
  Apa.allocate breakdown (Some P) ur (Some (item :: items)) = Ret allocated ->
  forall c v,
    In (c, v) (applied_sub_targets breakdown (item :: items)) ->
    series_sum
      (map snd
         (filter (fun ba => String.eqb (Apa.b_country (fst ba)) c) allocated))
    == v.
Proof.
  intros Hnd Hrun c v Hin. unfold Apa.allocate in Hrun. cbv zeta in Hrun.
  match type of Hrun with
  | bind ?m _ = _ => destruct m as [[alloc' rem']|] eqn:Eloop
  end; cbn [bind] in Hrun; [|discriminate].
  match type of Hrun with
  | bind ?m _ = _ => destruct m as [final|] eqn:Eres
  end; cbn [bind] in Hrun; [|discriminate].
  inversion Hrun; subst allocated. clear Hrun.
  destruct (country_loop_regions (item :: items) _ _ _ _ Hnd Eloop c v)
    as [Hsum Hflags].
  { rewrite map_map. cbn [row_of fst]. rewrite map_id. exact Hin. }
  rewrite filter_map_comm, map_map.
  change (series_sum (map alloc_of (filter (Apa.in_country c) final)) == v).
  rewrite (residual_keeps_matched c alloc' final rem' Eres Hflags).
  exact Hsum.
Qed.

(** X21. In the region mode, with positive total capacity and distinct
    regions, the allocator returns a result in which, for every region that
    has a sub-target and capacity, the outputs allocated to the plants of
    that region add up to the region's sub-target; the residual spread over
    the other plants never changes them. *)
Theorem region_outputs_match_sub_targets :
  forall (re_search : string -> string -> bool) (plants_df : list Apa.Plant)
         (company : string) (target : Q) (year : option Z)
         (item : string * Q) (items : list (string * Q)),
    let company_plants :=
      Apa.get_company_plants re_search plants_df company year in
    let breakdown := map (Apa.make_breakdown year) company_plants in
    0 < series_sum (map Apa.capacity_ttpa company_plants) / 1000 ->
    NoDup (map fst (item :: items)) ->
    exists res,
      Apa.calculate_company_emissions re_search plants_df company (Some target)
        year (Some (item :: items)) = Ret (Some res)
      /\ forall c v,
          In (c, v) (applied_sub_targets breakdown (item :: items)) ->
          series_sum
            (map Apa.allocated_production_mt
               (filter (fun b => String.eqb (Apa.b_country (Apa.row b)) c)
                  (Apa.plant_breakdown res)))
          == v.
Proof.
  intros re_search plants_df company target year item items company_plants
    breakdown Hcap Hnd.
  destruct (allocate_ok breakdown (Some target)
              (Some (target
                     / (series_sum (map Apa.capacity_ttpa company_plants)
                        / 1000)))
              (Some (item :: items))) as (allocated & Halloc).
  destruct (calculate_some re_search plants_df company target year
              (Some (item :: items)) allocated Hcap Halloc)
    as (res & Hres & Hrows & Hvals).
  exists res. split; [exact Hres|].
  intros c v Hin.
  rewrite (aligned_filter Apa.row fst Apa.allocated_production_mt snd
             (fun b => String.eqb (Apa.b_country b) c)
             (Apa.plant_breakdown res) allocated Hrows Hvals).
  exact (allocate_regions breakdown target _ item items allocated Hnd Halloc
           c v Hin).
Qed.

Lemma region_outputs_match_sub_targets_witness :
  NoDup (map fst [("Japan", 6); ("India", 3)])
  /\ exists res,
      Apa.calculate_company_emissions literal_search two_plant_fleet
        "Nippon Steel" (Some 12) (Some 2020%Z)
        (Some [("Japan", 6); ("India", 3)]) = Ret (Some res)
      /\ series_sum
           (map Apa.allocated_production_mt
              (filter (fun b => String.eqb (Apa.b_country (Apa.row b)) "Japan")
                 (Apa.plant_breakdown res)))
         == 6.
Proof.
  assert (Hnd : NoDup (map fst [("Japan", 6); ("India", 3)])).
  { repeat constructor; cbn; intuition discriminate. }
  split; [exact Hnd|].
  destruct (region_outputs_match_sub_targets literal_search two_plant_fleet
              "Nippon Steel" 12 (Some 2020%Z) ("Japan", 6) [("India", 3)]
              eq_refl Hnd) as (res & Hres & Hregions).
  exists res. split; [exact Hres|].
  apply Hregions. vm_compute. left. reflexivity.
Defined.

(** ** The closure trajectory of the audit *)

Lemma trajectory_row_shape (company : string) (ur : float) (year : Z)
  (active_units : list Kampmann.Unit) :
  Kampmann.t_company (Kampmann.trajectory_row company ur year active_units)
  = company
  /\ Kampmann.t_year (Kampmann.trajectory_row company ur year active_units)
     = year
  /\ Kampmann.n_active_units
       (Kampmann.trajectory_row company ur year active_units)
     = List.length active_units
  /\ (active_units = [] ->
      zero_row (Kampmann.trajectory_row company ur year active_units)).
Proof.
  unfold Kampmann.trajectory_row.
  destruct active_units as [|u l]; cbn [empty].
  - split; [reflexivity|]. split; [reflexivity|]. split; [reflexivity|].
    intros _. unfold zero_row. cbn. repeat split.
  - split; [reflexivity|]. split; [reflexivity|]. split; [reflexivity|].
    discriminate.
Qed.

Lemma filter_length_le {A : Type} (p : A -> bool) (l : list A) :
  (List.length (filter p l) <= List.length l)%nat.
Proof.
  induction l as [|x l IH]; cbn; [lia|]. destruct (p x); cbn; lia.
Qed.

Lemma trajectory_active_stricter (cm : list (string * Q)) (year : Z)
  (u : Kampmann.Unit) :
  Kampmann.trajectory_active cm year u = true ->
  isin (lower (Kampmann.unit_status u)) ["cancelled"; "announced"] = false
  /\ Tp._unit_is_active u year (dict_get cm (Kampmann.gem_unit_id u)) = true.
Proof.
  unfold Kampmann.trajectory_active, Tp._unit_is_active. cbv zeta.
  destruct (notna (Kampmann.start_year u)
            && flt (Some (inject_Z year)) (Kampmann.start_year u));
    [discriminate|].
  destruct (isin (lower (Kampmann.unit_status u)) ["cancelled"; "announced"])
    eqn:Es; [discriminate|].
  assert (Hc : String.eqb (lower (Kampmann.unit_status u)) "cancelled" = false).
  { unfold isin in Es. cbn [existsb] in Es.
    apply orb_false_iff in Es. tauto. }
  rewrite Hc.
  destruct (dict_get cm (Kampmann.gem_unit_id u)) as [cy|]; cbn [notna fle andb].
  - destruct (Qle_bool cy (inject_Z year)); [discriminate|]. auto.
  - auto.
Qed.

(** X22. The closure trajectory of the audit has one row for every year of
    the horizon, in order, whenever some unit matches the company, and no row
    otherwise.  A year without active units is reported as a row of zeros,
    not left out.  A unit counted as active is never cancelled or announced
    and passes the projector's activity test for its close year in the
    inventory, so a company whose units are all cancelled or announced gets
    zeros throughout. *)
Theorem audit_trajectory_covers_every_year :
  forall (re_search : string -> string -> bool)
         (units_df : list Kampmann.Unit)
         (closure_inventory : list Kampmann.InventoryRow) (company : string)
         (base_year end_year : Z) (utilization_rate : option float),
    let company_units :=
      Kampmann.match_units_to_company re_search units_df company in
    let rows :=
      Kampmann.build_gem_closure_trajectory re_search units_df
        closure_inventory company base_year end_year utilization_rate in
    (company_units = [] -> rows = [])
    /\ (company_units <> [] ->
        map Kampmann.t_year rows = range_incl base_year end_year)
    /\ Forall (fun r =>
                 Kampmann.t_company r = company
                 /\ (Kampmann.n_active_units r <= List.length company_units)%nat
                 /\ (Kampmann.n_active_units r = 0%nat -> zero_row r))
         rows
    /\ (forall cm year u,
          Kampmann.trajectory_active cm year u = true ->
          isin (lower (Kampmann.unit_status u)) ["cancelled"; "announced"]
          = false
          /\ Tp._unit_is_active u year (dict_get cm (Kampmann.gem_unit_id u))
             = true)
    /\ (Forall (fun u =>
                  isin (lower (Kampmann.unit_status u))
                    ["cancelled"; "announced"] = true) company_units ->
        Forall zero_row rows).
Proof.
  intros re_search units_df closure_inventory company base_year end_year
    utilization_rate company_units rows.
  subst rows. unfold Kampmann.build_gem_closure_trajectory. cbv zeta.
  fold company_units.
  split; [|split; [|split; [|split]]].
  - intros ->. reflexivity.
  - intros Hne. destruct company_units as [|u l]; [contradiction|].
    cbn [empty]. rewrite map_map.
    rewrite <- (map_id (range_incl base_year end_year)) at 2.
    apply map_ext. intros year.
    exact (proj1 (proj2 (trajectory_row_shape _ _ _ _))).
  - destruct (empty company_units); [constructor|].
    apply Forall_forall. intros r Hr. apply in_map_iff in Hr.
    destruct Hr as (year & <- & _).
    destruct (trajectory_row_shape company
                (Kampmann.trajectory_ur utilization_rate) year
                (filter (Kampmann.trajectory_active
                           (Kampmann.close_map closure_inventory company) year)
                   company_units)) as (Hc & _ & Hn & Hz).
    split; [exact Hc|]. split.
    + rewrite Hn. apply filter_length_le.
    + intros H0. apply Hz. rewrite Hn in H0.
      destruct (filter _ company_units); [reflexivity|discriminate].
  - exact trajectory_active_stricter.
  - intros Hall. destruct (empty company_units); [constructor|].
    apply Forall_forall. intros r Hr. apply in_map_iff in Hr.
    destruct Hr as (year & <- & _).
    apply trajectory_row_shape. apply filter_none.
    apply Forall_forall. intros u Hu. rewrite Forall_forall in Hall.
    specialize (Hall u Hu).
    destruct (Kampmann.trajectory_active _ year u) eqn:E; [|reflexivity].
    apply trajectory_active_stricter in E. destruct E as [E _]. congruence.
Qed.

Lemma audit_trajectory_covers_every_year_witness :
  Forall (fun u =>
            isin (lower (Kampmann.unit_status u)) ["cancelled"; "announced"]
            = true)
    (Kampmann.match_units_to_company literal_search
       [announced_unit; cancelled_unit] "Nippon Steel")
  /\ Forall zero_row
       (Kampmann.build_gem_closure_trajectory literal_search
          [announced_unit; cancelled_unit] [] "Nippon Steel" 2028 2030
          (Some (Some 0.8)))
  /\ map Kampmann.t_year
       (Kampmann.build_gem_closure_trajectory literal_search
          [announced_unit; cancelled_unit] [] "Nippon Steel" 2028 2030
          (Some (Some 0.8)))
     = range_incl 2028 2030.
Proof.
  assert (H : Forall (fun u =>
                        isin (lower (Kampmann.unit_status u))
                          ["cancelled"; "announced"] = true)
                (Kampmann.match_units_to_company literal_search
                   [announced_unit; cancelled_unit] "Nippon Steel")).
  { repeat constructor. }
  split; [exact H|].
  pose proof (audit_trajectory_covers_every_year literal_search
                [announced_unit; cancelled_unit] [] "Nippon Steel" 2028 2030
                (Some (Some 0.8))) as (_ & Hyears & _ & _ & Hzero).
  split; [exact (Hzero H)|].
  apply Hyears. discriminate.
Defined.

(** ** Divergence classes of the audit *)

Lemma abs_or_zero (p : Q) :
  exists a, Kampmann.fabs (Kampmann.or_zero (Some p)) = Some a /\ a == Qabs p.
Proof.
  unfold Kampmann.or_zero. destruct (Qeq_bool p 0) eqn:E; cbn.
  - apply Qeq_bool_iff in E. exists (Qabs 0). split; [reflexivity|].
    rewrite E. reflexivity.
  - exists (Qabs p). split; reflexivity.
Qed.

Lemma relative_gap (g k t : Q) :
  0 < Qabs k ->
  (Qabs ((g - k) / k * 100) < t <-> Qabs (g - k) * 100 < t * Qabs k).
Proof.
  intros Hk.
  assert (E : Qabs ((g - k) / k * 100) == Qabs (g - k) * 100 / Qabs k).
  { unfold Qdiv. rewrite !Qabs_Qmult, Qabs_Qinv.
    setoid_replace (Qabs 100) with 100 by reflexivity. ring. }
  rewrite E. split; intros H.
  - apply (Qmult_lt_r _ _ (Qabs k) Hk) in H.
    setoid_replace (Qabs (g - k) * 100 / Qabs k * Qabs k)
      with (Qabs (g - k) * 100) in H; [exact H|].
    field. intros H0. rewrite H0 in Hk. exact (Qlt_irrefl 0 Hk).
  - apply Qlt_shift_div_r; assumption.
Qed.

Lemma classify_cases (d : float) :
  (Kampmann.classify_divergence d = "aligned"
   <-> flt (Kampmann.fabs (Kampmann.or_zero d)) (Some 5) = true)
  /\ (flt (Kampmann.fabs (Kampmann.or_zero d)) (Some 30) = false
      -> flt (Kampmann.fabs (Kampmann.or_zero d)) (Some 15) = false
      -> flt (Kampmann.fabs (Kampmann.or_zero d)) (Some 5) = false
      -> Kampmann.classify_divergence d = "major_divergence")
  /\ (Kampmann.classify_divergence d = "major_divergence"
      -> flt (Kampmann.fabs (Kampmann.or_zero d)) (Some 30) = false).
Proof.
  unfold Kampmann.classify_divergence. cbv zeta.
  destruct (flt (Kampmann.fabs (Kampmann.or_zero d)) (Some 5));
    destruct (flt (Kampmann.fabs (Kampmann.or_zero d)) (Some 15));
    destruct (flt (Kampmann.fabs (Kampmann.or_zero d)) (Some 30));
    repeat split; try discriminate; try reflexivity; auto.
Qed.

(** X23. When both trajectories have a value and the reference value exceeds
    0.001 in size, a year is classed as aligned exactly when the gap is below
    5 % of the reference value, and as a major divergence exactly when it is
    at least 30 %.  A year in which either value is missing, or in which the
    reference value is at most 0.001 in size, is classed as a major
    divergence, whatever the two values.  The likely source is the closure
    data exactly for the aligned years. *)
Theorem divergence_classes :
  forall (gem kamp : float),
    let pct := Kampmann.delta_pct gem kamp in
    (forall g k,
        gem = Some g -> kamp = Some k -> 0.001 < Qabs k ->
        (Kampmann.classify_divergence pct = "aligned"
         <-> Qabs (g - k) * 100 < 5 * Qabs k)
        /\ (Kampmann.classify_divergence pct = "major_divergence"
            <-> 30 * Qabs k <= Qabs (g - k) * 100))
    /\ (gem = nan \/ kamp = nan
        \/ (exists k, kamp = Some k /\ Qabs k <= 0.001) ->
        Kampmann.classify_divergence pct = "major_divergence"
        /\ Kampmann.infer_source pct gem kamp <> "gem_closure_data")
    /\ (Kampmann.infer_source pct gem kamp = "gem_closure_data"
        <-> Kampmann.classify_divergence pct = "aligned").
Proof.
  intros gem kamp pct. split; [|split].
  - intros g k -> -> Hk. subst pct. unfold Kampmann.delta_pct.
    cbn [Kampmann.fabs flt]. apply Qltb_lt in Hk. rewrite Hk.
    apply Qltb_lt in Hk.
    cbn [Kampmann.delta_mt fsub Kampmann.fdiv fmul].
    assert (Hpos : 0 < Qabs k).
    { eapply Qlt_trans; [|exact Hk]. reflexivity. }
    destruct (abs_or_zero ((g - k) / k * 100)) as (a & Ha & Eq).
    destruct (classify_cases (Some ((g - k) / k * 100)))
      as (Hal & Hmaj & Hmaj').
    rewrite Ha in Hal, Hmaj, Hmaj'. cbn [flt] in Hal, Hmaj, Hmaj'.
    split.
    + rewrite Hal, Qltb_lt, Eq. apply relative_gap. exact Hpos.
    + split.
      * intros H. apply Hmaj' in H. apply Qltb_ge in H. rewrite Eq in H.
        apply Qnot_lt_le. intros Hlt.
        apply (relative_gap g k 30 Hpos) in Hlt.
        exact (Qlt_not_le _ _ Hlt H).
      * intros H.
        assert (H30 : 30 <= a).
        { rewrite Eq. apply Qnot_lt_le. intros Hlt.
          apply (relative_gap g k 30 Hpos) in Hlt.
          exact (Qlt_not_le _ _ Hlt H). }
        apply Hmaj; apply Qltb_ge.
        -- exact H30.
        -- eapply Qle_trans; [|exact H30]. discriminate.
        -- eapply Qle_trans; [|exact H30]. discriminate.
  - intros H.
    assert (Hnan : pct = nan).
    { subst pct. unfold Kampmann.delta_pct.
      destruct H as [->|[->|(k & -> & Hk)]].
      - destruct (flt (Some 0.001) (Kampmann.fabs kamp)); [|reflexivity].
        destruct kamp; reflexivity.
      - reflexivity.
      - cbn [Kampmann.fabs flt]. apply Qltb_ge in Hk. rewrite Hk.
        reflexivity. }
    rewrite Hnan. split; [reflexivity|].
    unfold Kampmann.infer_source. cbn.
    destruct (flt kamp gem); discriminate.
  - unfold Kampmann.infer_source, Kampmann.classify_divergence. cbv zeta.
    destruct (flt (Kampmann.fabs (Kampmann.or_zero pct)) (Some 5)).
    + split; reflexivity.
    + split.
      * destruct (flt kamp gem); discriminate.
      * destruct (flt (Kampmann.fabs (Kampmann.or_zero pct)) (Some 15));
          [discriminate|].
        destruct (flt (Kampmann.fabs (Kampmann.or_zero pct)) (Some 30));
          discriminate.
Qed.

Lemma divergence_classes_witness :
  0.001 < Qabs 50
  /\ Qabs (51 - 50) * 100 < 5 * Qabs 50
  /\ Kampmann.classify_divergence (Kampmann.delta_pct (Some 51) (Some 50))
     = "aligned"
  /\ Kampmann.classify_divergence (Kampmann.delta_pct (Some 0) (Some 0))
     = "major_divergence".
Proof.
  assert (Hk : 0.001 < Qabs 50) by reflexivity.
  assert (Hgap : Qabs (51 - 50) * 100 < 5 * Qabs 50) by reflexivity.
  split; [exact Hk|]. split; [exact Hgap|]. split.
  - exact (proj2 (proj1 (proj1 (divergence_classes (Some 51) (Some 50))
                           51 50 eq_refl eq_refl Hk)) Hgap).
  - apply (proj1 (proj2 (divergence_classes (Some 0) (Some 0)))).
    right. right. exists 0. split; [reflexivity|discriminate].
Defined.

(** ** The process of steel-making units *)

Lemma dict_get_set_same {V : Type} (d : list (string * V)) (k : string) (v : V) :
  dict_get (dict_set d k v) k = Some v.
Proof.
  induction d as [|[k' v'] d IH]; cbn [dict_set dict_get].
  - rewrite String.eqb_refl. reflexivity.
  - destruct (String.eqb k' k) eqn:E; cbn [dict_get]; rewrite E;
      [reflexivity|exact IH].
Qed.

Lemma dict_get_set_other {V : Type} (d : list (string * V)) (k k' : string)
  (v : V) :
  k <> k' -> dict_get (dict_set d k v) k' = dict_get d k'.
Proof.
  intros Hk. induction d as [|[k0 v0] d IH]; cbn [dict_set dict_get].
  - destruct (String.eqb k k') eqn:E; [|reflexivity].
    apply String.eqb_eq in E. contradiction.
  - destruct (String.eqb k0 k) eqn:E; cbn [dict_get].
    + apply String.eqb_eq in E. subst k0.
      destruct (String.eqb k k') eqn:E'; [|reflexivity].
      apply String.eqb_eq in E'. contradiction.
    + destruct (String.eqb k0 k'); [reflexivity|exact IH].
Qed.

Lemma dict_get_map_values {V : Type} (f : string -> V -> V)
  (d : list (string * V)) (k : string) :
  dict_get (map (fun kv => (fst kv, f (fst kv) (snd kv))) d) k
  = option_map (f k) (dict_get d k).
Proof.
  induction d as [|[k' v'] d IH]; [reflexivity|].
  cbn [map dict_get fst snd]. destruct (String.eqb k' k) eqn:E.
  - apply String.eqb_eq in E. subst k'. reflexivity.
  - exact IH.
Qed.

Lemma reductant_process_cases (reductant : string) :
  Tp.reductant_process reductant = "DRI-H2"
  \/ Tp.reductant_process reductant = "DRI-coal"
  \/ Tp.reductant_process reductant = "DRI-gas".
Proof.
  unfold Tp.reductant_process, Tp.REDUCTANT_MAP. cbn [dict_get].
  repeat match goal with
         | |- context [if String.eqb ?a ?b then _ else _] =>
             destruct (String.eqb a b)
         end; auto.
Qed.

(** Reading the DRI units in turn updates the entry of each named plant with
    the labels of that plant's units, and leaves the other entries alone. *)
Lemma note_dri_units_entry (plant : string)
  (dri_units : list (Kampmann.Unit * string)) :
  forall m,
    dict_get (fold_left Tp.note_dri_unit dri_units m) plant
    = if named plant
      then fold_left merge_label
             (map (fun r => Tp.reductant_process (snd r))
                (filter (fun r => String.eqb (Kampmann.plant_name (fst r)) plant)
                   dri_units))
             (dict_get m plant)
      else dict_get m plant.
Proof.
  induction dri_units as [|r dri_units IH]; intros m.
  - cbn. destruct (named plant); reflexivity.
  - cbn [fold_left filter]. rewrite IH. clear IH.
    unfold Tp.note_dri_unit at 1 2. cbv zeta.
    destruct (String.eqb (Kampmann.plant_name (fst r)) plant) eqn:Ep.
    + apply String.eqb_eq in Ep. rewrite Ep.
      unfold named.
      destruct (String.eqb plant "" || String.eqb plant "nan") eqn:En;
        cbn [negb]; [reflexivity|].
      cbn [map fold_left]. f_equal.
      destruct (dict_get m plant) as [current|] eqn:Ecur; cbn [merge_label].
      * destruct (String.eqb (Tp.reductant_process (snd r)) "DRI-H2").
        -- apply dict_get_set_same.
        -- destruct (String.eqb (Tp.reductant_process (snd r)) "DRI-coal"
                     && negb (String.eqb current "DRI-H2")).
           ++ apply dict_get_set_same.
           ++ exact Ecur.
      * apply dict_get_set_same.
    + assert (Hne : Kampmann.plant_name (fst r) <> plant).
      { intros H. rewrite H, String.eqb_refl in Ep. discriminate. }
      assert (Hsame :
                dict_get
                  (if String.eqb (Kampmann.plant_name (fst r)) ""
                      || String.eqb (Kampmann.plant_name (fst r)) "nan"
                   then m
                   else
                     match dict_get m (Kampmann.plant_name (fst r)) with
                     | Some current =>
                         if String.eqb (Tp.reductant_process (snd r)) "DRI-H2"
                         then dict_set m (Kampmann.plant_name (fst r)) "DRI-H2"
                         else
                           if String.eqb (Tp.reductant_process (snd r))
                                "DRI-coal"
                              && negb (String.eqb current "DRI-H2")
                           then dict_set m (Kampmann.plant_name (fst r))
                                  "DRI-coal"
                           else m
                     | None =>
                         dict_set m (Kampmann.plant_name (fst r))
                           (Tp.reductant_process (snd r))
                     end) plant
                = dict_get m plant).
      { destruct (String.eqb (Kampmann.plant_name (fst r)) ""
                  || String.eqb (Kampmann.plant_name (fst r)) "nan");
          [reflexivity|].
        destruct (dict_get m (Kampmann.plant_name (fst r))) as [current|].
        - destruct (String.eqb (Tp.reductant_process (snd r)) "DRI-H2");
            [apply dict_get_set_other; exact Hne|].
          destruct (String.eqb (Tp.reductant_process (snd r)) "DRI-coal"
                    && negb (String.eqb current "DRI-H2"));
            [apply dict_get_set_other; exact Hne|reflexivity].
        - apply dict_get_set_other. exact Hne. }
      rewrite Hsame. reflexivity.
Qed.

(** The outcome of merging labels does not depend on their order. *)
Lemma merge_labels_closed (labels : list string) :
  Forall (fun l => l = "DRI-H2" \/ l = "DRI-coal" \/ l = "DRI-gas") labels ->
  forall current,
    current = None \/ current = Some "DRI-H2" \/ current = Some "DRI-coal"
    \/ current = Some "DRI-gas" ->
    fold_left merge_label labels current
    = if isin "DRI-H2" labels
         || match current with
            | Some c => String.eqb c "DRI-H2"
            | None => false
            end
      then Some "DRI-H2"
      else if isin "DRI-coal" labels
              || match current with
                 | Some c => String.eqb c "DRI-coal"
                 | None => false
                 end
      then Some "DRI-coal"
      else match current with
           | Some c => Some c
           | None => if empty labels then None else Some "DRI-gas"
           end.
Proof.
  intros Hall. induction Hall as [|l labels Hl _ IH]; intros current Hcur.
  - cbn. destruct Hcur as [-> | [-> | [-> | ->]]]; reflexivity.
  - cbn [fold_left]. unfold isin in *. cbn [existsb empty].
    remember (existsb (String.eqb "DRI-H2") labels) as h eqn:Eh.
    remember (existsb (String.eqb "DRI-coal") labels) as c eqn:Ec.
    remember (empty labels) as e eqn:Ee.
    clear Eh Ec Ee.
    destruct Hl as [-> | [-> | ->]];
      destruct Hcur as [-> | [-> | [-> | ->]]]; cbn;
      rewrite IH by auto; cbn; destruct h, c, e; reflexivity.
Qed.

Lemma h2_pass_entry (re_search : string -> string -> bool)
  (m : list (string * string)) (plant : string) :
  dict_get
    (map (fun kv => if Tp.known_h2_project re_search (fst kv)
                    then (fst kv, "DRI-H2") else kv) m) plant
  = option_map (fun v => if Tp.known_h2_project re_search plant
                         then "DRI-H2" else v)
      (dict_get m plant).
Proof.
  rewrite <- (dict_get_map_values
                (fun k v => if Tp.known_h2_project re_search k
                            then "DRI-H2" else v) m plant).
  f_equal. apply map_ext. intros [k v]. cbn [fst snd].
  destruct (Tp.known_h2_project re_search k); reflexivity.
Qed.

Lemma late_h2_entry (re_search : string -> string -> bool) (plant : string)
  (dri_units : list (Kampmann.Unit * string)) :
  forall m,
    dict_get
      (fold_left
         (fun m dri_row =>
            if notna (dict_get m (Kampmann.plant_name (fst dri_row))) then m
            else if Tp.known_h2_project re_search
                      (Kampmann.plant_name (fst dri_row))
            then dict_set m (Kampmann.plant_name (fst dri_row)) "DRI-H2"
            else m) dri_units m) plant
    = match dict_get m plant with
      | Some v => Some v
      | None =>
          if Tp.known_h2_project re_search plant
             && existsb (fun r => String.eqb (Kampmann.plant_name (fst r)) plant)
                  dri_units
          then Some "DRI-H2" else None
      end.
Proof.
  induction dri_units as [|r dri_units IH]; intros m.
  - cbn. rewrite andb_false_r. destruct (dict_get m plant); reflexivity.
  - cbn [fold_left existsb]. rewrite IH. clear IH.
    destruct (String.eqb (Kampmann.plant_name (fst r)) plant) eqn:Ep.
    + apply String.eqb_eq in Ep. rewrite Ep.
      destruct (dict_get m plant) as [v|] eqn:Em; cbn [notna].
      * rewrite Em. reflexivity.
      * destruct (Tp.known_h2_project re_search plant); cbn [andb orb].
        -- rewrite dict_get_set_same. reflexivity.
        -- rewrite Em. reflexivity.
    + assert (Hne : Kampmann.plant_name (fst r) <> plant).
      { intros H. rewrite H, String.eqb_refl in Ep. discriminate. }
      cbn [orb].
      destruct (notna (dict_get m (Kampmann.plant_name (fst r))));
        [reflexivity|].
      destruct (Tp.known_h2_project re_search (Kampmann.plant_name (fst r)));
        [|reflexivity].
      rewrite (dict_get_set_other m _ plant "DRI-H2" Hne). reflexivity.
Qed.

Lemma existsb_filter_empty {A : Type} (p : A -> bool) (l : list A) :
  existsb p l = negb (empty (filter p l)).
Proof.
  induction l as [|x l IH]; [reflexivity|].
  cbn [existsb filter]. destruct (p x); [reflexivity|exact IH].
Qed.

Lemma plant_dri_process_entry (re_search : string -> string -> bool)
  (dri_units : list (Kampmann.Unit * string)) (plant : string) :
  let rows :=
    filter (fun r => String.eqb (Kampmann.plant_name (fst r)) plant) dri_units in
  let labels := map (fun r => Tp.reductant_process (snd r)) rows in
  dict_get (Tp.build_plant_dri_process re_search dri_units) plant
  = if (named plant && isin "DRI-H2" labels)
       || (negb (empty rows) && Tp.known_h2_project re_search plant)
    then Some "DRI-H2"
    else if named plant && isin "DRI-coal" labels then Some "DRI-coal"
    else if named plant && negb (empty rows) then Some "DRI-gas"
    else None.
Proof.
  intros rows labels. unfold Tp.build_plant_dri_process. cbv zeta.
  rewrite late_h2_entry, h2_pass_entry, note_dri_units_entry.
  fold rows. fold labels. cbn [dict_get].
  rewrite existsb_filter_empty. fold rows.
  assert (Hlabels : Forall (fun l => l = "DRI-H2" \/ l = "DRI-coal"
                                     \/ l = "DRI-gas") labels).
  { apply Forall_forall. intros l Hl. subst labels.
    apply in_map_iff in Hl. destruct Hl as (r & <- & _).
    apply reductant_process_cases. }
  rewrite (merge_labels_closed labels Hlabels None (or_introl eq_refl)).
  assert (Hempty : empty labels = empty rows).
  { subst labels. destruct rows; reflexivity. }
  rewrite Hempty.
  destruct rows as [|r0 rows0] eqn:Erows.
  - subst labels. cbn.
    destruct (named plant); cbn; rewrite ?andb_false_r; reflexivity.
  - cbn [empty negb andb orb].
    destruct (named plant); cbn [andb orb option_map];
      destruct (isin "DRI-H2" labels); cbn [andb orb option_map];
      destruct (isin "DRI-coal" labels); cbn [andb orb option_map];
      destruct (Tp.known_h2_project re_search plant); reflexivity.
Qed.

(** X24. The steel-making units are the BOF and EAF units given, in order
    and unchanged but for their process.  A BOF unit is BF-BOF.  An EAF unit
    takes the process of the DRI units of its plant, whatever their order:
    DRI-H2 when a named plant has a hydrogen DRI unit or the plant has a DRI
    unit and the name of a known hydrogen project, else DRI-coal when a named
    plant has a coal DRI unit, else DRI-gas when a named plant has a DRI
    unit, else Scrap-EAF.  The labels DRI-coal and DRI-gas make no difference
    to the emission factor, which follows the country. *)
Theorem steel_units_process_by_plant :
  forall (re_search : string -> string -> bool)
         (units_df : list (Kampmann.Unit * string)),
    Tp.filter_steel_making_units re_search units_df
    = map (fun r =>
             Tp.with_process_type (fst r)
               (if String.eqb (Kampmann.unit_type (fst r)) "bof" then "BF-BOF"
                else eaf_process re_search units_df
                       (Kampmann.plant_name (fst r))))
        (filter (fun r => isin (Kampmann.unit_type (fst r)) ["bof"; "eaf"])
           units_df)
    /\ Forall (fun u => In (Kampmann.process_type u) unit_processes)
         (Tp.filter_steel_making_units re_search units_df)
    /\ (forall country year,
          Apa.get_plant_ef country "DRI-coal" year
          = Apa.get_plant_ef country "DRI-gas" year).
Proof.
  intros re_search units_df.
  assert (H : Tp.filter_steel_making_units re_search units_df
              = map (fun r =>
                       Tp.with_process_type (fst r)
                         (if String.eqb (Kampmann.unit_type (fst r)) "bof"
                          then "BF-BOF"
                          else eaf_process re_search units_df
                                 (Kampmann.plant_name (fst r))))
                  (filter (fun r => isin (Kampmann.unit_type (fst r))
                                      ["bof"; "eaf"]) units_df)).
  { unfold Tp.filter_steel_making_units. cbv zeta.
    apply map_ext_in. intros r Hr. apply filter_In in Hr.
    destruct Hr as [_ Hr]. apply isin_cases in Hr. f_equal.
    unfold Tp.assign_process. cbv zeta.
    destruct Hr as [Hr|[Hr|[]]]; rewrite <- Hr; cbn [lower String.eqb];
      [reflexivity|].
    change (String.eqb (lower "eaf") "bof") with false.
    change (String.eqb (lower "eaf") "eaf") with true.
    change (String.eqb "eaf" "bof") with false. cbv iota.
    rewrite plant_dri_process_entry. unfold eaf_process, dri_units_at.
    cbv zeta.
    destruct ((named (Kampmann.plant_name (fst r)) && isin "DRI-H2" _)
              || (negb (empty _) && Tp.known_h2_project re_search _));
      [reflexivity|].
    destruct (named (Kampmann.plant_name (fst r)) && isin "DRI-coal" _);
      [reflexivity|].
    destruct (named (Kampmann.plant_name (fst r)) && negb (empty _));
      reflexivity. }
  split; [exact H|]. split.
  - rewrite H. apply Forall_forall. intros u Hu. apply in_map_iff in Hu.
    destruct Hu as (r & <- & _). cbn [Tp.with_process_type
      Kampmann.process_type]. unfold unit_processes, eaf_process. cbv zeta.
    destruct (String.eqb (Kampmann.unit_type (fst r)) "bof"); [cbn; auto|].
    destruct ((named (Kampmann.plant_name (fst r)) && isin "DRI-H2" _)
              || (negb (empty _) && Tp.known_h2_project re_search _));
      [cbn; auto 6|].
    destruct (named (Kampmann.plant_name (fst r)) && isin "DRI-coal" _);
      [cbn; auto 6|].
    destruct (named (Kampmann.plant_name (fst r)) && negb (empty _));
      cbn; auto 6.
  - intros country year. reflexivity.
Qed.

(** ** Quality scores *)

Lemma certainty_by_source (row : Integrate.SourceRecord) (conf : string) :
  (Integrate.source row = "annual_report" ->
   0.46 <= Integrate.compute_certainty row conf
   /\ Integrate.compute_certainty row conf <= 0.60)
  /\ (Integrate.source row = "climate_trace" ->
      0.64 <= Integrate.compute_certainty row conf
      /\ Integrate.compute_certainty row conf <= 0.78)
  /\ (Integrate.source row = "apa" ->
      0.73 <= Integrate.compute_certainty row conf
      /\ Integrate.compute_certainty row conf <= 0.87).
Proof.
  unfold Integrate.compute_certainty, Integrate.compute_reliability,
    Integrate.compute_comparability. cbv zeta.
  split; [|split]; intros Hs; rewrite Hs;
    destruct (String.eqb (lower conf) "high");
    destruct (String.eqb (lower conf) "medium");
    destruct (isin (lower conf)
                ["modeled"; "satellite_model"; "asset_level_model"]);
    destruct (2025 - Integrate.year row <=? 2)%Z;
    destruct (2025 - Integrate.year row <=? 5)%Z;
    split; vm_compute; discriminate.
Qed.

(** X25. The certainty score orders the sources whatever the confidence
    label and the year of a record: a record of an annual report scores
    between 0.46 and 0.60, below every Climate TRACE record (0.64 to 0.78)
    and every APA record (0.73 to 0.87). *)
Theorem certainty_orders_the_sources :
  forall (a b : Integrate.SourceRecord) (conf_a conf_b : string),
    Integrate.source a = "annual_report" ->
    Integrate.source b = "climate_trace" \/ Integrate.source b = "apa" ->
    0.46 <= Integrate.compute_certainty a conf_a
    /\ Integrate.compute_certainty a conf_a <= 0.60
    /\ 0.64 <= Integrate.compute_certainty b conf_b
    /\ Integrate.compute_certainty b conf_b <= 0.87
    /\ Integrate.compute_certainty a conf_a
       < Integrate.compute_certainty b conf_b.
Proof.
  intros a b conf_a conf_b Ha Hb.
  destruct (proj1 (certainty_by_source a conf_a) Ha) as [Ha1 Ha2].
  assert (Hb' : 0.64 <= Integrate.compute_certainty b conf_b
                /\ Integrate.compute_certainty b conf_b <= 0.87).
  { destruct Hb as [Hb|Hb].
    - destruct (proj1 (proj2 (certainty_by_source b conf_b)) Hb) as [H1 H2].
      split; [exact H1|]. eapply Qle_trans; [exact H2|]. discriminate.
    - destruct (proj2 (proj2 (certainty_by_source b conf_b)) Hb) as [H1 H2].
      split; [|exact H2]. eapply Qle_trans; [|exact H1]. discriminate. }
  destruct Hb' as [Hb1 Hb2].
  repeat split; try assumption.
  eapply Qle_lt_trans; [exact Ha2|].
  eapply Qlt_le_trans; [|exact Hb1]. reflexivity.
Qed.

Lemma certainty_orders_the_sources_witness :
  Integrate.compute_certainty jfe_record "high"
  < Integrate.compute_certainty
      (Integrate.mkSourceRecord "JFE Holdings" 2015 "production_mt" (Some 28)
         "apa") "modeled".
Proof.
  exact (proj2 (proj2 (proj2 (proj2
           (certainty_orders_the_sources jfe_record
              (Integrate.mkSourceRecord "JFE Holdings" 2015 "production_mt"
                 (Some 28) "apa") "high" "modeled" eq_refl
              (or_intror eq_refl)))))).
Defined.

(** ** The batch without closures *)

Lemma active_persists (u : Kampmann.Unit) (y y' : Z) :
  (y <= y')%Z ->
  Tp._unit_is_active u y nan = true -> Tp._unit_is_active u y' nan = true.
Proof.
  intros Hy H. apply unit_is_active_true in H. apply unit_is_active_true.
  destruct H as (Hc & Hs & _). split; [exact Hc|]. split; [|discriminate].
  intros s Es. eapply Qle_trans; [exact (Hs s Es)|].
  apply inject_Z_le. exact Hy.
Qed.

Lemma bau_detail_reaches_end (re_search : string -> string -> bool)
  (steel_units : list Kampmann.Unit) (company : string)
  (base_year end_year : Z) (base_ur : Q) (r : Tp.DetailRow) :
  In r (Tp.build_plant_level_tp re_search steel_units company base_year
          end_year base_ur true) ->
  exists r',
    In r' (Tp.build_plant_level_tp re_search steel_units company base_year
             end_year base_ur true)
    /\ Tp.d_year r' = end_year.
Proof.
  unfold Tp.build_plant_level_tp. cbv zeta.
  destruct (empty (Kampmann.match_units_to_company re_search steel_units
                     company)); [intros []|].
  intros Hr. apply in_flat_map in Hr. destruct Hr as (y & Hy & Hr).
  apply in_flat_map in Hr. destruct Hr as (uc & Huc & Hr).
  apply range_incl_in in Hy.
  assert (Hnan : snd uc = nan).
  { apply in_map_iff in Huc. destruct Huc as (uc' & <- & _). reflexivity. }
  unfold Tp.unit_rows in Hr.
  destruct (Tp._unit_is_active (fst uc) y (snd uc)) eqn:Eact;
    cbn [negb] in Hr; [|destruct Hr].
  destruct (Kampmann.capacity_ttpa (fst uc)) as [cap|] eqn:Ecap;
    [|destruct Hr].
  destruct (Qle_bool cap 0) eqn:Epos; [destruct Hr|].
  rewrite Hnan in Eact.
  assert (Eend : Tp._unit_is_active (fst uc) end_year (snd uc) = true).
  { rewrite Hnan. apply (active_persists _ y); [lia|exact Eact]. }
  eexists. split.
  - apply in_flat_map. exists end_year. split; [apply range_incl_in; lia|].
    apply in_flat_map. exists uc. split; [exact Huc|].
    unfold Tp.unit_rows. rewrite Eend, Ecap, Epos. cbn [negb].
    left. reflexivity.
  - reflexivity.
Qed.

Lemma bau_annual_has_end_year (re_search : string -> string -> bool)
  (steel_units : list Kampmann.Unit) (apa_df : list Tp.ApaEmissions)
  (base_year end_year : Z) (company : string) :
  bau_annual re_search steel_units apa_df base_year end_year company <> [] ->
  exists row,
    In row (bau_annual re_search steel_units apa_df base_year end_year company)
    /\ Tp.raw_year (Tp.raw row) = end_year.
Proof.
  unfold bau_annual, Tp.generate_company_bau. intros Hne.
  pose proof (generate_company_raw re_search true steel_units company apa_df
                base_year end_year) as Hraw.
  pose proof (generate_detail re_search steel_units company apa_df base_year
                end_year) as Hdet.
  set (annual := fst (Tp.generate_company re_search true steel_units company
                        apa_df base_year end_year)) in *.
  set (detail := snd (Tp.generate_company re_search true steel_units company
                        apa_df base_year end_year)) in *.
  destruct annual as [|a annual'] eqn:Ea; [contradiction|].
  assert (Hy : In (Tp.raw_year (Tp.raw a)) (map Tp.d_year detail)).
  { apply (proj1 (proj2 (detail_years_spec detail))).
    rewrite <- aggregate_years with (company := company). rewrite <- Hraw.
    cbn [map]. left. reflexivity. }
  apply in_map_iff in Hy. destruct Hy as (r & _ & Hr).
  assert (Hend : exists r', In r' detail /\ Tp.d_year r' = end_year).
  { destruct Hdet as [Hnil|(ur & Hur)].
    - subst detail. rewrite (Hnil true) in Hr. destruct Hr.
    - subst detail. rewrite (Hur true) in Hr |- *.
      exact (bau_detail_reaches_end _ _ _ _ _ _ _ Hr). }
  destruct Hend as (r' & Hr' & Hyear).
  assert (Hin : In end_year (map Tp.raw_year (Tp.aggregate company detail))).
  { rewrite aggregate_years.
    apply (proj1 (proj2 (detail_years_spec detail))).
    rewrite <- Hyear. apply in_map. exact Hr'. }
  rewrite <- Hraw, map_map in Hin. apply in_map_iff in Hin.
  destruct Hin as (row & Hrow & Hin). exists row. auto.
Qed.

Lemma and_then_raises {A B : Type} (m : Tp.outcome A) (k : A -> Tp.outcome B) :
  (forall a, m <> Tp.Returns a) -> forall b, Tp.and_then m k <> Tp.Returns b.
Proof.
  intros H b. destruct m as [a| | |]; cbn; try discriminate.
  exfalso. exact (H a eq_refl).
Qed.

Section NoClosureBatch.

Variable re_search : string -> string -> bool.
Variable steel_units : list Kampmann.Unit.
Variable apa_df : list Tp.ApaEmissions.
Variables base_year end_year : Z.

Let step (state : Tp.outcome (list Tp.BatchRow * list Tp.DetailRow))
  (company : string) :=
  Tp.and_then state
    (fun acc =>
       let '(annual, detail) :=
         Tp.generate_company_bau re_search steel_units company apa_df
           base_year end_year in
       if empty annual
       then Tp.Returns
              (fst acc
               ++ Tp.constant_fallback company apa_df base_year end_year,
               snd acc)%list
       else
         Tp.and_then (Tp.bau_summary_line annual base_year end_year)
           (fun _ =>
              Tp.Returns
                (fst acc ++ map (Tp.projected_row "gem_plant_level_bau") annual,
                 snd acc ++ detail)%list)).

Lemma bau_step (acc : list Tp.BatchRow * list Tp.DetailRow) (company : string) :
  (summary_passes re_search steel_units apa_df base_year end_year company
   = true ->
   step (Tp.Returns acc) company
   = Tp.Returns
       (fst acc ++ bau_rows re_search steel_units apa_df base_year end_year
                     company,
        snd acc ++ bau_detail re_search steel_units apa_df base_year end_year
                     company)%list)
  /\ (summary_passes re_search steel_units apa_df base_year end_year company
      = false ->
      forall r, step (Tp.Returns acc) company <> Tp.Returns r).
Proof.
  unfold step, summary_passes, bau_rows, bau_detail, bau_annual.
  cbn [Tp.and_then]. cbv zeta.
  destruct (Tp.generate_company_bau re_search steel_units company apa_df
              base_year end_year) as [annual detail].
  cbn [fst snd]. destruct (empty annual); cbn [orb].
  - split; [|discriminate]. intros _. rewrite app_nil_r. reflexivity.
  - destruct (Tp.bau_summary_line annual base_year end_year) as [[]| | |];
      cbn [Tp.and_then]; split; try discriminate; try reflexivity;
      intros _ r; discriminate.
Qed.

Lemma bau_loop_raises (companies : list string) :
  forall state,
    (forall r, state <> Tp.Returns r) ->
    forall r, fold_left step companies state <> Tp.Returns r.
Proof.
  induction companies as [|c companies IH]; intros state Hs r; cbn [fold_left].
  - apply Hs.
  - apply IH. intros r'. unfold step. apply and_then_raises. exact Hs.
Qed.

Lemma bau_loop (companies : list string) :
  forall acc,
    (forallb (summary_passes re_search steel_units apa_df base_year end_year)
       companies = true ->
     fold_left step companies (Tp.Returns acc)
     = Tp.Returns
         (fst acc
          ++ flat_map (bau_rows re_search steel_units apa_df base_year end_year)
               companies,
          snd acc
          ++ flat_map (bau_detail re_search steel_units apa_df base_year
                         end_year) companies)%list)
    /\ (forallb (summary_passes re_search steel_units apa_df base_year end_year)
          companies = false ->
        forall r, fold_left step companies (Tp.Returns acc) <> Tp.Returns r).
Proof.
  induction companies as [|c companies IH]; intros acc;
    cbn [fold_left forallb flat_map].
  - split; [|discriminate]. intros _. rewrite !app_nil_r.
    destruct acc; reflexivity.
  - destruct (bau_step acc c) as [Hpass Hfail].
    destruct (summary_passes re_search steel_units apa_df base_year end_year c);
      cbn [andb].
    + rewrite (Hpass eq_refl).
      destruct (IH (fst acc ++ bau_rows re_search steel_units apa_df base_year
                                 end_year c,
                    snd acc ++ bau_detail re_search steel_units apa_df
                                 base_year end_year c)%list) as [IHp IHf].
      cbn [fst snd] in IHp, IHf. split.
      * intros H. rewrite (IHp H), <- !app_assoc. reflexivity.
      * exact IHf.
    + split; [discriminate|]. intros _.
      apply bau_loop_raises. exact (Hfail eq_refl).
Qed.

Lemma generate_all_bau_spec :
  (forallb (summary_passes re_search steel_units apa_df base_year end_year)
     Kampmann.ALL_COMPANIES = true ->
   Tp.generate_all_bau re_search steel_units apa_df base_year end_year
   = Tp.combine
       (flat_map (bau_rows re_search steel_units apa_df base_year end_year)
          Kampmann.ALL_COMPANIES)
       (flat_map (bau_detail re_search steel_units apa_df base_year end_year)
          Kampmann.ALL_COMPANIES))
  /\ (forallb (summary_passes re_search steel_units apa_df base_year end_year)
        Kampmann.ALL_COMPANIES = false ->
      forall r,
        Tp.generate_all_bau re_search steel_units apa_df base_year end_year
        <> Tp.Returns r).
Proof.
  unfold Tp.generate_all_bau.
  change (fold_left _ Kampmann.ALL_COMPANIES (Tp.Returns ([], [])))
    with (fold_left step Kampmann.ALL_COMPANIES (Tp.Returns ([], []))).
  destruct (bau_loop Kampmann.ALL_COMPANIES ([], [])) as [Hp Hf]. split.
  - intros H. rewrite (Hp H). reflexivity.
  - intros H r. apply and_then_raises. exact (Hf H).
Qed.

End NoClosureBatch.

(** X26. In the no-closure batch, a company that has a projection always has
    a row for the last year of the horizon, so its summary line fails to
    format exactly when the projection has no row for the base year.  The
    batch returns the concatenated rows of all tracked companies when every
    company is got past, and it does not return when some tracked company
    has a projection without a row for the base year (its units all start
    later): the summary line of that company, or of an earlier one,
    raises. *)
Theorem no_closure_batch_needs_a_base_year_row :
  forall (re_search : string -> string -> bool)
         (steel_units : list Kampmann.Unit) (apa_df : list Tp.ApaEmissions)
         (base_year end_year : Z),
    (forall company,
        let annual :=
          bau_annual re_search steel_units apa_df base_year end_year company in
        annual <> [] ->
        (exists row, In row annual /\ Tp.raw_year (Tp.raw row) = end_year)
        /\ (Tp.bau_summary_line annual base_year end_year = Tp.RaisesValueError
            <-> forall row, In row annual ->
                            Tp.raw_year (Tp.raw row) <> base_year))
    /\ (forallb (summary_passes re_search steel_units apa_df base_year end_year)
          Kampmann.ALL_COMPANIES = true ->
        Tp.generate_all_bau re_search steel_units apa_df base_year end_year
        = Tp.combine
            (flat_map (bau_rows re_search steel_units apa_df base_year end_year)
               Kampmann.ALL_COMPANIES)
            (flat_map (bau_detail re_search steel_units apa_df base_year
                         end_year) Kampmann.ALL_COMPANIES))
    /\ ((exists company,
            In company Kampmann.ALL_COMPANIES
            /\ bau_annual re_search steel_units apa_df base_year end_year
                 company <> []
            /\ forall row,
                In row (bau_annual re_search steel_units apa_df base_year
                          end_year company) ->
                Tp.raw_year (Tp.raw row) <> base_year) ->
        forall r,
          Tp.generate_all_bau re_search steel_units apa_df base_year end_year
          <> Tp.Returns r).
Proof.
  intros re_search steel_units apa_df base_year end_year.
  assert (Hline : forall company,
             bau_annual re_search steel_units apa_df base_year end_year company
             <> [] ->
             (exists row,
                 In row (bau_annual re_search steel_units apa_df base_year
                           end_year company)
                 /\ Tp.raw_year (Tp.raw row) = end_year)
             /\ (Tp.bau_summary_line
                   (bau_annual re_search steel_units apa_df base_year end_year
                      company) base_year end_year = Tp.RaisesValueError
                 <-> forall row,
                     In row (bau_annual re_search steel_units apa_df base_year
                               end_year company) ->
                     Tp.raw_year (Tp.raw row) <> base_year)).
  { intros company Hne.
    pose proof (bau_annual_has_end_year re_search steel_units apa_df base_year
                  end_year company Hne) as Hend.
    split; [exact Hend|].
    destruct Hend as (last & Hlast & Hyear).
    set (annual := bau_annual re_search steel_units apa_df base_year end_year
                     company) in *.
    unfold Tp.bau_summary_line. cbv zeta.
    assert (Hfinal : In last (filter (fun a => (Tp.raw_year (Tp.raw a)
                                                =? end_year)%Z) annual)).
    { apply filter_In. split; [exact Hlast|]. apply Z.eqb_eq. exact Hyear. }
    destruct (filter (fun a => (Tp.raw_year (Tp.raw a) =? end_year)%Z) annual)
      as [|f rest]; [destruct Hfinal|].
    cbn [map].
    destruct (filter (fun a => (Tp.raw_year (Tp.raw a) =? base_year)%Z) annual)
      as [|b rest'] eqn:Ebase; cbn [map].
    - split; [|reflexivity]. intros _ row Hrow Hy.
      assert (H : In row (filter (fun a => (Tp.raw_year (Tp.raw a)
                                            =? base_year)%Z) annual)).
      { apply filter_In. split; [exact Hrow|]. apply Z.eqb_eq. exact Hy. }
      rewrite Ebase in H. destruct H.
    - split.
      + destruct (Tp.reads_as_zero (Tp.emissions_mt b)); discriminate.
      + intros Hno. exfalso.
        assert (H : In b (filter (fun a => (Tp.raw_year (Tp.raw a)
                                            =? base_year)%Z) annual)).
        { rewrite Ebase. left. reflexivity. }
        apply filter_In in H. destruct H as [Hb Hy].
        apply Z.eqb_eq in Hy. exact (Hno b Hb Hy). }
  split; [exact Hline|].
  destruct (generate_all_bau_spec re_search steel_units apa_df base_year
              end_year) as [Hpass Hfail].
  split; [exact Hpass|].
  intros (company & Hin & Hne & Hno). apply Hfail.
  destruct (forallb _ Kampmann.ALL_COMPANIES) eqn:E; [|reflexivity].
  exfalso. rewrite forallb_forall in E. specialize (E company Hin).
  unfold summary_passes in E. cbv zeta in E.
  destruct (Hline company Hne) as [_ Hval].
  rewrite (proj2 Hval Hno) in E.
  destruct (bau_annual re_search steel_units apa_df base_year end_year company);
    [contradiction|discriminate].
Qed.

Lemma no_closure_batch_needs_a_base_year_row_witness :
  In "ArcelorMittal" Kampmann.ALL_COMPANIES
  /\ bau_annual literal_search [late_unit] arcelor_apa_rows 2024 2027
       "ArcelorMittal" <> []
  /\ Tp.generate_all_bau literal_search [late_unit] arcelor_apa_rows 2024 2027
     = Tp.RaisesValueError
  /\ forall r,
      Tp.generate_all_bau literal_search [late_unit] arcelor_apa_rows 2024 2027
      <> Tp.Returns r.
Proof.
  assert (Hin : In "ArcelorMittal" Kampmann.ALL_COMPANIES)
    by (left; reflexivity).
  assert (Hne : bau_annual literal_search [late_unit] arcelor_apa_rows 2024 2027
                  "ArcelorMittal" <> []).
  { vm_compute. discriminate. }
  assert (Hno : forall row,
             In row (bau_annual literal_search [late_unit] arcelor_apa_rows
                       2024 2027 "ArcelorMittal") ->
             Tp.raw_year (Tp.raw row) <> 2024%Z).
  { intros row Hrow. vm_compute in Hrow.
    destruct Hrow as [<-|[<-|[]]]; discriminate. }
  split; [exact Hin|]. split; [exact Hne|]. split; [reflexivity|].
  apply (proj2 (proj2 (no_closure_batch_needs_a_base_year_row literal_search
                         [late_unit] arcelor_apa_rows 2024 2027))).
  exists "ArcelorMittal". auto.
Defined.

(** ** The default record of a company, year and metric *)

Section SortHead.

Context {A : Type} (lt : A -> A -> bool).
Hypothesis lt_irrefl : forall a, lt a a = false.
Hypothesis lt_asym : forall a b, lt a b = true -> lt b a = false.
Hypothesis lt_negtrans :
  forall a b c, lt a b = false -> lt b c = false -> lt a c = false.

Lemma sort_by_head (l : list A) (h : A) (t : list A) :
  sort_by lt l = h :: t -> In h l /\ forall x, In x l -> lt x h = false.
Proof.
  revert h t. induction l as [|a l IH]; intros h t; cbn; [discriminate|].
  fold (sort_by lt l). destruct (sort_by lt l) as [|y s] eqn:E; cbn.
  - intros H. injection H as <- <-.
    assert (l = []) as ->.
    { destruct l as [|b l]; [reflexivity|]. exfalso.
      assert (Hb : In b (sort_by lt (b :: l)))
        by (apply sort_by_in_any; left; reflexivity).
      rewrite E in Hb. destruct Hb. }
    split; [left; reflexivity|]. intros x [<-|[]]. apply lt_irrefl.
  - destruct (IH y s eq_refl) as [Hy Hmin].
    destruct (lt y a) eqn:Ey; intros H; injection H as <- <-.
    + split; [right; exact Hy|]. intros x [<-|Hx]; [|auto].
      apply lt_asym. exact Ey.
    + split; [left; reflexivity|]. intros x [<-|Hx]; [apply lt_irrefl|].
      eapply lt_negtrans; [apply Hmin; exact Hx|exact Ey].
Qed.

End SortHead.

Lemma group_eqb_spec (a b : string * Z * string) :
  Integrate.group_eqb a b = true <-> a = b.
Proof.
  destruct a as [[c y] m], b as [[c' y'] m']. unfold Integrate.group_eqb. cbn.
  rewrite !andb_true_iff, !String.eqb_eq, Z.eqb_eq. split.
  - intros [[-> ->] ->]. reflexivity.
  - intros [= -> -> ->]. auto.
Qed.

Lemma sorts_before_false (a b : Integrate.Scored) :
  Integrate.sorts_before a b = false <->
  Integrate._source_rank (Integrate.source (Integrate.scored b))
  <= Integrate._source_rank (Integrate.source (Integrate.scored a))
  /\ (Integrate._source_rank (Integrate.source (Integrate.scored a))
      == Integrate._source_rank (Integrate.source (Integrate.scored b)) ->
      Integrate.reliability a <= Integrate.reliability b).
Proof.
  unfold Integrate.sorts_before.
  rewrite orb_false_iff, andb_false_iff, !Qltb_ge. split.
  - intros [H1 [H2|H2]]; split; auto.
    intros E. apply Qeq_bool_iff in E. congruence.
  - intros [H1 H2]. split; [exact H1|].
    destruct (Qeq_bool _ _) eqn:E; [right|left; reflexivity].
    apply H2. apply Qeq_bool_iff. exact E.
Qed.

Lemma sorts_before_irrefl (a : Integrate.Scored) :
  Integrate.sorts_before a a = false.
Proof. apply sorts_before_false. split; [apply Qle_refl|intros _; apply Qle_refl]. Qed.

Lemma sorts_before_asym (a b : Integrate.Scored) :
  Integrate.sorts_before a b = true -> Integrate.sorts_before b a = false.
Proof.
  intros H. apply sorts_before_false.
  unfold Integrate.sorts_before in H.
  apply orb_true_iff in H. destruct H as [H|H].
  - apply Qltb_lt in H. split; [lra|]. intros E. lra.
  - apply andb_true_iff in H. destruct H as [E H].
    apply Qeq_bool_iff in E. apply Qltb_lt in H. split; [lra|]. intros _. lra.
Qed.

Lemma sorts_before_negtrans (a b c : Integrate.Scored) :
  Integrate.sorts_before a b = false -> Integrate.sorts_before b c = false ->
  Integrate.sorts_before a c = false.
Proof.
  rewrite !sorts_before_false. intros [H1 H2] [H3 H4]. split; [lra|].
  intros E. assert (E1 : Integrate._source_rank (Integrate.source (Integrate.scored a))
      == Integrate._source_rank (Integrate.source (Integrate.scored b))) by lra.
  assert (E2 : Integrate._source_rank (Integrate.source (Integrate.scored b))
      == Integrate._source_rank (Integrate.source (Integrate.scored c))) by lra.
  specialize (H2 E1). specialize (H4 E2). lra.
Qed.

Lemma nodup_map_eq {A K : Type} (key : A -> K) (l : list A) (a b : A) :
  NoDup (map key l) -> In a l -> In b l -> key a = key b -> a = b.
Proof.
  induction l as [|x l IH]; intros Hnd Ha Hb E; [destruct Ha|].
  cbn [map] in Hnd. inversion Hnd as [|? ? Hx Hnd']; subst.
  destruct Ha as [->|Ha], Hb as [->|Hb].
  - reflexivity.
  - exfalso. apply Hx. rewrite E. apply in_map. exact Hb.
  - exfalso. apply Hx. rewrite <- E. apply in_map. exact Ha.
  - apply IH; assumption.
Qed.

Lemma nodup_map_filter {A K : Type} (key : A -> K) (p : A -> bool)
  (l : list A) :
  NoDup (map key l) -> NoDup (map key (filter p l)).
Proof.
  induction l as [|x l IH]; intros Hnd; [constructor|].
  cbn [map] in Hnd. inversion Hnd as [|? ? Hx Hnd']; subst.
  cbn [filter]. destruct (p x); [|apply IH; exact Hnd'].
  cbn [map]. constructor; [|apply IH; exact Hnd'].
  intros H. apply Hx. apply in_map_iff in H. destruct H as (y & E & Hy).
  apply filter_In in Hy. rewrite <- E. apply in_map. apply Hy.
Qed.

Lemma filter_singleton {A K : Type} (key : A -> K) (p : A -> bool)
  (l : list A) (r : A) :
  NoDup (map key l) -> In r l ->
  (forall x, In x l -> (p x = true <-> key x = key r)) ->
  filter p l = [r].
Proof.
  induction l as [|x l IH]; intros Hnd Hin Hp; [destruct Hin|].
  cbn [map] in Hnd. inversion Hnd as [|? ? Hx Hnd']; subst.
  cbn [filter]. destruct Hin as [->|Hin].
  - rewrite (proj2 (Hp r (or_introl eq_refl)) eq_refl). f_equal.
    apply filter_none. apply Forall_forall. intros y Hy.
    destruct (p y) eqn:E; [|reflexivity]. exfalso.
    apply (Hp y (or_intror Hy)) in E. apply Hx. rewrite <- E.
    apply in_map. exact Hy.
  - destruct (p x) eqn:E.
    + exfalso. apply (Hp x (or_introl eq_refl)) in E. apply Hx. rewrite E.
      apply in_map. exact Hin.
    + apply IH; [exact Hnd'|exact Hin|].
      intros y Hy. apply Hp. right. exact Hy.
Qed.

Lemma combine_split_maps {A B : Type} (a : list A) (b : list B) :
  List.length a = List.length b ->
  map fst (List.combine a b) = a /\ map snd (List.combine a b) = b.
Proof.
  revert b. induction a as [|x a IH]; intros [|y b] H; try discriminate;
    [split; reflexivity|].
  cbn. injection H as H. destruct (IH b H) as [-> ->]. split; reflexivity.
Qed.

Lemma best_of_group (df : list Integrate.Scored) (c : Integrate.Scored) :
  In c df ->
  exists b,
    is_best df b /\ In b df
    /\ Integrate.group_key (Integrate.scored b)
       = Integrate.group_key (Integrate.scored c)
    /\ forall x,
        In x df ->
        Integrate.group_key (Integrate.scored x)
        = Integrate.group_key (Integrate.scored c) ->
        Integrate._source_rank (Integrate.source (Integrate.scored b))
        <= Integrate._source_rank (Integrate.source (Integrate.scored x))
        /\ (Integrate._source_rank (Integrate.source (Integrate.scored x))
            == Integrate._source_rank (Integrate.source (Integrate.scored b)) ->
            Integrate.reliability x <= Integrate.reliability b).
Proof.
  intros Hc.
  set (group := filter (fun x => Integrate.group_eqb
                          (Integrate.group_key (Integrate.scored x))
                          (Integrate.group_key (Integrate.scored c))) df).
  assert (Hcg : In c group).
  { apply filter_In. split; [exact Hc|]. apply group_eqb_spec. reflexivity. }
  destruct (sort_by Integrate.sorts_before group) as [|b t] eqn:E.
  { apply (sort_by_in_any Integrate.sorts_before) in Hcg. rewrite E in Hcg.
    destruct Hcg. }
  destruct (sort_by_head Integrate.sorts_before sorts_before_irrefl
              sorts_before_asym sorts_before_negtrans group b t E)
    as [Hb Hmin].
  apply filter_In in Hb. destruct Hb as [Hb Hk]. apply group_eqb_spec in Hk.
  exists b. split; [|split; [exact Hb|split; [exact Hk|]]].
  - exists t. rewrite Hk. exact E.
  - intros x Hx Hxk. apply sorts_before_false. apply Hmin.
    apply filter_In. split; [exact Hx|]. apply group_eqb_spec. exact Hxk.
Qed.

Lemma is_best_unique (df : list Integrate.Scored) (a b : Integrate.Scored) :
  is_best df a -> is_best df b ->
  Integrate.group_key (Integrate.scored a)
  = Integrate.group_key (Integrate.scored b) ->
  a = b.
Proof.
  intros [t Ha] [t' Hb] E. rewrite E in Ha. rewrite Ha in Hb.
  injection Hb as Hb _. exact Hb.
Qed.

Lemma is_best_in (df : list Integrate.Scored) (a : Integrate.Scored) :
  is_best df a -> In a df.
Proof.
  intros [t Ha].
  assert (H : In a (a :: t)) by (left; reflexivity).
  rewrite <- Ha in H. apply sort_by_in_any in H. apply filter_In in H.
  apply H.
Qed.

Lemma best_labels_spec (df : list Integrate.Scored) (r : Integrate.Scored) :
  NoDup (map Integrate.label df) -> In r df ->
  existsb (Nat.eqb (Integrate.label r)) (Integrate.best_labels df) = true
  <-> is_best df r.
Proof.
  intros Hnd Hr. rewrite existsb_exists. split.
  - intros (l & Hl & E). apply Nat.eqb_eq in E. subst l.
    unfold Integrate.best_labels in Hl. apply in_flat_map in Hl.
    destruct Hl as (k & Hk & Hl). cbv zeta in Hl.
    destruct (sort_by Integrate.sorts_before _) as [|b t] eqn:Eb;
      [destruct Hl|].
    destruct Hl as [Hl|[]].
    assert (Hb : In b (b :: t)) by (left; reflexivity).
    rewrite <- Eb in Hb. apply sort_by_in_any in Hb. apply filter_In in Hb.
    destruct Hb as [Hb Hbk]. apply group_eqb_spec in Hbk.
    assert (b = r) by (apply (nodup_map_eq Integrate.label df); assumption).
    subst b. exists t. rewrite Hbk. exact Eb.
  - intros [t Ht]. exists (Integrate.label r). split; [|apply Nat.eqb_refl].
    unfold Integrate.best_labels. apply in_flat_map.
    exists (Integrate.group_key (Integrate.scored r)). split.
    + destruct (drop_duplicates_from_covers Integrate.group_eqb
                  (fun x => Integrate.group_key (Integrate.scored x))
                  group_eqb_spec r df [] Hr (fun H => H)) as (x & Hx & Hxk).
      apply in_map_iff. exists x. split; [exact Hxk|exact Hx].
    + cbv zeta. rewrite Ht. left. reflexivity.
Qed.

Section MarkDefaults.

Variable combined : list (Integrate.Flagged * Q).

Let indexed := List.combine (seq 0 (List.length combined)) combined.
Let active := map to_scored (filter unflagged indexed).
Let is_default (ir : nat * (Integrate.Flagged * Q)) : bool :=
  existsb (fun rb => Nat.eqb (Integrate.label (fst rb)) (fst ir) && snd rb)
    (Integrate.select_defaults active).

Lemma mark_defaults_rows :
  Integrate.mark_defaults combined
  = map (fun ir => (snd ir, is_default ir)) indexed.
Proof. reflexivity. Qed.

Lemma indexed_labels : NoDup (map fst indexed).
Proof.
  unfold indexed.
  rewrite (proj1 (combine_split_maps _ combined (length_seq _ _))).
  apply seq_NoDup.
Qed.

Lemma indexed_rows : map snd indexed = combined.
Proof.
  unfold indexed.
  exact (proj2 (combine_split_maps _ combined (length_seq _ _))).
Qed.

Lemma active_labels : NoDup (map Integrate.label active).
Proof.
  unfold active. rewrite map_map. cbn [to_scored Integrate.label].
  apply (nodup_map_filter fst). exact indexed_labels.
Qed.

Lemma active_in (ir : nat * (Integrate.Flagged * Q)) :
  In ir indexed -> unflagged ir = true -> In (to_scored ir) active.
Proof.
  intros Hir Hu. unfold active. apply in_map. apply filter_In. auto.
Qed.

Lemma active_inv (r : Integrate.Scored) :
  In r active ->
  exists ir, In ir indexed /\ unflagged ir = true /\ r = to_scored ir.
Proof.
  unfold active. intros H. apply in_map_iff in H.
  destruct H as (ir & <- & H). apply filter_In in H. exists ir. tauto.
Qed.

Lemma is_default_spec (ir : nat * (Integrate.Flagged * Q)) :
  In ir indexed ->
  is_default ir = true <-> unflagged ir = true /\ is_best active (to_scored ir).
Proof.
  intros Hir. unfold is_default, Integrate.select_defaults.
  rewrite existsb_exists. split.
  - intros (rb & Hrb & H). apply in_map_iff in Hrb.
    destruct Hrb as (r & <- & Hr). cbn [fst snd] in H.
    apply andb_true_iff in H. destruct H as [El Hflag].
    apply Nat.eqb_eq in El.
    destruct (active_inv r Hr) as (ir' & Hir' & Hu & ->).
    assert (ir' = ir).
    { apply (nodup_map_eq fst indexed); auto using indexed_labels. }
    subst ir'. split; [exact Hu|].
    apply (best_labels_spec active); [exact active_labels|exact Hr|exact Hflag].
  - intros [Hu Hbest].
    exists (to_scored ir,
            existsb (Nat.eqb (Integrate.label (to_scored ir)))
              (Integrate.best_labels active)).
    split.
    + apply in_map_iff. exists (to_scored ir). split; [reflexivity|].
      apply active_in; assumption.
    + cbn [fst snd]. apply andb_true_iff. split; [apply Nat.eqb_refl|].
      apply (best_labels_spec active);
        [exact active_labels|apply active_in; assumption|exact Hbest].
Qed.

Lemma mark_defaults_spec :
  map fst (Integrate.mark_defaults combined) = combined
  /\ (forall f q,
         In (f, q, true) (Integrate.mark_defaults combined) ->
         Integrate.quality_flag f = "")
  /\ (forall f q,
         In (f, q) combined -> Integrate.quality_flag f = "" ->
         exists d qd,
           defaults_of (group_of f) (Integrate.mark_defaults combined)
           = [(d, qd, true)]
           /\ Integrate.quality_flag d = ""
           /\ In (d, qd) combined
           /\ forall f' q',
               In (f', q') combined -> Integrate.quality_flag f' = "" ->
               group_of f' = group_of f ->
               rank_of d <= rank_of f'
               /\ (rank_of f' == rank_of d -> q' <= qd)).
Proof.
  rewrite mark_defaults_rows. split; [|split].
  - rewrite map_map. cbn [fst]. exact indexed_rows.
  - intros f q H. apply in_map_iff in H. destruct H as (ir & E & Hir).
    injection E as E Hd. apply (is_default_spec ir Hir) in Hd.
    destruct Hd as [Hu _]. unfold unflagged in Hu. rewrite E in Hu.
    apply String.eqb_eq. exact Hu.
  - intros f q Hin Hflag. rewrite <- indexed_rows in Hin.
    apply in_map_iff in Hin. destruct Hin as (ir & E & Hir).
    assert (Hu : unflagged ir = true).
    { unfold unflagged. rewrite E. apply String.eqb_eq. exact Hflag. }
    destruct (best_of_group active (to_scored ir) (active_in ir Hir Hu))
      as (b & Hbest & Hb & Hk & Hmin).
    destruct (active_inv b Hb) as (irb & Hirb & Hub & ->).
    exists (fst (snd irb)), (snd (snd irb)).
    assert (Hgroup : group_of (fst (snd irb)) = group_of f).
    { unfold group_of. cbn [to_scored Integrate.scored] in Hk. rewrite Hk, E.
      reflexivity. }
    split; [|split; [|split]].
    + unfold defaults_of. rewrite filter_map_comm. cbn [fst snd].
      rewrite (filter_singleton fst _ indexed irb indexed_labels Hirb).
      * cbn [map]. rewrite (proj2 (is_default_spec irb Hirb) (conj Hub Hbest)).
        destruct irb as [i [d qd]]. reflexivity.
      * intros x Hx. rewrite andb_true_iff, (is_default_spec x Hx),
          group_eqb_spec. split.
        -- intros [[Hxu Hxb] Hxk].
           assert (Ex : to_scored x = to_scored irb).
           { apply (is_best_unique active); [exact Hxb|exact Hbest|].
             cbn [to_scored Integrate.scored]. unfold group_of in Hxk, Hgroup.
             rewrite Hxk, Hgroup. reflexivity. }
           apply (f_equal Integrate.label) in Ex. exact Ex.
        -- intros Ex.
           assert (x = irb)
             by (apply (nodup_map_eq fst indexed);
                 auto using indexed_labels).
           subst x. auto.
    + unfold unflagged in Hub. apply String.eqb_eq. exact Hub.
    + rewrite <- indexed_rows. apply in_map_iff. exists irb.
      split; [destruct irb as [i [d qd]]; reflexivity|exact Hirb].
    + intros f' q' Hin' Hflag' Hgroup'. rewrite <- indexed_rows in Hin'.
      apply in_map_iff in Hin'. destruct Hin' as (ir' & E' & Hir').
      assert (Hu' : unflagged ir' = true).
      { unfold unflagged. rewrite E'. apply String.eqb_eq. exact Hflag'. }
      destruct (Hmin (to_scored ir') (active_in ir' Hir' Hu')) as [H1 H2].
      { cbn [to_scored Integrate.scored]. rewrite E, E'. exact Hgroup'. }
      cbn [to_scored Integrate.scored Integrate.reliability] in H1, H2.
      rewrite E' in H1, H2. cbn [fst snd] in H1, H2.
      unfold rank_of. split; [exact H1|exact H2].
Qed.

End MarkDefaults.

Lemma source_rank_cases (s : string) :
  (s = "apa" /\ Integrate._source_rank s = 0)
  \/ (s <> "apa" /\ 1 <= Integrate._source_rank s).
Proof.
  unfold Integrate._source_rank, Integrate.source_priority. cbn [dict_get].
  destruct (String.eqb "apa" s) eqn:E.
  - apply String.eqb_eq in E. left. auto.
  - apply String.eqb_neq in E. right. split; [congruence|].
    destruct (String.eqb "climate_trace" s); [discriminate|].
    destruct (String.eqb "annual_report" s); discriminate.
Qed.

(** X27. The default selection of the integration keeps the records and
    their order, and never marks a flagged (excluded or suspicious) record.
    Every company, year and metric that has an unflagged record gets exactly
    one default: an unflagged record of that group with the smallest source
    rank (apa, then climate_trace, then annual_report, then the rest) and,
    among the unflagged records of that rank, with the largest reliability.
    So when an unflagged apa record exists, the default is an apa record,
    whatever the reliability of the others. *)
Theorem default_is_the_preferred_unflagged_record :
  forall (combined : list (Integrate.Flagged * Q)),
    map fst (Integrate.mark_defaults combined) = combined
    /\ (forall f q,
           In (f, q, true) (Integrate.mark_defaults combined) ->
           Integrate.quality_flag f = "")
    /\ (forall f q,
           In (f, q) combined -> Integrate.quality_flag f = "" ->
           exists d qd,
             defaults_of (group_of f) (Integrate.mark_defaults combined)
             = [(d, qd, true)]
             /\ Integrate.quality_flag d = ""
             /\ In (d, qd) combined
             /\ (forall f' q',
                    In (f', q') combined -> Integrate.quality_flag f' = "" ->
                    group_of f' = group_of f ->
                    rank_of d <= rank_of f'
                    /\ (rank_of f' == rank_of d -> q' <= qd))
             /\ (forall f' q',
                    In (f', q') combined -> Integrate.quality_flag f' = "" ->
                    group_of f' = group_of f ->
                    Integrate.source (Integrate.record f') = "apa" ->
                    Integrate.source (Integrate.record d) = "apa")).
Proof.
  intros combined.
  destruct (mark_defaults_spec combined) as (Hrows & Hflag & Hdef).
  split; [exact Hrows|]. split; [exact Hflag|].
  intros f q Hin Hf.
  destruct (Hdef f q Hin Hf) as (d & qd & H1 & H2 & H3 & H4).
  exists d, qd. repeat (split; [assumption|]).
  intros f' q' Hin' Hf' Hg Hapa.
  destruct (H4 f' q' Hin' Hf' Hg) as [Hle _]. unfold rank_of in Hle.
  destruct (source_rank_cases (Integrate.source (Integrate.record d)))
    as [[E _]|[_ Hd]]; [exact E|].
  destruct (source_rank_cases (Integrate.source (Integrate.record f')))
    as [[_ E']|[N _]]; [|contradiction].
  rewrite E' in Hle. lra.
Qed.

Lemma default_is_the_preferred_unflagged_record_witness :
  exists d qd,
    defaults_of ("JFE Holdings", 2015%Z, "production_mt")
      (Integrate.mark_defaults jfe_sources)
    = [(d, qd, true)]
    /\ Integrate.source (Integrate.record d) = "apa".
Proof.
  destruct (proj2 (proj2 (default_is_the_preferred_unflagged_record
                            jfe_sources))
              (Integrate.mkFlagged
                 (Integrate.mkSourceRecord "JFE Holdings" 2015 "production_mt"
                    (Some 27.1) "climate_trace") "") 0.55
              (or_intror (or_introl eq_refl)) eq_refl)
    as (d & qd & H1 & _ & _ & _ & H5).
  exists d, qd. split; [exact H1|].
  apply (H5 (Integrate.mkFlagged
               (Integrate.mkSourceRecord "JFE Holdings" 2015 "production_mt"
                  (Some 28) "apa") "") 0.50);
    [right; right; left; reflexivity|reflexivity|reflexivity|reflexivity].
Defined.

(** ** The planned-transition batch *)

Lemma constant_fallback_spec (company : string)
  (apa_df : list Tp.ApaEmissions) (base_year end_year : Z) (r : Tp.BatchRow) :
  In r (Tp.constant_fallback company apa_df base_year end_year) ->
  Tp.b_company r = company
  /\ Tp.b_source r = "apa_constant_fallback"
  /\ (base_year <= Tp.b_year r <= end_year)%Z
  /\ Tp.b_n_active_units r = 0%nat
  /\ Tp.b_active_capacity_ttpa r = 0
  /\ exists latest,
      In latest apa_df /\ Tp.e_company latest = company
      /\ (forall r', In r' apa_df -> Tp.e_company r' = company ->
                     (Tp.e_year r' <= Tp.e_year latest)%Z)
      /\ Tp.b_emissions_mt r = fround (Tp.e_emissions_mt latest) 3
      /\ Tp.b_production_mt r = fround (Tp.e_production_mt latest) 3.
Proof.
  unfold Tp.constant_fallback. cbv zeta.
  set (sorted := sort_by (fun a b => (Tp.e_year a <? Tp.e_year b)%Z)
                   (filter (fun r => String.eqb (Tp.e_company r) company)
                      apa_df)).
  assert (Hmem : forall r, In r sorted
                           <-> In r apa_df /\ Tp.e_company r = company).
  { intros x. subst sorted. rewrite sort_by_in_any, filter_In.
    rewrite String.eqb_eq. reflexivity. }
  assert (Hsorted : StronglySorted
                      (fun a b => (Tp.e_year a <= Tp.e_year b)%Z) sorted).
  { exact (sort_by_sorted Tp.e_year _). }
  destruct (rev sorted) as [|latest t] eqn:Erev; [intros []|].
  assert (Hl : sorted = (rev t ++ [latest])%list).
  { rewrite <- (rev_involutive sorted), Erev. reflexivity. }
  intros Hr. apply in_map_iff in Hr. destruct Hr as (y & <- & Hy).
  apply range_incl_in in Hy. cbn.
  split; [reflexivity|]. split; [reflexivity|]. split; [exact Hy|].
  split; [reflexivity|]. split; [reflexivity|].
  exists latest.
  assert (Hlatest : In latest sorted).
  { rewrite Hl. apply in_or_app. right. left. reflexivity. }
  apply Hmem in Hlatest. destruct Hlatest as [Hin Hc].
  split; [exact Hin|]. split; [exact Hc|]. split; [|split; [reflexivity|]].
  - intros r' Hin' Hc'.
    assert (Hs : In r' sorted) by (apply Hmem; auto).
    rewrite Hl in Hsorted, Hs. apply sorted_last in Hsorted.
    apply in_app_or in Hs. destruct Hs as [Hs|[<-|[]]]; [|lia].
    rewrite Forall_forall in Hsorted. exact (Hsorted r' Hs).
  - destruct (Tp.e_production_mt latest); reflexivity.
Qed.

Lemma projected_company (re_search : string -> string -> bool) (skip : bool)
  (steel_units : list Kampmann.Unit) (company : string)
  (apa_df : list Tp.ApaEmissions) (base_year end_year : Z) (a : Tp.Annual) :
  In a (fst (Tp.generate_company re_search skip steel_units company apa_df
               base_year end_year)) ->
  Tp.raw_company (Tp.raw a) = company.
Proof.
  intros Ha. apply (in_map Tp.raw) in Ha.
  rewrite generate_company_raw in Ha. unfold Tp.aggregate in Ha.
  cbv zeta in Ha. apply in_map_iff in Ha. destruct Ha as (y & <- & _).
  reflexivity.
Qed.

Lemma tp_loop (re_search : string -> string -> bool)
  (steel_units : list Kampmann.Unit) (apa_df : list Tp.ApaEmissions)
  (base_year end_year : Z) (companies : list string)
  (acc : list Tp.BatchRow * list Tp.DetailRow) :
  fold_left
    (fun acc company =>
       let '(annual, detail) :=
         Tp.generate_company_tp re_search steel_units company apa_df base_year
           end_year in
       if empty annual
       then (fst acc
             ++ Tp.constant_fallback company apa_df base_year end_year,
             snd acc)%list
       else (fst acc ++ map (Tp.projected_row "gem_plant_level") annual,
             snd acc ++ detail)%list)
    companies acc
  = ((fst acc
      ++ flat_map (tp_rows re_search steel_units apa_df base_year end_year)
           companies)%list,
     (snd acc
      ++ flat_map (tp_detail re_search steel_units apa_df base_year end_year)
           companies)%list).
Proof.
  revert acc. induction companies as [|c cs IH]; intros [rows detail].
  - cbn. rewrite !app_nil_r. reflexivity.
  - cbn [fold_left flat_map]. rewrite IH. unfold tp_rows, tp_detail, tp_annual.
    cbv zeta.
    destruct (Tp.generate_company_tp re_search steel_units c apa_df base_year
                end_year) as [annual d].
    cbn [fst snd]. destruct (empty annual); cbn [fst snd];
      rewrite <- ?app_assoc; reflexivity.
Qed.

Lemma generate_all_tp_spec (re_search : string -> string -> bool)
  (steel_units : list Kampmann.Unit) (apa_df : list Tp.ApaEmissions)
  (base_year end_year : Z) :
  Tp.generate_all_tp re_search steel_units apa_df base_year end_year
  = Tp.combine
      (flat_map (tp_rows re_search steel_units apa_df base_year end_year)
         Kampmann.ALL_COMPANIES)
      (flat_map (tp_detail re_search steel_units apa_df base_year end_year)
         Kampmann.ALL_COMPANIES).
Proof.
  unfold Tp.generate_all_tp. cbv zeta. rewrite tp_loop. reflexivity.
Qed.

(** X28. The planned-transition batch raises only when no tracked company
    has a row (KeyError); else it returns the rows of the tracked companies,
    concatenated.  A company's rows come from one source: its projection
    when it has one, else the constant fallback.  A fallback row belongs to
    a company without projection, lies within the horizon, counts no active
    unit and repeats the rounded figures of a trusted row of the latest
    year the company has, also when the company has a row for the base
    year. *)
Theorem transition_batch_one_source_per_company :
  forall (re_search : string -> string -> bool)
         (steel_units : list Kampmann.Unit) (apa_df : list Tp.ApaEmissions)
         (base_year end_year : Z),
    let rows :=
      flat_map (tp_rows re_search steel_units apa_df base_year end_year)
        Kampmann.ALL_COMPANIES in
    let detail :=
      flat_map (tp_detail re_search steel_units apa_df base_year end_year)
        Kampmann.ALL_COMPANIES in
    Tp.generate_all_tp re_search steel_units apa_df base_year end_year
    = (if empty rows then Tp.RaisesKeyError else Tp.Returns (rows, detail))
    /\ (forall r,
           In r rows ->
           In (Tp.b_company r) Kampmann.ALL_COMPANIES
           /\ (Tp.b_source r = "gem_plant_level"
               \/ Tp.b_source r = "apa_constant_fallback"))
    /\ (forall r r',
           In r rows -> In r' rows -> Tp.b_company r = Tp.b_company r' ->
           Tp.b_source r = Tp.b_source r')
    /\ (forall r,
           In r rows -> Tp.b_source r = "gem_plant_level" ->
           exists a,
             In a (tp_annual re_search steel_units apa_df base_year end_year
                     (Tp.b_company r))
             /\ r = Tp.projected_row "gem_plant_level" a)
    /\ (forall r,
           In r rows -> Tp.b_source r = "apa_constant_fallback" ->
           tp_annual re_search steel_units apa_df base_year end_year
             (Tp.b_company r) = []
           /\ (base_year <= Tp.b_year r <= end_year)%Z
           /\ Tp.b_n_active_units r = 0%nat
           /\ exists latest,
               In latest apa_df
               /\ Tp.e_company latest = Tp.b_company r
               /\ (forall r',
                      In r' apa_df -> Tp.e_company r' = Tp.b_company r ->
                      (Tp.e_year r' <= Tp.e_year latest)%Z)
               /\ Tp.b_emissions_mt r = fround (Tp.e_emissions_mt latest) 3
               /\ Tp.b_production_mt r
                  = fround (Tp.e_production_mt latest) 3).
Proof.
  intros re_search steel_units apa_df base_year end_year rows detail.
  assert (Hrow : forall r,
             In r rows ->
             exists company,
               In company Kampmann.ALL_COMPANIES
               /\ Tp.b_company r = company
               /\ ((tp_annual re_search steel_units apa_df base_year end_year
                      company = []
                    /\ In r (Tp.constant_fallback company apa_df base_year
                               end_year)
                    /\ Tp.b_source r = "apa_constant_fallback")
                   \/ (tp_annual re_search steel_units apa_df base_year
                         end_year company <> []
                       /\ Tp.b_source r = "gem_plant_level"
                       /\ exists a,
                           In a (tp_annual re_search steel_units apa_df
                                   base_year end_year company)
                           /\ r = Tp.projected_row "gem_plant_level" a))).
  { intros r Hr. apply in_flat_map in Hr. destruct Hr as (c & Hc & Hr).
    exists c. split; [exact Hc|]. unfold tp_rows in Hr. cbv zeta in Hr.
    destruct (tp_annual re_search steel_units apa_df base_year end_year c)
      as [|a0 annual] eqn:E; cbn [empty] in Hr.
    - destruct (constant_fallback_spec c apa_df base_year end_year r Hr)
        as (H1 & H2 & _).
      split; [exact H1|]. left. auto.
    - apply in_map_iff in Hr. destruct Hr as (a & <- & Ha).
      split.
      + cbn. apply (projected_company re_search false steel_units c apa_df
                      base_year end_year).
        unfold tp_annual, Tp.generate_company_tp in E. rewrite E. exact Ha.
      + right. split; [discriminate|]. split; [reflexivity|].
        exists a. split; [exact Ha|reflexivity]. }
  split; [apply generate_all_tp_spec|]. split; [|split; [|split]].
  - intros r Hr. destruct (Hrow r Hr) as (c & Hc & E & H).
    rewrite E. split; [exact Hc|].
    destruct H as [(_ & _ & H)|(_ & H & _)]; auto.
  - intros r r' Hr Hr' E.
    destruct (Hrow r Hr) as (c & _ & Ec & H).
    destruct (Hrow r' Hr') as (c' & _ & Ec' & H').
    assert (c = c') by congruence. subst c'.
    destruct H as [(H1 & _ & H2)|(H1 & H2 & _)],
             H' as [(H1' & _ & H2')|(H1' & H2' & _)];
      try congruence.
  - intros r Hr Hs. destruct (Hrow r Hr) as (c & _ & Ec & H).
    destruct H as [(_ & _ & H)|(_ & _ & H)].
    + rewrite Hs in H. discriminate.
    + rewrite Ec. exact H.
  - intros r Hr Hs. destruct (Hrow r Hr) as (c & _ & Ec & H).
    destruct H as [(H1 & H2 & _)|(_ & H & _)].
    + destruct (constant_fallback_spec c apa_df base_year end_year r H2)
        as (_ & _ & Hy & Hn & _ & latest & L1 & L2 & L3 & L4 & L5).
      rewrite Ec. split; [exact H1|]. split; [exact Hy|]. split; [exact Hn|].
      exists latest. auto.
    + rewrite Hs in H. discriminate.
Qed.

Lemma transition_batch_one_source_per_company_witness :
  Tp.generate_all_tp literal_search [] nlmk_apa_rows 2024 2026
  = Tp.Returns
      (map (fun y =>
              Tp.mkBatchRow "NLMK" y nan nan 0 0 nan (Some 28.457) nan None nan
                "apa_constant_fallback") [2024; 2025; 2026]%Z, [])
  /\ exists latest,
      In latest nlmk_apa_rows /\ Tp.e_year latest = 2025%Z
      /\ Some 28.457 = fround (Tp.e_emissions_mt latest) 3.
Proof.
  split; [reflexivity|].
  destruct (proj2 (proj2 (proj2 (proj2
              (transition_batch_one_source_per_company literal_search []
                 nlmk_apa_rows 2024 2026))))
              (Tp.mkBatchRow "NLMK" 2024 nan nan 0 0 nan (Some 28.457) nan None
                 nan "apa_constant_fallback"))
    as (_ & _ & _ & latest & L1 & L2 & L3 & L4 & _).
  - vm_compute. left. reflexivity.
  - reflexivity.
  - exists latest. split; [exact L1|]. split; [|exact L4].
    apply Z.le_antisymm.
    + destruct L1 as [<-|[<-|[]]]; vm_compute; discriminate.
    + apply (L3 (Tp.mkApaEmissions "NLMK" 2025 (Some 28.4567) nan));
        [right; left; reflexivity|reflexivity].
Defined.

(** ** The asset-based records of the integration *)

Lemma apa_records_keys (apa : list Apa.ApaRow) :
  NoDup (map apa_key apa) ->
  NoDup (map (fun rc => Integrate.group_key (fst rc))
           (flat_map Integrate.apa_records apa)).
Proof.
  induction apa as [|r apa IH]; intros Hnd; [constructor|].
  cbn [map] in Hnd. inversion Hnd as [|? ? Hr Hnd']; subst.
  cbn [flat_map Integrate.apa_records app map fst Integrate.group_key
         Integrate.company Integrate.year Integrate.metric].
  assert (Hother : forall m,
             ~ In (Apa.a_company r, Apa.a_year r, m)
                 (map (fun rc => Integrate.group_key (fst rc))
                    (flat_map Integrate.apa_records apa))).
  { intros m H. apply in_map_iff in H. destruct H as (rc & E & H).
    apply in_flat_map in H. destruct H as (r' & Hr' & H).
    apply Hr. apply in_map_iff. exists r'. split; [|exact Hr'].
    unfold apa_key.
    destruct H as [<-|[<-|[]]];
      cbn [fst Integrate.group_key Integrate.company Integrate.year
             Integrate.metric] in E;
      injection E as E1 E2 _; rewrite E1, E2; reflexivity. }
  constructor.
  - intros [H|H]; [discriminate|]. exact (Hother _ H).
  - constructor; [apply Hother|]. apply IH. exact Hnd'.
Qed.

Lemma reported_is_unrecognised (row : Integrate.SourceRecord) :
  Integrate.source row = "apa" ->
  Integrate.compute_reliability row "reported" + 0.10
  == Integrate.compute_reliability row "modeled"
  /\ Integrate.compute_reliability row "reported" <= 0.50.
Proof.
  intros Hs. unfold Integrate.compute_reliability. cbv zeta. rewrite Hs.
  cbn [lower String.eqb isin existsb].
  change (String.eqb "apa" "annual_report") with false.
  change (String.eqb "apa" "climate_trace") with false.
  change (String.eqb "apa" "apa") with true.
  change (String.eqb (lower "reported") "high") with false.
  change (String.eqb (lower "reported") "medium") with false.
  change (isin (lower "reported")
            ["modeled"; "satellite_model"; "asset_level_model"]) with false.
  change (String.eqb (lower "modeled") "high") with false.
  change (String.eqb (lower "modeled") "medium") with false.
  change (isin (lower "modeled")
            ["modeled"; "satellite_model"; "asset_level_model"]) with true.
  cbv iota.
  destruct (2025 - Integrate.year row <=? 2)%Z;
    [split; vm_compute; [reflexivity|discriminate]|].
  destruct (2025 - Integrate.year row <=? 5)%Z;
    split; vm_compute; try reflexivity; discriminate.
Qed.

(** X29. The bridge to the integration always returns: two records per
    reported company-year, the production it echoes and the emissions, so
    at most one record per company, year and metric, all of source apa.  An
    emissions record is labelled modeled; a production record is labelled
    modeled when the figure was estimated from capacity and reported
    otherwise.  The reliability score does not know the label reported: such
    a record scores 0.10 less than it would with the label modeled, and at
    most 0.50. *)
Theorem apa_bridge_one_record_per_metric :
  forall (re_search : string -> string -> bool) (all_plants : list Apa.Plant)
         (src : Apa.Sources)
         (country_prod_map : list ((string * Z) * list (string * Q))),
    exists results,
      Apa.run_apa_all re_search all_plants src country_prod_map = Ret results
      /\ Integrate.load_apa_source re_search all_plants src country_prod_map
         = Ret (flat_map Integrate.apa_records results)
      /\ List.length (flat_map Integrate.apa_records results)
         = (2 * List.length results)%nat
      /\ NoDup (map (fun rc => Integrate.group_key (fst rc))
                  (flat_map Integrate.apa_records results))
      /\ forall rec conf,
          In (rec, conf) (flat_map Integrate.apa_records results) ->
          Integrate.source rec = "apa"
          /\ (exists r,
                 In r results
                 /\ Integrate.company rec = Apa.a_company r
                 /\ Integrate.year rec = Apa.a_year r
                 /\ ((Integrate.metric rec = "production_mt"
                      /\ Integrate.value rec = Apa.a_production_mt r
                      /\ conf = (if String.eqb (Apa.a_production_source r)
                                      "capacity_estimate"
                                 then "modeled" else "reported"))
                     \/ (Integrate.metric rec = "emissions_mt_co2"
                         /\ Integrate.value rec = Some (Apa.a_emissions_mt r)
                         /\ conf = "modeled")))
          /\ Integrate.compute_reliability rec "reported" + 0.10
             == Integrate.compute_reliability rec "modeled"
          /\ Integrate.compute_reliability rec "reported" <= 0.50.
Proof.
  intros re_search all_plants src country_prod_map.
  destruct (run_apa_all_spec re_search all_plants src country_prod_map)
    as (results & Hrun & Hnd & _).
  exists results. split; [exact Hrun|]. split.
  { unfold Integrate.load_apa_source. rewrite Hrun. reflexivity. }
  split.
  { clear. induction results as [|r results IH]; [reflexivity|].
    cbn [flat_map Integrate.apa_records app List.length]. rewrite IH. lia. }
  split; [apply apa_records_keys; exact Hnd|].
  intros rec conf Hin. apply in_flat_map in Hin.
  destruct Hin as (r & Hr & Hin).
  assert (Hs : Integrate.source rec = "apa").
  { destruct Hin as [E|[E|[]]]; injection E as <- _; reflexivity. }
  split; [exact Hs|]. split; [|exact (reported_is_unrecognised rec Hs)].
  exists r. split; [exact Hr|].
  destruct Hin as [E|[E|[]]]; injection E as <- <-; cbn; auto 6.
Qed.

(** ** Company names *)

Lemma prefix_refl (s : string) : String.prefix s s = true.
Proof.
  induction s as [|c s IH]; [reflexivity|].
  cbn. destruct (ascii_dec c c); [exact IH|contradiction].
Qed.

Lemma dict_get_in {V : Type} (d : list (string * V)) (k : string) (v : V) :
  dict_get d k = Some v -> In (k, v) d.
Proof.
  induction d as [|[k' v'] d IH]; cbn; [discriminate|].
  destruct (String.eqb k' k) eqn:E.
  - apply String.eqb_eq in E. intros [= <-]. left. congruence.
  - intros H. right. exact (IH H).
Qed.

Lemma find_none_iff {A : Type} (f : A -> bool) (l : list A) :
  (forall x, In x l -> f x = false) -> find f l = None.
Proof.
  induction l as [|a l IH]; intros H; [reflexivity|].
  cbn. rewrite (H a (or_introl eq_refl)). apply IH. intros x Hx.
  apply H. right. exact Hx.
Qed.

Lemma harmonize_cases (name : string) :
  (Integrate.harmonize_company (Some name) = Some name
   /\ forall variant,
       In variant (map fst Integrate.COMPANY_CANONICAL) ->
       prefix_related (lower (strip name)) variant = false)
  \/ exists variant canonical,
      In (variant, canonical) Integrate.COMPANY_CANONICAL
      /\ prefix_related (lower (strip name)) variant = true
      /\ Integrate.harmonize_company (Some name) = Some canonical.
Proof.
  unfold Integrate.harmonize_company. cbv zeta.
  destruct (dict_get Integrate.COMPANY_CANONICAL (lower (strip name)))
    as [canonical|] eqn:E.
  { right. exists (lower (strip name)), canonical.
    split; [apply dict_get_in; exact E|]. split; [|reflexivity].
    unfold prefix_related. rewrite prefix_refl. reflexivity. }
  destruct (find _ Integrate.COMPANY_CANONICAL) as [[variant canonical]|]
    eqn:Ef.
  - right. apply find_some in Ef. destruct Ef as [Hin Hrel].
    exists variant, canonical. auto.
  - left. split; [reflexivity|]. intros variant Hv.
    apply in_map_iff in Hv. destruct Hv as ([v c] & <- & Hin).
    exact (find_none _ _ Ef (v, c) Hin).
Qed.

Lemma canonical_names_fixed (variant canonical : string) :
  In (variant, canonical) Integrate.COMPANY_CANONICAL ->
  Integrate.harmonize_company (Some canonical) = Some canonical
  /\ Integrate.harmonize_company (Some variant) = Some canonical
  /\ is_ascii canonical = true.
Proof.
  intros Hin.
  assert (H : forallb
                (fun e =>
                   match Integrate.harmonize_company (Some (snd e)),
                         Integrate.harmonize_company (Some (fst e)) with
                   | Some c, Some c' =>
                       String.eqb c (snd e) && String.eqb c' (snd e)
                       && is_ascii (snd e)
                   | _, _ => false
                   end) Integrate.COMPANY_CANONICAL = true)
    by (vm_compute; reflexivity).
  rewrite forallb_forall in H. specialize (H _ Hin). cbn [fst snd] in H.
  destruct (Integrate.harmonize_company (Some canonical)) as [c|];
    [|discriminate].
  destruct (Integrate.harmonize_company (Some variant)) as [c'|];
    [|discriminate].
  apply andb_true_iff in H. destruct H as [H H3].
  apply andb_true_iff in H. destruct H as [H1 H2].
  apply String.eqb_eq in H1, H2. subst. auto.
Qed.

Lemma exact_variant (variant canonical : string) :
  In (variant, canonical) Integrate.COMPANY_CANONICAL ->
  dict_get Integrate.COMPANY_CANONICAL variant = Some canonical.
Proof.
  intros Hin.
  assert (H : forallb
                (fun e =>
                   match dict_get Integrate.COMPANY_CANONICAL (fst e) with
                   | Some c => String.eqb c (snd e)
                   | None => false
                   end) Integrate.COMPANY_CANONICAL = true)
    by (vm_compute; reflexivity).
  rewrite forallb_forall in H. specialize (H _ Hin). cbn [fst snd] in H.
  destruct (dict_get Integrate.COMPANY_CANONICAL variant) as [c|];
    [|discriminate].
  apply String.eqb_eq in H. congruence.
Qed.

(** X30. A missing company name stays missing.  For a name in ASCII,
    harmonizing is idempotent: the result is a fixed point.  A name whose
    key (stripped, lowercase) is a variant of the table gets that variant's
    canonical name; a name whose key is a prefix of a variant, or has a
    variant as a prefix, gets a canonical name of the table; any other name
    is returned as it came, neither stripped nor lowercased.  In
    particular a blank name becomes the first company of the table. *)
Theorem harmonized_names_are_fixed_points :
  Integrate.harmonize_company None = None
  /\ forall name,
      is_ascii name = true ->
      exists result,
        Integrate.harmonize_company (Some name) = Some result
        /\ Integrate.harmonize_company (Some result) = Some result
        /\ (forall canonical,
               In (lower (strip name), canonical) Integrate.COMPANY_CANONICAL ->
               result = canonical)
        /\ ((exists variant,
                In variant (map fst Integrate.COMPANY_CANONICAL)
                /\ prefix_related (lower (strip name)) variant = true) ->
            In result (map snd Integrate.COMPANY_CANONICAL))
        /\ ((forall variant,
                In variant (map fst Integrate.COMPANY_CANONICAL) ->
                prefix_related (lower (strip name)) variant = false) ->
            result = name)
        /\ (lower (strip name) = "" -> result = "ArcelorMittal").
Proof.
  split; [reflexivity|]. intros name _.
  destruct (harmonize_cases name)
    as [[Hsame Hnone]|(variant & canonical & Hin & Hrel & Hres)].
  - exists name. split; [exact Hsame|]. split; [exact Hsame|].
    split; [|split; [|split]].
    + intros canonical Hin. exfalso.
      assert (H : prefix_related (lower (strip name)) (lower (strip name))
                  = false).
      { apply Hnone. apply in_map_iff.
        exists (lower (strip name), canonical). auto. }
      unfold prefix_related in H. rewrite prefix_refl in H. discriminate.
    + intros (variant & Hv & Hrel). rewrite (Hnone variant Hv) in Hrel.
      discriminate.
    + reflexivity.
    + intros Hblank. exfalso.
      assert (H : prefix_related (lower (strip name)) "arcelormittal" = false)
        by (apply Hnone; left; reflexivity).
      rewrite Hblank in H. discriminate.
  - exists canonical. split; [exact Hres|].
    split; [exact (proj1 (canonical_names_fixed variant canonical Hin))|].
    split; [|split; [|split]].
    + intros canonical' Hexact. apply exact_variant in Hexact.
      unfold Integrate.harmonize_company in Hres. cbv zeta in Hres.
      rewrite Hexact in Hres. congruence.
    + intros _. apply in_map_iff. exists (variant, canonical). auto.
    + intros Hnone. exfalso.
      assert (Hv : In variant (map fst Integrate.COMPANY_CANONICAL)).
      { apply in_map_iff. exists (variant, canonical). auto. }
      rewrite (Hnone variant Hv) in Hrel. discriminate.
    + intros Hblank. unfold Integrate.harmonize_company in Hres.
      cbv zeta in Hres. rewrite Hblank in Hres. vm_compute in Hres.
      congruence.
Qed.

Lemma harmonized_names_are_fixed_points_witness :
  Integrate.harmonize_company (Some "Nucor USA") = Some "Nucor"
  /\ exists result,
      Integrate.harmonize_company (Some " ") = Some result
      /\ Integrate.harmonize_company (Some result) = Some result
      /\ result = "ArcelorMittal".
Proof.
  split; [reflexivity|].
  destruct (proj2 harmonized_names_are_fixed_points " " eq_refl)
    as (result & H1 & H2 & _ & _ & _ & H6).
  exists result. split; [exact H1|]. split; [exact H2|].
  apply H6. reflexivity.
Defined.
